(** * Supply-chain graph generator: a shallow embedding of
      [Generator_Final_v1/data_generator.py] and its properties.

    The class [SupplyChainGenerator] is embedded as a record that is passed
    explicitly through every method.  Conventions of the embedding:

    - Python dictionaries are insertion-ordered association lists ([dict]);
      lookup of a missing key raises [KeyError].
    - The networkx [DiGraph] is a node table and an adjacency table, both
      insertion ordered, as in networkx itself.
    - The global [random] module is an explicit [RandomSource]: a stream of
      raw integer draws and a cursor.  [random.random()] yields [k / 2^53]
      for a 53-bit integer [k], as CPython does.
    - Python [float] attribute values are modelled as real numbers, except in
      [calculate_node_distribution], where the integer result depends on
      rounding: there the product is computed in IEEE-754 binary64.
    - Dates are day offsets from [BASE_DATE].
    - Exceptions are the [Raise] branch of [result]. *)

From Stdlib Require Import ZArith List String Ascii Bool Lia Reals Lra.
From Stdlib Require Import Floats.SpecFloat.
From Stdlib Require Import DecimalString DecimalNat Decimal.
From Stdlib Require Import Permutation.
Import ListNotations.

Set Implicit Arguments.
Open Scope string_scope.
Open Scope list_scope.
Open Scope Z_scope.

(* ================================================================= *)
(** ** Exceptions *)

Inductive exn : Type :=
| KeyError | ValueError | TypeError | IndexError | OverflowError.

Inductive result (A : Type) : Type :=
| Ok (a : A)
| Raise (e : exn).
Arguments Ok {A} a.
Arguments Raise {A} e.

Definition bind {A B : Type} (m : result A) (k : A -> result B) : result B :=
  match m with
  | Ok a => k a
  | Raise e => Raise e
  end.

Declare Scope py_scope.
Delimit Scope py_scope with py.
Notation "x <- m ;; k" := (bind m (fun x => k))
  (at level 100, m at next level, right associativity) : py_scope.
Notation "' p <- m ;; k" := (bind m (fun p => k))
  (at level 100, p pattern, m at next level, right associativity) : py_scope.
Open Scope py_scope.

(** A [for] loop whose body may raise. *)
Fixpoint foldM {A B : Type} (f : B -> A -> result B) (l : list A) (b : B)
  : result B :=
  match l with
  | [] => Ok b
  | x :: r => b' <- f b x ;; foldM f r b'
  end.

Definition from_option {A : Type} (e : exn) (o : option A) : result A :=
  match o with
  | Some a => Ok a
  | None => Raise e
  end.

(* ================================================================= *)
(** ** Insertion-ordered dictionaries *)

Class Key (K : Type) : Type := {
  key_eqb : K -> K -> bool;
  key_eqb_spec : forall a b, reflect (a = b) (key_eqb a b)
}.

#[export] Instance string_Key : Key string :=
  {| key_eqb := String.eqb; key_eqb_spec := String.eqb_spec |}.

#[export] Instance nat_Key : Key nat :=
  {| key_eqb := Nat.eqb; key_eqb_spec := Nat.eqb_spec |}.

Section Dict.
Context {K : Type} `{Key K} {V : Type}.

Definition dict_of : Type := list (K * V).

Fixpoint dict_get (d : dict_of) (k : K) : option V :=
  match d with
  | [] => None
  | (k', v) :: r => if key_eqb k' k then Some v else dict_get r k
  end.

(** [d[k] = v]: an existing key keeps its position, a new key goes last. *)
Fixpoint dict_set (d : dict_of) (k : K) (v : V) : dict_of :=
  match d with
  | [] => [(k, v)]
  | (k', v') :: r =>
      if key_eqb k' k then (k', v) :: r else (k', v') :: dict_set r k v
  end.

(** [d.update(other)] *)
Definition dict_update (d other : dict_of) : dict_of :=
  fold_left (fun acc kv => dict_set acc (fst kv) (snd kv)) other d.

Definition dict_mem (d : dict_of) (k : K) : bool :=
  match dict_get d k with Some _ => true | None => false end.

(** [d[k]] *)
Definition getitem (d : dict_of) (k : K) : result V :=
  from_option KeyError (dict_get d k).

(** [d.get(k, default)] *)
Definition get_default (d : dict_of) (k : K) (default : V) : V :=
  match dict_get d k with Some v => v | None => default end.

Definition keys (d : dict_of) : list K := map fst d.
Definition values (d : dict_of) : list V := map snd d.
End Dict.

Definition dict (V : Type) : Type := list (string * V).

(* ================================================================= *)
(** ** The random source *)

Record RandomSource : Type := {
  draws : nat -> Z;
  cursor : nat
}.

Definition next_raw (rnd : RandomSource) : Z * RandomSource :=
  (draws rnd (cursor rnd), {| draws := draws rnd; cursor := S (cursor rnd) |}).

(** [random._randbelow(n)], for [n > 0]. *)
Definition _randbelow (n : Z) (rnd : RandomSource) : Z * RandomSource :=
  let (x, rnd') := next_raw rnd in ((x mod n)%Z, rnd').

(** The 53 random bits behind one call of [random.random()]. *)
Definition random_bits (rnd : RandomSource) : Z * RandomSource :=
  let (x, rnd') := next_raw rnd in ((x mod 2 ^ 53)%Z, rnd').

(** [random.random()]: a float in [[0, 1)]. *)
Definition random (rnd : RandomSource) : R * RandomSource :=
  let (k, rnd') := random_bits rnd in ((IZR k / IZR (2 ^ 53))%R, rnd').

(** [random.uniform(a, b)] is [a + (b - a) * random()]. *)
Definition uniform (a b : R) (rnd : RandomSource) : R * RandomSource :=
  let (x, rnd') := random rnd in ((a + (b - a) * x)%R, rnd').

(** [random.randint(a, b)]; an empty range raises [ValueError]. *)
Definition randint (a b : Z) (rnd : RandomSource) : result (Z * RandomSource) :=
  if (b <? a)%Z then Raise ValueError
  else let (x, rnd') := _randbelow (b - a + 1) rnd in Ok ((a + x)%Z, rnd').

Definition len {A : Type} (l : list A) : Z := Z.of_nat (List.length l).

(** [random.choice(seq)]; an empty sequence raises [IndexError]. *)
Definition choice {A : Type} (seq : list A) (rnd : RandomSource)
  : result (A * RandomSource) :=
  match seq with
  | [] => Raise IndexError
  | _ :: _ =>
      let (j, rnd') := _randbelow (len seq) rnd in
      x <- from_option IndexError (nth_error seq (Z.to_nat j)) ;;
      Ok (x, rnd')
  end.

Fixpoint list_set {A : Type} (l : list A) (i : nat) (x : A) : list A :=
  match l, i with
  | [], _ => []
  | _ :: r, O => x :: r
  | y :: r, S i' => y :: list_set r i' x
  end.

(** The pool loop of [random.sample]: [m] elements of [pool] are still
    available; each round picks position [j], then moves the last available
    element into the hole. *)
Fixpoint sample_pool {A : Type} (pool : list A) (m : nat) (k : nat)
  (rnd : RandomSource) : result (list A * RandomSource) :=
  match k with
  | O => Ok ([], rnd)
  | S k' =>
      let (j, rnd1) := _randbelow (Z.of_nat m) rnd in
      x <- from_option IndexError (nth_error pool (Z.to_nat j)) ;;
      last <- from_option IndexError (nth_error pool (Nat.pred m)) ;;
      '(rest, rnd2) <- sample_pool (list_set pool (Z.to_nat j) last)
                         (Nat.pred m) k' rnd1 ;;
      Ok (x :: rest, rnd2)
  end.

(** [random.sample(population, k)]: raises [ValueError] unless
    [0 <= k <= len(population)]. *)
Definition sample {A : Type} (population : list A) (k : Z) (rnd : RandomSource)
  : result (list A * RandomSource) :=
  if ((k <? 0) || (len population <? k))%Z then Raise ValueError
  else sample_pool population (List.length population) (Z.to_nat k) rnd.

(* ================================================================= *)
(** ** IEEE-754 binary64, for [int(n * ratio)] *)

Module Binary64.
Definition prec : Z := 53.
Definition emax : Z := 1024.

Definition float : Type := spec_float.

(** Conversion of a Python [int] to [float]. *)
Definition of_int (z : Z) : float := binary_normalize prec emax z 0 false.

Definition mul : float -> float -> float := SFmul prec emax.
Definition div : float -> float -> float := SFdiv prec emax.

(** The double nearest to the decimal [digits / scale]: a literal such as
    [0.35] is [literal 35 100]. *)
Definition literal (digits scale : Z) : float :=
  div (of_int digits) (of_int scale).

(** Python's [int(x)]: truncation toward zero; [inf] and [nan] raise. *)
Definition to_int (x : float) : result Z :=
  match x with
  | S754_zero _ => Ok 0%Z
  | S754_finite s m e =>
      Ok (cond_Zopp s
            (if (0 <=? e)%Z then Zpos m * 2 ^ e
             else Zpos m / 2 ^ (- e))%Z)
  | S754_infinity _ => Raise OverflowError
  | S754_nan => Raise ValueError
  end.

(** The value of a finite float is [numerator / denominator]. *)
Definition numerator (x : float) : Z :=
  match x with
  | S754_finite s m e => cond_Zopp s (if (0 <=? e)%Z then Zpos m * 2 ^ e else Zpos m)%Z
  | _ => 0%Z
  end.

Definition denominator (x : float) : Z :=
  match x with
  | S754_finite s m e => (if (0 <=? e)%Z then 1 else 2 ^ (- e))%Z
  | _ => 1%Z
  end.

Definition is_finite (x : float) : bool :=
  match x with
  | S754_zero _ | S754_finite _ _ _ => true
  | _ => false
  end.
End Binary64.

(** [n * ratio] for an integer [n] and a float literal, and its [int(...)]. *)
Definition product (n : Z) (ratio : Binary64.float) : Binary64.float :=
  Binary64.mul (Binary64.of_int n) ratio.

Definition int_of_product (n : Z) (ratio : Binary64.float) : result Z :=
  Binary64.to_int (product n ratio).

(* ================================================================= *)
(** ** Distribution planner *)

Record NodeCounts : Type := {
  nc_parts : Z; nc_suppliers : Z; nc_warehouses : Z; nc_facilities : Z
}.

Record Distribution : Type := {
  node_counts : NodeCounts;
  parts_distribution : dict Z;
  supplier_distribution : dict Z;
  warehouse_distribution : dict Z;
  facility_distribution : dict Z
}.

Definition calculate_node_distribution (total_variable_nodes : Z)
  : result Distribution :=
  let lit := Binary64.literal in
  parts <- int_of_product total_variable_nodes (lit 50 100) ;;
  suppliers <- int_of_product total_variable_nodes (lit 15 100) ;;
  warehouses <- int_of_product total_variable_nodes (lit 20 100) ;;
  facilities <- int_of_product total_variable_nodes (lit 15 100) ;;
  p_raw <- int_of_product parts (lit 6 10) ;;
  p_sub <- int_of_product parts (lit 4 10) ;;
  s_small <- int_of_product suppliers (lit 4 10) ;;
  s_medium <- int_of_product suppliers (lit 35 100) ;;
  s_large <- int_of_product suppliers (lit 25 100) ;;
  w_supplier <- int_of_product warehouses (lit 4 10) ;;
  w_sub <- int_of_product warehouses (lit 35 100) ;;
  w_lam <- int_of_product warehouses (lit 25 100) ;;
  f_external <- int_of_product facilities (lit 6 10) ;;
  f_lam <- int_of_product facilities (lit 4 10) ;;
  Ok {| node_counts := {| nc_parts := parts; nc_suppliers := suppliers;
                          nc_warehouses := warehouses;
                          nc_facilities := facilities |};
        parts_distribution :=
          [("raw", p_raw); ("subassembly", p_sub)];
        supplier_distribution :=
          [("small", s_small); ("medium", s_medium);
           ("large", s_large)];
        warehouse_distribution :=
          [("supplier", w_supplier); ("subassembly", w_sub);
           ("lam", w_lam)];
        facility_distribution :=
          [("external", f_external); ("lam", f_lam)] |}.

(* ================================================================= *)
(** ** Attribute values and the graph store *)

Inductive value : Type :=
| VInt (z : Z)
| VFloat (x : R)
| VStr (s : string)
| VDate (day : Z)
| VList (l : list string)
| VDict (d : dict Z).

Definition attrs : Type := dict value.

(** The number a value stands for in arithmetic; other values raise. *)
Definition as_number (v : value) : result R :=
  match v with
  | VInt z => Ok (IZR z)
  | VFloat x => Ok x
  | _ => Raise TypeError
  end.

Record DiGraph : Type := {
  _node : dict attrs;
  _adj : dict (dict attrs)
}.

Definition empty_graph : DiGraph := {| _node := []; _adj := [] |}.

(** [G.copy()]: the attribute dictionaries are copied one level deep, so the
    copy has the same contents and shares nothing that is assigned later. *)
Definition copy (g : DiGraph) : DiGraph := g.

Definition ensure_node (g : DiGraph) (n : string) : DiGraph :=
  if dict_mem (_node g) n then g
  else {| _node := dict_set (_node g) n [];
          _adj := dict_set (_adj g) n [] |}.

(** [G.add_node(n, **attr)] *)
Definition add_node (g : DiGraph) (n : string) (attr : attrs) : DiGraph :=
  let g' := ensure_node g n in
  {| _node := dict_set (_node g') n
                (dict_update (get_default (_node g') n []) attr);
     _adj := _adj g' |}.

(** [G.add_edge(u, v, **attr)] *)
Definition add_edge (g : DiGraph) (u v : string) (attr : attrs) : DiGraph :=
  let g' := ensure_node (ensure_node g u) v in
  let nbrs := get_default (_adj g') u [] in
  let datadict := dict_update (get_default nbrs v []) attr in
  {| _node := _node g';
     _adj := dict_set (_adj g') u (dict_set nbrs v datadict) |}.

(** [G.nodes[n]] *)
Definition node_attrs (g : DiGraph) (n : string) : result attrs :=
  getitem (_node g) n.

(** [G.nodes[n][k] = v] *)
Definition setitem_node (g : DiGraph) (n k : string) (v : value)
  : result DiGraph :=
  a <- node_attrs g n ;;
  Ok {| _node := dict_set (_node g) n (dict_set a k v); _adj := _adj g |}.

(** [G.edges[u, v]] *)
Definition edge_attrs (g : DiGraph) (u v : string) : result attrs :=
  nbrs <- getitem (_adj g) u ;;
  getitem nbrs v.

(** [G.edges[u, v][k] = x] *)
Definition setitem_edge (g : DiGraph) (u v k : string) (x : value)
  : result DiGraph :=
  nbrs <- getitem (_adj g) u ;;
  a <- getitem nbrs v ;;
  Ok {| _node := _node g;
        _adj := dict_set (_adj g) u (dict_set nbrs v (dict_set a k x)) |}.

(** The order in which [G.edges] iterates. *)
Definition edges (g : DiGraph) : list (string * string) :=
  flat_map (fun un => map (fun va => (fst un, fst va)) (snd un)) (_adj g).

(** Reading one attribute of a node, for the statements below. *)
Definition node_attr (g : DiGraph) (n k : string) : option value :=
  match dict_get (_node g) n with
  | Some a => dict_get a k
  | None => None
  end.

Definition edge_attr (g : DiGraph) (u v k : string) : option value :=
  match dict_get (_adj g) u with
  | Some nbrs =>
      match dict_get nbrs v with
      | Some a => dict_get a k
      | None => None
      end
  | None => None
  end.

(* ================================================================= *)
(** ** Entities *)

Record BusinessGroup : Type := {
  bg_id : string; bg_name : string; bg_description : string; bg_revenue : R
}.

Record ProductFamily : Type := {
  pf_id : string; pf_name : string; pf_revenue : R
}.

Record ProductOffering : Type := {
  po_id : string; po_name : string; po_cost : R; po_demand : Z
}.

Record Supplier : Type := {
  s_id : string; s_name : string; s_location : string; s_reliability : R;
  s_size : Z; s_size_category : string; s_supplied_part_types : list string
}.

Record Warehouse : Type := {
  w_id : string; w_name : string; w_type : string; w_location : string;
  w_size_category : string; w_max_capacity : Z; w_current_capacity : Z;
  w_safety_stock : Z; w_max_parts : Z
}.

Record Facility : Type := {
  f_id : string; f_name : string; f_type : string; f_location : string;
  f_max_capacity : Z; f_operating_cost : R
}.

Record Part : Type := {
  p_id : string; p_name : string; p_type : string; p_subtype : string;
  p_cost : R; p_importance_factor : R; p_valid_from : Z; p_valid_till : Z
}.

(** The dictionaries that the source builds for each entity, key by key. *)
Definition business_group_data (b : BusinessGroup) : attrs :=
  [("id", VStr (bg_id b)); ("name", VStr (bg_name b));
   ("description", VStr (bg_description b)); ("revenue", VFloat (bg_revenue b))].

Definition pf_data (f : ProductFamily) : attrs :=
  [("id", VStr (pf_id f)); ("name", VStr (pf_name f));
   ("revenue", VFloat (pf_revenue f))].

Definition po_data (o : ProductOffering) : attrs :=
  [("id", VStr (po_id o)); ("name", VStr (po_name o));
   ("cost", VFloat (po_cost o)); ("demand", VInt (po_demand o))].

Definition supplier_data (s : Supplier) : attrs :=
  [("id", VStr (s_id s)); ("name", VStr (s_name s));
   ("location", VStr (s_location s)); ("reliability", VFloat (s_reliability s));
   ("size", VInt (s_size s)); ("size_category", VStr (s_size_category s));
   ("supplied_part_types", VList (s_supplied_part_types s))].

Definition warehouse_data (w : Warehouse) : attrs :=
  [("id", VStr (w_id w)); ("name", VStr (w_name w)); ("type", VStr (w_type w));
   ("location", VStr (w_location w));
   ("size_category", VStr (w_size_category w));
   ("max_capacity", VInt (w_max_capacity w));
   ("current_capacity", VInt (w_current_capacity w));
   ("safety_stock", VInt (w_safety_stock w));
   ("max_parts", VInt (w_max_parts w))].

Definition facility_data (f : Facility) : attrs :=
  [("id", VStr (f_id f)); ("name", VStr (f_name f)); ("type", VStr (f_type f));
   ("location", VStr (f_location f)); ("max_capacity", VInt (f_max_capacity f));
   ("operating_cost", VFloat (f_operating_cost f))].

Definition part_data (p : Part) : attrs :=
  [("id", VStr (p_id p)); ("name", VStr (p_name p)); ("type", VStr (p_type p));
   ("subtype", VStr (p_subtype p)); ("cost", VFloat (p_cost p));
   ("importance_factor", VFloat (p_importance_factor p));
   ("valid_from", VDate (p_valid_from p));
   ("valid_till", VDate (p_valid_till p))].

(** [strftime('%Y-%m-%d')] of a date, kept symbolic: the text of the day
    offset from [BASE_DATE]. *)
Definition decimal (n : nat) : string := NilEmpty.string_of_uint (Nat.to_uint n).

Definition strftime (day : Z) : string :=
  ((if (day <? 0)%Z then "-" else "") ++ decimal (Z.abs_nat day))%string.

Definition copy_part_data (p : Part) : attrs :=
  dict_set (dict_set (part_data p) "valid_from" (VStr (strftime (p_valid_from p))))
    "valid_till" (VStr (strftime (p_valid_till p))).

(** [f'{counter:03d}'] *)
Definition pad3 (s : string) : string :=
  match String.length s with
  | 0%nat => ("000" ++ s)%string
  | 1%nat => ("00" ++ s)%string
  | 2%nat => ("0" ++ s)%string
  | _ => s
  end.

Definition format_id (prefix : string) (counter : nat) : string :=
  (prefix ++ pad3 (decimal counter))%string.

(* ================================================================= *)
(** ** The change log *)

Inductive payload : Type :=
| NodePayload (node_id node_type : string) (properties : attrs)
| EdgePayload (source_id target_id edge_type : string) (properties : attrs).

Record operation : Type := {
  action : string;
  op_type : string;
  op_payload : payload;
  op_timestamp : nat;
  op_version : string
}.

(* ================================================================= *)
(** ** Configuration ([config.py]) *)

Record TemporalVariation : Type := { max_change : R; trend : R }.

Record SupplierSize : Type := {
  ss_range : Z * Z; ss_max_connections : Z
}.

Record WarehouseSize : Type := {
  ws_capacity : Z * Z; ws_max_parts : Z
}.

(** The constants that [data_generator.py] imports from [config].
    [BASE_DATE] is day 0 of the calendar used here. *)
Record Config : Type := {
  BUSINESS_GROUP : string;
  PRODUCT_FAMILIES : list string;
  PRODUCT_OFFERINGS : dict (list string);
  LOCATIONS : list string;
  PART_TYPES : dict (list string);
  INVENTORY_RANGE : Z * Z;
  DEMAND_RANGE : Z * Z;
  CAPACITY_RANGE : Z * Z;
  QUANTITY_RANGE : Z * Z;
  DISTANCE_RANGE : Z * Z;
  PART_VALIDITY_RANGE : Z * Z;
  COST_RANGE : R * R;
  IMPORTANCE_FACTOR_RANGE : R * R;
  RELIABILITY_RANGE : R * R;
  TRANSPORTATION_COST_RANGE : R * R;
  TRANSPORTATION_TIME_RANGE : R * R;
  SUPPLIER_SIZES : dict SupplierSize;
  WAREHOUSE_SIZES : dict WarehouseSize;
  TEMPORAL_VARIATION : dict TemporalVariation
}.

Definition BASE_DATE : Z := 0.

(** [date + timedelta(days=n)] *)
Definition add_days (date n : Z) : Z := date + n.

(* ================================================================= *)
(** ** The generator object *)

Record SupplyChainGenerator : Type := {
  G : DiGraph;
  temporal_graphs : list (nat * DiGraph);
  temporal_data : list (nat * attrs);
  total_variable_nodes : Z;
  base_periods : nat;
  current_period : nat;
  distribution : Distribution;
  suppliers : list Supplier;
  warehouses : dict (list Warehouse);
  facilities : dict (list Facility);
  parts : dict (list Part);
  product_offerings : list ProductOffering;
  product_families : list ProductFamily;
  business_group : option BusinessGroup;
  operations_log : list operation;
  version : string;
  timestamp : nat
}.

Definition with_G (self : SupplyChainGenerator) (g : DiGraph) :=
  {| G := g; temporal_graphs := temporal_graphs self;
     temporal_data := temporal_data self;
     total_variable_nodes := total_variable_nodes self;
     base_periods := base_periods self; current_period := current_period self;
     distribution := distribution self; suppliers := suppliers self;
     warehouses := warehouses self; facilities := facilities self;
     parts := parts self; product_offerings := product_offerings self;
     product_families := product_families self;
     business_group := business_group self;
     operations_log := operations_log self; version := version self;
     timestamp := timestamp self |}.

Definition with_log (self : SupplyChainGenerator) (l : list operation) :=
  {| G := G self; temporal_graphs := temporal_graphs self;
     temporal_data := temporal_data self;
     total_variable_nodes := total_variable_nodes self;
     base_periods := base_periods self; current_period := current_period self;
     distribution := distribution self; suppliers := suppliers self;
     warehouses := warehouses self; facilities := facilities self;
     parts := parts self; product_offerings := product_offerings self;
     product_families := product_families self;
     business_group := business_group self;
     operations_log := l; version := version self;
     timestamp := timestamp self |}.

Definition with_timestamp (self : SupplyChainGenerator) (ts : nat) :=
  {| G := G self; temporal_graphs := temporal_graphs self;
     temporal_data := temporal_data self;
     total_variable_nodes := total_variable_nodes self;
     base_periods := base_periods self; current_period := current_period self;
     distribution := distribution self; suppliers := suppliers self;
     warehouses := warehouses self; facilities := facilities self;
     parts := parts self; product_offerings := product_offerings self;
     product_families := product_families self;
     business_group := business_group self;
     operations_log := operations_log self; version := version self;
     timestamp := ts |}.

(** Assignment to [temporal_graphs], [temporal_data] and [current_period]. *)
Definition with_temporal (self : SupplyChainGenerator)
  (tg : list (nat * DiGraph)) (td : list (nat * attrs)) (cp : nat) :=
  {| G := G self; temporal_graphs := tg; temporal_data := td;
     total_variable_nodes := total_variable_nodes self;
     base_periods := base_periods self; current_period := cp;
     distribution := distribution self; suppliers := suppliers self;
     warehouses := warehouses self; facilities := facilities self;
     parts := parts self; product_offerings := product_offerings self;
     product_families := product_families self;
     business_group := business_group self;
     operations_log := operations_log self; version := version self;
     timestamp := timestamp self |}.

(** Assignment to the entity collections. *)
Definition with_entities (self : SupplyChainGenerator)
  (su : list Supplier) (wh : dict (list Warehouse))
  (fa : dict (list Facility)) (pa : dict (list Part))
  (po : list ProductOffering) (pf : list ProductFamily)
  (bg : option BusinessGroup) :=
  {| G := G self; temporal_graphs := temporal_graphs self;
     temporal_data := temporal_data self;
     total_variable_nodes := total_variable_nodes self;
     base_periods := base_periods self; current_period := current_period self;
     distribution := distribution self; suppliers := su;
     warehouses := wh; facilities := fa;
     parts := pa; product_offerings := po;
     product_families := pf;
     business_group := bg;
     operations_log := operations_log self; version := version self;
     timestamp := timestamp self |}.

(** [_log_node_operation] *)
Definition _log_node_operation (self : SupplyChainGenerator)
  (act node_id node_type : string) (properties : attrs)
  : SupplyChainGenerator :=
  with_log self
    (operations_log self ++
     [{| action := act; op_type := "schema";
         op_payload := NodePayload node_id node_type properties;
         op_timestamp := timestamp self; op_version := version self |}]).

(** [_log_edge_operation] *)
Definition _log_edge_operation (self : SupplyChainGenerator)
  (act source_id target_id : string) (properties : attrs) (edge_type : string)
  : SupplyChainGenerator :=
  with_log self
    (operations_log self ++
     [{| action := act; op_type := "schema";
         op_payload := EdgePayload source_id target_id edge_type properties;
         op_timestamp := timestamp self; op_version := version self |}]).

(** [return_operation] *)
Definition return_operation (self : SupplyChainGenerator) : list operation :=
  operations_log self.

(** [initialize_storage] and [__init__] *)
Definition __init__ (total : Z) (periods : nat) (ver : string)
  : result SupplyChainGenerator :=
  d <- calculate_node_distribution total ;;
  Ok {| G := empty_graph; temporal_graphs := []; temporal_data := [];
        total_variable_nodes := total; base_periods := periods;
        current_period := 0%nat; distribution := d;
        suppliers := [];
        warehouses := [("supplier", []); ("subassembly", []); ("lam", [])];
        facilities := [("external", []); ("lam", [])];
        parts := [("raw", []); ("subassembly", [])];
        product_offerings := []; product_families := [];
        business_group := None;
        operations_log := []; version := ver; timestamp := 0%nat |}.

(** [sum(d.values(), [])] *)
Definition all_values {A : Type} (d : dict (list A)) : list A :=
  List.concat (values d).

(** [d[k].append(x)] *)
Definition append_to {A : Type} (d : dict (list A)) (k : string) (x : A)
  : result (dict (list A)) :=
  l <- getitem d k ;;
  Ok (dict_set d k (l ++ [x])).

(* ================================================================= *)
(** ** Temporal evolution engine *)

Section Generator.
Variable cfg : Config.

Definition default_variation : TemporalVariation :=
  {| max_change := 0.1%R; trend := 0%R |}.

Definition seasonal_factor (feature_type : string) (time_period : nat) : R :=
  if existsb (String.eqb feature_type) ["demand"; "cost"]
  then (1 + 0.15 * sin (2 * PI * (INR time_period - 3) / 12))%R
  else 1%R.

(** [_generate_temporal_value] *)
Definition _generate_temporal_value (base_value : R) (feature_type : string)
  (time_period : nat) (rnd : RandomSource) : R * RandomSource :=
  let config :=
    get_default (TEMPORAL_VARIATION cfg) feature_type default_variation in
  let trend_factor := (1 + trend config * INR time_period)%R in
  let seasonal := seasonal_factor feature_type time_period in
  let (u, rnd') := uniform (- max_change config) (max_change config) rnd in
  let random_factor := (1 + u)%R in
  ((base_value * trend_factor * seasonal * random_factor)%R, rnd').

(** The state carried through one period of [generate_temporal_data]:
    the period graph, the period data, the generator (for its log) and
    the random source. *)
Record PeriodState : Type := {
  period_graph : DiGraph;
  period_data : attrs;
  gen : SupplyChainGenerator;
  rs : RandomSource
}.

Definition in_validity_window (part : Part) (current_date : Z) : bool :=
  (p_valid_from part <=? current_date) && (current_date <=? p_valid_till part).

Definition gtd_business_group (time_period : nat) (st : PeriodState)
  (bg : BusinessGroup) : result PeriodState :=
  let (bg_revenue', rnd) :=
    _generate_temporal_value (bg_revenue bg) "revenue" time_period (rs st) in
  g <- setitem_node (period_graph st) (bg_id bg) "revenue" (VFloat bg_revenue') ;;
  let changes := [("revenue", VFloat bg_revenue')] in
  Ok {| period_graph := g;
        gen := _log_node_operation (gen st) "update" (bg_id bg)
                 "BUSINESS_GROUP" changes;
        period_data := dict_set (period_data st) "business_group_revenue"
                         (VFloat bg_revenue');
        rs := rnd |}.

Definition gtd_family (time_period : nat) (st : PeriodState)
  (family : ProductFamily) : result PeriodState :=
  let (family_revenue, rnd) :=
    _generate_temporal_value (pf_revenue family) "revenue" time_period (rs st) in
  g <- setitem_node (period_graph st) (pf_id family) "revenue"
         (VFloat family_revenue) ;;
  let changes := [("revenue", VFloat family_revenue)] in
  Ok {| period_graph := g;
        gen := _log_node_operation (gen st) "update" (pf_id family)
                 "PRODUCT_FAMILY" changes;
        period_data :=
          dict_set (period_data st)
            ("family_" ++ pf_id family ++ "_revenue")%string
            (VFloat family_revenue);
        rs := rnd |}.

Definition gtd_offering (time_period : nat) (st : PeriodState)
  (offering : ProductOffering) : result PeriodState :=
  let offering_id := po_id offering in
  let (new_cost, rnd1) :=
    _generate_temporal_value (po_cost offering) "cost" time_period (rs st) in
  g1 <- setitem_node (period_graph st) offering_id "cost" (VFloat new_cost) ;;
  let (new_demand, rnd2) :=
    _generate_temporal_value (IZR (po_demand offering)) "demand" time_period
      rnd1 in
  g2 <- setitem_node g1 offering_id "demand" (VFloat new_demand) ;;
  let changes := [("demand", VFloat new_demand); ("cost", VFloat new_cost)] in
  Ok {| period_graph := g2;
        gen := _log_node_operation (gen st) "update" offering_id
                 "PRODUCT_OFFERING" changes;
        period_data :=
          dict_set
            (dict_set (period_data st)
               ("offering_" ++ offering_id ++ "_cost")%string (VFloat new_cost))
            ("offering_" ++ offering_id ++ "_demand")%string
            (VFloat new_demand);
        rs := rnd2 |}.

Definition gtd_warehouse (time_period : nat) (st : PeriodState)
  (warehouse : Warehouse) : result PeriodState :=
  let warehouse_id := w_id warehouse in
  let (new_capacity, rnd) :=
    _generate_temporal_value (IZR (w_current_capacity warehouse)) "capacity"
      time_period (rs st) in
  let changes := [("capacity", VFloat new_capacity)] in
  let self := _log_node_operation (gen st) "update" warehouse_id "WAREHOUSE"
                changes in
  g <- setitem_node (period_graph st) warehouse_id "current_capacity"
         (VFloat new_capacity) ;;
  Ok {| period_graph := g; gen := self;
        period_data :=
          dict_set (period_data st)
            ("warehouse_" ++ warehouse_id ++ "_capacity")%string
            (VFloat new_capacity);
        rs := rnd |}.

Definition gtd_supplier (time_period : nat) (st : PeriodState)
  (supplier : Supplier) : result PeriodState :=
  let supplier_id := s_id supplier in
  let (new_reliability, rnd) :=
    _generate_temporal_value (s_reliability supplier) "reliability"
      time_period (rs st) in
  let changes := [("reliability", VFloat new_reliability)] in
  let self := _log_node_operation (gen st) "update" supplier_id "SUPPLIERS"
                changes in
  g <- setitem_node (period_graph st) supplier_id "reliability"
         (VFloat new_reliability) ;;
  Ok {| period_graph := g; gen := self;
        period_data :=
          dict_set (period_data st)
            ("supplier_" ++ supplier_id ++ "_reliability")%string
            (VFloat new_reliability);
        rs := rnd |}.

Definition gtd_part (time_period : nat) (current_date : Z) (st : PeriodState)
  (part : Part) : result PeriodState :=
  if in_validity_window part current_date then
    let part_id := p_id part in
    let (new_cost, rnd) :=
      _generate_temporal_value (p_cost part) "cost" time_period (rs st) in
    let changes := [("cost", VFloat new_cost)] in
    let self := _log_node_operation (gen st) "update" part_id "PARTS"
                  changes in
    g <- setitem_node (period_graph st) part_id "cost" (VFloat new_cost) ;;
    Ok {| period_graph := g; gen := self;
          period_data :=
            dict_set (period_data st)
              ("part_" ++ part_id ++ "_cost")%string (VFloat new_cost);
          rs := rnd |}
  else Ok st.

(** The body of the edge loop.  [attrs] is the live attribute dictionary
    of the edge, so it is read again after the first assignment. *)
Definition gtd_edge (time_period : nat) (st : PeriodState)
  (uv : string * string) : result PeriodState :=
  let (u, v) := uv in
  attrs0 <- edge_attrs (period_graph st) u v ;;
  st1 <-
    (if dict_mem attrs0 "transportation_cost" then
       base <- bind (getitem attrs0 "transportation_cost") as_number ;;
       let (new_transport_cost, rnd) :=
         _generate_temporal_value base "transportation_cost" time_period
           (rs st) in
       let changes := [("transportation_cost", VFloat new_transport_cost)] in
       let self := _log_edge_operation (gen st) "update" u v changes
                     "SUPPLIERS_WAREHOUSE" in
       g <- setitem_edge (period_graph st) u v "transportation_cost"
              (VFloat new_transport_cost) ;;
       Ok {| period_graph := g; gen := self;
             period_data :=
               dict_set (period_data st)
                 ("edge_" ++ u ++ "_" ++ v ++ "_transport_cost")%string
                 (VFloat new_transport_cost);
             rs := rnd |}
     else Ok st) ;;
  attrs1 <- edge_attrs (period_graph st1) u v ;;
  if dict_mem attrs1 "inventory_level" then
    base <- bind (getitem attrs1 "inventory_level") as_number ;;
    let (new_inventory, rnd) :=
      _generate_temporal_value base "inventory" time_period (rs st1) in
    let changes := [("inventory_level", VFloat new_inventory)] in
    let self := _log_edge_operation (gen st1) "update" u v changes
                  "WAREHOUSE_PARTS" in
    g <- setitem_edge (period_graph st1) u v "inventory_level"
           (VFloat new_inventory) ;;
    Ok {| period_graph := g; gen := self;
          period_data :=
            dict_set (period_data st1)
              ("edge_" ++ u ++ "_" ++ v ++ "_inventory")%string
              (VFloat new_inventory);
          rs := rnd |}
  else Ok st1.

(** One iteration of the period loop of [generate_temporal_data]. *)
Definition gtd_period (base_graph : DiGraph)
  (acc : SupplyChainGenerator * RandomSource) (time_period : nat)
  : result (SupplyChainGenerator * RandomSource) :=
  let (self0, rnd) := acc in
  let current_date := add_days BASE_DATE (30 * Z.of_nat time_period) in
  let self := with_timestamp self0 (S (timestamp self0)) in
  let st0 := {| period_graph := copy base_graph;
                period_data := [("date", VDate current_date)];
                gen := self; rs := rnd |} in
  bg <- from_option TypeError (business_group self) ;;
  st1 <- gtd_business_group time_period st0 bg ;;
  st2 <- foldM (gtd_family time_period) (product_families self) st1 ;;
  st3 <- foldM (gtd_offering time_period) (product_offerings self) st2 ;;
  st4 <- foldM (gtd_warehouse time_period) (all_values (warehouses self)) st3 ;;
  st5 <- foldM (gtd_supplier time_period) (suppliers self) st4 ;;
  st6 <- foldM (gtd_part time_period current_date) (all_values (parts self))
           st5 ;;
  st7 <- foldM (gtd_edge time_period) (edges (period_graph st6)) st6 ;;
  let self' := gen st7 in
  Ok (with_temporal self'
        (dict_set (temporal_graphs self') time_period (period_graph st7))
        (dict_set (temporal_data self') time_period (period_data st7))
        (current_period self'),
      rs st7).

(** [generate_temporal_data] *)
Definition generate_temporal_data (self : SupplyChainGenerator)
  (rnd : RandomSource) : result (SupplyChainGenerator * RandomSource) :=
  let base_graph := copy (G self) in
  let self1 := with_temporal self (dict_set (temporal_graphs self) 0%nat base_graph)
                 (temporal_data self) (current_period self) in
  foldM (gtd_period base_graph)
    (seq 1 (Nat.pred (base_periods self))) (self1, rnd).

(** *** Incremental extension *)

(** The arguments that [_update_period_attributes] and its helpers mutate:
    the graph and the period data; the random source is threaded along. *)
Record UpdateState : Type := {
  u_graph : DiGraph;
  u_data : attrs;
  u_rs : RandomSource
}.

Definition update_family (time_period : nat) (st : UpdateState)
  (family : ProductFamily) : result UpdateState :=
  let (family_revenue, rnd) :=
    _generate_temporal_value (pf_revenue family) "revenue" time_period
      (u_rs st) in
  g <- setitem_node (u_graph st) (pf_id family) "revenue"
         (VFloat family_revenue) ;;
  Ok {| u_graph := g;
        u_data := dict_set (u_data st)
                    ("family_" ++ pf_id family ++ "_revenue")%string
                    (VFloat family_revenue);
        u_rs := rnd |}.

Definition update_offering (time_period : nat) (st : UpdateState)
  (offering : ProductOffering) : result UpdateState :=
  let offering_id := po_id offering in
  let (new_cost, rnd1) :=
    _generate_temporal_value (po_cost offering) "cost" time_period (u_rs st) in
  let (new_demand, rnd2) :=
    _generate_temporal_value (IZR (po_demand offering)) "demand" time_period
      rnd1 in
  g1 <- setitem_node (u_graph st) offering_id "cost" (VFloat new_cost) ;;
  g2 <- setitem_node g1 offering_id "demand" (VFloat new_demand) ;;
  Ok {| u_graph := g2;
        u_data :=
          dict_set
            (dict_set (u_data st)
               ("offering_" ++ offering_id ++ "_cost")%string (VFloat new_cost))
            ("offering_" ++ offering_id ++ "_demand")%string
            (VFloat new_demand);
        u_rs := rnd2 |}.

(** [_update_product_attributes] *)
Definition _update_product_attributes (self : SupplyChainGenerator)
  (time_period : nat) (st : UpdateState) : result UpdateState :=
  foldM (update_offering time_period) (product_offerings self) st.

Definition update_warehouse (time_period : nat) (st : UpdateState)
  (warehouse : Warehouse) : result UpdateState :=
  let warehouse_id := w_id warehouse in
  let (new_capacity, rnd) :=
    _generate_temporal_value (IZR (w_current_capacity warehouse)) "capacity"
      time_period (u_rs st) in
  g <- setitem_node (u_graph st) warehouse_id "current_capacity"
         (VFloat new_capacity) ;;
  Ok {| u_graph := g;
        u_data := dict_set (u_data st)
                    ("warehouse_" ++ warehouse_id ++ "_capacity")%string
                    (VFloat new_capacity);
        u_rs := rnd |}.

(** [_update_warehouse_attributes] *)
Definition _update_warehouse_attributes (self : SupplyChainGenerator)
  (time_period : nat) (st : UpdateState) : result UpdateState :=
  foldM (update_warehouse time_period) (all_values (warehouses self)) st.

Definition update_supplier (time_period : nat) (st : UpdateState)
  (supplier : Supplier) : result UpdateState :=
  let supplier_id := s_id supplier in
  let (new_reliability, rnd) :=
    _generate_temporal_value (s_reliability supplier) "reliability"
      time_period (u_rs st) in
  g <- setitem_node (u_graph st) supplier_id "reliability"
         (VFloat new_reliability) ;;
  Ok {| u_graph := g;
        u_data := dict_set (u_data st)
                    ("supplier_" ++ supplier_id ++ "_reliability")%string
                    (VFloat new_reliability);
        u_rs := rnd |}.

(** [_update_supplier_attributes] *)
Definition _update_supplier_attributes (self : SupplyChainGenerator)
  (time_period : nat) (st : UpdateState) : result UpdateState :=
  foldM (update_supplier time_period) (suppliers self) st.

Definition update_part (time_period : nat) (current_date : Z)
  (st : UpdateState) (part : Part) : result UpdateState :=
  if in_validity_window part current_date then
    let part_id := p_id part in
    let (new_cost, rnd) :=
      _generate_temporal_value (p_cost part) "cost" time_period (u_rs st) in
    g <- setitem_node (u_graph st) part_id "cost" (VFloat new_cost) ;;
    Ok {| u_graph := g;
          u_data := dict_set (u_data st)
                      ("part_" ++ part_id ++ "_cost")%string (VFloat new_cost);
          u_rs := rnd |}
  else Ok st.

(** [_update_part_attributes] *)
Definition _update_part_attributes (self : SupplyChainGenerator)
  (time_period : nat) (st : UpdateState) : result UpdateState :=
  let current_date := add_days BASE_DATE (30 * Z.of_nat time_period) in
  foldM (update_part time_period current_date) (all_values (parts self)) st.

Definition update_edge (time_period : nat) (st : UpdateState)
  (uv : string * string) : result UpdateState :=
  let (u, v) := uv in
  attrs0 <- edge_attrs (u_graph st) u v ;;
  st1 <-
    (if dict_mem attrs0 "transportation_cost" then
       base <- bind (getitem attrs0 "transportation_cost") as_number ;;
       let (new_transport_cost, rnd) :=
         _generate_temporal_value base "transportation_cost" time_period
           (u_rs st) in
       g <- setitem_edge (u_graph st) u v "transportation_cost"
              (VFloat new_transport_cost) ;;
       Ok {| u_graph := g;
             u_data :=
               dict_set (u_data st)
                 ("edge_" ++ u ++ "_" ++ v ++ "_transport_cost")%string
                 (VFloat new_transport_cost);
             u_rs := rnd |}
     else Ok st) ;;
  attrs1 <- edge_attrs (u_graph st1) u v ;;
  if dict_mem attrs1 "inventory_level" then
    base <- bind (getitem attrs1 "inventory_level") as_number ;;
    let (new_inventory, rnd) :=
      _generate_temporal_value base "inventory" time_period (u_rs st1) in
    g <- setitem_edge (u_graph st1) u v "inventory_level"
           (VFloat new_inventory) ;;
    Ok {| u_graph := g;
          u_data :=
            dict_set (u_data st1)
              ("edge_" ++ u ++ "_" ++ v ++ "_inventory")%string
              (VFloat new_inventory);
          u_rs := rnd |}
  else Ok st1.

(** [_update_edge_attributes] *)
Definition _update_edge_attributes (time_period : nat) (st : UpdateState)
  : result UpdateState :=
  foldM (update_edge time_period) (edges (u_graph st)) st.

(** [_update_period_attributes] *)
Definition _update_period_attributes (self : SupplyChainGenerator)
  (time_period : nat) (st : UpdateState) : result UpdateState :=
  bg <- from_option TypeError (business_group self) ;;
  let (bg_revenue', rnd) :=
    _generate_temporal_value (bg_revenue bg) "revenue" time_period (u_rs st) in
  g <- setitem_node (u_graph st) (bg_id bg) "revenue" (VFloat bg_revenue') ;;
  let st1 := {| u_graph := g;
                u_data := dict_set (u_data st) "business_group_revenue"
                            (VFloat bg_revenue');
                u_rs := rnd |} in
  st2 <- foldM (update_family time_period) (product_families self) st1 ;;
  st3 <- _update_product_attributes self time_period st2 ;;
  st4 <- _update_warehouse_attributes self time_period st3 ;;
  st5 <- _update_supplier_attributes self time_period st4 ;;
  st6 <- _update_part_attributes self time_period st5 ;;
  _update_edge_attributes time_period st6.

(** [max(d.keys())]; an empty dictionary raises [ValueError]. *)
Definition max_key {V : Type} (d : list (nat * V)) : result nat :=
  match keys d with
  | [] => Raise ValueError
  | k :: r => Ok (fold_left Nat.max r k)
  end.

(** [simulate_next_period] *)
Definition simulate_next_period (self : SupplyChainGenerator)
  (rnd : RandomSource) : result (nat * SupplyChainGenerator * RandomSource) :=
  last_period <- max_key (temporal_graphs self) ;;
  let next_period := S last_period in
  last_graph <- getitem (temporal_graphs self) last_period ;;
  let base_graph := copy last_graph in
  let current_date := add_days BASE_DATE (30 * Z.of_nat next_period) in
  let st0 := {| u_graph := base_graph;
                u_data := [("date", VDate current_date)];
                u_rs := rnd |} in
  st <- _update_period_attributes self next_period st0 ;;
  Ok (next_period,
      with_temporal self
        (dict_set (temporal_graphs self) next_period (u_graph st))
        (dict_set (temporal_data self) next_period (u_data st))
        next_period,
      u_rs st).


(** [regenerate_all_periods] *)
Definition regenerate_all_periods (self : SupplyChainGenerator)
  (rnd : RandomSource) : result (SupplyChainGenerator * RandomSource) :=
  generate_temporal_data (with_temporal self [] [] 0%nat) rnd.

(* =============================================================== *)
(** ** Entity factory *)

(** [range(n)] *)
Definition range (n : Z) : list nat := seq 0 (Z.to_nat n).

(** [random.random() < p] for a float literal [p].  Both sides are
    multiples of a power of two, so the comparison is decided exactly on
    the 53 random bits. *)
Definition random_lt (p : Binary64.float) (rnd : RandomSource)
  : bool * RandomSource :=
  let (k, rnd') := random_bits rnd in
  (k * Binary64.denominator p <? Binary64.numerator p * 2 ^ 53, rnd').

Definition uniform_range (range : R * R) (rnd : RandomSource)
  : R * RandomSource :=
  uniform (fst range) (snd range) rnd.

Definition randint_range (range : Z * Z) (rnd : RandomSource)
  : result (Z * RandomSource) :=
  randint (fst range) (snd range) rnd.

(** The state of a factory loop: the generator, the random source and the
    running [counter]. *)
Definition FactoryState : Type := SupplyChainGenerator * RandomSource * nat.

(** [_generate_business_hierarchy] *)
Definition generate_family (st : FactoryState) (pf : string)
  : result FactoryState :=
  let '(self, rnd, i) := st in
  let (revenue, rnd1) := uniform_range (COST_RANGE cfg) rnd in
  let pf_data' := {| pf_id := format_id "PF_" i; pf_name := pf;
                     pf_revenue := revenue |} in
  let self1 := with_entities self (suppliers self) (warehouses self)
                 (facilities self) (parts self) (product_offerings self)
                 (product_families self ++ [pf_data'])
                 (business_group self) in
  let self2 := _log_node_operation self1 "create" (pf_id pf_data')
                 "PRODUCT_FAMILY" (pf_data pf_data') in
  let self3 := with_G self2
                 (add_node (G self2) (pf_id pf_data')
                    (pf_data pf_data' ++ [("node_type", VStr "product_family")])) in
  Ok (self3, rnd1, S i).

Definition generate_offering (st : FactoryState) (po : string)
  : result FactoryState :=
  let '(self, rnd, po_counter) := st in
  let (cost, rnd1) := uniform_range (COST_RANGE cfg) rnd in
  '(demand, rnd2) <- randint_range (DEMAND_RANGE cfg) rnd1 ;;
  let po_data' := {| po_id := format_id "PO_" po_counter; po_name := po;
                     po_cost := cost; po_demand := demand |} in
  let self1 := with_entities self (suppliers self) (warehouses self)
                 (facilities self) (parts self)
                 (product_offerings self ++ [po_data'])
                 (product_families self) (business_group self) in
  let self2 := _log_node_operation self1 "create" (po_id po_data')
                 "PRODUCT_OFFERING" (po_data po_data') in
  let self3 := with_G self2
                 (add_node (G self2) (po_id po_data')
                    (po_data po_data' ++ [("node_type", VStr "product_offering")])) in
  Ok (self3, rnd2, S po_counter).

Definition generate_offerings_of (st : FactoryState) (pf : ProductFamily)
  : result FactoryState :=
  match dict_get (PRODUCT_OFFERINGS cfg) (pf_name pf) with
  | Some names => foldM generate_offering names st
  | None => Ok st
  end.

Definition _generate_business_hierarchy (self : SupplyChainGenerator)
  (rnd : RandomSource) : result (SupplyChainGenerator * RandomSource) :=
  let (revenue, rnd1) := uniform_range (COST_RANGE cfg) rnd in
  let bg := {| bg_id := "BG_001"; bg_name := BUSINESS_GROUP cfg;
               bg_description := (BUSINESS_GROUP cfg ++ " Business Unit")%string;
               bg_revenue := revenue |} in
  let self1 := with_entities self (suppliers self) (warehouses self)
                 (facilities self) (parts self) (product_offerings self)
                 (product_families self) (Some bg) in
  let self2 := _log_node_operation self1 "create" (bg_id bg) "BUSINESS_GROUP"
                 (business_group_data bg) in
  let self3 := with_G self2
                 (add_node (G self2) "BG_001"
                    (business_group_data bg ++
                     [("node_type", VStr "business_group")])) in
  '(self4, rnd2, _) <- foldM generate_family (PRODUCT_FAMILIES cfg)
                         (self3, rnd1, 1%nat) ;;
  '(self5, rnd3, _) <- foldM generate_offerings_of (product_families self4)
                         (self4, rnd2, 1%nat) ;;
  Ok (self5, rnd3).

(** The optional draw of supplied part types in [_generate_suppliers]. *)
Definition draw_supplied_types (p : Binary64.float) (kind : string)
  (supplied_types : list string) (rnd : RandomSource)
  : result (list string * RandomSource) :=
  let (hit, rnd1) := random_lt p rnd in
  if hit then
    types <- getitem (PART_TYPES cfg) kind ;;
    '(k, rnd2) <- randint 1 (len types) rnd1 ;;
    '(chosen, rnd3) <- sample types k rnd2 ;;
    Ok (supplied_types ++ chosen, rnd3)
  else Ok (supplied_types, rnd1).

(** [_generate_suppliers] *)
Definition generate_supplier (size_category : string) (size_range : Z * Z)
  (st : FactoryState) (_ : nat) : result FactoryState :=
  let '(self, rnd, counter) := st in
  '(size_value, rnd1) <- randint_range size_range rnd ;;
  '(types1, rnd2) <- draw_supplied_types (Binary64.literal 7 10) "raw" [] rnd1 ;;
  '(supplied_types, rnd3) <-
     draw_supplied_types (Binary64.literal 3 10) "subassembly" types1 rnd2 ;;
  '(location, rnd4) <- choice (LOCATIONS cfg) rnd3 ;;
  let (reliability, rnd5) := uniform_range (RELIABILITY_RANGE cfg) rnd4 in
  let supplier := {| s_id := format_id "S_" counter;
                     s_name := ("Supplier_" ++ decimal counter)%string;
                     s_location := location; s_reliability := reliability;
                     s_size := size_value; s_size_category := size_category;
                     s_supplied_part_types := supplied_types |} in
  let self1 := with_entities self (suppliers self ++ [supplier])
                 (warehouses self) (facilities self) (parts self)
                 (product_offerings self) (product_families self)
                 (business_group self) in
  let self2 := _log_node_operation self1 "create" (s_id supplier) "SUPPLIERS"
                 (supplier_data supplier) in
  let self3 := with_G self2
                 (add_node (G self2) (s_id supplier)
                    (supplier_data supplier ++ [("node_type", VStr "supplier")])) in
  Ok (self3, rnd5, S counter).

Definition generate_suppliers_of (st : FactoryState) (item : string * Z)
  : result FactoryState :=
  let (size_category, count) := item in
  size <- getitem (SUPPLIER_SIZES cfg) size_category ;;
  foldM (generate_supplier size_category (ss_range size)) (range count) st.

Definition _generate_suppliers (self : SupplyChainGenerator)
  (rnd : RandomSource) : result (SupplyChainGenerator * RandomSource) :=
  '(self', rnd', _) <- foldM generate_suppliers_of
                         (supplier_distribution (distribution self))
                         (self, rnd, 1%nat) ;;
  Ok (self', rnd').

(** [_generate_warehouses] *)
Definition generate_warehouse (w_type' : string) (st : FactoryState) (_ : nat)
  : result FactoryState :=
  let '(self, rnd, counter) := st in
  '(size_category, rnd1) <- choice ["small"; "medium"; "large"] rnd ;;
  size <- getitem (WAREHOUSE_SIZES cfg) size_category ;;
  let capacity_range := ws_capacity size in
  '(location, rnd2) <- choice (LOCATIONS cfg) rnd1 ;;
  '(max_capacity, rnd3) <- randint_range capacity_range rnd2 ;;
  '(safety_stock, rnd4) <- randint_range (INVENTORY_RANGE cfg) rnd3 ;;
  size' <- getitem (WAREHOUSE_SIZES cfg) size_category ;;
  let warehouse := {| w_id := format_id "W_" counter;
                      w_name := ("Warehouse_" ++ decimal counter)%string;
                      w_type := w_type'; w_location := location;
                      w_size_category := size_category;
                      w_max_capacity := max_capacity;
                      w_current_capacity := 0;
                      w_safety_stock := safety_stock;
                      w_max_parts := ws_max_parts size' |} in
  wh <- append_to (warehouses self) w_type' warehouse ;;
  let self1 := with_entities self (suppliers self) wh (facilities self)
                 (parts self) (product_offerings self)
                 (product_families self) (business_group self) in
  let self2 := with_G self1
                 (add_node (G self1) (w_id warehouse)
                    (warehouse_data warehouse ++
                     [("node_type", VStr "warehouse")])) in
  let self3 := _log_node_operation self2 "create" (w_id warehouse) "WAREHOUSE"
                 (warehouse_data warehouse) in
  Ok (self3, rnd4, S counter).

Definition generate_warehouses_of (st : FactoryState) (item : string * Z)
  : result FactoryState :=
  let (w_type', count) := item in
  foldM (generate_warehouse w_type') (range count) st.

Definition _generate_warehouses (self : SupplyChainGenerator)
  (rnd : RandomSource) : result (SupplyChainGenerator * RandomSource) :=
  '(self', rnd', _) <- foldM generate_warehouses_of
                         (warehouse_distribution (distribution self))
                         (self, rnd, 1%nat) ;;
  Ok (self', rnd').

(** [_generate_facilities] *)
Definition generate_facility (f_type' : string) (st : FactoryState) (_ : nat)
  : result FactoryState :=
  let '(self, rnd, counter) := st in
  '(location, rnd1) <- choice (LOCATIONS cfg) rnd ;;
  '(max_capacity, rnd2) <- randint_range (CAPACITY_RANGE cfg) rnd1 ;;
  let (operating_cost, rnd3) := uniform_range (COST_RANGE cfg) rnd2 in
  let facility := {| f_id := format_id "F_" counter;
                     f_name := ("Facility_" ++ decimal counter)%string;
                     f_type := f_type'; f_location := location;
                     f_max_capacity := max_capacity;
                     f_operating_cost := operating_cost |} in
  fa <- append_to (facilities self) f_type' facility ;;
  let self1 := with_entities self (suppliers self) (warehouses self) fa
                 (parts self) (product_offerings self)
                 (product_families self) (business_group self) in
  let self2 := with_G self1
                 (add_node (G self1) (f_id facility)
                    (facility_data facility ++ [("node_type", VStr "facility")])) in
  let self3 := _log_node_operation self2 "create" (f_id facility) "FACILITY"
                 (facility_data facility) in
  Ok (self3, rnd3, S counter).

Definition generate_facilities_of (st : FactoryState) (item : string * Z)
  : result FactoryState :=
  let (f_type', count) := item in
  foldM (generate_facility f_type') (range count) st.

Definition _generate_facilities (self : SupplyChainGenerator)
  (rnd : RandomSource) : result (SupplyChainGenerator * RandomSource) :=
  '(self', rnd', _) <- foldM generate_facilities_of
                         (facility_distribution (distribution self))
                         (self, rnd, 1%nat) ;;
  Ok (self', rnd').

(** [_generate_part_validity] *)
Definition _generate_part_validity (rnd : RandomSource)
  : result (Z * Z * RandomSource) :=
  let valid_from := BASE_DATE in
  '(validity_months, rnd') <- randint_range (PART_VALIDITY_RANGE cfg) rnd ;;
  let valid_till := add_days valid_from (30 * validity_months) in
  Ok (valid_from, valid_till, rnd').

(** [_generate_parts] *)
Definition generate_part (p_type' : string) (st : FactoryState) (_ : nat)
  : result FactoryState :=
  let '(self, rnd, counter) := st in
  '(valid_from, valid_till, rnd1) <- _generate_part_validity rnd ;;
  subtypes <- getitem (PART_TYPES cfg) p_type' ;;
  '(subtype, rnd2) <- choice subtypes rnd1 ;;
  let (cost, rnd3) := uniform_range (COST_RANGE cfg) rnd2 in
  let (importance, rnd4) := uniform_range (IMPORTANCE_FACTOR_RANGE cfg) rnd3 in
  let part := {| p_id := format_id "P_" counter;
                 p_name := ("Part_" ++ decimal counter)%string;
                 p_type := p_type'; p_subtype := subtype; p_cost := cost;
                 p_importance_factor := importance;
                 p_valid_from := valid_from; p_valid_till := valid_till |} in
  pa <- append_to (parts self) p_type' part ;;
  let self1 := with_entities self (suppliers self) (warehouses self)
                 (facilities self) pa (product_offerings self)
                 (product_families self) (business_group self) in
  let self2 := with_G self1
                 (add_node (G self1) (p_id part)
                    (part_data part ++ [("node_type", VStr "part")])) in
  let self3 := _log_node_operation self2 "create" (p_id part) "PARTS"
                 (copy_part_data part) in
  Ok (self3, rnd4, S counter).

Definition generate_parts_of (st : FactoryState) (item : string * Z)
  : result FactoryState :=
  let (p_type', count) := item in
  foldM (generate_part p_type') (range count) st.

Definition _generate_parts (self : SupplyChainGenerator)
  (rnd : RandomSource) : result (SupplyChainGenerator * RandomSource) :=
  '(self', rnd', _) <- foldM generate_parts_of
                         (parts_distribution (distribution self))
                         (self, rnd, 1%nat) ;;
  Ok (self', rnd').

(* =============================================================== *)
(** ** Topology builder *)

Definition in_list (x : string) (l : list string) : bool :=
  existsb (String.eqb x) l.

(** [any(t in PART_TYPES[kind] for t in types)]: the table is only
    consulted when there is a type to test. *)
Definition any_in_part_types (types : list string) (kind : string)
  : result bool :=
  match types with
  | [] => Ok false
  | _ :: _ =>
      known <- getitem (PART_TYPES cfg) kind ;;
      Ok (existsb (fun t => in_list t known) types)
  end.

Definition connect_supplier_warehouse (supplier : Supplier)
  (st : SupplyChainGenerator * RandomSource) (warehouse : Warehouse)
  : result (SupplyChainGenerator * RandomSource) :=
  let (self, rnd) := st in
  let (transportation_cost, rnd1) :=
    uniform_range (TRANSPORTATION_COST_RANGE cfg) rnd in
  let (lead_time, rnd2) := uniform_range (TRANSPORTATION_TIME_RANGE cfg) rnd1 in
  let edge_data := [("transportation_cost", VFloat transportation_cost);
                    ("lead_time", VFloat lead_time)] in
  let self1 := with_G self
                 (add_edge (G self) (s_id supplier) (w_id warehouse) edge_data) in
  Ok (_log_edge_operation self1 "create" (s_id supplier) (w_id warehouse)
        edge_data "SUPPLIERS_WAREHOUSE", rnd2).

Definition connect_supplier_kind (supplier : Supplier) (max_connections : Z)
  (part_kind warehouse_kind : string)
  (st : SupplyChainGenerator * RandomSource)
  : result (SupplyChainGenerator * RandomSource) :=
  let (self, rnd) := st in
  supplies <- any_in_part_types (s_supplied_part_types supplier) part_kind ;;
  if supplies then
    possible_warehouses <- getitem (warehouses self) warehouse_kind ;;
    let num_connections := Z.min max_connections (len possible_warehouses) in
    '(selected_warehouses, rnd1) <-
       sample possible_warehouses num_connections rnd ;;
    foldM (connect_supplier_warehouse supplier) selected_warehouses
      (self, rnd1)
  else Ok st.

Definition connect_supplier (st : SupplyChainGenerator * RandomSource)
  (supplier : Supplier) : result (SupplyChainGenerator * RandomSource) :=
  size <- getitem (SUPPLIER_SIZES cfg) (s_size_category supplier) ;;
  let max_connections := ss_max_connections size in
  st1 <- connect_supplier_kind supplier max_connections "raw" "supplier" st ;;
  connect_supplier_kind supplier max_connections "subassembly" "subassembly"
    st1.

(** [_connect_suppliers_to_warehouses] *)
Definition _connect_suppliers_to_warehouses (self : SupplyChainGenerator)
  (rnd : RandomSource) : result (SupplyChainGenerator * RandomSource) :=
  foldM connect_supplier (suppliers self) (self, rnd).

(** The state of the inner loop of [_connect_warehouses_to_parts]: the
    generator, the random source and [current_inventory]. *)
Definition connect_warehouse_part (warehouse : Warehouse)
  (st : SupplyChainGenerator * RandomSource * Z) (part : Part)
  : result (SupplyChainGenerator * RandomSource * Z) :=
  let '(self, rnd, current_inventory) := st in
  let available_capacity := w_max_capacity warehouse in
  '(draw, rnd1) <- randint_range (INVENTORY_RANGE cfg) rnd ;;
  let max_possible_inventory :=
    Z.min draw (available_capacity - current_inventory) in
  if max_possible_inventory <=? 0 then Ok (self, rnd1, current_inventory)
  else
    let inventory_level := max_possible_inventory in
    let current_inventory' := current_inventory + inventory_level in
    let (storage_cost, rnd2) := uniform_range (COST_RANGE cfg) rnd1 in
    let edge_data := [("inventory_level", VInt inventory_level);
                      ("storage_cost", VFloat storage_cost)] in
    let self1 := with_G self
                   (add_edge (G self) (w_id warehouse) (p_id part) edge_data) in
    let self2 := _log_edge_operation self1 "create" (w_id warehouse)
                   (p_id part) edge_data "WAREHOUSE_PARTS" in
    g <- setitem_node (G self2) (w_id warehouse) "current_capacity"
           (VInt current_inventory') ;;
    let self3 := with_G self2 g in
    let changes := [("current_capacity", VInt current_inventory')] in
    Ok (_log_node_operation self3 "update" (w_id warehouse) "WAREHOUSE"
          changes, rnd2, current_inventory').

Definition connect_warehouse (st : SupplyChainGenerator * RandomSource)
  (warehouse : Warehouse) : result (SupplyChainGenerator * RandomSource) :=
  let (self, rnd) := st in
  let max_parts := w_max_parts warehouse in
  let current_inventory := 0 in
  possible_parts <-
    getitem (parts self)
      (if String.eqb (w_type warehouse) "supplier" then "raw"
       else "subassembly") ;;
  '(selected_parts, rnd1) <-
     sample possible_parts (Z.min max_parts (len possible_parts)) rnd ;;
  '(self', rnd', _) <- foldM (connect_warehouse_part warehouse) selected_parts
                         (self, rnd1, current_inventory) ;;
  Ok (self', rnd').

(** [_connect_warehouses_to_parts] *)
Definition _connect_warehouses_to_parts (self : SupplyChainGenerator)
  (rnd : RandomSource) : result (SupplyChainGenerator * RandomSource) :=
  foldM connect_warehouse (all_values (warehouses self)) (self, rnd).

Definition connect_part_facility (facility : Facility)
  (st : SupplyChainGenerator * RandomSource) (part : Part)
  : result (SupplyChainGenerator * RandomSource) :=
  let (self, rnd) := st in
  '(quantity, rnd1) <- randint_range (QUANTITY_RANGE cfg) rnd ;;
  '(distance, rnd2) <- randint_range (DISTANCE_RANGE cfg) rnd1 ;;
  let (transport_cost, rnd3) :=
    uniform_range (TRANSPORTATION_COST_RANGE cfg) rnd2 in
  let (lead_time, rnd4) := uniform_range (TRANSPORTATION_TIME_RANGE cfg) rnd3 in
  let edge_data := [("quantity", VInt quantity); ("distance", VInt distance);
                    ("transport_cost", VFloat transport_cost);
                    ("lead_time", VFloat lead_time)] in
  let self1 := with_G self
                 (add_edge (G self) (p_id part) (f_id facility) edge_data) in
  Ok (_log_edge_operation self1 "create" (p_id part) (f_id facility) edge_data
        "PARTS_FACILITY", rnd4).

Definition connect_facility_part (facility : Facility)
  (st : SupplyChainGenerator * RandomSource) (part : Part)
  : result (SupplyChainGenerator * RandomSource) :=
  let (self, rnd) := st in
  let (production_cost, rnd1) := uniform_range (COST_RANGE cfg) rnd in
  let (lead_time, rnd2) := uniform_range (TRANSPORTATION_TIME_RANGE cfg) rnd1 in
  '(quantity, rnd3) <- randint_range (QUANTITY_RANGE cfg) rnd2 ;;
  let edge_data := [("production_cost", VFloat production_cost);
                    ("lead_time", VFloat lead_time);
                    ("quantity", VInt quantity)] in
  let self1 := with_G self
                 (add_edge (G self) (f_id facility) (p_id part) edge_data) in
  Ok (_log_edge_operation self1 "create" (f_id facility) (p_id part) edge_data
        "FACILITY_PARTS", rnd3).

Definition connect_external_facility
  (st : SupplyChainGenerator * RandomSource) (facility : Facility)
  : result (SupplyChainGenerator * RandomSource) :=
  let (self, rnd) := st in
  raw <- getitem (parts self) "raw" ;;
  '(k_raw, rnd1) <- randint 2 (Z.max 3 (len raw / 2)) rnd ;;
  '(raw_parts, rnd2) <- sample raw k_raw rnd1 ;;
  '(self1, rnd3) <- foldM (connect_part_facility facility) raw_parts
                      (self, rnd2) ;;
  subassembly <- getitem (parts self1) "subassembly" ;;
  '(k_sub, rnd4) <- randint 1 3 rnd3 ;;
  '(subassembly_parts, rnd5) <- sample subassembly k_sub rnd4 ;;
  foldM (connect_facility_part facility) subassembly_parts (self1, rnd5).

Definition connect_lam_facility
  (st : SupplyChainGenerator * RandomSource) (facility : Facility)
  : result (SupplyChainGenerator * RandomSource) :=
  let (self, rnd) := st in
  subassembly <- getitem (parts self) "subassembly" ;;
  '(k, rnd1) <- randint 2 (Z.max 3 (len subassembly / 2)) rnd ;;
  '(subassembly_parts, rnd2) <- sample subassembly k rnd1 ;;
  foldM (connect_part_facility facility) subassembly_parts (self, rnd2).

(** [_connect_parts_to_facilities] *)
Definition _connect_parts_to_facilities (self : SupplyChainGenerator)
  (rnd : RandomSource) : result (SupplyChainGenerator * RandomSource) :=
  external <- getitem (facilities self) "external" ;;
  st1 <- foldM connect_external_facility external (self, rnd) ;;
  lam <- getitem (facilities (fst st1)) "lam" ;;
  foldM connect_lam_facility lam st1.

Definition connect_product_warehouse (product : ProductOffering)
  (st : SupplyChainGenerator * RandomSource) (warehouse : Warehouse)
  : result (SupplyChainGenerator * RandomSource) :=
  let (self, rnd) := st in
  '(inventory_level, rnd1) <- randint_range (INVENTORY_RANGE cfg) rnd ;;
  let (storage_cost, rnd2) := uniform_range (COST_RANGE cfg) rnd1 in
  let edge_data := [("inventory_level", VInt inventory_level);
                    ("storage_cost", VFloat storage_cost)] in
  let self1 := with_G self
                 (add_edge (G self) (po_id product) (w_id warehouse) edge_data) in
  Ok (_log_edge_operation self1 "create" (po_id product) (w_id warehouse)
        edge_data "PRODUCT_OFFERING_WAREHOUSE", rnd2).

Definition connect_facility_product (facility : Facility)
  (st : SupplyChainGenerator * RandomSource) (product : ProductOffering)
  : result (SupplyChainGenerator * RandomSource) :=
  let (self, rnd) := st in
  let (product_cost, rnd1) := uniform_range (COST_RANGE cfg) rnd in
  let (lead_time, rnd2) := uniform_range (TRANSPORTATION_TIME_RANGE cfg) rnd1 in
  '(quantity, rnd3) <- randint_range (QUANTITY_RANGE cfg) rnd2 ;;
  let edge_data := [("product_cost", VFloat product_cost);
                    ("lead_time", VFloat lead_time);
                    ("quantity", VInt quantity)] in
  let self1 := with_G self
                 (add_edge (G self) (f_id facility) (po_id product) edge_data) in
  let self2 := _log_edge_operation self1 "create" (f_id facility)
                 (po_id product) edge_data "FACILITY_PRODUCT_OFFERING" in
  lam <- getitem (warehouses self2) "lam" ;;
  foldM (connect_product_warehouse product) lam (self2, rnd3).

Definition connect_facility_products
  (st : SupplyChainGenerator * RandomSource) (facility : Facility)
  : result (SupplyChainGenerator * RandomSource) :=
  let (self, rnd) := st in
  '(k, rnd1) <- randint 2 (Z.max 3 (len (product_offerings self) / 2)) rnd ;;
  '(products, rnd2) <- sample (product_offerings self) k rnd1 ;;
  foldM (connect_facility_product facility) products (self, rnd2).

(** [_connect_facilities_to_products] *)
Definition _connect_facilities_to_products (self : SupplyChainGenerator)
  (rnd : RandomSource) : result (SupplyChainGenerator * RandomSource) :=
  lam <- getitem (facilities self) "lam" ;;
  foldM connect_facility_products lam (self, rnd).

Definition connect_group_family (self : SupplyChainGenerator)
  (pf : ProductFamily) : result SupplyChainGenerator :=
  let self1 := with_G self
                 (add_edge (G self) "BG_001" (pf_id pf)
                    [("type", VStr "hierarchy")]) in
  Ok (_log_edge_operation self1 "create" "BG_001" (pf_id pf) []
        "BUSINESS_GROUP_PROUDUCT_FAMILY").

Definition connect_family_offering (pf : ProductFamily)
  (self : SupplyChainGenerator) (po : ProductOffering)
  : result SupplyChainGenerator :=
  let self1 := with_G self
                 (add_edge (G self) (pf_id pf) (po_id po)
                    [("type", VStr "hierarchy")]) in
  Ok (_log_edge_operation self1 "create" (pf_id pf) (po_id po) []
        "PRODUCT_FAMILY_PRODUCT_OFFERING").

Definition connect_family_offerings (self : SupplyChainGenerator)
  (pf : ProductFamily) : result SupplyChainGenerator :=
  family_offerings <-
    match product_offerings self with
    | [] => Ok []
    | _ :: _ =>
        names <- getitem (PRODUCT_OFFERINGS cfg) (pf_name pf) ;;
        Ok (filter (fun po => in_list (po_name po) names)
              (product_offerings self))
    end ;;
  foldM (connect_family_offering pf) family_offerings self.

(** [_connect_hierarchy] *)
Definition _connect_hierarchy (self : SupplyChainGenerator)
  : result SupplyChainGenerator :=
  self1 <- foldM connect_group_family (product_families self) self ;;
  foldM connect_family_offerings (product_families self1) self1.

(** [_generate_edges] *)
Definition _generate_edges (self : SupplyChainGenerator) (rnd : RandomSource)
  : result (SupplyChainGenerator * RandomSource) :=
  '(self1, rnd1) <- _connect_suppliers_to_warehouses self rnd ;;
  '(self2, rnd2) <- _connect_warehouses_to_parts self1 rnd1 ;;
  '(self3, rnd3) <- _connect_parts_to_facilities self2 rnd2 ;;
  '(self4, rnd4) <- _connect_facilities_to_products self3 rnd3 ;;
  self5 <- _connect_hierarchy self4 ;;
  Ok (self5, rnd4).

(** The body of the double loop of [_calculate_distances]. *)
Definition calculate_distance (warehouse : Warehouse)
  (st : SupplyChainGenerator * RandomSource) (facility : Facility)
  : result (SupplyChainGenerator * RandomSource) :=
  let (self, rnd) := st in
  '(distance, rnd1) <-
     (if String.eqb (w_location warehouse) (f_location facility)
      then randint 10 50 rnd
      else randint_range (DISTANCE_RANGE cfg) rnd) ;;
  a <- node_attrs (G self) (w_id warehouse) ;;
  distances <- match dict_get a "distances" with
               | None => Ok []
               | Some (VDict d) => Ok d
               | Some _ => Raise TypeError
               end ;;
  g <- setitem_node (G self) (w_id warehouse) "distances"
         (VDict (dict_set distances (f_id facility) distance)) ;;
  Ok (with_G self g, rnd1).

Definition calculate_distances_of (st : SupplyChainGenerator * RandomSource)
  (warehouse : Warehouse) : result (SupplyChainGenerator * RandomSource) :=
  foldM (calculate_distance warehouse) (all_values (facilities (fst st))) st.

(** [_calculate_distances] *)
Definition _calculate_distances (self : SupplyChainGenerator)
  (rnd : RandomSource) : result (SupplyChainGenerator * RandomSource) :=
  foldM calculate_distances_of (all_values (warehouses self)) (self, rnd).

(** [generate_data]; the export dictionary [self.data] is not modelled. *)
Definition generate_data (self : SupplyChainGenerator) (rnd : RandomSource)
  : result (SupplyChainGenerator * RandomSource) :=
  '(self1, rnd1) <- _generate_business_hierarchy self rnd ;;
  '(self2, rnd2) <- _generate_suppliers self1 rnd1 ;;
  '(self3, rnd3) <- _generate_warehouses self2 rnd2 ;;
  '(self4, rnd4) <- _generate_facilities self3 rnd3 ;;
  '(self5, rnd5) <- _generate_parts self4 rnd4 ;;
  '(self6, rnd6) <- _generate_edges self5 rnd5 ;;
  '(self7, rnd7) <- _calculate_distances self6 rnd6 ;;
  generate_temporal_data self7 rnd7.

End Generator.

(* ================================================================= *)
(** ** A sample configuration *)

(** The values are those of [config.py] where the sources give them (the
    trademark signs of the offering names are left out).  [PART_TYPES],
    [PART_VALIDITY_RANGE] and [TEMPORAL_VARIATION] are imported by the
    generator but are in no source file, so they are chosen here; the
    general statements below hold for every configuration. *)
Definition sample_config : Config := {|
  BUSINESS_GROUP := "Etch";
  PRODUCT_FAMILIES := ["Kyo"; "Coronus"; "Flex"; "Versys Metal"];
  PRODUCT_OFFERINGS :=
    [("Kyo", ["Versys Kyo"; "Versys Kyo C Series"; "Kyo C Series";
              "Kyo E Series"; "Kyo F Series"; "Kyo G Series"]);
     ("Coronus", ["Coronus"; "Coronus HP"; "Coronus DX"]);
     ("Flex", ["Exelan Flex"; "Exelan Flex45"; "Flex D Series";
               "Flex E Series"; "Flex F Series"; "Flex G Series";
               "Flex H Series"]);
     ("Versys Metal", ["Versys Metal"; "Versys Metal45"; "Versys Metal L";
                       "Versys Metal M"; "Versys Metal N"])];
  LOCATIONS := ["California"; "Texas"; "Arizona"; "Oregon"; "New York";
                "Massachusetts"; "Washington"; "Florida"; "Georgia"];
  PART_TYPES := [("raw", ["Metal"; "Plastic"; "Ceramic"]);
                 ("subassembly", ["Chamber"; "Controller"])];
  INVENTORY_RANGE := (50, 1000);
  DEMAND_RANGE := (10, 200);
  CAPACITY_RANGE := (1000, 10000);
  QUANTITY_RANGE := (1, 20);
  DISTANCE_RANGE := (10, 1000);
  PART_VALIDITY_RANGE := (1, 12);
  COST_RANGE := (100, 10000)%R;
  IMPORTANCE_FACTOR_RANGE := (0.1, 1.0)%R;
  RELIABILITY_RANGE := (0.6, 0.99)%R;
  TRANSPORTATION_COST_RANGE := (10, 1000)%R;
  TRANSPORTATION_TIME_RANGE := (1, 30)%R;
  SUPPLIER_SIZES :=
    [("small", {| ss_range := (100, 300); ss_max_connections := 2 |});
     ("medium", {| ss_range := (301, 600); ss_max_connections := 4 |});
     ("large", {| ss_range := (601, 1000); ss_max_connections := 6 |})];
  WAREHOUSE_SIZES :=
    [("small", {| ws_capacity := (1000, 3000); ws_max_parts := 5 |});
     ("medium", {| ws_capacity := (3001, 6000); ws_max_parts := 10 |});
     ("large", {| ws_capacity := (6001, 10000); ws_max_parts := 15 |})];
  TEMPORAL_VARIATION :=
    [("revenue", {| max_change := 0.1%R; trend := 0.02%R |});
     ("cost", {| max_change := 0%R; trend := 0%R |})]
|}.

(** A random source that returns the same raw draw for ever, and one that
    replays a list of raw draws and then returns 0. *)
Definition constant_source (z : Z) : RandomSource :=
  {| draws := fun _ => z; cursor := 0 |}.

Definition replay (l : list Z) : RandomSource :=
  {| draws := fun i => nth i l 0; cursor := 0 |}.

(* ================================================================= *)
(** ** Vocabulary of the statements *)

(** [c] is the floor of the exact value of the float [x]. *)
Definition is_floor_of (x : Binary64.float) (c : Z) : Prop :=
  Binary64.is_finite x = true /\
  c * Binary64.denominator x <= Binary64.numerator x
    < (c + 1) * Binary64.denominator x.

(** A float whose sign bit is clear, if it has one. *)
Definition sign_clear (x : Binary64.float) : Prop :=
  match x with
  | S754_zero _ => True
  | S754_finite s _ _ => s = false
  | S754_infinity s => s = false
  | S754_nan => True
  end.

(** The ratio table of the planner, as the specification lists it. *)
Definition category_ratios : list (string * Binary64.float) :=
  [("parts", Binary64.literal 50 100); ("suppliers", Binary64.literal 15 100);
   ("warehouses", Binary64.literal 20 100);
   ("facilities", Binary64.literal 15 100)].

Definition parts_ratios : list (string * Binary64.float) :=
  [("raw", Binary64.literal 6 10); ("subassembly", Binary64.literal 4 10)].

Definition supplier_ratios : list (string * Binary64.float) :=
  [("small", Binary64.literal 4 10); ("medium", Binary64.literal 35 100);
   ("large", Binary64.literal 25 100)].

Definition warehouse_ratios : list (string * Binary64.float) :=
  [("supplier", Binary64.literal 4 10); ("subassembly", Binary64.literal 35 100);
   ("lam", Binary64.literal 25 100)].

Definition facility_ratios : list (string * Binary64.float) :=
  [("external", Binary64.literal 6 10); ("lam", Binary64.literal 4 10)].

(** Every entry of [counts] is the floor of [parent * ratio] for the ratio
    of the same name, and is not negative. *)
Definition split_by (parent : Z) (ratios : list (string * Binary64.float))
  (counts : dict Z) : Prop :=
  Forall2 (fun kr kc =>
             fst kr = fst kc /\
             is_floor_of (product parent (snd kr)) (snd kc) /\
             0 <= snd kc)
    ratios counts.

Definition category_counts (d : Distribution) : dict Z :=
  [("parts", nc_parts (node_counts d));
   ("suppliers", nc_suppliers (node_counts d));
   ("warehouses", nc_warehouses (node_counts d));
   ("facilities", nc_facilities (node_counts d))].

Definition total_of (counts : dict Z) : Z :=
  fold_right Z.add 0 (values counts).

(** A random source that returns the listed raw draws at the listed
    positions and 0 everywhere else.  With raw draw 0, [randint] returns its
    lower bound, [uniform] its lower bound, and [choice] and [sample] pick
    the element at index 0. *)
Definition scripted (l : list (nat * Z)) : RandomSource :=
  {| draws := fun i => get_default l i 0; cursor := 0 |}.

(** The entity factory: the first five calls of [generate_data]. *)
Definition generate_entities (cfg : Config) (self : SupplyChainGenerator)
  (rnd : RandomSource) : result (SupplyChainGenerator * RandomSource) :=
  '(self1, rnd1) <- _generate_business_hierarchy cfg self rnd ;;
  '(self2, rnd2) <- _generate_suppliers cfg self1 rnd1 ;;
  '(self3, rnd3) <- _generate_warehouses cfg self2 rnd2 ;;
  '(self4, rnd4) <- _generate_facilities cfg self3 rnd3 ;;
  _generate_parts cfg self4 rnd4.

(** [SupplyChainGenerator(total, periods, ver)] followed by a call of the
    method [m]. *)
Definition construct_and {A : Type} (total : Z) (periods : nat) (ver : string)
  (m : SupplyChainGenerator -> result A) : result A :=
  self <- __init__ total periods ver ;; m self.

(** The generator created for a budget of 0 nodes; it stands in where a run
    that is known to succeed is taken apart. *)
Definition blank_generator : SupplyChainGenerator :=
  {| G := empty_graph; temporal_graphs := []; temporal_data := [];
     total_variable_nodes := 0; base_periods := 1%nat;
     current_period := 0%nat;
     distribution :=
       {| node_counts := {| nc_parts := 0; nc_suppliers := 0;
                            nc_warehouses := 0; nc_facilities := 0 |};
          parts_distribution := [("raw", 0); ("subassembly", 0)];
          supplier_distribution := [("small", 0); ("medium", 0); ("large", 0)];
          warehouse_distribution :=
            [("supplier", 0); ("subassembly", 0); ("lam", 0)];
          facility_distribution := [("external", 0); ("lam", 0)] |};
     suppliers := [];
     warehouses := [("supplier", []); ("subassembly", []); ("lam", [])];
     facilities := [("external", []); ("lam", [])];
     parts := [("raw", []); ("subassembly", [])];
     product_offerings := []; product_families := [];
     business_group := None;
     operations_log := []; version := ""; timestamp := 0%nat |}.

Definition generator_of (r : result (SupplyChainGenerator * RandomSource))
  : SupplyChainGenerator :=
  match r with
  | Ok (self, _) => self
  | Raise _ => blank_generator
  end.

(** The generator for 15 nodes after the entity factory has run on all-zero
    draws: the business hierarchy, the warehouses [W_001] (supplier type)
    and [W_002] (subassembly type), both of capacity 1000, the facility
    [F_001] and the parts [P_001] to [P_006]. *)
Definition demo_entities : SupplyChainGenerator :=
  generator_of
    (construct_and 15 3 "v1"
       (fun self => generate_entities sample_config self (scripted []))).

Definition demo_warehouse : Warehouse :=
  {| w_id := "W_001"; w_name := "Warehouse_1"; w_type := "supplier";
     w_location := "California"; w_size_category := "small";
     w_max_capacity := 1000; w_current_capacity := 0; w_safety_stock := 50;
     w_max_parts := 5 |}.

(** The policy "skip, do not clip" for one candidate part: when the sampled
    draw exceeds the remaining capacity, the iteration changes nothing but
    the random source. *)
Definition skips_oversized_draw (cfg : Config) (warehouse : Warehouse)
  (self : SupplyChainGenerator) (rnd : RandomSource) (current_inventory : Z)
  (part : Part) : Prop :=
  forall draw rnd1,
    randint_range (INVENTORY_RANGE cfg) rnd = Ok (draw, rnd1) ->
    w_max_capacity warehouse - current_inventory < draw ->
    connect_warehouse_part cfg warehouse (self, rnd, current_inventory) part
    = Ok (self, rnd1, current_inventory).

(** The two records that an accepted assignment appends to the log. *)
Definition assignment_records (self : SupplyChainGenerator)
  (warehouse : Warehouse) (part : Part) (inventory_level : Z)
  (storage_cost : R) (current_inventory : Z) : list operation :=
  [{| action := "create"; op_type := "schema";
      op_payload := EdgePayload (w_id warehouse) (p_id part) "WAREHOUSE_PARTS"
                      [("inventory_level", VInt inventory_level);
                       ("storage_cost", VFloat storage_cost)];
      op_timestamp := timestamp self; op_version := version self |};
   {| action := "update"; op_type := "schema";
      op_payload := NodePayload (w_id warehouse) "WAREHOUSE"
                      [("current_capacity", VInt current_inventory)];
      op_timestamp := timestamp self; op_version := version self |}].

(** A part with identifier [P_004]. *)
Definition demo_part : Part :=
  {| p_id := "P_004"; p_name := "Part_4"; p_type := "raw"; p_subtype := "Metal";
     p_cost := 100; p_importance_factor := 0.1; p_valid_from := 0;
     p_valid_till := 30 |}.

(* ================================================================= *)
(** ** The attribute updates of one period, as a list *)

(** One in-scope node attribute: the node, the attribute, the base value
    that the formula is applied to, and the feature tag. *)
Record NodeUpdate : Type := {
  nu_node : string; nu_key : string; nu_base : R; nu_feature : string
}.

Definition target (u : NodeUpdate) : string * string := (nu_node u, nu_key u).

Definition offering_updates (o : ProductOffering) : list NodeUpdate :=
  [{| nu_node := po_id o; nu_key := "cost"; nu_base := po_cost o;
      nu_feature := "cost" |};
   {| nu_node := po_id o; nu_key := "demand"; nu_base := IZR (po_demand o);
      nu_feature := "demand" |}].

Definition family_update (f : ProductFamily) : NodeUpdate :=
  {| nu_node := pf_id f; nu_key := "revenue"; nu_base := pf_revenue f;
     nu_feature := "revenue" |}.

Definition warehouse_update (w : Warehouse) : NodeUpdate :=
  {| nu_node := w_id w; nu_key := "current_capacity";
     nu_base := IZR (w_current_capacity w); nu_feature := "capacity" |}.

Definition supplier_update (s : Supplier) : NodeUpdate :=
  {| nu_node := s_id s; nu_key := "reliability"; nu_base := s_reliability s;
     nu_feature := "reliability" |}.

Definition part_update (p : Part) : NodeUpdate :=
  {| nu_node := p_id p; nu_key := "cost"; nu_base := p_cost p;
     nu_feature := "cost" |}.

Definition business_group_update (b : BusinessGroup) : NodeUpdate :=
  {| nu_node := bg_id b; nu_key := "revenue"; nu_base := bg_revenue b;
     nu_feature := "revenue" |}.

Definition period_date (time_period : nat) : Z :=
  add_days BASE_DATE (30 * Z.of_nat time_period).

(** The parts whose validity window contains the date of the period. *)
Definition valid_parts (self : SupplyChainGenerator) (time_period : nat)
  : list Part :=
  filter (fun p => in_validity_window p (period_date time_period))
    (all_values (parts self)).

(** The node attributes in scope of a period, in the order in which both
    evolution modes visit them, each with the value held by the entity
    record of the generator. *)
Definition entity_updates (self : SupplyChainGenerator) (time_period : nat)
  : list NodeUpdate :=
  map family_update (product_families self) ++
  flat_map offering_updates (product_offerings self) ++
  map warehouse_update (all_values (warehouses self)) ++
  map supplier_update (suppliers self) ++
  map part_update (valid_parts self time_period).

Definition node_updates (self : SupplyChainGenerator) (time_period : nat)
  : list NodeUpdate :=
  match business_group self with
  | Some b => business_group_update b :: entity_updates self time_period
  | None => []
  end.

(** The formula applied to a base value, with the noise drawn from [rnd]. *)
Definition evolved (cfg : Config) (base : R) (feature : string)
  (time_period : nat) (rnd : RandomSource) : value :=
  VFloat (fst (_generate_temporal_value cfg base feature time_period rnd)).

(** Assigning one node attribute from its base value. *)
Definition apply_node_update (cfg : Config) (time_period : nat)
  (gr : DiGraph * RandomSource) (u : NodeUpdate)
  : result (DiGraph * RandomSource) :=
  g <- setitem_node (fst gr) (nu_node u) (nu_key u)
         (evolved cfg (nu_base u) (nu_feature u) time_period (snd gr)) ;;
  Ok (g, snd (_generate_temporal_value cfg (nu_base u) (nu_feature u)
                time_period (snd gr))).

(** The two edge attributes in scope, with their feature tags. *)
Definition edge_features : list (string * string) :=
  [("transportation_cost", "transportation_cost");
   ("inventory_level", "inventory")].

(** Assigning one attribute of one edge from its current value, if the edge
    has the attribute. *)
Definition apply_edge_update (cfg : Config) (time_period : nat)
  (uv : string * string) (gr : DiGraph * RandomSource)
  (kf : string * string) : result (DiGraph * RandomSource) :=
  attrs0 <- edge_attrs (fst gr) (fst uv) (snd uv) ;;
  if dict_mem attrs0 (fst kf) then
    base <- bind (getitem attrs0 (fst kf)) as_number ;;
    g <- setitem_edge (fst gr) (fst uv) (snd uv) (fst kf)
           (evolved cfg base (snd kf) time_period (snd gr)) ;;
    Ok (g, snd (_generate_temporal_value cfg base (snd kf) time_period (snd gr)))
  else Ok gr.

Definition apply_edge_updates (cfg : Config) (time_period : nat)
  (gr : DiGraph * RandomSource) (uv : string * string)
  : result (DiGraph * RandomSource) :=
  foldM (apply_edge_update cfg time_period uv) edge_features gr.

Definition map_result {A B : Type} (f : A -> B) (r : result A) : result B :=
  match r with
  | Ok a => Ok (f a)
  | Raise e => Raise e
  end.

(** The graph and the random source of a loop state. *)
Definition period_view (st : PeriodState) : DiGraph * RandomSource :=
  (period_graph st, rs st).

Definition update_view (st : UpdateState) : DiGraph * RandomSource :=
  (u_graph st, u_rs st).

(** The graph of a period, computed from a base graph: every listed node
    attribute is assigned from the value in the entity record, then every
    edge attribute in scope is assigned from its value in the graph. *)
Definition period_run (cfg : Config) (self : SupplyChainGenerator)
  (time_period : nat) (gr : DiGraph * RandomSource)
  : result (DiGraph * RandomSource) :=
  match business_group self with
  | None => Raise TypeError
  | Some _ =>
      gr1 <- foldM (apply_node_update cfg time_period)
               (node_updates self time_period) gr ;;
      foldM (apply_edge_updates cfg time_period) (edges (fst gr1)) gr1
  end.

(* ================================================================= *)
(** ** Vocabulary for the change log *)

(** [s'] is [s] with the records [recs] appended to its log, and nothing
    else changed. *)
Definition appends (recs : list operation) (s s' : SupplyChainGenerator)
  : Prop :=
  s' = with_log s (operations_log s ++ recs).

(** [s'] is [s] with records appended that all satisfy [P]. *)
Definition log_extends (P : operation -> Prop) (s s' : SupplyChainGenerator)
  : Prop :=
  exists recs, appends recs s s' /\ Forall P recs.

(** The record is an update of a part that is in its validity window in
    period [t], if it is an update of a part at all. *)
Definition part_record_valid (self : SupplyChainGenerator) (t : nat)
  (op : operation) : Prop :=
  forall id props,
    op_payload op = NodePayload id "PARTS" props ->
    exists p, In p (valid_parts self t) /\ p_id p = id.

(** An update record written during period [t] at timestamp [ts]. *)
Definition period_record (self : SupplyChainGenerator) (t ts : nat)
  (op : operation) : Prop :=
  action op = "update" /\ op_timestamp op = ts /\ part_record_valid self t op.

(** A record written by a regeneration pass that started at timestamp
    [ts0]: the update of some period [t] of the pass. *)
Definition regeneration_record (self : SupplyChainGenerator) (ts0 : nat)
  (op : operation) : Prop :=
  exists t, (1 <= t < base_periods self)%nat /\
            period_record self t (ts0 + t)%nat op.

(** The entity collections and the fixed fields of two generators agree. *)
Definition same_entities (s s' : SupplyChainGenerator) : Prop :=
  suppliers s' = suppliers s /\ warehouses s' = warehouses s /\
  facilities s' = facilities s /\ parts s' = parts s /\
  product_offerings s' = product_offerings s /\
  product_families s' = product_families s /\
  business_group s' = business_group s /\
  base_periods s' = base_periods s /\ version s' = version s /\
  total_variable_nodes s' = total_variable_nodes s /\
  distribution s' = distribution s.

(** What the loops of one period do to the generator they carry: while its
    timestamp is [ts], they append update records of period [t]. *)
Definition period_logs (self : SupplyChainGenerator) (t ts : nat)
  (st st' : PeriodState) : Prop :=
  timestamp (gen st) = ts ->
  log_extends (period_record self t ts) (gen st) (gen st').

(** The outcome of evolving one edge attribute: an absent attribute stays
    absent; a present one must be a number and becomes the formula applied
    to that number. *)
Definition edge_evolved (cfg : Config) (t : nat) (feature : string)
  (before after : option value) : Prop :=
  match before with
  | None => after = None
  | Some x =>
      exists b r0, as_number x = Ok b /\
                   after = Some (evolved cfg b feature t r0)
  end.

Definition is_number (v : value) : Prop := exists b, as_number v = Ok b.

(** The edge can be looked up, and its attributes in scope are numbers. *)
Definition edge_ok (g : DiGraph) (u v : string) : Prop :=
  exists a, edge_attrs g u v = Ok a /\
    forall k f x, In (k, f) edge_features -> dict_get a k = Some x ->
                  is_number x.

(** Every edge that [G.edges] lists is such an edge. *)
Definition edges_evolvable (g : DiGraph) : Prop :=
  forall u v, In (u, v) (edges g) -> edge_ok g u v.

(** The generator can evolve the graph [g]: it has a business group, every
    node it assigns is in [g], and every edge of [g] can be evolved. *)
Definition evolvable (self : SupplyChainGenerator) (g : DiGraph) : Prop :=
  business_group self <> None /\
  (forall t u, In u (node_updates self t) ->
     dict_mem (_node g) (nu_node u) = true) /\
  edges_evolvable g.

(** The adjacency table lists no source twice and no target twice under
    one source, as a dictionary of dictionaries does. *)
Definition wf_graph (g : DiGraph) : Prop :=
  NoDup (keys (_adj g)) /\
  Forall (fun un => NoDup (keys (snd un))) (_adj g).

Definition is_ok {A : Type} (r : result A) : bool :=
  match r with
  | Ok _ => true
  | Raise _ => false
  end.

(** The identifiers of all entity records of the generator. *)
Definition entity_ids (self : SupplyChainGenerator) : list string :=
  match business_group self with
  | Some b => [bg_id b]
  | None => []
  end ++
  map pf_id (product_families self) ++
  map po_id (product_offerings self) ++
  map w_id (all_values (warehouses self)) ++
  map s_id (suppliers self) ++
  map p_id (all_values (parts self)).

Definition is_number_b (v : value) : bool :=
  match v with
  | VInt _ | VFloat _ => true
  | _ => false
  end.

Definition edge_ok_b (g : DiGraph) (uv : string * string) : bool :=
  match edge_attrs g (fst uv) (snd uv) with
  | Ok a =>
      forallb (fun kf : string * string =>
                 match dict_get a (fst kf) with
                 | Some x => is_number_b x
                 | None => true
                 end) edge_features
  | Raise _ => false
  end.

(** A test that implies [evolvable]. *)
Definition evolvable_b (self : SupplyChainGenerator) (g : DiGraph) : bool :=
  match business_group self with Some _ => true | None => false end &&
  forallb (dict_mem (_node g)) (entity_ids self) &&
  forallb (edge_ok_b g) (edges g).

Fixpoint nodup_b (l : list string) : bool :=
  match l with
  | [] => true
  | x :: r => negb (existsb (String.eqb x) r) && nodup_b r
  end.

(** The generator for 15 nodes and 3 periods after [generate_data] has run
    on all-zero draws.  Every part is valid for one month, so the parts are
    in their window in period 1 and out of it from period 2 on. *)
Definition demo_generated : SupplyChainGenerator :=
  generator_of
    (construct_and 15 3 "v1"
       (fun self => generate_data sample_config self (scripted []))).

(* ================================================================= *)
(** ** A small budget for the wiring passes *)

(** The part of [generate_data] that runs before
    [_connect_parts_to_facilities]: the entity factory and the first two
    wiring passes. *)
Definition generate_up_to_warehouse_parts (cfg : Config)
  (self : SupplyChainGenerator) (rnd : RandomSource)
  : result (SupplyChainGenerator * RandomSource) :=
  '(self5, rnd5) <- generate_entities cfg self rnd ;;
  '(self6, rnd6) <- _connect_suppliers_to_warehouses cfg self5 rnd5 ;;
  _connect_warehouses_to_parts cfg self6 rnd6.

(** The number of records stored under a category. *)
Definition population {A : Type} (d : dict (list A)) (kind : string) : Z :=
  len (get_default d kind []).

(* ================================================================= *)
(** ** Reading the change log *)

(** The [properties] field of a record. *)
Definition properties_of (op : operation) : attrs :=
  match op_payload op with
  | NodePayload _ _ a => a
  | EdgePayload _ _ _ a => a
  end.

(** The record lists the field [key] among its properties. *)
Definition mentions (key : string) (op : operation) : bool :=
  dict_mem (properties_of op) key.

(** The generator that [simulate_next_period] returns. *)
Definition extended (r : result (nat * SupplyChainGenerator * RandomSource))
  : SupplyChainGenerator :=
  match r with
  | Ok (_, self, _) => self
  | Raise _ => blank_generator
  end.

(** [demo_generated] after one call of [simulate_next_period]. *)
Definition demo_extended : SupplyChainGenerator :=
  extended (simulate_next_period sample_config demo_generated (scripted [])).

(** [self.temporal_graphs[t].nodes[n][k]], if it exists. *)
Definition snapshot_attr (self : SupplyChainGenerator) (t : nat)
  (n k : string) : option value :=
  match dict_get (temporal_graphs self) t with
  | Some g => node_attr g n k
  | None => None
  end.


(** The generator for 15 nodes and 1 period after [generate_data] has run on
    all-zero draws: it holds snapshot 0 only. *)
Definition demo_base : SupplyChainGenerator :=
  generator_of
    (construct_and 15 1 "v1"
       (fun self => generate_data sample_config self (scripted []))).

(** [demo_base] after one and after two calls of [simulate_next_period]. *)
Definition demo_once : SupplyChainGenerator :=
  extended (simulate_next_period sample_config demo_base (scripted [])).

Definition demo_twice : SupplyChainGenerator :=
  extended (simulate_next_period sample_config demo_once (scripted [])).

(** [self.temporal_graphs[t].edges[u, v][k]], if it exists. *)
Definition snapshot_edge_attr (self : SupplyChainGenerator) (t : nat)
  (u v k : string) : option value :=
  match dict_get (temporal_graphs self) t with
  | Some g => edge_attr g u v k
  | None => None
  end.

(* ================================================================= *)
(** ** Vocabulary for the capacity of warehouses *)

(** The number stored under attribute [k] of node [n]. *)
Definition number_attr (g : DiGraph) (n k : string) : option R :=
  match node_attr g n k with
  | Some v => match as_number v with Ok x => Some x | Raise _ => None end
  | None => None
  end.

(** Node [n] holds a current capacity between 0 and its maximal capacity. *)
Definition within_capacity (g : DiGraph) (n : string) : Prop :=
  exists c m, number_attr g n "current_capacity" = Some c /\
              number_attr g n "max_capacity" = Some m /\ (0 <= c <= m)%R.

(** Every warehouse of the generator is within its capacity in [g]. *)
Definition warehouses_within_capacity (self : SupplyChainGenerator)
  (g : DiGraph) : Prop :=
  forall w, In w (all_values (warehouses self)) -> within_capacity g (w_id w).

(** No capacity range of the configuration starts below 0. *)
Definition capacity_ranges_nonnegative (cfg : Config) : Prop :=
  forall k size, dict_get (WAREHOUSE_SIZES cfg) k = Some size ->
                 0 <= fst (ws_capacity size).

Definition capacity_ranges_nonnegative_b (cfg : Config) : bool :=
  forallb (fun ks => 0 <=? fst (ws_capacity (snd ks))) (WAREHOUSE_SIZES cfg).

(** The text starts with the letter W, as the identifiers of warehouses do. *)
Definition starts_with_W (n : string) : Prop :=
  match n with
  | String c _ => c = "W"%char
  | EmptyString => False
  end.

(** What the records of the warehouses look like: the field
    [current_capacity] is the 0 of the factory, the maximal capacity is not
    negative, and the identifier is [W_] followed by a number. *)
Definition warehouse_records_fresh (self : SupplyChainGenerator) : Prop :=
  forall w, In w (all_values (warehouses self)) ->
    w_current_capacity w = 0 /\ 0 <= w_max_capacity w /\
    exists j, w_id w = format_id "W_" j.

(** The graph [g] agrees with the records on the maximal capacity of every
    warehouse and holds a current capacity within it. *)
Definition capacity_kept (self : SupplyChainGenerator) (g : DiGraph) : Prop :=
  forall w, In w (all_values (warehouses self)) ->
    node_attr g (w_id w) "max_capacity" = Some (VInt (w_max_capacity w)) /\
    exists c, number_attr g (w_id w) "current_capacity" = Some c /\
              (0 <= c <= IZR (w_max_capacity w))%R.

(** The invariant of the generator: fresh records, and capacities kept in
    the graph and in every stored snapshot. *)
Definition capacity_invariant (self : SupplyChainGenerator) : Prop :=
  warehouse_records_fresh self /\ capacity_kept self (G self) /\
  forall t g, dict_get (temporal_graphs self) t = Some g ->
              capacity_kept self g.

(** A step that leaves the warehouses alone: their records, the snapshots,
    and every attribute of their nodes other than [distances]. *)
Definition keeps_warehouses (s s' : SupplyChainGenerator) : Prop :=
  warehouses s' = warehouses s /\
  temporal_graphs s' = temporal_graphs s /\
  forall n k, starts_with_W n -> k <> "distances" ->
              node_attr (G s') n k = node_attr (G s) n k.

(** The stages of [generate_data] before the temporal snapshots.
    [Filling w c] is a point inside [_connect_warehouses_to_parts]: the
    inner loop runs for warehouse [w] and [current_inventory] is [c]. *)
Inductive stage : Type :=
| Initialised | HierarchyMade | SuppliersMade | WarehousesMade
| FacilitiesMade | PartsMade | SuppliersWired
| Filling (warehouse : Warehouse) (current_inventory : Z)
| WarehousesWired
| PartsWired | ProductsWired | HierarchyWired | DistancesSet.

(** The stages at which no warehouse has been made yet. *)
Definition before_warehouses (k : stage) : Prop :=
  match k with
  | Initialised | HierarchyMade | SuppliersMade => True
  | _ => False
  end.

(** [built cfg k s]: the generator [s] is what the calls of [generate_data]
    up to stage [k] produce from a new generator.  Inside
    [_connect_warehouses_to_parts] the loops are followed iteration by
    iteration: the outer loop picks a warehouse and starts at inventory 0,
    the inner loop runs [connect_warehouse_part] for one part. *)
Inductive built (cfg : Config) : stage -> SupplyChainGenerator -> Prop :=
| built_init total periods ver s :
    __init__ total periods ver = Ok s -> built cfg Initialised s
| built_hierarchy s rnd s' rnd' :
    built cfg Initialised s ->
    _generate_business_hierarchy cfg s rnd = Ok (s', rnd') ->
    built cfg HierarchyMade s'
| built_suppliers s rnd s' rnd' :
    built cfg HierarchyMade s ->
    _generate_suppliers cfg s rnd = Ok (s', rnd') ->
    built cfg SuppliersMade s'
| built_warehouses s rnd s' rnd' :
    built cfg SuppliersMade s ->
    _generate_warehouses cfg s rnd = Ok (s', rnd') ->
    built cfg WarehousesMade s'
| built_facilities s rnd s' rnd' :
    built cfg WarehousesMade s ->
    _generate_facilities cfg s rnd = Ok (s', rnd') ->
    built cfg FacilitiesMade s'
| built_parts s rnd s' rnd' :
    built cfg FacilitiesMade s ->
    _generate_parts cfg s rnd = Ok (s', rnd') ->
    built cfg PartsMade s'
| built_suppliers_wired s rnd s' rnd' :
    built cfg PartsMade s ->
    _connect_suppliers_to_warehouses cfg s rnd = Ok (s', rnd') ->
    built cfg SuppliersWired s'
| built_filling_first s w :
    built cfg SuppliersWired s ->
    In w (all_values (warehouses s)) ->
    built cfg (Filling w 0) s
| built_filling_part s w c rnd part s' rnd' c' :
    built cfg (Filling w c) s ->
    connect_warehouse_part cfg w (s, rnd, c) part = Ok (s', rnd', c') ->
    built cfg (Filling w c') s'
| built_filling_next s w c w' :
    built cfg (Filling w c) s ->
    In w' (all_values (warehouses s)) ->
    built cfg (Filling w' 0) s
| built_warehouses_wired s rnd s' rnd' :
    built cfg SuppliersWired s ->
    _connect_warehouses_to_parts cfg s rnd = Ok (s', rnd') ->
    built cfg WarehousesWired s'
| built_parts_wired s rnd s' rnd' :
    built cfg WarehousesWired s ->
    _connect_parts_to_facilities cfg s rnd = Ok (s', rnd') ->
    built cfg PartsWired s'
| built_products_wired s rnd s' rnd' :
    built cfg PartsWired s ->
    _connect_facilities_to_products cfg s rnd = Ok (s', rnd') ->
    built cfg ProductsWired s'
| built_hierarchy_wired s s' :
    built cfg ProductsWired s ->
    _connect_hierarchy cfg s = Ok s' ->
    built cfg HierarchyWired s'
| built_distances s rnd s' rnd' :
    built cfg HierarchyWired s ->
    _calculate_distances cfg s rnd = Ok (s', rnd') ->
    built cfg DistancesSet s'.

(** [reachable cfg s]: the generator [s] is the result of [generate_data] on
    a new generator, followed by any number of incremental extensions and
    full resets. *)
Inductive reachable (cfg : Config) : SupplyChainGenerator -> Prop :=
| reach_generate total periods ver s0 rnd s rnd' :
    __init__ total periods ver = Ok s0 ->
    generate_data cfg s0 rnd = Ok (s, rnd') ->
    reachable cfg s
| reach_simulate s rnd n s' rnd' :
    reachable cfg s ->
    simulate_next_period cfg s rnd = Ok (n, s', rnd') ->
    reachable cfg s'
| reach_regenerate s rnd s' rnd' :
    reachable cfg s ->
    regenerate_all_periods cfg s rnd = Ok (s', rnd') ->
    reachable cfg s'.

(** The relation on the states of a factory loop and of a wiring loop. *)
Definition factory_keeps (st st' : FactoryState) : Prop :=
  keeps_warehouses (fst (fst st)) (fst (fst st')).

Definition wiring_keeps (st st' : SupplyChainGenerator * RandomSource)
  : Prop :=
  keeps_warehouses (fst st) (fst st').

(** The counter that an identifier was formatted from. *)
Definition counter_of (digits : string) : nat :=
  match NilEmpty.uint_of_string digits with
  | Some d => Nat.of_uint d
  | None => 0%nat
  end.

(** The invariant of the loops of [_generate_warehouses]: the warehouses
    made so far carry the counters below the running one. *)
Definition warehouses_numbered (snapshots : list (nat * DiGraph))
  (st : FactoryState) : Prop :=
  let self := fst (fst st) in
  (forall w, In w (all_values (warehouses self)) ->
     w_current_capacity w = 0 /\ 0 <= w_max_capacity w /\
     exists j, (j < snd st)%nat /\ w_id w = format_id "W_" j) /\
  capacity_kept self (G self) /\
  temporal_graphs self = snapshots.

(** The invariant of the graph under construction. *)
Definition capacity_state (self : SupplyChainGenerator) : Prop :=
  warehouse_records_fresh self /\ capacity_kept self (G self).

(** The invariant of the inner loop of [_connect_warehouses_to_parts]:
    the accumulated inventory of the warehouse is within its capacity. *)
Definition filling (warehouses0 : dict (list Warehouse))
  (snapshots : list (nat * DiGraph)) (warehouse : Warehouse)
  (st : SupplyChainGenerator * RandomSource * Z) : Prop :=
  let self := fst (fst st) in
  capacity_state self /\ warehouses self = warehouses0 /\
  temporal_graphs self = snapshots /\
  0 <= snd st <= w_max_capacity warehouse.

(** The invariant of its outer loop. *)
Definition filled (warehouses0 : dict (list Warehouse))
  (snapshots : list (nat * DiGraph))
  (st : SupplyChainGenerator * RandomSource) : Prop :=
  capacity_state (fst st) /\ warehouses (fst st) = warehouses0 /\
  temporal_graphs (fst st) = snapshots.

(** What is known of the generator at each stage of the construction. *)
Definition stage_invariant (k : stage) (s : SupplyChainGenerator) : Prop :=
  capacity_state s /\ temporal_graphs s = [] /\
  match k with
  | Initialised | HierarchyMade | SuppliersMade =>
      all_values (warehouses s) = []
  | Filling w c =>
      In w (all_values (warehouses s)) /\ 0 <= c <= w_max_capacity w
  | _ => True
  end.

(** The first warehouse of [demo_generated], [W_001]. *)
Definition demo_first_warehouse : Warehouse :=
  nth 0 (all_values (warehouses demo_generated)) demo_warehouse.

(** The new generator for 15 nodes and 3 periods. *)
Definition demo_initial : SupplyChainGenerator :=
  match __init__ 15 3 "v1" with
  | Ok s => s
  | Raise _ => blank_generator
  end.

(* ================================================================= *)
(** ** Vocabulary for the structure of the snapshots *)

(** The node attributes that the evolution modes assign. *)
Definition evolving_node_keys : list string :=
  ["revenue"; "cost"; "demand"; "current_capacity"; "reliability"].

(** [g'] has the nodes and the edges of [g], in the same order, and agrees
    with [g] on every attribute that the evolution modes do not assign. *)
Definition same_structure (g g' : DiGraph) : Prop :=
  keys (_node g') = keys (_node g) /\
  edges g' = edges g /\
  (forall n k, ~ In k evolving_node_keys ->
     node_attr g' n k = node_attr g n k) /\
  (forall u v k, ~ In k (map fst edge_features) ->
     edge_attr g' u v k = edge_attr g u v k).

(** The latest snapshot of [demo_generated], that of period 2. *)
Definition demo_latest : DiGraph :=
  match dict_get (temporal_graphs demo_generated) 2%nat with
  | Some g => g
  | None => empty_graph
  end.

(* ================================================================= *)
(** ** Vocabulary for the validity of parts *)

(** The number of months between the two dates of a part. *)
Definition validity_months (p : Part) : Z :=
  (p_valid_till p - p_valid_from p) / 30.

(** The part is valid from the base date for a whole number of months that
    lies in the configured range. *)
Definition validity_drawn (cfg : Config) (p : Part) : Prop :=
  p_valid_from p = BASE_DATE /\
  p_valid_till p = add_days BASE_DATE (30 * validity_months p) /\
  fst (PART_VALIDITY_RANGE cfg) <= validity_months p
  <= snd (PART_VALIDITY_RANGE cfg).

(** The random source that a call leaves behind. *)
Definition source_of (r : result (SupplyChainGenerator * RandomSource))
  : RandomSource :=
  match r with
  | Ok (_, rnd) => rnd
  | Raise _ => scripted []
  end.

(** The calls of [generate_data] before [_generate_parts]. *)
Definition generate_up_to_facilities (cfg : Config)
  (self : SupplyChainGenerator) (rnd : RandomSource)
  : result (SupplyChainGenerator * RandomSource) :=
  '(self1, rnd1) <- _generate_business_hierarchy cfg self rnd ;;
  '(self2, rnd2) <- _generate_suppliers cfg self1 rnd1 ;;
  '(self3, rnd3) <- _generate_warehouses cfg self2 rnd2 ;;
  _generate_facilities cfg self3 rnd3.

(** The demonstration generator before its parts are made. *)
Definition demo_before_parts : SupplyChainGenerator :=
  generator_of
    (construct_and 15 3 "v1"
       (fun self => generate_up_to_facilities sample_config self (scripted []))).

Definition demo_before_parts_source : RandomSource :=
  source_of
    (construct_and 15 3 "v1"
       (fun self => generate_up_to_facilities sample_config self (scripted []))).

(* ================================================================= *)
(** ** The export of all snapshots ([export_to_json_all_timestamps]) *)

Module JsonExport.

(** The export can fail with the exceptions of the generator and with the
    [AttributeError] of a call of [strftime] on a value that is no date. *)
Inductive failure : Type :=
| Raised (e : exn)
| AttributeError.

Inductive outcome (A : Type) : Type :=
| Done (a : A)
| Failed (f : failure).
Arguments Done {A} a.
Arguments Failed {A} f.

Definition lift {A : Type} (r : result A) : outcome A :=
  match r with
  | Ok a => Done a
  | Raise e => Failed (Raised e)
  end.

Definition and_then {A B : Type} (m : outcome A) (k : A -> outcome B)
  : outcome B :=
  match m with
  | Done a => k a
  | Failed f => Failed f
  end.

(** A [for] loop that builds a value and may fail. *)
Fixpoint for_each {A B : Type} (f : B -> A -> outcome B) (l : list A) (b : B)
  : outcome B :=
  match l with
  | [] => Done b
  | x :: r => and_then (f b x) (for_each f r)
  end.

(** An entry of an exported row: an attribute value, or [None]. *)
Definition cell : Type := option value.

Definition text (s : string) : cell := Some (VStr s).

(** The tables of the export. *)
Definition node_types : dict (list string) :=
  [("BusinessGroup", ["node_type"; "name"; "description"; "revenue"; "id"]);
   ("ProductFamily", ["node_type"; "name"; "revenue"; "id"]);
   ("ProductOffering", ["node_type"; "name"; "cost"; "demand"; "id"]);
   ("Supplier", ["node_type"; "name"; "location"; "reliability"; "size";
                 "size_category"; "supplied_part_types"; "id"]);
   ("Warehouse", ["node_type"; "name"; "type"; "location"; "size_category";
                  "max_capacity"; "current_capacity"; "safety_stock";
                  "max_parts"; "id"]);
   ("Facility", ["node_type"; "name"; "type"; "location"; "max_capacity";
                 "operating_cost"; "id"]);
   ("Parts", ["node_type"; "name"; "type"; "subtype"; "cost";
              "importance_factor"; "valid_from"; "valid_till"; "id"])].

Definition relationship_types : dict (list string) :=
  [("SupplierToWarehouse", ["relationship_type"; "transportation_cost";
                            "lead_time"; "source"; "target"]);
   ("WarehouseToParts", ["relationship_type"; "inventory_level";
                         "storage_cost"; "source"; "target"]);
   ("PartsToFacility", ["relationship_type"; "quantity"; "distance";
                        "transport_cost"; "lead_time"; "source"; "target"]);
   ("FacilityToParts", ["relationship_type"; "production_cost"; "lead_time";
                        "quantity"; "source"; "target"]);
   ("FacilityToProductOfferings", ["relationship_type"; "product_cost";
                                   "lead_time"; "quantity"; "source";
                                   "target"]);
   ("HierarchicalRelationship", ["relationship_type"; "source"; "target"])].

Definition node_type_mapping : dict string :=
  [("business_group", "BusinessGroup"); ("product_family", "ProductFamily");
   ("product_offering", "ProductOffering"); ("supplier", "Supplier");
   ("warehouse", "Warehouse"); ("facility", "Facility"); ("part", "Parts")].

(** Python's truth value of an attribute value; a date is always true. *)
Definition truthy (v : value) : bool :=
  match v with
  | VInt z => negb (z =? 0)
  | VFloat x => if Req_dec_T x 0 then false else true
  | VStr s => negb (s =? "")%string
  | VDate _ => true
  | VList l => match l with [] => false | _ :: _ => true end
  | VDict d => match d with [] => false | _ :: _ => true end
  end.

(** [dt.strftime("%Y-%m-%d") if dt else None] *)
Definition datetime_to_string (dt : cell) : outcome cell :=
  match dt with
  | None => Done None
  | Some (VDate day) => Done (text (strftime day))
  | Some v => if truthy v then Failed AttributeError else Done None
  end.

(** [node_type_mapping.get(data.get('node_type'))]; a list or a dictionary
    cannot be looked up. *)
Definition mapped_node_type (data : attrs) : outcome (option string) :=
  match dict_get data "node_type" with
  | None => Done None
  | Some (VStr s) => Done (dict_get node_type_mapping s)
  | Some (VList _) | Some (VDict _) => Failed (Raised TypeError)
  | Some _ => Done None
  end.

(** One entry of a node row. *)
Definition node_cell (node_type : string) (data : attrs) (attr : string)
  : outcome cell :=
  if (attr =? "node_type")%string then Done (text node_type)
  else if ((attr =? "valid_from") || (attr =? "valid_till"))%string
       then datetime_to_string (dict_get data attr)
       else Done (dict_get data attr).

(** The loop that fills [node_data]. *)
Definition node_row (node_type : string) (data : attrs)
  (node_values : list string) : outcome (list cell) :=
  for_each (fun node_data attr =>
              and_then (node_cell node_type data attr)
                (fun c => Done (node_data ++ [c])))
    node_values [].

(** The body of the loop over [graph.nodes(data=True)]. *)
Definition export_node (node_values : dict (list (list cell)))
  (nd : string * attrs) : outcome (dict (list (list cell))) :=
  and_then (mapped_node_type (snd nd)) (fun mapped =>
  match mapped with
  | None => Done node_values
  | Some node_type =>
      and_then (lift (getitem node_types node_type)) (fun schema =>
      and_then (node_row node_type (snd nd) schema) (fun node_data =>
      Done (dict_set node_values node_type
              (get_default node_values node_type [] ++ [node_data]))))
  end).

(** [x.get('node_type') == name] *)
Definition has_type (data : attrs) (name : string) : bool :=
  match dict_get data "node_type" with
  | Some (VStr s) => (s =? name)%string
  | _ => false
  end.

(** The relationship type of an edge and the attributes of its row. *)
Definition classify (source_node target_node : attrs)
  : string * list string :=
  if has_type source_node "supplier" && has_type target_node "warehouse"
  then ("SupplierToWarehouse",
        ["relationship_type"; "transportation_cost"; "lead_time"; "source";
         "target"])
  else if has_type source_node "warehouse" && has_type target_node "part"
  then ("WarehouseToParts",
        ["relationship_type"; "inventory_level"; "storage_cost"; "source";
         "target"])
  else if has_type source_node "part" && has_type target_node "facility"
  then ("PartsToFacility",
        ["relationship_type"; "quantity"; "distance"; "transport_cost";
         "lead_time"; "source"; "target"])
  else if has_type source_node "facility" && has_type target_node "part"
  then ("FacilityToParts",
        ["relationship_type"; "production_cost"; "lead_time"; "quantity";
         "source"; "target"])
  else if has_type source_node "facility"
          && has_type target_node "product_offering"
  then ("FacilityToProductOfferings",
        ["relationship_type"; "product_cost"; "lead_time"; "quantity";
         "source"; "target"])
  else ("HierarchicalRelationship", ["source"; "target"]).

(** One entry of a relationship row. *)
Definition relationship_cell (rel_type source target : string)
  (edge_data : attrs) (attr : string) : cell :=
  if (attr =? "source")%string then text source
  else if (attr =? "target")%string then text target
  else if (attr =? "relationship_type")%string then text rel_type
  else dict_get edge_data attr.

(** [graph.edges(data=True)] *)
Definition edges_data (g : DiGraph) : list (string * string * attrs) :=
  flat_map (fun un => map (fun va => (fst un, fst va, snd va)) (snd un))
    (_adj g).

(** The row [rel_data] of one edge. *)
Definition relationship_row (graph : DiGraph) (e : string * string * attrs)
  : outcome (list cell) :=
  let '(source, target, edge_data) := e in
  and_then (lift (node_attrs graph source)) (fun source_node =>
  and_then (lift (node_attrs graph target)) (fun target_node =>
  let (rel_type, rel_attrs) := classify source_node target_node in
  Done (map (relationship_cell rel_type source target edge_data) rel_attrs))).

(** The body of the loop over [graph.edges(data=True)]. *)
Definition export_edge (graph : DiGraph) (rows : list (list cell))
  (e : string * string * attrs) : outcome (list (list cell)) :=
  and_then (relationship_row graph e) (fun rel_data =>
  Done (rows ++ [rel_data])).

(** The export of one timestamp.  Dates are kept as day offsets; their
    text [str(current_date)] is not modelled. *)
Record TimestampExport : Type := {
  directed : bool;
  multigraph : bool;
  graph_date : Z;
  te_node_types : dict (list string);
  te_relationship_types : dict (list string);
  node_values : dict (list (list cell));
  relationship_values : list (list cell)
}.

Definition export_timestamp (timestamp : nat) (graph : DiGraph)
  : outcome TimestampExport :=
  let current_date := add_days BASE_DATE (30 * Z.of_nat timestamp) in
  and_then (for_each export_node (_node graph) []) (fun nodes =>
  and_then (for_each (export_edge graph) (edges_data graph) []) (fun rels =>
  Done {| directed := true; multigraph := false; graph_date := current_date;
          te_node_types := node_types;
          te_relationship_types := relationship_types;
          node_values := nodes; relationship_values := rels |})).

Record Metadata : Type := {
  total_timestamps : Z;
  base_date : Z;
  total_nodes : Z;
  total_edges : Z
}.

Record ExportData : Type := {
  metadata : Metadata;
  timestamps : list (nat * TimestampExport)
}.

(** [export_to_json_all_timestamps] *)
Definition export_to_json_all_timestamps (self : SupplyChainGenerator)
  : outcome ExportData :=
  and_then
    (for_each (fun acc tg =>
                 and_then (export_timestamp (fst tg) (snd tg))
                   (fun te => Done (dict_set acc (fst tg) te)))
       (temporal_graphs self) [])
    (fun exported =>
       Done {| metadata :=
                 {| total_timestamps := len (temporal_graphs self);
                    base_date := BASE_DATE;
                    total_nodes := len (_node (G self));
                    total_edges := len (edges (G self)) |};
               timestamps := exported |}).

End JsonExport.

(** A node that the export can read: its [node_type] is a text or absent,
    and its two dates are dates or absent. *)
Definition node_exportable (data : attrs) : bool :=
  match dict_get data "node_type" with
  | None | Some (VStr _) => true
  | Some _ => false
  end &&
  forallb (fun k => match dict_get data k with
                    | None | Some (VDate _) => true
                    | Some _ => false
                    end) ["valid_from"; "valid_till"].

(** A graph that the export can read: such nodes, and edges between nodes
    of the graph. *)
Definition exportable (g : DiGraph) : bool :=
  forallb (fun nd => node_exportable (snd nd)) (_node g) &&
  forallb (fun e => dict_mem (_node g) (fst (fst e)) &&
                    dict_mem (_node g) (snd (fst e)))
    (JsonExport.edges_data g).

(** The node is exported: its [node_type] is in the mapping. *)
Definition is_exported (data : attrs) : bool :=
  match dict_get data "node_type" with
  | Some (VStr s) => dict_mem JsonExport.node_type_mapping s
  | _ => false
  end.

(** An export with no rows, for a snapshot that cannot be exported. *)
Definition empty_export : JsonExport.TimestampExport :=
  {| JsonExport.directed := true; JsonExport.multigraph := false;
     JsonExport.graph_date := 0;
     JsonExport.te_node_types := JsonExport.node_types;
     JsonExport.te_relationship_types := JsonExport.relationship_types;
     JsonExport.node_values := []; JsonExport.relationship_values := [] |}.

(** The export of the latest snapshot of [demo_generated]. *)
Definition demo_export : JsonExport.TimestampExport :=
  match JsonExport.export_timestamp 2 demo_latest with
  | JsonExport.Done te => te
  | JsonExport.Failed _ => empty_export
  end.

(** The rows under a node type are rows of its schema: as long as the
    schema, starting with the node type. *)
Definition rows_of_schema (node_values : dict (list (list JsonExport.cell)))
  : Prop :=
  forall node_type rows,
    dict_get node_values node_type = Some rows ->
    exists schema,
      dict_get JsonExport.node_types node_type = Some schema /\
      Forall (fun row => List.length row = List.length schema /\
                         hd None row = JsonExport.text node_type) rows.

(** The configuration knows the size category of the supplier and allows
    it a number of connections that is not negative. *)
Definition supplier_size_known (cfg : Config) (supplier : Supplier) : bool :=
  match dict_get (SUPPLIER_SIZES cfg) (s_size_category supplier) with
  | Some size => 0 <=? ss_max_connections size
  | None => false
  end.

(** The demonstration entities with one supplier of raw metal added. *)
Definition demo_supplied : SupplyChainGenerator :=
  with_entities demo_entities
    [{| s_id := "S_001"; s_name := "Supplier_1"; s_location := "California";
        s_reliability := 0.9; s_size := 100; s_size_category := "small";
        s_supplied_part_types := ["Metal"] |}]
    (warehouses demo_entities) (facilities demo_entities)
    (parts demo_entities) (product_offerings demo_entities)
    (product_families demo_entities) (business_group demo_entities).

(** The first two characters of an identifier tell its table. *)
Definition table_code (id : string) : string := substring 0 2 id.

(* ================================================================= *)
(** ** Vocabulary for the edges of the graph *)

(** Every source of the adjacency table is a node, as in a [DiGraph]. *)
Definition aligned (g : DiGraph) : Prop :=
  incl (keys (_adj g)) (keys (_node g)).

(** The kinds of edge that the wiring makes, by the tables of their ends. *)
Definition edge_kinds : list (string * string) :=
  [("S_", "W_"); ("W_", "P_"); ("P_", "F_"); ("F_", "P_"); ("F_", "PO");
   ("PO", "W_"); ("BG", "PF"); ("PF", "PO")].

Definition edge_schema (u v : string) : Prop :=
  In (table_code u, table_code v) edge_kinds.

(** The attributes that the evolution reads are numbers. *)
Definition features_numeric (a : attrs) : bool :=
  forallb (fun kx : string * value =>
             negb (existsb (String.eqb (fst kx)) (map fst edge_features))
             || is_number_b (snd kx)) a.

(** What a step of the construction does to the edges of the graph: it
    adds edges of the schema only, and keeps the graph one that can be
    evolved. *)
Definition graph_kept (g g' : DiGraph) : Prop :=
  aligned g ->
  aligned g' /\
  (forall u v, In (u, v) (edges g') -> In (u, v) (edges g) \/ edge_schema u v) /\
  (edges_evolvable g -> edges_evolvable g').

(* ================================================================= *)
(** ** Vocabulary for the construction as a whole *)

(** The fields of the generator that the construction does not assign. *)
Definition settings (s : SupplyChainGenerator) :=
  (temporal_graphs s, temporal_data s, total_variable_nodes s,
   base_periods s, current_period s, distribution s, version s, timestamp s).

(** The entity tables. *)
Definition tables (s : SupplyChainGenerator) :=
  (suppliers s, warehouses s, facilities s, parts s, product_offerings s,
   product_families s, business_group s).

(** A record that the construction writes while the version is [ver] and
    the timestamp [ts]: a creation, or the update of a warehouse. *)
Definition construction_record (ver : string) (ts : nat) (op : operation)
  : Prop :=
  op_version op = ver /\ op_timestamp op = ts /\ op_type op = "schema" /\
  (action op = "create" \/
   action op = "update" /\
   exists id props, op_payload op = NodePayload id "WAREHOUSE" props).

(** The edges whose creation a log records, in the order of the records. *)
Definition created_edges (log : list operation) : list (string * string) :=
  flat_map
    (fun op => match op_payload op with
               | NodePayload _ _ _ => []
               | EdgePayload u v _ _ =>
                   if String.eqb (action op) "create" then [(u, v)] else []
               end) log.

(** The log records the creation of the edges of the graph, and of no
    other edge. *)
Definition edges_logged (s : SupplyChainGenerator) : Prop :=
  forall u v, In (u, v) (edges (G s)) <->
              In (u, v) (created_edges (operations_log s)).

(** What every step of the construction keeps: the settings; the nodes
    there are; the log, which only grows, by construction records; the
    edges, to which it adds edges of the schema only; and the agreement of
    the log with the edges. *)
Definition construction_frame (s s' : SupplyChainGenerator) : Prop :=
  settings s' = settings s /\
  (forall n, dict_mem (_node (G s)) n = true ->
             dict_mem (_node (G s')) n = true) /\
  (exists recs,
     operations_log s' = operations_log s ++ recs /\
     Forall (construction_record (version s) (timestamp s)) recs) /\
  graph_kept (G s) (G s') /\
  (aligned (G s) -> edges_logged s -> edges_logged s').

(** A step that, besides, keeps the part [T] of the generator. *)
Definition keeps {X : Type} (T : SupplyChainGenerator -> X)
  (s s' : SupplyChainGenerator) : Prop :=
  T s' = T s /\ construction_frame s s'.

(** The identifiers of the nodes that the entity tables describe. *)
Definition node_ids (self : SupplyChainGenerator) : list string :=
  entity_ids self ++ map f_id (all_values (facilities self)).

(** The number of entities that a distribution plans. *)
Definition planned (d : dict Z) : nat :=
  list_sum (map (fun item : string * Z => Z.to_nat (snd item)) d).

(** The nodes whose creation a log records, in the order of the records. *)
Definition created_nodes (log : list operation) : list string :=
  flat_map
    (fun op => match op_payload op with
               | NodePayload id _ _ =>
                   if String.eqb (action op) "create" then [id] else []
               | EdgePayload _ _ _ _ => []
               end) log.

(** The identifiers formatted from [count] counters, from [first] on. *)
Definition numbers (prefix : string) (first count : nat) : list string :=
  map (format_id prefix) (seq first count).

(** What a stretch of a factory loop does: it makes [count] entities of the
    table whose identifiers are [ids_of], numbered from the running counter
    on, each with its node and no other node, logs the creation of each
    node in this order, and keeps the part [other] of the generator.  The
    nodes are new ones if the graph has none of these identifiers. *)
Definition made {X : Type} (prefix : string)
  (ids_of : SupplyChainGenerator -> list string)
  (other : SupplyChainGenerator -> X) (count : nat)
  (st st' : FactoryState) : Prop :=
  let '(s, _, i) := st in
  let '(s', _, i') := st' in
  i' = (i + count)%nat /\
  Permutation (ids_of s') (ids_of s ++ numbers prefix i count) /\
  (forall id, In id (numbers prefix i count) ->
              dict_mem (_node (G s')) id = true) /\
  incl (keys (_node (G s')))
       (keys (_node (G s)) ++ numbers prefix i count) /\
  (NoDup (keys (_node (G s))) -> NoDup (keys (_node (G s')))) /\
  created_nodes (operations_log s')
  = created_nodes (operations_log s) ++ numbers prefix i count /\
  ((forall id, In id (numbers prefix i count) ->
               ~ In id (keys (_node (G s)))) ->
   keys (_node (G s')) = keys (_node (G s)) ++ numbers prefix i count) /\
  keeps other s s'.

(** The identifiers of each entity table. *)
Definition family_ids (self : SupplyChainGenerator) : list string :=
  map pf_id (product_families self).
Definition offering_ids (self : SupplyChainGenerator) : list string :=
  map po_id (product_offerings self).
Definition supplier_ids (self : SupplyChainGenerator) : list string :=
  map s_id (suppliers self).
Definition warehouse_ids (self : SupplyChainGenerator) : list string :=
  map w_id (all_values (warehouses self)).
Definition facility_ids (self : SupplyChainGenerator) : list string :=
  map f_id (all_values (facilities self)).
Definition part_ids (self : SupplyChainGenerator) : list string :=
  map p_id (all_values (parts self)).

(** The tables that each factory leaves alone. *)
Definition without_families (s : SupplyChainGenerator) :=
  (business_group s, product_offerings s, suppliers s, warehouses s,
   facilities s, parts s).
Definition without_offerings (s : SupplyChainGenerator) :=
  (business_group s, product_families s, suppliers s, warehouses s,
   facilities s, parts s).
Definition without_suppliers (s : SupplyChainGenerator) :=
  (business_group s, product_families s, product_offerings s, warehouses s,
   facilities s, parts s).
Definition without_warehouses (s : SupplyChainGenerator) :=
  (business_group s, product_families s, product_offerings s, suppliers s,
   facilities s, parts s).
Definition without_facilities (s : SupplyChainGenerator) :=
  (business_group s, product_families s, product_offerings s, suppliers s,
   warehouses s, parts s).
Definition without_parts (s : SupplyChainGenerator) :=
  (business_group s, product_families s, product_offerings s, suppliers s,
   warehouses s, facilities s).
Definition without_hierarchy (s : SupplyChainGenerator) :=
  (suppliers s, warehouses s, facilities s, parts s).

(** The number of offerings configured for a family. *)
Definition offerings_of (cfg : Config) (pf : ProductFamily) : nat :=
  List.length (get_default (PRODUCT_OFFERINGS cfg) (pf_name pf) []).

(** Every entity of the tables has its node. *)
Definition nodes_complete (s : SupplyChainGenerator) : Prop :=
  forall id, In id (node_ids s) -> dict_mem (_node (G s)) id = true.

(** What the wiring of the graph that was [s0] has done by the time it is
    [s]: the tables are kept, the graph has the nodes it had, and the log
    records the creation of no other node. *)
Definition wired (s0 s : SupplyChainGenerator) : Prop :=
  keeps tables s0 s /\ keys (_node (G s)) = keys (_node (G s0)) /\
  created_nodes (operations_log s) = created_nodes (operations_log s0).

(** The identifiers [ids] are those formatted from the counters 1 to their
    number, in some order. *)
Definition numbered (prefix : string) (ids : list string) : Prop :=
  Permutation ids (numbers prefix 1 (List.length ids)).

(** The naming scheme of the entities: the business group is [BG_001], and
    each table numbers its entities from 1 behind its own prefix. *)
Definition identified (s : SupplyChainGenerator) : Prop :=
  match business_group s with
  | Some b => bg_id b = "BG_001"
  | None => True
  end /\
  numbered "PF_" (family_ids s) /\ numbered "PO_" (offering_ids s) /\
  numbered "W_" (warehouse_ids s) /\ numbered "S_" (supplier_ids s) /\
  numbered "P_" (part_ids s) /\ numbered "F_" (facility_ids s).

(** The identifiers of the tables, each with its code. *)
Definition id_groups (s : SupplyChainGenerator)
  : list (string * list string) :=
  [("BG", match business_group s with Some b => [bg_id b] | None => [] end);
   ("PF", family_ids s); ("PO", offering_ids s); ("W_", warehouse_ids s);
   ("S_", supplier_ids s); ("P_", part_ids s); ("F_", facility_ids s)].

(** The identifier of the business group, if there is one. *)
Definition group_ids (self : SupplyChainGenerator) : list string :=
  match business_group self with
  | Some b => [bg_id b]
  | None => []
  end.

Definition without_group (s : SupplyChainGenerator) :=
  (product_families s, product_offerings s, suppliers s, warehouses s,
   facilities s, parts s).

(** The number of offerings configured for the families of the
    configuration. *)
Definition offerings_configured (cfg : Config) : nat :=
  list_sum
    (map (fun name => List.length (get_default (PRODUCT_OFFERINGS cfg) name []))
       (PRODUCT_FAMILIES cfg)).

(** The nodes of the graph are the entities of the tables. *)
Definition accounted (s : SupplyChainGenerator) : Prop :=
  NoDup (keys (_node (G s))) /\
  forall id, In id (keys (_node (G s))) <-> In id (node_ids s).

(** The state of the generator when the first [k] of the five factories
    have run: the tables of the others are empty, and those that have run
    made what was planned; the entities follow the naming scheme, the graph
    has their nodes and no other, and the log has construction records
    only. *)
Definition assembled (cfg : Config) (k : nat) (s : SupplyChainGenerator)
  : Prop :=
  accounted s /\ identified s /\
  Forall (construction_record (version s) (timestamp s)) (operations_log s) /\
  (if (k <? 1)%nat
   then business_group s = None /\ product_families s = [] /\
        product_offerings s = []
   else business_group s <> None /\
        map pf_name (product_families s) = PRODUCT_FAMILIES cfg /\
        List.length (product_offerings s) = offerings_configured cfg) /\
  (if (k <? 2)%nat then suppliers s = []
   else List.length (suppliers s)
        = planned (supplier_distribution (distribution s))) /\
  (if (k <? 3)%nat then all_values (warehouses s) = []
   else List.length (all_values (warehouses s))
        = planned (warehouse_distribution (distribution s))) /\
  (if (k <? 4)%nat then all_values (facilities s) = []
   else List.length (all_values (facilities s))
        = planned (facility_distribution (distribution s))) /\
  (if (k <? 5)%nat then all_values (parts s) = []
   else List.length (all_values (parts s))
        = planned (parts_distribution (distribution s))).

(** The number of nodes that a configuration and a distribution plan. *)
Definition planned_nodes (cfg : Config) (d : Distribution) : nat :=
  1 + List.length (PRODUCT_FAMILIES cfg) + offerings_configured cfg +
  planned (parts_distribution d) + planned (supplier_distribution d) +
  planned (warehouse_distribution d) + planned (facility_distribution d).

(** [G.number_of_nodes()], the [total_nodes] of [get_node_distribution]. *)
Definition number_of_nodes (g : DiGraph) : nat := List.length (_node g).

(** The invariant of the generators that [generate_data] makes: the naming
    scheme, a graph and snapshots with the nodes of the entities and no
    other, and tables with the planned numbers of entities. *)
Definition constructed (cfg : Config) (s : SupplyChainGenerator) : Prop :=
  accounted s /\ identified s /\
  (forall t g, dict_get (temporal_graphs s) t = Some g ->
               keys (_node g) = keys (_node (G s))) /\
  business_group s <> None /\
  map pf_name (product_families s) = PRODUCT_FAMILIES cfg /\
  List.length (product_offerings s) = offerings_configured cfg /\
  List.length (suppliers s) = planned (supplier_distribution (distribution s)) /\
  List.length (all_values (warehouses s))
  = planned (warehouse_distribution (distribution s)) /\
  List.length (all_values (facilities s))
  = planned (facility_distribution (distribution s)) /\
  List.length (all_values (parts s))
  = planned (parts_distribution (distribution s)).

(** The nodes that the first [k] factories make for the distribution [d],
    in the order of their creation. *)
Definition node_order (cfg : Config) (d : Distribution) (k : nat)
  : list string :=
  (if (1 <=? k)%nat
   then ["BG_001"] ++
        numbers "PF_" 1 (List.length (PRODUCT_FAMILIES cfg)) ++
        numbers "PO_" 1 (offerings_configured cfg)
   else []) ++
  (if (2 <=? k)%nat then numbers "S_" 1 (planned (supplier_distribution d))
   else []) ++
  (if (3 <=? k)%nat then numbers "W_" 1 (planned (warehouse_distribution d))
   else []) ++
  (if (4 <=? k)%nat then numbers "F_" 1 (planned (facility_distribution d))
   else []) ++
  (if (5 <=? k)%nat then numbers "P_" 1 (planned (parts_distribution d))
   else []).

(** The graph has the nodes of the first [k] factories, in the order of
    their creation, and the log records the creation of each, in the same
    order. *)
Definition in_order (cfg : Config) (k : nat) (s : SupplyChainGenerator)
  : Prop :=
  keys (_node (G s)) = node_order cfg (distribution s) k /\
  created_nodes (operations_log s) = keys (_node (G s)).

(* ================================================================= *)
(** ** Vocabulary for the distances *)

(** [G.nodes[w]['distances'][f]], if the node has such an entry. *)
Definition distance_of (g : DiGraph) (w f : string) : option Z :=
  match node_attr g w "distances" with
  | Some (VDict d) => dict_get d f
  | _ => None
  end.

(** The range that [_calculate_distances] draws the distance of a
    warehouse and a facility from. *)
Definition distance_bound (cfg : Config) (w : Warehouse) (f : Facility)
  (z : Z) : Prop :=
  if String.eqb (w_location w) (f_location f) then 10 <= z <= 50
  else fst (DISTANCE_RANGE cfg) <= z <= snd (DISTANCE_RANGE cfg).

(** Every warehouse has its distance to every facility. *)
Definition distances_known (cfg : Config) (s : SupplyChainGenerator)
  (g : DiGraph) : Prop :=
  forall w f,
    In w (all_values (warehouses s)) -> In f (all_values (facilities s)) ->
    exists z, distance_of g (w_id w) (f_id f) = Some z /\
              distance_bound cfg w f z.

(** The invariant of the generated generators: the graph has every
    distance, and every stored snapshot has the distances of the graph. *)
Definition distances_kept (cfg : Config) (s : SupplyChainGenerator) : Prop :=
  distances_known cfg s (G s) /\
  forall t g, dict_get (temporal_graphs s) t = Some g ->
    forall w f, distance_of g w f = distance_of (G s) w f.

(** The invariant of the generated generators: the edges of the graph are
    edges of the schema; the generator can evolve its graph and its
    snapshots, which have the edges of the graph; and there is a latest
    snapshot. *)
Definition evolving (s : SupplyChainGenerator) : Prop :=
  (forall u v, In (u, v) (edges (G s)) -> edge_schema u v) /\
  evolvable s (G s) /\
  (forall t g, dict_get (temporal_graphs s) t = Some g ->
     edges g = edges (G s) /\ evolvable s g) /\
  exists k g, max_key (temporal_graphs s) = Ok k /\
              dict_get (temporal_graphs s) k = Some g.

(* ================================================================= *)
(** ** Vocabulary for the kinds of the entities *)

(** The number of entities that a distribution plans for one kind. *)
Definition planned_for (d : dict Z) (kind : string) : nat :=
  list_sum
    (map (fun item : string * Z =>
            if String.eqb (fst item) kind then Z.to_nat (snd item) else 0%nat)
       d).

(** The entities of one kind, in each table. *)
Definition parts_of (s : SupplyChainGenerator) (kind : string) : list Part :=
  get_default (parts s) kind [].
Definition warehouses_of (s : SupplyChainGenerator) (kind : string)
  : list Warehouse :=
  get_default (warehouses s) kind [].
Definition facilities_of (s : SupplyChainGenerator) (kind : string)
  : list Facility :=
  get_default (facilities s) kind [].
Definition suppliers_of (s : SupplyChainGenerator) (kind : string)
  : list Supplier :=
  filter (fun x => String.eqb (s_size_category x) kind) (suppliers s).

(** What a stretch of a factory loop files: under every kind [k] it adds
    [w k] entities, each of that kind. *)
Definition filed {A : Type} (kind_of : A -> string)
  (tally : SupplyChainGenerator -> string -> list A) (w : string -> nat)
  (s s' : SupplyChainGenerator) : Prop :=
  forall k, exists recs,
    tally s' k = tally s k ++ recs /\
    Forall (fun x => kind_of x = k) recs /\ List.length recs = w k.

(** Every kind holds the planned number of entities, each of that kind. *)
Definition sorted {A : Type} (kind_of : A -> string)
  (tally : string -> list A) (d : dict Z) : Prop :=
  forall k, List.length (tally k) = planned_for d k /\
            Forall (fun x => kind_of x = k) (tally k).

(** The invariant of the generated generators: every table holds, under
    every kind, the planned number of entities, each of that kind. *)
Definition kinds_sorted (s : SupplyChainGenerator) : Prop :=
  sorted s_size_category (suppliers_of s)
    (supplier_distribution (distribution s)) /\
  sorted w_type (warehouses_of s) (warehouse_distribution (distribution s)) /\
  sorted f_type (facilities_of s) (facility_distribution (distribution s)) /\
  sorted p_type (parts_of s) (parts_distribution (distribution s)).

(* ================================================================= *)
(** ** Vocabulary for the exact floors of the planner *)

(** The floor of the exact product of [n] and the decimal ratio
    [digits / scale]: the count that the claim of exact truncation
    states. *)
Definition exact_floor (n digits scale : Z) : Z := (n * digits) / scale.

(** The planner gives the medium suppliers the exact floor of 0.35 times the
    number of suppliers. *)
Definition medium_is_exact_floor (total : Z) : Prop :=
  forall d, calculate_node_distribution total = Ok d ->
            dict_get (supplier_distribution d) "medium"
            = Some (exact_floor (nc_suppliers (node_counts d)) 35 100).

(* ================================================================= *)
(** ** Vocabulary for the work of the part factory *)

(** What a stretch of the part factory does to the table of the parts: the
    kinds of the table are kept, and under every kind the parts that were
    there are kept, in their order, followed by the parts made, each of
    that kind and with a drawn validity. *)
Definition parts_added (cfg : Config) (s s' : SupplyChainGenerator) : Prop :=
  keys (parts s') = keys (parts s) /\
  forall kind, exists made,
    parts_of s' kind = parts_of s kind ++ made /\
    Forall (fun p => p_type p = kind /\ validity_drawn cfg p) made.

(* ================================================================= *)
(** ** Vocabulary for the relationship rows of the export *)

(** The five typed combinations of the export: the node type of the source,
    the node type of the target, and the relationship type. *)
Definition typed_relationships : list (string * string * string) :=
  [("supplier", "warehouse", "SupplierToWarehouse");
   ("warehouse", "part", "WarehouseToParts");
   ("part", "facility", "PartsToFacility");
   ("facility", "part", "FacilityToParts");
   ("facility", "product_offering", "FacilityToProductOfferings")].

(** The row of an edge whose end points have the node types of the
    relationship type [rel_type]: the relationship type, the values of the
    features that the schema of the type lists, the source and the
    target. *)
Definition typed_row (rel_type : string) (e : string * string * attrs)
  (row : list JsonExport.cell) : Prop :=
  exists features,
    dict_get JsonExport.relationship_types rel_type
    = Some ("relationship_type" :: features ++ ["source"; "target"]) /\
    row = JsonExport.text rel_type :: map (dict_get (snd e)) features
          ++ [JsonExport.text (fst (fst e)); JsonExport.text (snd (fst e))].

(** [row] is the relationship row of the edge [e] of [graph]: the typed row
    of the combination that the node types of its end points make, and the
    source and the target alone if they make none of the five. *)
Definition row_of_edge (graph : DiGraph) (e : string * string * attrs)
  (row : list JsonExport.cell) : Prop :=
  exists source_node target_node,
    dict_get (_node graph) (fst (fst e)) = Some source_node /\
    dict_get (_node graph) (snd (fst e)) = Some target_node /\
    (forall source_type target_type rel_type,
        In (source_type, target_type, rel_type) typed_relationships ->
        JsonExport.has_type source_node source_type = true ->
        JsonExport.has_type target_node target_type = true ->
        typed_row rel_type e row) /\
    ((forall source_type target_type rel_type,
         In (source_type, target_type, rel_type) typed_relationships ->
         JsonExport.has_type source_node source_type
         && JsonExport.has_type target_node target_type = false) ->
     row = [JsonExport.text (fst (fst e)); JsonExport.text (snd (fst e))]).

(* ================================================================= *)
(** * Properties *)

Unset Implicit Arguments.

(* ----------------------------------------------------------------- *)
(** ** The random source *)

Lemma random_bits_range (rnd : RandomSource) :
  0 <= fst (random_bits rnd) < 2 ^ 53.
Proof.
  unfold random_bits, next_raw; simpl.
  apply Z.mod_pos_bound. reflexivity.
Qed.

Lemma random_unit_interval (rnd : RandomSource) :
  (0 <= fst (random rnd) < 1)%R.
Proof.
  unfold random.
  pose proof (random_bits_range rnd) as Hk.
  destruct (random_bits rnd) as [k rnd']; simpl in *.
  assert (Hpos : (0 < IZR (2 ^ 53))%R) by (apply IZR_lt; reflexivity).
  destruct Hk as [Hlo Hhi].
  apply IZR_le in Hlo. apply IZR_lt in Hhi.
  split.
  - apply Rmult_le_pos; [exact Hlo | left; apply Rinv_0_lt_compat; exact Hpos].
  - apply (Rmult_lt_reg_r (IZR (2 ^ 53))); [exact Hpos |].
    unfold Rdiv. rewrite Rmult_assoc, Rinv_l by lra. lra.
Qed.

Lemma uniform_bounds (a b : R) (rnd : RandomSource) :
  (a <= b -> a <= fst (uniform a b rnd) <= b)%R.
Proof.
  intros Hab. unfold uniform.
  pose proof (random_unit_interval rnd) as Hx.
  destruct (random rnd) as [x rnd']; simpl in *.
  split; nra.
Qed.

Lemma uniform_snd (a b : R) (rnd : RandomSource) :
  snd (uniform a b rnd) = snd (random rnd).
Proof. unfold uniform. destruct (random rnd); reflexivity. Qed.

(* ----------------------------------------------------------------- *)
(** ** The temporal value formula *)

(** C1.  [_generate_temporal_value b f t] returns
    [b * (1 + trend * t) * s * (1 + u)], where [s] is the seasonal factor
    ([1 + 0.15 * sin (2 pi (t - 3) / 12)] for demand and cost, [1] otherwise)
    and [u] is the affine image in [[-maxChange, +maxChange]] of one unit
    draw of the random source.  A feature tag that is not in the table gets
    [maxChange = 0.1] and [trend = 0].  With [trend = 0] and [maxChange = 0]
    the result is [b * s]. *)
Theorem generate_temporal_value_formula
  (cfg : Config) (b : R) (f : string) (t : nat) (rnd : RandomSource) :
  let c := get_default (TEMPORAL_VARIATION cfg) f default_variation in
  let s := if (f =? "demand")%string || (f =? "cost")%string
           then (1 + 0.15 * sin (2 * PI * (INR t - 3) / 12))%R else 1%R in
  let x := fst (random rnd) in
  let u := (- max_change c + (max_change c - - max_change c) * x)%R in
  _generate_temporal_value cfg b f t rnd
    = ((b * (1 + trend c * INR t) * s * (1 + u))%R, snd (random rnd))
  /\ (0 <= x < 1)%R
  /\ ((0 <= max_change c)%R -> (- max_change c <= u <= max_change c)%R)
  /\ (dict_get (TEMPORAL_VARIATION cfg) f = None ->
      max_change c = 0.1%R /\ trend c = 0%R)
  /\ (trend c = 0%R -> max_change c = 0%R ->
      fst (_generate_temporal_value cfg b f t rnd) = (b * s)%R).
Proof.
  intros c s x u.
  assert (Hs : seasonal_factor f t = s).
  { unfold seasonal_factor, s; simpl. rewrite orb_false_r. reflexivity. }
  assert (Heq : _generate_temporal_value cfg b f t rnd
                = ((b * (1 + trend c * INR t) * s * (1 + u))%R, snd (random rnd))).
  { unfold _generate_temporal_value, uniform. fold c. rewrite Hs.
    unfold u, x. destruct (random rnd) as [x0 rnd']; reflexivity. }
  pose proof (random_unit_interval rnd) as Hx. fold x in Hx.
  split; [exact Heq |].
  split; [exact Hx |].
  split; [intros Hm; unfold u; split; nra |].
  split.
  - intros Hnone. unfold c, get_default. rewrite Hnone. split; reflexivity.
  - intros Ht Hm. rewrite Heq. simpl. unfold u. rewrite Ht, Hm. ring.
Qed.

(** The formula at a concrete input: feature [cost] of the sample
    configuration has [trend = 0] and [maxChange = 0]. *)
Lemma generate_temporal_value_formula_witness :
  fst (_generate_temporal_value sample_config 250 "cost" 3 (constant_source 5))
  = (250 * (1 + 0.15 * sin (2 * PI * (INR 3 - 3) / 12)))%R.
Proof.
  destruct (generate_temporal_value_formula sample_config 250 "cost" 3
              (constant_source 5)) as (_ & _ & _ & _ & H).
  apply H; reflexivity.
Defined.

(* ----------------------------------------------------------------- *)
(** ** Distribution planner *)

Lemma binary_round_aux_sign (sx : bool) (mx ex : Z) (lx : location) :
  match binary_round_aux Binary64.prec Binary64.emax sx mx ex lx with
  | S754_finite s _ _ | S754_infinity s => s = sx
  | _ => True
  end.
Proof.
  unfold binary_round_aux.
  destruct (shr_fexp Binary64.prec Binary64.emax mx ex lx) as [mrs' e'].
  destruct (shr_fexp Binary64.prec Binary64.emax _ e' loc_Exact) as [mrs'' e''].
  destruct (shr_m mrs''); auto.
  destruct (Z.leb e'' _); reflexivity.
Qed.

Lemma of_int_sign_clear (n : Z) : 0 <= n -> sign_clear (Binary64.of_int n).
Proof.
  intros Hn. unfold Binary64.of_int, binary_normalize.
  destruct n as [|p|p]; [exact I | | lia].
  unfold binary_round.
  destruct (shl_align _ _ _) as [mz ez].
  pose proof (binary_round_aux_sign false (Zpos mz) ez loc_Exact) as H.
  unfold sign_clear.
  destruct (binary_round_aux _ _ _ _ _ _); auto.
Qed.

Lemma product_sign_clear (n : Z) (r : Binary64.float) :
  0 <= n -> sign_clear r -> sign_clear (product n r).
Proof.
  intros Hn Hr. pose proof (of_int_sign_clear n Hn) as Hx.
  unfold product, Binary64.mul, SFmul.
  destruct (Binary64.of_int n) as [sx|sx| |sx mx e], r as [sy|sy| |sy my ey];
    simpl in *; subst; auto.
  pose proof (binary_round_aux_sign (xorb false false) (Zpos (mx * my))
                (e + ey) loc_Exact) as H.
  destruct (binary_round_aux _ _ _ _ _ _); auto.
Qed.

Lemma pow2_pos (e : Z) : 0 < 2 ^ e \/ (e < 0 /\ 2 ^ e = 0).
Proof.
  destruct (Z.le_gt_cases 0 e) as [H|H].
  - left. apply Z.pow_pos_nonneg; lia.
  - right. split; [exact H | apply Z.pow_neg_r; exact H].
Qed.

(** [int(x)] of a float whose sign bit is clear is the floor of its value
    and is not negative. *)
Lemma Ok_inj {A : Type} (a b : A) : Ok a = Ok b -> a = b.
Proof. intros H. injection H as H. exact H. Qed.

Lemma to_int_floor (x : Binary64.float) (c : Z) :
  sign_clear x -> Binary64.to_int x = Ok c -> is_floor_of x c /\ 0 <= c.
Proof.
  unfold is_floor_of, Binary64.to_int, Binary64.is_finite,
    Binary64.numerator, Binary64.denominator, sign_clear.
  destruct x as [s|s| |s m e]; intros Hs Hc; try discriminate.
  - apply Ok_inj in Hc. subst c. repeat split; lia.
  - subst s. apply Ok_inj in Hc. subst c. unfold cond_Zopp.
    destruct (Z.leb_spec 0 e) as [He|He].
    + assert (0 < 2 ^ e) by (apply Z.pow_pos_nonneg; lia).
      repeat split; nia.
    + assert (Hp : 0 < 2 ^ (- e)) by (apply Z.pow_pos_nonneg; lia).
      pose proof (Z.mul_div_le (Zpos m) _ Hp).
      pose proof (Z.mul_succ_div_gt (Zpos m) _ Hp).
      assert (0 <= Zpos m / 2 ^ (- e)) by (apply Z.div_pos; lia).
      repeat split; lia.
Qed.

Lemma int_of_product_floor (n : Z) (r : Binary64.float) (c : Z) :
  0 <= n -> sign_clear r -> int_of_product n r = Ok c ->
  is_floor_of (product n r) c /\ 0 <= c.
Proof.
  intros Hn Hr. apply to_int_floor. apply product_sign_clear; assumption.
Qed.

Lemma bind_inv {A B : Type} (m : result A) (k : A -> result B) (b : B) :
  bind m k = Ok b -> exists a, m = Ok a /\ k a = Ok b.
Proof. destruct m as [a|e]; simpl; [eauto | discriminate]. Qed.

(** Inversion of one [bind] in a hypothesis [H : bind m k = Ok b]. *)
Ltac bind_inv H :=
  let a := fresh "a" in
  let E := fresh "E" in
  apply bind_inv in H; destruct H as (a & E & H); cbv beta in H.

(** C4, as the code has it.  For a budget that is not negative, every
    count of the planner is the floor of [parent * ratio], computed in
    double precision (the product is rounded before it is truncated), for the
    ratio table of the specification, and is not negative; the counts are
    not rebalanced (1001 nodes are planned as 1000, and 150 suppliers as
    60 + 52 + 37 = 149); the plan for 1000 nodes is the one the
    specification lists. *)
Theorem calculate_node_distribution_truncates :
  (forall total d,
      0 <= total -> calculate_node_distribution total = Ok d ->
      split_by total category_ratios (category_counts d) /\
      split_by (nc_parts (node_counts d)) parts_ratios (parts_distribution d) /\
      split_by (nc_suppliers (node_counts d)) supplier_ratios
        (supplier_distribution d) /\
      split_by (nc_warehouses (node_counts d)) warehouse_ratios
        (warehouse_distribution d) /\
      split_by (nc_facilities (node_counts d)) facility_ratios
        (facility_distribution d)) /\
  calculate_node_distribution 1000 =
    Ok {| node_counts := {| nc_parts := 500; nc_suppliers := 150;
                            nc_warehouses := 200; nc_facilities := 150 |};
          parts_distribution := [("raw", 300); ("subassembly", 200)];
          supplier_distribution :=
            [("small", 60); ("medium", 52); ("large", 37)];
          warehouse_distribution :=
            [("supplier", 80); ("subassembly", 70); ("lam", 50)];
          facility_distribution := [("external", 90); ("lam", 60)] |} /\
  (exists d, calculate_node_distribution 1001 = Ok d /\
             total_of (category_counts d) = 1000 /\
             nc_suppliers (node_counts d) = 150 /\
             total_of (supplier_distribution d) = 149).
Proof.
  split; [| split].
  - intros total d Htotal H.
    unfold calculate_node_distribution in H.
    cbv zeta in H.
    repeat bind_inv H.
    apply Ok_inj in H. subst d.
    repeat match goal with
           | E : int_of_product ?n ?r = Ok ?c |- _ =>
               let F := fresh "F" in
               assert (F : is_floor_of (product n r) c /\ 0 <= c)
                 by (apply int_of_product_floor;
                     [lia | vm_compute; reflexivity | exact E]);
               clear E
           end.
    unfold split_by, category_counts; cbn [node_counts nc_parts nc_suppliers
      nc_warehouses nc_facilities parts_distribution supplier_distribution
      warehouse_distribution facility_distribution].
    repeat match goal with F : _ /\ _ |- _ => destruct F end.
    repeat apply conj;
      repeat (first [apply Forall2_nil | apply Forall2_cons]);
      cbn [fst snd]; (split; [reflexivity | split; assumption]).
  - vm_compute. reflexivity.
  - eexists. split; [vm_compute; reflexivity |].
    repeat split.
Qed.

(** The planner at the default budget of 1000 nodes. *)
Lemma calculate_node_distribution_truncates_witness :
  exists d, calculate_node_distribution 1000 = Ok d /\
            split_by 1000 category_ratios (category_counts d).
Proof.
  destruct calculate_node_distribution_truncates as (H & H1000 & _).
  eexists. split; [exact H1000 |].
  apply (H 1000 _ ltac:(lia) H1000).
Defined.

(** C4, as the claim states it, fails: for a budget of 1200 nodes the
    planner makes 180 suppliers and plans 62 medium ones, while the floor of
    180 * 0.35 = 63 is 63.  The double nearest to 0.35 is below 0.35, and
    the rounded product is below 63. *)
Lemma medium_suppliers_below_exact_floor :
  ~ medium_is_exact_floor 1200 /\
  exists d, calculate_node_distribution 1200 = Ok d /\
            nc_suppliers (node_counts d) = 180 /\
            dict_get (supplier_distribution d) "medium" = Some 62 /\
            exact_floor 180 35 100 = 63.
Proof.
  assert (H : exists d, calculate_node_distribution 1200 = Ok d /\
                        nc_suppliers (node_counts d) = 180 /\
                        dict_get (supplier_distribution d) "medium" = Some 62).
  { eexists. split; [vm_compute; reflexivity |]. split; reflexivity. }
  destruct H as (d & Hd & Hs & Hm). split.
  - intros Hexact. specialize (Hexact d Hd). rewrite Hm, Hs in Hexact.
    vm_compute in Hexact. discriminate Hexact.
  - exists d. repeat split; assumption.
Qed.

(* ----------------------------------------------------------------- *)
(** ** Dictionaries *)

Section DictFacts.
Context {K : Type} `{Key K} {V : Type}.
Implicit Types (d : list (K * V)) (k : K) (v : V).

Lemma key_eqb_refl k : key_eqb k k = true.
Proof. destruct (key_eqb_spec k k); congruence. Qed.

Lemma key_eqb_neq k k' : k <> k' -> key_eqb k k' = false.
Proof. intros; destruct (key_eqb_spec k k'); congruence. Qed.

Lemma dict_get_set_eq d k v : dict_get (dict_set d k v) k = Some v.
Proof.
  induction d as [|[k' v'] r IH]; simpl.
  - now rewrite key_eqb_refl.
  - destruct (key_eqb k' k) eqn:E; simpl; rewrite E; auto.
Qed.

Lemma dict_get_set_neq d k k' v :
  k' <> k -> dict_get (dict_set d k' v) k = dict_get d k.
Proof.
  intros Hne. induction d as [|[k0 v0] r IH]; simpl.
  - now rewrite key_eqb_neq.
  - destruct (key_eqb_spec k0 k') as [->|Hk]; simpl.
    + now rewrite key_eqb_neq.
    + destruct (key_eqb k0 k); auto.
Qed.

Lemma dict_get_set d k k' v :
  dict_get (dict_set d k' v) k
  = if key_eqb k' k then Some v else dict_get d k.
Proof.
  destruct (key_eqb_spec k' k) as [->|Hne].
  - apply dict_get_set_eq.
  - now apply dict_get_set_neq.
Qed.

Lemma keys_dict_set_mem d k v v0 :
  dict_get d k = Some v0 -> keys (dict_set d k v) = keys d.
Proof.
  unfold keys. induction d as [|[k' v'] r IH]; simpl; [discriminate |].
  destruct (key_eqb k' k) eqn:E; simpl; intros Hg; [reflexivity |].
  now rewrite IH.
Qed.

Lemma keys_dict_set_new d k v :
  dict_get d k = None -> keys (dict_set d k v) = keys d ++ [k].
Proof.
  unfold keys. induction d as [|[k' v'] r IH]; simpl; [reflexivity |].
  destruct (key_eqb k' k) eqn:E; simpl; intros Hg; [discriminate |].
  now rewrite IH.
Qed.

Lemma dict_get_In d k v : dict_get d k = Some v -> In (k, v) d.
Proof.
  induction d as [|[k' v'] r IH]; simpl; [discriminate |].
  destruct (key_eqb_spec k' k) as [->|Hne]; intros Hg.
  - injection Hg as ->. now left.
  - right. auto.
Qed.

Lemma dict_get_None_keys d k : dict_get d k = None <-> ~ In k (keys d).
Proof.
  unfold keys. induction d as [|[k' v'] r IH]; simpl.
  - tauto.
  - destruct (key_eqb_spec k' k) as [->|Hne].
    + split; [discriminate | tauto].
    + rewrite IH. tauto.
Qed.

Lemma In_dict_get d k v :
  NoDup (keys d) -> In (k, v) d -> dict_get d k = Some v.
Proof.
  unfold keys. induction d as [|[k' v'] r IH]; simpl; [tauto |].
  intros Hnd [Heq|Hin]; inversion Hnd as [|? ? Hnotin Hnd']; subst.
  - injection Heq as -> ->. now rewrite key_eqb_refl.
  - destruct (key_eqb_spec k' k) as [->|Hne]; [| auto].
    exfalso. apply Hnotin. change k with (fst (k, v)). now apply in_map.
Qed.

Lemma dict_update_cons d k v other :
  dict_update d ((k, v) :: other) = dict_update (dict_set d k v) other.
Proof. reflexivity. Qed.

(** A key that [other] does not mention keeps its value. *)
Lemma dict_get_update_other d other k :
  ~ In k (keys other) -> dict_get (dict_update d other) k = dict_get d k.
Proof.
  revert d. induction other as [|[k' v'] r IH]; intros d Hnot; [reflexivity |].
  rewrite dict_update_cons, IH.
  - apply dict_get_set_neq. intros ->. apply Hnot. now left.
  - intros Hin. apply Hnot. now right.
Qed.

(** A key that [other] mentions once gets the value from [other]. *)
Lemma dict_get_update_in d other k v :
  NoDup (keys other) -> In (k, v) other ->
  dict_get (dict_update d other) k = Some v.
Proof.
  revert d. induction other as [|[k' v'] r IH]; intros d Hnd Hin; [destruct Hin |].
  rewrite dict_update_cons.
  unfold keys in Hnd; simpl in Hnd. inversion Hnd as [|? ? Hnotin Hnd']; subst.
  destruct Hin as [Heq|Hin].
  - injection Heq as -> ->.
    rewrite dict_get_update_other by exact Hnotin.
    apply dict_get_set_eq.
  - now apply IH.
Qed.
End DictFacts.

(* ----------------------------------------------------------------- *)
(** ** The graph store *)

Lemma string_eqb_key (a b : string) : key_eqb a b = String.eqb a b.
Proof. reflexivity. Qed.

Lemma node_attr_ensure_node (g : DiGraph) (n m k : string) :
  node_attr (ensure_node g n) m k = node_attr g m k.
Proof.
  unfold ensure_node, dict_mem, node_attr.
  destruct (dict_get (_node g) n) eqn:E; [reflexivity |]. simpl.
  rewrite dict_get_set.
  destruct (key_eqb_spec n m) as [->|Hne]; [| reflexivity].
  now rewrite E.
Qed.

Lemma node_attr_add_edge (g : DiGraph) (u v : string) (a : attrs) (m k : string) :
  node_attr (add_edge g u v a) m k = node_attr g m k.
Proof.
  unfold add_edge. unfold node_attr at 1. simpl _node.
  change (node_attr (ensure_node (ensure_node g u) v) m k = node_attr g m k).
  now rewrite !node_attr_ensure_node.
Qed.

(** [add_node] assigns exactly the keys of [a] at node [n]. *)
Lemma node_attr_add_node_other (g : DiGraph) (n : string) (a : attrs)
  (m k : string) :
  m <> n \/ ~ In k (keys a) ->
  node_attr (add_node g n a) m k = node_attr g m k.
Proof.
  intros Hother. unfold add_node. unfold node_attr at 1. simpl _node.
  rewrite dict_get_set.
  destruct (key_eqb_spec n m) as [->|Hne].
  - destruct Hother as [Hm|Hk]; [congruence |].
    rewrite dict_get_update_other by exact Hk.
    unfold get_default.
    fold (node_attr (ensure_node g m) m k).
    pose proof (node_attr_ensure_node g m m k) as E. unfold node_attr in E at 1.
    destruct (dict_get (_node (ensure_node g m)) m); [exact E |].
    unfold node_attr. unfold node_attr in E. exact E.
  - fold (node_attr (ensure_node g n) m k). apply node_attr_ensure_node.
Qed.

Lemma node_attr_add_node_in (g : DiGraph) (n : string) (a : attrs)
  (k : string) (v : value) :
  NoDup (keys a) -> In (k, v) a ->
  node_attr (add_node g n a) n k = Some v.
Proof.
  intros Hnd Hin. unfold add_node, node_attr. simpl _node.
  rewrite dict_get_set_eq. now apply dict_get_update_in.
Qed.

Lemma setitem_node_inv (g g' : DiGraph) (n k : string) (v : value) :
  setitem_node g n k v = Ok g' ->
  exists a, dict_get (_node g) n = Some a /\
            g' = {| _node := dict_set (_node g) n (dict_set a k v);
                    _adj := _adj g |}.
Proof.
  unfold setitem_node, node_attrs, getitem.
  destruct (dict_get (_node g) n) as [a|]; simpl; [| discriminate].
  intros E. apply Ok_inj in E. eauto.
Qed.

Lemma node_attr_setitem_node (g g' : DiGraph) (n k : string) (v : value)
  (m j : string) :
  setitem_node g n k v = Ok g' ->
  node_attr g' m j
  = if String.eqb n m && String.eqb k j then Some v else node_attr g m j.
Proof.
  intros E. apply setitem_node_inv in E. destruct E as (a & Ha & ->).
  unfold node_attr. simpl _node. rewrite dict_get_set, string_eqb_key.
  destruct (String.eqb_spec n m) as [->|Hne]; simpl; [| reflexivity].
  rewrite dict_get_set, string_eqb_key, Ha. reflexivity.
Qed.

Lemma setitem_node_adj (g g' : DiGraph) (n k : string) (v : value) :
  setitem_node g n k v = Ok g' -> _adj g' = _adj g.
Proof. intros E. apply setitem_node_inv in E. destruct E as (a & _ & ->). reflexivity. Qed.

Lemma setitem_node_ok (g : DiGraph) (n k : string) (v : value) :
  dict_mem (_node g) n = true -> exists g', setitem_node g n k v = Ok g'.
Proof.
  unfold setitem_node, node_attrs, getitem, dict_mem.
  destruct (dict_get (_node g) n); [simpl; eauto | discriminate].
Qed.

Lemma setitem_node_keys (g g' : DiGraph) (n k : string) (v : value) :
  setitem_node g n k v = Ok g' -> keys (_node g') = keys (_node g).
Proof.
  intros E. apply setitem_node_inv in E. destruct E as (a & Ha & ->).
  simpl. eapply keys_dict_set_mem; eauto.
Qed.

(** The attributes that [add_edge] passes are those of the edge afterwards. *)
Lemma edge_attr_add_edge_same (g : DiGraph) (u v : string) (a : attrs)
  (k : string) (x : value) :
  NoDup (keys a) -> In (k, x) a ->
  edge_attr (add_edge g u v a) u v k = Some x.
Proof.
  intros Hnd Hin. unfold add_edge, edge_attr. simpl _adj.
  rewrite !dict_get_set_eq. now apply dict_get_update_in.
Qed.

Lemma setitem_edge_inv (g g' : DiGraph) (u v k : string) (x : value) :
  setitem_edge g u v k x = Ok g' ->
  exists nbrs a,
    dict_get (_adj g) u = Some nbrs /\ dict_get nbrs v = Some a /\
    g' = {| _node := _node g;
            _adj := dict_set (_adj g) u (dict_set nbrs v (dict_set a k x)) |}.
Proof.
  unfold setitem_edge, getitem.
  destruct (dict_get (_adj g) u) as [nbrs|]; simpl; [| discriminate].
  destruct (dict_get nbrs v) as [a|] eqn:Ha; simpl; [| discriminate].
  intros E. apply Ok_inj in E. exists nbrs, a. auto.
Qed.

Lemma edge_attr_setitem_edge (g g' : DiGraph) (u v k : string) (x : value)
  (u' v' k' : string) :
  setitem_edge g u v k x = Ok g' ->
  edge_attr g' u' v' k'
  = if String.eqb u u' && String.eqb v v' && String.eqb k k'
    then Some x else edge_attr g u' v' k'.
Proof.
  intros E. apply setitem_edge_inv in E.
  destruct E as (nbrs & a & Hn & Ha & ->).
  unfold edge_attr. simpl _adj. rewrite dict_get_set, string_eqb_key.
  destruct (String.eqb_spec u u') as [->|Hne]; simpl; [| reflexivity].
  rewrite Hn, dict_get_set, string_eqb_key.
  destruct (String.eqb_spec v v') as [->|Hne]; simpl; [| reflexivity].
  rewrite Ha, dict_get_set, string_eqb_key. reflexivity.
Qed.

Lemma setitem_edge_node (g g' : DiGraph) (u v k : string) (x : value) :
  setitem_edge g u v k x = Ok g' -> _node g' = _node g.
Proof.
  intros E. apply setitem_edge_inv in E.
  destruct E as (nbrs & a & _ & _ & ->). reflexivity.
Qed.

Lemma map_fst_dict_set {V : Type} (d : dict V) (k : string) (v v0 : V) :
  dict_get d k = Some v0 -> map fst (dict_set d k v) = map fst d.
Proof. apply keys_dict_set_mem. Qed.

Lemma edges_setitem_edge (g g' : DiGraph) (u v k : string) (x : value) :
  setitem_edge g u v k x = Ok g' -> edges g' = edges g.
Proof.
  intros E. apply setitem_edge_inv in E.
  destruct E as (nbrs & a & Hn & Ha & ->).
  unfold edges. simpl _adj.
  induction (_adj g) as [|[u0 nb0] r IH]; simpl in *; [discriminate |].
  destruct (String.eqb u0 u) eqn:Eu; simpl.
  - injection Hn as Hn. subst nb0.
    f_equal.
    clear IH. induction nbrs as [|[v0 a0] r' IH']; simpl in *; [discriminate |].
    destruct (String.eqb v0 v) eqn:Ev; simpl; [reflexivity |].
    f_equal. now apply IH'.
  - f_equal. now apply IH.
Qed.

Lemma edges_setitem_node (g g' : DiGraph) (n k : string) (v : value) :
  setitem_node g n k v = Ok g' -> edges g' = edges g.
Proof. intros E. unfold edges. now rewrite (setitem_node_adj _ _ _ _ _ E). Qed.

Lemma edge_attr_setitem_node (g g' : DiGraph) (n k : string) (v : value)
  (u' v' k' : string) :
  setitem_node g n k v = Ok g' -> edge_attr g' u' v' k' = edge_attr g u' v' k'.
Proof. intros E. unfold edge_attr. now rewrite (setitem_node_adj _ _ _ _ _ E). Qed.

Lemma node_attr_setitem_edge (g g' : DiGraph) (u v k : string) (x : value)
  (m j : string) :
  setitem_edge g u v k x = Ok g' -> node_attr g' m j = node_attr g m j.
Proof. intros E. unfold node_attr. now rewrite (setitem_edge_node _ _ _ _ _ _ E). Qed.

(* ----------------------------------------------------------------- *)
(** ** Loops *)

Lemma foldM_app {A B : Type} (f : B -> A -> result B) (l1 l2 : list A) (b : B) :
  foldM f (l1 ++ l2) b = bind (foldM f l1 b) (foldM f l2).
Proof.
  revert b. induction l1 as [|x r IH]; intros b; simpl; [reflexivity |].
  destruct (f b x); simpl; auto.
Qed.

(** A relation that every iteration establishes between the state before
    and the state after holds across the loop, if it is a preorder. *)
Lemma foldM_rel {A B : Type} (f : B -> A -> result B) (Rel : B -> B -> Prop) :
  (forall b, Rel b b) ->
  (forall b1 b2 b3, Rel b1 b2 -> Rel b2 b3 -> Rel b1 b3) ->
  forall l,
  (forall b x b', In x l -> f b x = Ok b' -> Rel b b') ->
  forall b b', foldM f l b = Ok b' -> Rel b b'.
Proof.
  intros Hrefl Htrans l. induction l as [|x r IH]; intros Hstep b b' H; simpl in H.
  - apply Ok_inj in H. subst. apply Hrefl.
  - bind_inv H. eapply Htrans.
    + exact (Hstep b x a (or_introl eq_refl) E).
    + eapply IH; [| exact H].
      intros b0 y b0' Hy Hf. exact (Hstep b0 y b0' (or_intror Hy) Hf).
Qed.

(** An invariant of every iteration is an invariant of the loop. *)
Lemma foldM_inv {A B : Type} (f : B -> A -> result B) (Inv : B -> Prop) :
  forall l,
  (forall b x b', In x l -> Inv b -> f b x = Ok b' -> Inv b') ->
  forall b b', Inv b -> foldM f l b = Ok b' -> Inv b'.
Proof.
  intros l. induction l as [|x r IH]; intros Hstep b b' Hb H; simpl in H.
  - apply Ok_inj in H. now subst.
  - bind_inv H. eapply IH; [| | exact H].
    + intros b0 y b0' Hy Hb0 Hf. exact (Hstep b0 y b0' (or_intror Hy) Hb0 Hf).
    + exact (Hstep b x a (or_introl eq_refl) Hb E).
Qed.

(** A property that the iteration of [x] establishes and that every
    iteration keeps holds after the loop. *)
Lemma foldM_establish {A B : Type} (f : B -> A -> result B) (P : B -> Prop)
  (x : A) :
  forall l,
  In x l ->
  (forall b b', f b x = Ok b' -> P b') ->
  (forall b y b', In y l -> P b -> f b y = Ok b' -> P b') ->
  forall b b', foldM f l b = Ok b' -> P b'.
Proof.
  intros l. induction l as [|y r IH]; intros Hin Hx Hkeep b b' H; [destruct Hin |].
  simpl in H. bind_inv H.
  destruct Hin as [->|Hin].
  - eapply (foldM_inv f P); [| | exact H].
    + intros b0 y b0' Hy Hb0 Hf. exact (Hkeep b0 y b0' (or_intror Hy) Hb0 Hf).
    + eapply Hx; exact E.
  - eapply IH; [exact Hin | exact Hx | | exact H].
    intros b0 z b0' Hz Hb0 Hf. exact (Hkeep b0 z b0' (or_intror Hz) Hb0 Hf).
Qed.

(* ----------------------------------------------------------------- *)
(** ** Warehouse-to-part wiring *)

Lemma dict_mem_ensure_node (g : DiGraph) (n m : string) :
  dict_mem (_node g) m = true -> dict_mem (_node (ensure_node g n)) m = true.
Proof.
  unfold ensure_node, dict_mem.
  destruct (dict_get (_node g) n) eqn:E; [auto |]. simpl.
  rewrite dict_get_set. destruct (key_eqb n m); auto.
Qed.

Lemma dict_mem_ensure_node_self (g : DiGraph) (n : string) :
  dict_mem (_node (ensure_node g n)) n = true.
Proof.
  unfold ensure_node, dict_mem.
  destruct (dict_get (_node g) n) eqn:E; [now rewrite E |]. simpl.
  now rewrite dict_get_set_eq.
Qed.

Lemma dict_mem_add_edge_source (g : DiGraph) (u v : string) (a : attrs) :
  dict_mem (_node (add_edge g u v a)) u = true.
Proof.
  unfold add_edge. simpl _node.
  apply dict_mem_ensure_node, dict_mem_ensure_node_self.
Qed.

(** C7, as the code has it.  An iteration of the inner loop of
    [_connect_warehouses_to_parts] always returns; it assigns
    [min (draw, max_capacity - current_inventory)].  The part is skipped
    only when that amount is not positive, that is, when the warehouse has
    no capacity left (or the draw itself is not positive); otherwise the
    edge is added with the clipped amount, the running inventory grows by
    it, and one edge record and one capacity record are logged. *)
Theorem warehouse_part_assignment_is_clipped (cfg : Config) (warehouse : Warehouse)
  (self : SupplyChainGenerator) (rnd : RandomSource) (current_inventory : Z)
  (part : Part) (draw : Z) (rnd1 : RandomSource) :
  randint_range (INVENTORY_RANGE cfg) rnd = Ok (draw, rnd1) ->
  let level := Z.min draw (w_max_capacity warehouse - current_inventory) in
  exists self' rnd' current_inventory',
    connect_warehouse_part cfg warehouse (self, rnd, current_inventory) part
    = Ok (self', rnd', current_inventory') /\
    (level <= 0 ->
     self' = self /\ rnd' = rnd1 /\ current_inventory' = current_inventory) /\
    (0 < level ->
     current_inventory' = current_inventory + level /\
     edge_attr (G self') (w_id warehouse) (p_id part) "inventory_level"
     = Some (VInt level) /\
     node_attr (G self') (w_id warehouse) "current_capacity"
     = Some (VInt current_inventory') /\
     operations_log self'
     = operations_log self ++
       assignment_records self warehouse part level
         (fst (uniform_range (COST_RANGE cfg) rnd1)) current_inventory').
Proof.
  intros Hdraw level. unfold connect_warehouse_part. rewrite Hdraw.
  cbv beta iota delta [bind]. fold level.
  destruct (Z.leb_spec level 0) as [Hle|Hgt].
  - exists self, rnd1, current_inventory. split; [reflexivity |].
    split; [auto | lia].
  - destruct (uniform_range (COST_RANGE cfg) rnd1) as [storage_cost rnd2] eqn:Eu.
    set (edge_data := [("inventory_level", VInt level);
                       ("storage_cost", VFloat storage_cost)]).
    set (g1 := add_edge (G self) (w_id warehouse) (p_id part) edge_data).
    destruct (setitem_node_ok g1 (w_id warehouse) "current_capacity"
                (VInt (current_inventory + level))) as [g2 Hg2].
    { apply dict_mem_add_edge_source. }
    simpl G. fold g1. rewrite Hg2.
    eexists _, _, _. split; [reflexivity |].
    split; [lia |]. intros _.
    split; [reflexivity |].
    split; [| split].
    + simpl G. rewrite (edge_attr_setitem_node _ _ _ _ _ _ _ _ Hg2).
      unfold g1. apply edge_attr_add_edge_same.
      * repeat constructor; simpl; intuition discriminate.
      * now left.
    + simpl G. rewrite (node_attr_setitem_node _ _ _ _ _ _ _ Hg2).
      now rewrite !String.eqb_refl.
    + simpl. rewrite <- app_assoc. reflexivity.
Qed.

(** The clipped assignment at a concrete loop state: capacity 1000, 900
    already assigned, draw 500. *)
Lemma warehouse_part_assignment_is_clipped_witness :
  exists self' rnd',
    connect_warehouse_part sample_config demo_warehouse
      (demo_entities, scripted [(0%nat, 450)], 900) demo_part
    = Ok (self', rnd', 1000) /\
    edge_attr (G self') "W_001" "P_004" "inventory_level" = Some (VInt 100).
Proof.
  destruct (warehouse_part_assignment_is_clipped sample_config demo_warehouse
              demo_entities (scripted [(0%nat, 450)]) 900 demo_part 500
              (snd (next_raw (scripted [(0%nat, 450)]))) eq_refl)
    as (self' & rnd' & cur' & Hrun & _ & Hclip).
  destruct (Hclip ltac:(vm_compute; reflexivity)) as (Hcur & Hedge & _).
  exists self', rnd'. split; [rewrite Hrun, Hcur; reflexivity | exact Hedge].
Defined.

(** C7, as the claim states it, fails: with capacity 1000, 900 already
    assigned and a draw of 500, the draw exceeds the remaining capacity of
    100, and the part is not skipped. *)
Lemma oversized_draw_is_not_skipped :
  ~ skips_oversized_draw sample_config demo_warehouse
      demo_entities (scripted [(0%nat, 450)]) 900 demo_part.
Proof.
  intros Hskip.
  assert (Hlt : w_max_capacity demo_warehouse - 900 < 500)
    by (vm_compute; reflexivity).
  specialize (Hskip 500 (snd (next_raw (scripted [(0%nat, 450)]))) eq_refl Hlt).
  apply (f_equal (fun r : result (SupplyChainGenerator * RandomSource * Z) =>
                    match r with
                    | Ok (_, _, current_inventory) => current_inventory
                    | Raise _ => 0
                    end)) in Hskip.
  vm_compute in Hskip. discriminate Hskip.
Qed.

(* ----------------------------------------------------------------- *)
(** ** Both evolution modes assign the listed node and edge attributes *)

Lemma map_result_bind {A B C : Type} (f : B -> C) (m : result A)
  (k : A -> result B) :
  map_result f (bind m k) = bind m (fun a => map_result f (k a)).
Proof. destruct m; reflexivity. Qed.

(** A loop whose iterations, seen through [view], are runs of another loop
    is, seen through [view], a run of that loop. *)
Lemma foldM_view {A B C D : Type} (f : B -> A -> result B)
  (g : D -> C -> result D) (view : B -> D) (items : A -> list C) :
  (forall b x, map_result view (f b x) = foldM g (items x) (view b)) ->
  forall l b,
    map_result view (foldM f l b) = foldM g (flat_map items l) (view b).
Proof.
  intros Hstep l. induction l as [|x r IH]; intros b; simpl; [reflexivity |].
  rewrite foldM_app, <- Hstep, map_result_bind.
  destruct (f b x) as [b'|e]; simpl; [apply IH | reflexivity].
Qed.

Lemma flat_map_singleton {A B : Type} (f : A -> B) (l : list A) :
  flat_map (fun x => [f x]) l = map f l.
Proof. induction l; simpl; congruence. Qed.

Lemma flat_map_filter {A B : Type} (f : A -> B) (p : A -> bool) (l : list A) :
  flat_map (fun x => if p x then [f x] else []) l = map f (filter p l).
Proof.
  induction l as [|x r IH]; simpl; [reflexivity |].
  destruct (p x); simpl; congruence.
Qed.

Ltac step_view :=
  intros; cbn [fst snd];
  repeat match goal with
         | |- context [_generate_temporal_value ?c ?b ?f ?t ?r] =>
             let v := fresh "v" in
             let r' := fresh "rnd" in
             destruct (_generate_temporal_value c b f t r) as [v r'] eqn:?
         end;
  cbn [fst snd];
  repeat match goal with
         | |- context [setitem_node ?g ?n ?k ?v] =>
             destruct (setitem_node g n k v) eqn:?; cbn [bind map_result fst snd]
         end;
  try reflexivity; try congruence.

Lemma gtd_business_group_view (cfg : Config) (t : nat) (st : PeriodState)
  (b : BusinessGroup) :
  map_result period_view (gtd_business_group cfg t st b)
  = apply_node_update cfg t (period_view st) (business_group_update b).
Proof.
  unfold gtd_business_group, apply_node_update, evolved, period_view,
    business_group_update; cbn [nu_node nu_key nu_base nu_feature].
  step_view.
Qed.

Lemma gtd_family_view (cfg : Config) (t : nat) (st : PeriodState)
  (f : ProductFamily) :
  map_result period_view (gtd_family cfg t st f)
  = foldM (apply_node_update cfg t) [family_update f] (period_view st).
Proof.
  unfold gtd_family, apply_node_update, evolved, period_view, family_update;
    cbn [nu_node nu_key nu_base nu_feature foldM].
  step_view.
Qed.

Lemma gtd_offering_view (cfg : Config) (t : nat) (st : PeriodState)
  (o : ProductOffering) :
  map_result period_view (gtd_offering cfg t st o)
  = foldM (apply_node_update cfg t) (offering_updates o) (period_view st).
Proof.
  unfold gtd_offering, apply_node_update, evolved, period_view, offering_updates;
    cbn [nu_node nu_key nu_base nu_feature foldM fst snd].
  destruct (_generate_temporal_value cfg (po_cost o) "cost" t (rs st))
    as [v1 r1] eqn:E1. cbn [fst snd].
  destruct (setitem_node (period_graph st) (po_id o) "cost" (VFloat v1))
    as [g1|e] eqn:Eg; cbn [bind map_result fst snd]; [| reflexivity].
  destruct (_generate_temporal_value cfg (IZR (po_demand o)) "demand" t r1)
    as [v2 r2] eqn:E2. cbn [fst snd].
  destruct (setitem_node g1 (po_id o) "demand" (VFloat v2));
    reflexivity.
Qed.

Lemma gtd_warehouse_view (cfg : Config) (t : nat) (st : PeriodState)
  (w : Warehouse) :
  map_result period_view (gtd_warehouse cfg t st w)
  = foldM (apply_node_update cfg t) [warehouse_update w] (period_view st).
Proof.
  unfold gtd_warehouse, apply_node_update, evolved, period_view,
    warehouse_update; cbn [nu_node nu_key nu_base nu_feature foldM].
  step_view.
Qed.

Lemma gtd_supplier_view (cfg : Config) (t : nat) (st : PeriodState)
  (s : Supplier) :
  map_result period_view (gtd_supplier cfg t st s)
  = foldM (apply_node_update cfg t) [supplier_update s] (period_view st).
Proof.
  unfold gtd_supplier, apply_node_update, evolved, period_view,
    supplier_update; cbn [nu_node nu_key nu_base nu_feature foldM].
  step_view.
Qed.

Lemma gtd_part_view (cfg : Config) (t : nat) (date : Z) (st : PeriodState)
  (p : Part) :
  map_result period_view (gtd_part cfg t date st p)
  = foldM (apply_node_update cfg t)
      (if in_validity_window p date then [part_update p] else [])
      (period_view st).
Proof.
  unfold gtd_part. destruct (in_validity_window p date); [| reflexivity].
  unfold apply_node_update, evolved, period_view, part_update;
    cbn [nu_node nu_key nu_base nu_feature foldM].
  step_view.
Qed.

Lemma gtd_edge_view (cfg : Config) (t : nat) (st : PeriodState)
  (uv : string * string) :
  map_result period_view (gtd_edge cfg t st uv)
  = apply_edge_updates cfg t (period_view st) uv.
Proof.
  destruct uv as [u v].
  unfold gtd_edge, apply_edge_updates, edge_features, apply_edge_update,
    evolved, period_view; cbn [foldM fst snd].
  destruct (edge_attrs (period_graph st) u v) as [attrs0|e];
    cbn [bind map_result]; [| reflexivity].
  assert (Hsecond : forall st1,
    map_result period_view
      (bind (edge_attrs (period_graph st1) u v) (fun attrs1 =>
         if dict_mem attrs1 "inventory_level" then
           bind (bind (getitem attrs1 "inventory_level") as_number)
             (fun base =>
              let (new_inventory, rnd) :=
                _generate_temporal_value cfg base "inventory" t (rs st1) in
              bind (setitem_edge (period_graph st1) u v "inventory_level"
                      (VFloat new_inventory))
                (fun g =>
                 Ok {| period_graph := g;
                       gen := _log_edge_operation (gen st1) "update" u v
                                [("inventory_level", VFloat new_inventory)]
                                "WAREHOUSE_PARTS";
                       period_data :=
                         dict_set (period_data st1)
                           ("edge_" ++ u ++ "_" ++ v ++ "_inventory")%string
                           (VFloat new_inventory);
                       rs := rnd |}))
         else Ok st1))
    = bind (bind (edge_attrs (period_graph st1) u v) (fun attrs1 =>
         if dict_mem attrs1 "inventory_level" then
           bind (bind (getitem attrs1 "inventory_level") as_number)
             (fun base =>
              bind (setitem_edge (period_graph st1) u v "inventory_level"
                      (VFloat (fst (_generate_temporal_value cfg base
                                      "inventory" t (rs st1)))))
                (fun g =>
                 Ok (g, snd (_generate_temporal_value cfg base "inventory" t
                               (rs st1)))))
         else Ok (period_graph st1, rs st1))) Ok).
  { intros st1.
    destruct (edge_attrs (period_graph st1) u v) as [attrs1|e];
      cbn [bind map_result]; [| reflexivity].
    destruct (dict_mem attrs1 "inventory_level"); [| reflexivity].
    destruct (bind (getitem attrs1 "inventory_level") as_number) as [base|e];
      cbn [bind map_result]; [| reflexivity].
    destruct (_generate_temporal_value cfg base "inventory" t (rs st1))
      as [x r]. cbn [fst snd].
    destruct (setitem_edge (period_graph st1) u v "inventory_level" (VFloat x));
      reflexivity. }
  destruct (dict_mem attrs0 "transportation_cost").
  - destruct (bind (getitem attrs0 "transportation_cost") as_number)
      as [base|e]; cbn [bind map_result]; [| reflexivity].
    destruct (_generate_temporal_value cfg base "transportation_cost" t (rs st))
      as [x r]. cbn [fst snd].
    destruct (setitem_edge (period_graph st) u v "transportation_cost"
                (VFloat x)) as [g|e]; cbn [bind map_result]; [| reflexivity].
    rewrite Hsecond. cbn [period_graph rs fst snd].
    destruct (edge_attrs g u v) as [attrs1|e]; cbn [bind]; [| reflexivity].
    destruct (dict_mem attrs1 "inventory_level"); [| reflexivity].
    destruct (bind (getitem attrs1 "inventory_level") as_number);
      cbn [bind]; [| reflexivity].
    destruct (setitem_edge g u v "inventory_level" _); reflexivity.
  - cbn [bind]. rewrite Hsecond. cbn [period_graph rs fst snd].
    destruct (edge_attrs (period_graph st) u v) as [attrs1|e]; cbn [bind];
      [| reflexivity].
    destruct (dict_mem attrs1 "inventory_level"); [| reflexivity].
    destruct (bind (getitem attrs1 "inventory_level") as_number);
      cbn [bind]; [| reflexivity].
    destruct (setitem_edge (period_graph st) u v "inventory_level" _);
      reflexivity.
Qed.

Lemma update_family_view (cfg : Config) (t : nat) (st : UpdateState)
  (f : ProductFamily) :
  map_result update_view (update_family cfg t st f)
  = foldM (apply_node_update cfg t) [family_update f] (update_view st).
Proof.
  unfold update_family, apply_node_update, evolved, update_view, family_update;
    cbn [nu_node nu_key nu_base nu_feature foldM].
  step_view.
Qed.

Lemma update_offering_view (cfg : Config) (t : nat) (st : UpdateState)
  (o : ProductOffering) :
  map_result update_view (update_offering cfg t st o)
  = foldM (apply_node_update cfg t) (offering_updates o) (update_view st).
Proof.
  unfold update_offering, apply_node_update, evolved, update_view,
    offering_updates; cbn [nu_node nu_key nu_base nu_feature foldM fst snd].
  destruct (_generate_temporal_value cfg (po_cost o) "cost" t (u_rs st))
    as [v1 r1] eqn:E1. cbn [fst snd].
  destruct (_generate_temporal_value cfg (IZR (po_demand o)) "demand" t r1)
    as [v2 r2] eqn:E2.
  destruct (setitem_node (u_graph st) (po_id o) "cost" (VFloat v1))
    as [g1|e] eqn:Eg; cbn [bind map_result fst snd]; [| reflexivity].
  rewrite E2. cbn [fst snd].
  destruct (setitem_node g1 (po_id o) "demand" (VFloat v2)); reflexivity.
Qed.

Lemma update_warehouse_view (cfg : Config) (t : nat) (st : UpdateState)
  (w : Warehouse) :
  map_result update_view (update_warehouse cfg t st w)
  = foldM (apply_node_update cfg t) [warehouse_update w] (update_view st).
Proof.
  unfold update_warehouse, apply_node_update, evolved, update_view,
    warehouse_update; cbn [nu_node nu_key nu_base nu_feature foldM].
  step_view.
Qed.

Lemma update_supplier_view (cfg : Config) (t : nat) (st : UpdateState)
  (s : Supplier) :
  map_result update_view (update_supplier cfg t st s)
  = foldM (apply_node_update cfg t) [supplier_update s] (update_view st).
Proof.
  unfold update_supplier, apply_node_update, evolved, update_view,
    supplier_update; cbn [nu_node nu_key nu_base nu_feature foldM].
  step_view.
Qed.

Lemma update_part_view (cfg : Config) (t : nat) (date : Z) (st : UpdateState)
  (p : Part) :
  map_result update_view (update_part cfg t date st p)
  = foldM (apply_node_update cfg t)
      (if in_validity_window p date then [part_update p] else [])
      (update_view st).
Proof.
  unfold update_part. destruct (in_validity_window p date); [| reflexivity].
  unfold apply_node_update, evolved, update_view, part_update;
    cbn [nu_node nu_key nu_base nu_feature foldM].
  step_view.
Qed.

Lemma update_edge_view (cfg : Config) (t : nat) (st : UpdateState)
  (uv : string * string) :
  map_result update_view (update_edge cfg t st uv)
  = apply_edge_updates cfg t (update_view st) uv.
Proof.
  destruct uv as [u v].
  unfold update_edge, apply_edge_updates, edge_features, apply_edge_update,
    evolved, update_view; cbn [foldM fst snd].
  destruct (edge_attrs (u_graph st) u v) as [attrs0|e];
    cbn [bind map_result]; [| reflexivity].
  assert (Hsecond : forall st1,
    map_result update_view
      (bind (edge_attrs (u_graph st1) u v) (fun attrs1 =>
         if dict_mem attrs1 "inventory_level" then
           bind (bind (getitem attrs1 "inventory_level") as_number)
             (fun base =>
              let (new_inventory, rnd) :=
                _generate_temporal_value cfg base "inventory" t (u_rs st1) in
              bind (setitem_edge (u_graph st1) u v "inventory_level"
                      (VFloat new_inventory))
                (fun g =>
                 Ok {| u_graph := g;
                       u_data :=
                         dict_set (u_data st1)
                           ("edge_" ++ u ++ "_" ++ v ++ "_inventory")%string
                           (VFloat new_inventory);
                       u_rs := rnd |}))
         else Ok st1))
    = bind (bind (edge_attrs (u_graph st1) u v) (fun attrs1 =>
         if dict_mem attrs1 "inventory_level" then
           bind (bind (getitem attrs1 "inventory_level") as_number)
             (fun base =>
              bind (setitem_edge (u_graph st1) u v "inventory_level"
                      (VFloat (fst (_generate_temporal_value cfg base
                                      "inventory" t (u_rs st1)))))
                (fun g =>
                 Ok (g, snd (_generate_temporal_value cfg base "inventory" t
                               (u_rs st1)))))
         else Ok (u_graph st1, u_rs st1))) Ok).
  { intros st1.
    destruct (edge_attrs (u_graph st1) u v) as [attrs1|e];
      cbn [bind map_result]; [| reflexivity].
    destruct (dict_mem attrs1 "inventory_level"); [| reflexivity].
    destruct (bind (getitem attrs1 "inventory_level") as_number) as [base|e];
      cbn [bind map_result]; [| reflexivity].
    destruct (_generate_temporal_value cfg base "inventory" t (u_rs st1))
      as [x r]. cbn [fst snd].
    destruct (setitem_edge (u_graph st1) u v "inventory_level" (VFloat x));
      reflexivity. }
  destruct (dict_mem attrs0 "transportation_cost").
  - destruct (bind (getitem attrs0 "transportation_cost") as_number)
      as [base|e]; cbn [bind map_result]; [| reflexivity].
    destruct (_generate_temporal_value cfg base "transportation_cost" t
                (u_rs st)) as [x r]. cbn [fst snd].
    destruct (setitem_edge (u_graph st) u v "transportation_cost"
                (VFloat x)) as [g|e]; cbn [bind map_result]; [| reflexivity].
    rewrite Hsecond. cbn [u_graph u_rs fst snd].
    destruct (edge_attrs g u v) as [attrs1|e]; cbn [bind]; [| reflexivity].
    destruct (dict_mem attrs1 "inventory_level"); [| reflexivity].
    destruct (bind (getitem attrs1 "inventory_level") as_number);
      cbn [bind]; [| reflexivity].
    destruct (setitem_edge g u v "inventory_level" _); reflexivity.
  - cbn [bind]. rewrite Hsecond. cbn [u_graph u_rs fst snd].
    destruct (edge_attrs (u_graph st) u v) as [attrs1|e]; cbn [bind];
      [| reflexivity].
    destruct (dict_mem attrs1 "inventory_level"); [| reflexivity].
    destruct (bind (getitem attrs1 "inventory_level") as_number);
      cbn [bind]; [| reflexivity].
    destruct (setitem_edge (u_graph st) u v "inventory_level" _);
      reflexivity.
Qed.

(** *** The period, seen as a run over the update list *)

Lemma foldM_view_map {A B C D : Type} (f : B -> A -> result B)
  (g : D -> C -> result D) (view : B -> D) (item : A -> C) :
  (forall b x, map_result view (f b x) = foldM g [item x] (view b)) ->
  forall l b, map_result view (foldM f l b) = foldM g (map item l) (view b).
Proof.
  intros Hstep l b. rewrite <- flat_map_singleton. now apply foldM_view.
Qed.

Lemma foldM_view_same {A B D : Type} (f : B -> A -> result B)
  (g : D -> A -> result D) (view : B -> D) :
  (forall b x, map_result view (f b x) = g (view b) x) ->
  forall l b, map_result view (foldM f l b) = foldM g l (view b).
Proof.
  intros Hstep l. induction l as [|x r IH]; intros b; simpl; [reflexivity |].
  rewrite <- Hstep, map_result_bind.
  destruct (f b x) as [b'|e]; simpl; [apply IH | reflexivity].
Qed.


(** The node phase of [_update_period_attributes]. *)
Lemma update_nodes_view (cfg : Config) (self : SupplyChainGenerator) (t : nat)
  (st : UpdateState) :
  map_result update_view
    (st2 <- foldM (update_family cfg t) (product_families self) st ;;
     st3 <- _update_product_attributes cfg self t st2 ;;
     st4 <- _update_warehouse_attributes cfg self t st3 ;;
     st5 <- _update_supplier_attributes cfg self t st4 ;;
     _update_part_attributes cfg self t st5)
  = foldM (apply_node_update cfg t) (entity_updates self t) (update_view st).
Proof.
  unfold entity_updates, _update_product_attributes,
    _update_warehouse_attributes, _update_supplier_attributes,
    _update_part_attributes, valid_parts, period_date.
  rewrite foldM_app.
  rewrite <- (foldM_view_map _ _ _ _ (update_family_view cfg t)).
  destruct (foldM (update_family cfg t) (product_families self) st) as [st2|e];
    cbn [bind map_result]; [| reflexivity].
  rewrite foldM_app.
  rewrite <- (foldM_view _ _ _ _ (update_offering_view cfg t)).
  destruct (foldM (update_offering cfg t) (product_offerings self) st2)
    as [st3|e]; cbn [bind map_result]; [| reflexivity].
  rewrite foldM_app.
  rewrite <- (foldM_view_map _ _ _ _ (update_warehouse_view cfg t)).
  destruct (foldM (update_warehouse cfg t) (all_values (warehouses self)) st3)
    as [st4|e]; cbn [bind map_result]; [| reflexivity].
  rewrite foldM_app.
  rewrite <- (foldM_view_map _ _ _ _ (update_supplier_view cfg t)).
  destruct (foldM (update_supplier cfg t) (suppliers self) st4)
    as [st5|e]; cbn [bind map_result]; [| reflexivity].
  rewrite <- flat_map_filter.
  apply (foldM_view _ _ _ _ (update_part_view cfg t _)).
Qed.

(** Incremental extension computes the new graph by [period_run] from the
    graph it is given. *)
Lemma update_period_attributes_view (cfg : Config)
  (self : SupplyChainGenerator) (t : nat) (st : UpdateState) :
  map_result update_view (_update_period_attributes cfg self t st)
  = period_run cfg self t (update_view st).
Proof.
  unfold _update_period_attributes, period_run, node_updates.
  destruct (business_group self) as [b|]; cbn [from_option bind map_result];
    [| reflexivity].
  cbn [foldM].
  unfold apply_node_update at 1, evolved, business_group_update;
    cbn [nu_node nu_key nu_base nu_feature].
  change (snd (update_view st)) with (u_rs st).
  change (fst (update_view st)) with (u_graph st).
  destruct (_generate_temporal_value cfg (bg_revenue b) "revenue" t (u_rs st))
    as [v r]. cbn [fst snd].
  destruct (setitem_node (u_graph st) (bg_id b) "revenue" (VFloat v))
    as [g|e]; cbn [bind map_result]; [| reflexivity].
  set (st1 := {| u_graph := g;
                 u_data := dict_set (u_data st) "business_group_revenue"
                             (VFloat v);
                 u_rs := r |}).
  change (g, r) with (update_view st1).
  rewrite <- update_nodes_view.
  destruct (foldM (update_family cfg t) (product_families self) st1)
    as [st2|e]; cbn [bind map_result]; [| reflexivity].
  destruct (_update_product_attributes cfg self t st2) as [st3|e];
    cbn [bind map_result]; [| reflexivity].
  destruct (_update_warehouse_attributes cfg self t st3) as [st4|e];
    cbn [bind map_result]; [| reflexivity].
  destruct (_update_supplier_attributes cfg self t st4) as [st5|e];
    cbn [bind map_result]; [| reflexivity].
  destruct (_update_part_attributes cfg self t st5) as [st6|e];
    cbn [bind map_result]; [| reflexivity].
  unfold _update_edge_attributes.
  change (fst (update_view st6)) with (u_graph st6).
  apply (foldM_view_same _ _ _ (update_edge_view cfg t)).
Qed.

(* ----------------------------------------------------------------- *)
(** ** The change log *)

Lemma with_log_same (s : SupplyChainGenerator) :
  with_log s (operations_log s) = s.
Proof. destruct s; reflexivity. Qed.

Lemma appends_nil (s : SupplyChainGenerator) : appends [] s s.
Proof. unfold appends. now rewrite app_nil_r, with_log_same. Qed.

Lemma appends_trans (r1 r2 : list operation) (s1 s2 s3 : SupplyChainGenerator) :
  appends r1 s1 s2 -> appends r2 s2 s3 -> appends (r1 ++ r2) s1 s3.
Proof.
  unfold appends. intros -> ->. simpl. now rewrite app_assoc.
Qed.

Lemma appends_log (recs : list operation) (s s' : SupplyChainGenerator) :
  appends recs s s' -> operations_log s' = operations_log s ++ recs.
Proof. now intros ->. Qed.

Lemma appends_frame (recs : list operation) (s s' : SupplyChainGenerator) :
  appends recs s s' ->
  G s' = G s /\ temporal_graphs s' = temporal_graphs s /\
  temporal_data s' = temporal_data s /\
  current_period s' = current_period s /\ timestamp s' = timestamp s /\
  same_entities s s'.
Proof. intros ->. unfold same_entities. simpl. repeat split. Qed.

Lemma log_extends_refl (P : operation -> Prop) (s : SupplyChainGenerator) :
  log_extends P s s.
Proof. exists []. split; [apply appends_nil | constructor]. Qed.

Lemma log_extends_trans (P : operation -> Prop)
  (s1 s2 s3 : SupplyChainGenerator) :
  log_extends P s1 s2 -> log_extends P s2 s3 -> log_extends P s1 s3.
Proof.
  intros (r1 & H1 & F1) (r2 & H2 & F2). exists (r1 ++ r2).
  split; [eapply appends_trans; eassumption | now apply Forall_app].
Qed.

Lemma log_extends_weaken (P Q : operation -> Prop)
  (s s' : SupplyChainGenerator) :
  (forall op, P op -> Q op) -> log_extends P s s' -> log_extends Q s s'.
Proof.
  intros HPQ (r & H & F). exists r. split; [exact H |].
  eapply Forall_impl; eassumption.
Qed.

Lemma log_node_operation_extends (P : operation -> Prop)
  (s : SupplyChainGenerator) (act id ty : string) (props : attrs) :
  P {| action := act; op_type := "schema";
       op_payload := NodePayload id ty props;
       op_timestamp := timestamp s; op_version := version s |} ->
  log_extends P s (_log_node_operation s act id ty props).
Proof. intros HP. eexists. split; [reflexivity | now constructor]. Qed.

Lemma log_edge_operation_extends (P : operation -> Prop)
  (s : SupplyChainGenerator) (act u v : string) (props : attrs) (ty : string) :
  P {| action := act; op_type := "schema";
       op_payload := EdgePayload u v ty props;
       op_timestamp := timestamp s; op_version := version s |} ->
  log_extends P s (_log_edge_operation s act u v props ty).
Proof. intros HP. eexists. split; [reflexivity | now constructor]. Qed.


Lemma period_logs_refl (self : SupplyChainGenerator) (t ts : nat)
  (st : PeriodState) : period_logs self t ts st st.
Proof. intros _. apply log_extends_refl. Qed.

Lemma period_logs_trans (self : SupplyChainGenerator) (t ts : nat)
  (st1 st2 st3 : PeriodState) :
  period_logs self t ts st1 st2 -> period_logs self t ts st2 st3 ->
  period_logs self t ts st1 st3.
Proof.
  intros H12 H23 Hts. specialize (H12 Hts).
  eapply log_extends_trans; [exact H12 |]. apply H23.
  destruct H12 as (r & Hr & _). apply appends_frame in Hr.
  destruct Hr as (_ & _ & _ & _ & Hts' & _). congruence.
Qed.

Lemma not_a_part_record (self : SupplyChainGenerator) (t : nat)
  (op : operation) :
  (forall id props, op_payload op <> NodePayload id "PARTS" props) ->
  part_record_valid self t op.
Proof. intros Hne id props H. now apply Hne in H. Qed.

(** Solves [period_logs] for a loop body that writes one record. *)
Ltac one_update_record :=
  intros Hts; subst;
  first [apply log_node_operation_extends | apply log_edge_operation_extends];
  split; [reflexivity | split; [reflexivity |]].

Ltac open_step H :=
  repeat match type of H with
         | context [_generate_temporal_value ?c ?b ?f ?t ?r] =>
             destruct (_generate_temporal_value c b f t r)
         end;
  repeat bind_inv H; apply Ok_inj in H; subst.

Lemma gtd_business_group_logs (cfg : Config) (self : SupplyChainGenerator)
  (t ts : nat) (st st' : PeriodState) (b : BusinessGroup) :
  gtd_business_group cfg t st b = Ok st' -> period_logs self t ts st st'.
Proof.
  unfold gtd_business_group. intros H. open_step H. cbn [gen].
  one_update_record. apply not_a_part_record; discriminate.
Qed.

Lemma gtd_family_logs (cfg : Config) (self : SupplyChainGenerator)
  (t ts : nat) (st st' : PeriodState) (f : ProductFamily) :
  gtd_family cfg t st f = Ok st' -> period_logs self t ts st st'.
Proof.
  unfold gtd_family. intros H. open_step H. cbn [gen].
  one_update_record. apply not_a_part_record; discriminate.
Qed.

Lemma gtd_offering_logs (cfg : Config) (self : SupplyChainGenerator)
  (t ts : nat) (st st' : PeriodState) (o : ProductOffering) :
  gtd_offering cfg t st o = Ok st' -> period_logs self t ts st st'.
Proof.
  unfold gtd_offering. cbv zeta. intros H.
  destruct (_generate_temporal_value cfg (po_cost o) "cost" t (rs st)).
  bind_inv H.
  destruct (_generate_temporal_value cfg (IZR (po_demand o)) "demand" t r0).
  bind_inv H. apply Ok_inj in H. subst. cbn [gen].
  one_update_record. apply not_a_part_record; discriminate.
Qed.

Lemma gtd_warehouse_logs (cfg : Config) (self : SupplyChainGenerator)
  (t ts : nat) (st st' : PeriodState) (w : Warehouse) :
  gtd_warehouse cfg t st w = Ok st' -> period_logs self t ts st st'.
Proof.
  unfold gtd_warehouse. cbv zeta. intros H. open_step H. cbn [gen].
  one_update_record. apply not_a_part_record; discriminate.
Qed.

Lemma gtd_supplier_logs (cfg : Config) (self : SupplyChainGenerator)
  (t ts : nat) (st st' : PeriodState) (s : Supplier) :
  gtd_supplier cfg t st s = Ok st' -> period_logs self t ts st st'.
Proof.
  unfold gtd_supplier. cbv zeta. intros H. open_step H. cbn [gen].
  one_update_record. apply not_a_part_record; discriminate.
Qed.

Lemma gtd_part_logs (cfg : Config) (self : SupplyChainGenerator)
  (t ts : nat) (st st' : PeriodState) (p : Part) :
  In p (all_values (parts self)) ->
  gtd_part cfg t (period_date t) st p = Ok st' -> period_logs self t ts st st'.
Proof.
  unfold gtd_part. intros Hin H.
  destruct (in_validity_window p (period_date t)) eqn:Hw.
  - cbv zeta in H. open_step H. cbn [gen].
    one_update_record. intros id props Hp. injection Hp as <- _.
    exists p. split; [| reflexivity].
    unfold valid_parts. apply filter_In. now split.
  - apply Ok_inj in H. subst. apply period_logs_refl.
Qed.

Lemma gtd_edge_logs (cfg : Config) (self : SupplyChainGenerator)
  (t ts : nat) (st st' : PeriodState) (uv : string * string) :
  gtd_edge cfg t st uv = Ok st' -> period_logs self t ts st st'.
Proof.
  unfold gtd_edge. destruct uv as [u v]. intros H.
  bind_inv H. bind_inv H. rename a0 into st1.
  assert (H1 : period_logs self t ts st st1).
  { destruct (dict_mem a "transportation_cost").
    - bind_inv E0. cbv zeta in E0. open_step E0. cbn [gen].
      one_update_record. apply not_a_part_record; discriminate.
    - apply Ok_inj in E0. subst. apply period_logs_refl. }
  eapply period_logs_trans; [exact H1 |].
  bind_inv H.
  destruct (dict_mem a0 "inventory_level").
  - bind_inv H. cbv zeta in H. open_step H. cbn [gen].
    one_update_record. apply not_a_part_record; discriminate.
  - apply Ok_inj in H. subst. apply period_logs_refl.
Qed.

Lemma foldM_period_logs {A : Type} (self : SupplyChainGenerator) (t ts : nat)
  (f : PeriodState -> A -> result PeriodState) (l : list A) :
  (forall st x st', In x l -> f st x = Ok st' -> period_logs self t ts st st') ->
  forall st st', foldM f l st = Ok st' -> period_logs self t ts st st'.
Proof.
  apply foldM_rel.
  - apply period_logs_refl.
  - apply period_logs_trans.
Qed.

(* ----------------------------------------------------------------- *)
(** ** One period of full regeneration *)

Lemma view_of_Ok {A B : Type} (view : A -> B) (r : result A) (a : A) :
  r = Ok a -> map_result view r = Ok (view a).
Proof. now intros ->. Qed.

(** The period loop body: the new snapshot is [period_run] of the base
    graph, the log grows by update records of the period, the timestamp
    advances by one, and nothing else changes. *)
Lemma gtd_period_inv (cfg : Config) (base : DiGraph)
  (self0 : SupplyChainGenerator) (rnd : RandomSource) (t : nat)
  (self' : SupplyChainGenerator) (rnd' : RandomSource) :
  gtd_period cfg base (self0, rnd) t = Ok (self', rnd') ->
  exists g' d' recs,
    period_run cfg self0 t (base, rnd) = Ok (g', rnd') /\
    self' = with_temporal
              (with_log (with_timestamp self0 (S (timestamp self0)))
                 (operations_log self0 ++ recs))
              (dict_set (temporal_graphs self0) t g')
              (dict_set (temporal_data self0) t d')
              (current_period self0) /\
    Forall (period_record self0 t (S (timestamp self0))) recs.
Proof.
  unfold gtd_period. cbv zeta.
  set (self1 := with_timestamp self0 (S (timestamp self0))).
  set (st0 := {| period_graph := copy base;
                 period_data := [("date", VDate (add_days BASE_DATE
                                                   (30 * Z.of_nat t)))];
                 gen := self1; rs := rnd |}).
  intros H.
  bind_inv H. rename a into b, E into Eb.
  bind_inv H. rename a into st1, E into E1.
  bind_inv H. rename a into st2, E into E2.
  bind_inv H. rename a into st3, E into E3.
  bind_inv H. rename a into st4, E into E4.
  bind_inv H. rename a into st5, E into E5.
  bind_inv H. rename a into st6, E into E6.
  bind_inv H. rename a into st7, E into E7.
  apply Ok_inj in H. injection H as <- <-.
  (* the log *)
  assert (Hlog : period_logs self0 t (S (timestamp self0)) st0 st7).
  { eapply period_logs_trans;
      [eapply gtd_business_group_logs; exact E1 |].
    eapply period_logs_trans;
      [eapply foldM_period_logs; [| exact E2];
       intros; eapply gtd_family_logs; eassumption |].
    eapply period_logs_trans;
      [eapply foldM_period_logs; [| exact E3];
       intros; eapply gtd_offering_logs; eassumption |].
    eapply period_logs_trans;
      [eapply foldM_period_logs; [| exact E4];
       intros; eapply gtd_warehouse_logs; eassumption |].
    eapply period_logs_trans;
      [eapply foldM_period_logs; [| exact E5];
       intros; eapply gtd_supplier_logs; eassumption |].
    eapply period_logs_trans;
      [eapply foldM_period_logs; [| exact E6];
       intros st x st' Hin Hx; eapply gtd_part_logs; [exact Hin | exact Hx] |].
    eapply foldM_period_logs; [| exact E7].
    intros; eapply gtd_edge_logs; eassumption. }
  destruct (Hlog eq_refl) as (recs & Happ & Hrecs).
  (* the graph *)
  assert (Hrun : period_run cfg self0 t (base, rnd) = Ok (period_view st7)).
  { unfold period_run, node_updates, entity_updates.
    change (business_group self1) with (business_group self0) in Eb.
    destruct (business_group self0) as [b0|]; [| discriminate].
    apply Ok_inj in Eb. subst b0.
    cbn [foldM].
    change (base, rnd) with (period_view st0).
    rewrite <- gtd_business_group_view, (view_of_Ok _ _ _ E1). cbn [bind].
    rewrite foldM_app,
      <- (foldM_view_map _ _ _ _ (gtd_family_view cfg t)),
      (view_of_Ok _ _ _ E2). cbn [bind].
    rewrite foldM_app,
      <- (foldM_view _ _ _ _ (gtd_offering_view cfg t)),
      (view_of_Ok _ _ _ E3). cbn [bind].
    rewrite foldM_app,
      <- (foldM_view_map _ _ _ _ (gtd_warehouse_view cfg t)),
      (view_of_Ok _ _ _ E4). cbn [bind].
    rewrite foldM_app,
      <- (foldM_view_map _ _ _ _ (gtd_supplier_view cfg t)),
      (view_of_Ok _ _ _ E5). cbn [bind].
    unfold valid_parts. rewrite <- flat_map_filter.
    rewrite <- (foldM_view _ _ _ _ (gtd_part_view cfg t (period_date t))).
    change (all_values (parts self0)) with (all_values (parts self1)).
    unfold period_date. rewrite (view_of_Ok _ _ _ E6). cbn [bind].
    change (fst (period_view st6)) with (period_graph st6).
    rewrite <- (foldM_view_same _ _ _ (gtd_edge_view cfg t)).
    now rewrite (view_of_Ok _ _ _ E7). }
  exists (period_graph st7), (period_data st7), recs.
  split; [exact Hrun |]. split; [| exact Hrecs].
  rewrite Happ. reflexivity.
Qed.

(** The period loop body returns whenever [period_run] does. *)
Lemma gtd_period_ok (cfg : Config) (base : DiGraph)
  (self0 : SupplyChainGenerator) (rnd : RandomSource) (t : nat)
  (gr : DiGraph * RandomSource) :
  period_run cfg self0 t (base, rnd) = Ok gr ->
  exists self', gtd_period cfg base (self0, rnd) t = Ok (self', snd gr).
Proof.
  unfold gtd_period, period_run, node_updates, entity_updates. cbv zeta.
  set (self1 := with_timestamp self0 (S (timestamp self0))).
  set (st0 := {| period_graph := copy base;
                 period_data := [("date", VDate (add_days BASE_DATE
                                                   (30 * Z.of_nat t)))];
                 gen := self1; rs := rnd |}).
  change (business_group self1) with (business_group self0).
  change (product_families self1) with (product_families self0).
  change (product_offerings self1) with (product_offerings self0).
  change (warehouses self1) with (warehouses self0).
  change (suppliers self1) with (suppliers self0).
  change (parts self1) with (parts self0).
  destruct (business_group self0) as [b|]; [| discriminate].
  cbn [from_option bind foldM].
  change (base, rnd) with (period_view st0).
  rewrite <- gtd_business_group_view.
  destruct (gtd_business_group cfg t st0 b) as [st1|e];
    cbn [bind map_result]; [| discriminate].
  rewrite foldM_app, <- (foldM_view_map _ _ _ _ (gtd_family_view cfg t)).
  destruct (foldM (gtd_family cfg t) (product_families self0) st1) as [st2|e];
    cbn [bind map_result]; [| discriminate].
  rewrite foldM_app, <- (foldM_view _ _ _ _ (gtd_offering_view cfg t)).
  destruct (foldM (gtd_offering cfg t) (product_offerings self0) st2)
    as [st3|e]; cbn [bind map_result]; [| discriminate].
  rewrite foldM_app, <- (foldM_view_map _ _ _ _ (gtd_warehouse_view cfg t)).
  destruct (foldM (gtd_warehouse cfg t) (all_values (warehouses self0)) st3)
    as [st4|e]; cbn [bind map_result]; [| discriminate].
  rewrite foldM_app, <- (foldM_view_map _ _ _ _ (gtd_supplier_view cfg t)).
  destruct (foldM (gtd_supplier cfg t) (suppliers self0) st4)
    as [st5|e]; cbn [bind map_result]; [| discriminate].
  unfold valid_parts. rewrite <- flat_map_filter.
  rewrite <- (foldM_view _ _ _ _ (gtd_part_view cfg t (period_date t))).
  unfold period_date.
  destruct (foldM (gtd_part cfg t (add_days BASE_DATE (30 * Z.of_nat t)))
              (all_values (parts self0)) st5)
    as [st6|e]; cbn [bind map_result]; [| discriminate].
  change (fst (period_view st6)) with (period_graph st6).
  rewrite <- (foldM_view_same _ _ _ (gtd_edge_view cfg t)).
  destruct (foldM (gtd_edge cfg t) (edges (period_graph st6)) st6)
    as [st7|e]; cbn [bind map_result]; [| discriminate].
  intros H. apply Ok_inj in H. subst gr. eexists. reflexivity.
Qed.

(* ----------------------------------------------------------------- *)
(** ** Full regeneration *)

Lemma valid_parts_same_entities (s s' : SupplyChainGenerator) (t : nat) :
  same_entities s s' -> valid_parts s' t = valid_parts s t.
Proof.
  intros (_ & _ & _ & Hp & _). unfold valid_parts. now rewrite Hp.
Qed.

Lemma node_updates_same_entities (s s' : SupplyChainGenerator) (t : nat) :
  same_entities s s' -> node_updates s' t = node_updates s t.
Proof.
  intros Hent. unfold node_updates, entity_updates.
  rewrite (valid_parts_same_entities s s' t Hent).
  destruct Hent as (Hs & Hw & _ & _ & Ho & Hf & Hb & _).
  now rewrite Hs, Hw, Ho, Hf, Hb.
Qed.

Lemma period_run_same_entities (cfg : Config) (s s' : SupplyChainGenerator)
  (t : nat) (gr : DiGraph * RandomSource) :
  same_entities s s' -> period_run cfg s' t gr = period_run cfg s t gr.
Proof.
  intros Hent. unfold period_run.
  rewrite (node_updates_same_entities s s' t Hent).
  destruct Hent as (_ & _ & _ & _ & _ & _ & Hb & _). now rewrite Hb.
Qed.

(** The state between two periods of a regeneration pass that started
    from [self0]: the snapshots of the periods done so far, and the records
    they wrote. *)
Lemma regeneration_loop (cfg : Config) (base : DiGraph)
  (self0 : SupplyChainGenerator) :
  forall (n first : nat) (self : SupplyChainGenerator) (rnd : RandomSource)
         (self' : SupplyChainGenerator) (rnd' : RandomSource),
  foldM (gtd_period cfg base) (seq first n) (self, rnd) = Ok (self', rnd') ->
  same_entities self0 self -> G self = G self0 ->
  (first + n <= base_periods self0)%nat -> (1 <= first)%nat ->
  (timestamp self + 1 = timestamp self0 + first)%nat ->
  exists recs,
    operations_log self' = operations_log self ++ recs /\
    Forall (regeneration_record self0 (timestamp self0)) recs /\
    same_entities self0 self' /\ G self' = G self0 /\
    (timestamp self' = timestamp self + n)%nat /\
    current_period self' = current_period self /\
    (forall t, (first <= t < first + n)%nat ->
       exists g r, dict_get (temporal_graphs self') t = Some g /\
                   exists r', period_run cfg self0 t (base, r) = Ok (g, r')) /\
    (forall t, ~ (first <= t < first + n)%nat ->
       dict_get (temporal_graphs self') t = dict_get (temporal_graphs self) t).
Proof.
  induction n as [|n IH]; intros first self rnd self' rnd' H Hent HG Hbound
    Hfirst Hts; simpl in H.
  - apply Ok_inj in H. injection H as <- <-. exists [].
    rewrite app_nil_r.
    split; [reflexivity |]. split; [constructor |]. split; [exact Hent |].
    split; [exact HG |]. split; [lia |]. split; [reflexivity |].
    split; [intros t Ht; lia | reflexivity].
  - bind_inv H. destruct a as [self1 rnd1].
    apply gtd_period_inv in E.
    destruct E as (g1 & d1 & recs1 & Hrun & -> & Hrecs1).
    match type of H with
    | foldM _ _ (?s, _) = _ => set (self1 := s) in *
    end.
    assert (Hent1 : same_entities self0 self1).
    { unfold same_entities in *. subst self1. simpl. exact Hent. }
    specialize (IH (S first) self1 rnd1 self' rnd' H Hent1
                  ltac:(subst self1; simpl; exact HG) ltac:(lia) ltac:(lia)
                  ltac:(subst self1; simpl; lia)).
    destruct IH as (recs & Hlog & Hrecs & Hent' & HG' & Hts' & Hcp & Hin & Hout).
    exists (recs1 ++ recs).
    assert (Hrun0 : period_run cfg self0 first (base, rnd) = Ok (g1, rnd1)).
    { rewrite <- (period_run_same_entities cfg self0 self first _ Hent).
      exact Hrun. }
    split; [rewrite Hlog; subst self1; simpl; now rewrite app_assoc |].
    split.
    { apply Forall_app. split; [| exact Hrecs].
      eapply Forall_impl; [| exact Hrecs1].
      intros op (Ha & Ht & Hp). exists first.
      split; [lia |]. split; [exact Ha |]. split; [lia |].
      unfold part_record_valid in *.
      rewrite <- (valid_parts_same_entities self0 self first Hent). exact Hp. }
    split; [exact Hent' |]. split; [exact HG' |].
    split; [rewrite Hts'; subst self1; simpl; lia |].
    split; [rewrite Hcp; subst self1; reflexivity |].
    split.
    + intros t Ht. destruct (Nat.eq_dec t first) as [->|Hne].
      * exists g1, rnd. split; [| eauto].
        rewrite Hout by lia. subst self1. simpl. apply dict_get_set_eq.
      * apply Hin. lia.
    + intros t Ht. rewrite Hout by lia. subst self1. simpl.
      apply dict_get_set_neq. lia.
Qed.

(* ----------------------------------------------------------------- *)
(** ** Runs over the update list *)

Lemma apply_node_update_inv (cfg : Config) (t : nat) (g : DiGraph)
  (r : RandomSource) (u : NodeUpdate) (g' : DiGraph) (r' : RandomSource) :
  apply_node_update cfg t (g, r) u = Ok (g', r') ->
  setitem_node g (nu_node u) (nu_key u)
    (evolved cfg (nu_base u) (nu_feature u) t r) = Ok g' /\
  r' = snd (_generate_temporal_value cfg (nu_base u) (nu_feature u) t r).
Proof.
  unfold apply_node_update. cbn [fst snd]. intros H. bind_inv H.
  apply Ok_inj in H. injection H as <- <-. auto.
Qed.

Lemma target_eq_dec (a b : string * string) : {a = b} + {a <> b}.
Proof. decide equality; apply string_dec. Qed.

(** A run assigns nothing but its targets, and leaves the edges alone. *)
Lemma node_updates_frame (cfg : Config) (t : nat) (l : list NodeUpdate) :
  forall g r g' r',
  foldM (apply_node_update cfg t) l (g, r) = Ok (g', r') ->
  _adj g' = _adj g /\ keys (_node g') = keys (_node g) /\
  forall m j, ~ In (m, j) (map target l) -> node_attr g' m j = node_attr g m j.
Proof.
  induction l as [|u l IH]; intros g r g' r' H; simpl in H.
  - apply Ok_inj in H. injection H as <- <-. auto.
  - bind_inv H. destruct a as [g1 r1].
    apply apply_node_update_inv in E. destruct E as (Hset & _).
    destruct (IH _ _ _ _ H) as (Hadj & Hkeys & Hframe).
    split; [rewrite Hadj; eapply setitem_node_adj; exact Hset |].
    split; [rewrite Hkeys; eapply setitem_node_keys; exact Hset |].
    intros m j Hnot. rewrite Hframe.
    + rewrite (node_attr_setitem_node _ _ _ _ _ m j Hset).
      destruct (String.eqb_spec (nu_node u) m) as [<-|]; [| reflexivity].
      destruct (String.eqb_spec (nu_key u) j) as [<-|]; [| reflexivity].
      exfalso. apply Hnot. now left.
    + intros Hin. apply Hnot. now right.
Qed.

(** After a run, every target holds the formula applied to the base value
    of the last update of that target. *)
Lemma node_updates_value (cfg : Config) (t : nat) (l : list NodeUpdate) :
  forall g r g' r',
  foldM (apply_node_update cfg t) l (g, r) = Ok (g', r') ->
  forall u, In u l ->
  exists u' r0,
    In u' l /\ target u' = target u /\
    node_attr g' (nu_node u) (nu_key u)
    = Some (evolved cfg (nu_base u') (nu_feature u') t r0).
Proof.
  induction l as [|u0 l IH]; intros g r g' r' H u Hin; [destruct Hin |].
  simpl in H. bind_inv H. destruct a as [g1 r1].
  destruct (in_dec target_eq_dec (target u) (map target l)) as [Hlater|Hlast].
  - apply in_map_iff in Hlater. destruct Hlater as (u1 & Ht & Hin1).
    destruct (IH _ _ _ _ H u1 Hin1) as (u' & r0 & Hin' & Ht' & Hval).
    exists u', r0. split; [now right |]. split; [congruence |].
    unfold target in Ht. injection Ht as Hn Hk. rewrite <- Hn, <- Hk. exact Hval.
  - destruct Hin as [->|Hin].
    + apply apply_node_update_inv in E. destruct E as (Hset & _).
      exists u, r. split; [now left |]. split; [reflexivity |].
      destruct (node_updates_frame cfg t l _ _ _ _ H) as (_ & _ & Hframe).
      rewrite (Hframe _ _ Hlast).
      rewrite (node_attr_setitem_node _ _ _ _ _ _ _ Hset).
      now rewrite !String.eqb_refl.
    + exfalso. apply Hlast. now apply in_map.
Qed.

(** With pairwise distinct targets, each target holds the formula applied
    to its own base value. *)
Lemma node_updates_value_distinct (cfg : Config) (t : nat)
  (l : list NodeUpdate) (g : DiGraph) (r : RandomSource) (g' : DiGraph)
  (r' : RandomSource) :
  foldM (apply_node_update cfg t) l (g, r) = Ok (g', r') ->
  NoDup (map target l) ->
  forall u, In u l ->
  exists r0,
    node_attr g' (nu_node u) (nu_key u)
    = Some (evolved cfg (nu_base u) (nu_feature u) t r0).
Proof.
  intros H Hnd u Hin.
  destruct (node_updates_value cfg t l _ _ _ _ H u Hin)
    as (u' & r0 & Hin' & Ht & Hval).
  assert (u' = u) as ->; [| eauto].
  clear - Hnd Hin Hin' Ht.
  induction l as [|a l IH]; [destruct Hin |].
  simpl in Hnd. inversion Hnd as [|? ? Hnot Hnd']; subst.
  destruct Hin as [->|Hin], Hin' as [->|Hin']; auto.
  - exfalso. apply Hnot. rewrite <- Ht. now apply in_map.
  - exfalso. apply Hnot. rewrite Ht. now apply in_map.
Qed.

(** A run returns when every node it assigns exists. *)
Lemma node_updates_ok (cfg : Config) (t : nat) (l : list NodeUpdate) :
  forall g r,
  (forall u, In u l -> dict_mem (_node g) (nu_node u) = true) ->
  exists gr, foldM (apply_node_update cfg t) l (g, r) = Ok gr.
Proof.
  induction l as [|u l IH]; intros g r Hmem; simpl; [eauto |].
  destruct (setitem_node_ok g (nu_node u) (nu_key u)
              (evolved cfg (nu_base u) (nu_feature u) t r)) as [g1 Hg1].
  { apply Hmem. now left. }
  unfold apply_node_update at 1. cbn [fst snd]. rewrite Hg1. cbn [bind].
  apply IH. intros u1 Hin. unfold dict_mem.
  assert (Hk : keys (_node g1) = keys (_node g))
    by (eapply setitem_node_keys; exact Hg1).
  specialize (Hmem u1 (or_intror Hin)). unfold dict_mem in Hmem.
  destruct (dict_get (_node g1) (nu_node u1)) eqn:E1; [reflexivity |].
  apply dict_get_None_keys in E1. rewrite Hk in E1.
  apply dict_get_None_keys in E1. now rewrite E1 in Hmem.
Qed.

Lemma edge_attrs_attr (g : DiGraph) (u v : string) (a : attrs) (k : string) :
  edge_attrs g u v = Ok a -> edge_attr g u v k = dict_get a k.
Proof.
  unfold edge_attrs, edge_attr, getitem.
  destruct (dict_get (_adj g) u) as [nbrs|]; simpl; [| discriminate].
  destruct (dict_get nbrs v) as [a'|]; simpl; [| discriminate].
  intros E. apply Ok_inj in E. now subst.
Qed.

Lemma edge_attrs_setitem_edge (g g' : DiGraph) (u v k : string) (x : value)
  (u' v' : string) (a : attrs) :
  setitem_edge g u v k x = Ok g' -> edge_attrs g u' v' = Ok a ->
  exists a', edge_attrs g' u' v' = Ok a' /\
             forall j, dict_get a' j
                       = if String.eqb u u' && String.eqb v v' && String.eqb k j
                         then Some x else dict_get a j.
Proof.
  intros Hset Ha.
  pose proof (fun j => edge_attr_setitem_edge _ _ _ _ _ _ u' v' j Hset) as Hattr.
  apply setitem_edge_inv in Hset.
  destruct Hset as (nbrs & a0 & Hn & Ha0 & ->).
  unfold edge_attrs, getitem in *. simpl _adj in *.
  rewrite dict_get_set, string_eqb_key.
  destruct (String.eqb_spec u u') as [<-|Hne]; simpl.
  - rewrite Hn in Ha. simpl in Ha.
    rewrite dict_get_set, string_eqb_key.
    destruct (String.eqb_spec v v') as [<-|Hne]; simpl.
    + rewrite Ha0 in Ha. simpl in Ha. apply Ok_inj in Ha. subst a0.
      eexists. split; [reflexivity |]. intros j.
      now rewrite dict_get_set, string_eqb_key.
    + destruct (dict_get nbrs v') as [a1|]; simpl in *; [| discriminate].
      apply Ok_inj in Ha. subst a1. eauto.
  - destruct (dict_get (_adj g) u') as [nb|]; simpl in *; [| discriminate].
    destruct (dict_get nb v') as [a1|]; simpl in *; [| discriminate].
    apply Ok_inj in Ha. subst a1. eauto.
Qed.

Lemma dict_mem_get {V : Type} (d : dict V) (k : string) :
  dict_mem d k = true <-> dict_get d k <> None.
Proof.
  unfold dict_mem. destruct (dict_get d k); split; congruence.
Qed.

(** One attribute of one edge. *)
Lemma apply_edge_update_inv (cfg : Config) (t : nat) (u v : string)
  (g : DiGraph) (r : RandomSource) (k f : string) (g' : DiGraph)
  (r' : RandomSource) :
  apply_edge_update cfg t (u, v) (g, r) (k, f) = Ok (g', r') ->
  (edge_attr g u v k = None /\ g' = g /\ r' = r) \/
  (exists x b,
      edge_attr g u v k = Some x /\ as_number x = Ok b /\
      setitem_edge g u v k (evolved cfg b f t r) = Ok g').
Proof.
  unfold apply_edge_update. cbn [fst snd]. intros H.
  bind_inv H. rename a into attrs0.
  rewrite (edge_attrs_attr _ _ _ _ k E).
  unfold dict_mem in H.
  destruct (dict_get attrs0 k) as [x|] eqn:Ek.
  - right. bind_inv H. bind_inv H. apply Ok_inj in H. injection H as <- <-.
    unfold getitem in E0. rewrite Ek in E0. simpl in E0.
    exists x, a. auto.
  - left. apply Ok_inj in H. injection H as <- <-. auto.
Qed.

(** The attributes [fl] of one edge: each is evolved from its value before
    the run; nothing else changes. *)
Lemma edge_updates_one_edge (cfg : Config) (t : nat) (u v : string)
  (fl : list (string * string)) :
  forall g r g' r',
  foldM (apply_edge_update cfg t (u, v)) fl (g, r) = Ok (g', r') ->
  NoDup (map fst fl) ->
  edges g' = edges g /\ _node g' = _node g /\
  (forall u' v' k', (u', v') <> (u, v) \/ ~ In k' (map fst fl) ->
     edge_attr g' u' v' k' = edge_attr g u' v' k') /\
  (forall k f, In (k, f) fl ->
     edge_evolved cfg t f (edge_attr g u v k) (edge_attr g' u v k)).
Proof.
  induction fl as [|[k0 f0] fl IH]; intros g r g' r' H Hnd; simpl in H.
  - apply Ok_inj in H. injection H as <- <-.
    repeat split; auto. intros k f [].
  - bind_inv H. destruct a as [g1 r1].
    simpl in Hnd. inversion Hnd as [|? ? Hnot Hnd']; subst.
    destruct (IH _ _ _ _ H Hnd') as (Hedges & Hnode & Hframe & Hval).
    apply apply_edge_update_inv in E.
    destruct E as [(Hnone & -> & ->) | (x & b & Hx & Hb & Hset)].
    + split; [exact Hedges |]. split; [exact Hnode |]. split.
      * intros u' v' k' Hother. apply Hframe.
        destruct Hother as [Huv|Hk]; [now left | right].
        intros Hin. apply Hk. now right.
      * intros k f [Heq|Hin]; [| now apply Hval].
        injection Heq as <- <-. rewrite Hframe by (right; exact Hnot).
        rewrite Hnone. reflexivity.
    + split; [rewrite Hedges; eapply edges_setitem_edge; exact Hset |].
      split; [rewrite Hnode; eapply setitem_edge_node; exact Hset |].
      split.
      * intros u' v' k' Hother. rewrite Hframe.
        -- rewrite (edge_attr_setitem_edge _ _ _ _ _ _ u' v' k' Hset).
           destruct (String.eqb_spec u u') as [<-|]; [| reflexivity].
           destruct (String.eqb_spec v v') as [<-|]; [| reflexivity].
           destruct (String.eqb_spec k0 k') as [<-|]; [| reflexivity].
           exfalso. destruct Hother as [Huv|Hk]; [now apply Huv |].
           apply Hk. now left.
        -- destruct Hother as [Huv|Hk]; [now left | right].
           intros Hin. apply Hk. now right.
      * intros k f [Heq|Hin].
        -- injection Heq as <- <-. rewrite Hframe by (right; exact Hnot).
           rewrite (edge_attr_setitem_edge _ _ _ _ _ _ u v k0 Hset).
           rewrite !String.eqb_refl. rewrite Hx. simpl. eauto.
        -- specialize (Hval k f Hin).
           rewrite (edge_attr_setitem_edge _ _ _ _ _ _ u v k Hset) in Hval.
           rewrite !String.eqb_refl in Hval. simpl in Hval.
           destruct (String.eqb_spec k0 k) as [<-|Hne]; [| exact Hval].
           exfalso. apply Hnot. change k0 with (fst (k0, f)). now apply in_map.
Qed.

(** The edge phase of a period: every listed edge has its two attributes
    evolved from the values it had before the phase. *)
Lemma edge_updates_run (cfg : Config) (t : nat) (l : list (string * string)) :
  forall g r g' r',
  foldM (apply_edge_updates cfg t) l (g, r) = Ok (g', r') ->
  NoDup l ->
  edges g' = edges g /\ _node g' = _node g /\
  (forall u v k, ~ In (u, v) l \/ ~ In k (map fst edge_features) ->
     edge_attr g' u v k = edge_attr g u v k) /\
  (forall u v k f, In (u, v) l -> In (k, f) edge_features ->
     edge_evolved cfg t f (edge_attr g u v k) (edge_attr g' u v k)).
Proof.
  induction l as [|[u0 v0] l IH]; intros g r g' r' H Hnd; simpl in H.
  - apply Ok_inj in H. injection H as <- <-.
    repeat split; auto. intros u v k f [].
  - bind_inv H. destruct a as [g1 r1].
    inversion Hnd as [|? ? Hnot Hnd']; subst.
    destruct (IH _ _ _ _ H Hnd') as (Hedges & Hnode & Hframe & Hval).
    unfold apply_edge_updates in E.
    apply edge_updates_one_edge in E;
      [| repeat constructor; simpl; intuition discriminate].
    destruct E as (Hedges1 & Hnode1 & Hframe1 & Hval1).
    split; [congruence |]. split; [congruence |]. split.
    + intros u v k Hother. rewrite Hframe, Hframe1; [reflexivity | |].
      * destruct Hother as [Huv|Hk]; [left | now right].
        intros Heq. apply Huv. left. congruence.
      * destruct Hother as [Huv|Hk]; [left | now right].
        intros Hin. apply Huv. now right.
    + intros u v k f [Heq|Hin] Hk.
      * injection Heq as <- <-. rewrite Hframe by (left; exact Hnot).
        now apply Hval1.
      * rewrite <- (Hframe1 u v k).
        -- now apply Hval.
        -- left. intros Heq. injection Heq as <- <-. now apply Hnot.
Qed.

Lemma evolved_is_number (cfg : Config) (b : R) (f : string) (t : nat)
  (r : RandomSource) : is_number (evolved cfg b f t r).
Proof. unfold is_number, evolved. simpl. eauto. Qed.

Lemma edge_ok_setitem_edge (cfg : Config) (g g' : DiGraph) (u v k : string)
  (b : R) (f : string) (t : nat) (r : RandomSource) (u' v' : string) :
  setitem_edge g u v k (evolved cfg b f t r) = Ok g' ->
  edge_ok g u' v' -> edge_ok g' u' v'.
Proof.
  intros Hset (a & Ha & Hnum).
  destruct (edge_attrs_setitem_edge _ _ _ _ _ _ u' v' a Hset Ha)
    as (a' & Ha' & Hget).
  exists a'. split; [exact Ha' |]. intros j fj x Hin Hx.
  rewrite Hget in Hx.
  destruct (String.eqb u u' && String.eqb v v' && String.eqb k j).
  - injection Hx as <-. apply evolved_is_number.
  - eapply Hnum; eassumption.
Qed.

Lemma apply_edge_update_ok (cfg : Config) (t : nat) (u v : string)
  (g : DiGraph) (r : RandomSource) (k f : string) :
  In (k, f) edge_features -> edge_ok g u v ->
  exists g' r',
    apply_edge_update cfg t (u, v) (g, r) (k, f) = Ok (g', r') /\
    forall u' v', edge_ok g u' v' -> edge_ok g' u' v'.
Proof.
  intros Hin (a & Ha & Hnum).
  unfold apply_edge_update. cbn [fst snd]. rewrite Ha. cbn [bind].
  unfold dict_mem, getitem.
  destruct (dict_get a k) as [x|] eqn:Ek; [| eauto].
  destruct (Hnum k f x Hin Ek) as (b & Hb). simpl. rewrite Hb. cbn [bind].
  assert (Hset : exists g', setitem_edge g u v k (evolved cfg b f t r) = Ok g').
  { unfold setitem_edge, edge_attrs, getitem in *.
    destruct (dict_get (_adj g) u) as [nbrs|]; simpl in *; [| discriminate].
    destruct (dict_get nbrs v); simpl in *; [eauto | discriminate]. }
  destruct Hset as (g' & Hset). rewrite Hset. cbn [bind].
  eexists _, _. split; [reflexivity |].
  intros u' v'. eapply edge_ok_setitem_edge; exact Hset.
Qed.

Lemma apply_edge_updates_ok (cfg : Config) (t : nat) (u v : string)
  (g : DiGraph) (r : RandomSource) :
  edge_ok g u v ->
  exists g' r',
    apply_edge_updates cfg t (g, r) (u, v) = Ok (g', r') /\
    forall u' v', edge_ok g u' v' -> edge_ok g' u' v'.
Proof.
  intros Hok. unfold apply_edge_updates, edge_features. cbn [foldM].
  destruct (apply_edge_update_ok cfg t u v g r "transportation_cost"
              "transportation_cost" ltac:(now left) Hok)
    as (g1 & r1 & E1 & Hkeep1).
  rewrite E1. cbn [bind].
  destruct (apply_edge_update_ok cfg t u v g1 r1 "inventory_level"
              "inventory" ltac:(right; now left) (Hkeep1 _ _ Hok))
    as (g2 & r2 & E2 & Hkeep2).
  rewrite E2. cbn [bind]. eexists _, _. split; [reflexivity |]. auto.
Qed.

(** The edge phase returns when every listed edge can be evolved. *)
Lemma edge_updates_ok (cfg : Config) (t : nat) (l : list (string * string)) :
  forall g r,
  (forall u v, In (u, v) l -> edge_ok g u v) ->
  exists gr, foldM (apply_edge_updates cfg t) l (g, r) = Ok gr.
Proof.
  induction l as [|[u v] l IH]; intros g r Hok; simpl; [eauto |].
  destruct (apply_edge_updates_ok cfg t u v g r (Hok _ _ (or_introl eq_refl)))
    as (g1 & r1 & E1 & Hkeep).
  rewrite E1. cbn [bind]. apply IH.
  intros u' v' Hin. apply Hkeep, Hok. now right.
Qed.

(* ----------------------------------------------------------------- *)
(** ** The graph of a period *)

Lemma edge_ok_adj (g g' : DiGraph) (u v : string) :
  _adj g' = _adj g -> edge_ok g u v -> edge_ok g' u v.
Proof. unfold edge_ok, edge_attrs. now intros ->. Qed.

Lemma edge_attr_adj (g g' : DiGraph) (u v k : string) :
  _adj g' = _adj g -> edge_attr g' u v k = edge_attr g u v k.
Proof. unfold edge_attr. now intros ->. Qed.

Lemma edges_adj (g g' : DiGraph) : _adj g' = _adj g -> edges g' = edges g.
Proof. unfold edges. now intros ->. Qed.

Lemma node_attr_node (g g' : DiGraph) (m j : string) :
  _node g' = _node g -> node_attr g' m j = node_attr g m j.
Proof. unfold node_attr. now intros ->. Qed.

(** [period_run] returns on every graph that the generator can evolve. *)
Lemma period_run_ok (cfg : Config) (self : SupplyChainGenerator) (g : DiGraph) :
  evolvable self g ->
  forall t r, exists gr, period_run cfg self t (g, r) = Ok gr.
Proof.
  intros (Hbg & Hnodes & Hedges) t r. unfold period_run.
  destruct (business_group self) as [b|] eqn:Eb; [| congruence].
  destruct (node_updates_ok cfg t (node_updates self t) g r (Hnodes t))
    as ([g1 r1] & E1).
  rewrite E1. cbn [bind fst].
  destruct (node_updates_frame cfg t _ _ _ _ _ E1) as (Hadj & _ & _).
  apply edge_updates_ok. intros u v Hin.
  apply (edge_ok_adj g g1 u v Hadj). apply Hedges.
  now rewrite <- (edges_adj g g1 Hadj).
Qed.

(** What [period_run] computes.  Only the listed node attributes and the
    two edge attributes in scope change.  Every listed node attribute
    holds the formula applied to the record value of the last update of
    that target, and of its own update when the targets are distinct.
    Every edge attribute in scope holds the formula applied to the value
    it had in the graph that the run started from. *)
Lemma period_run_spec (cfg : Config) (self : SupplyChainGenerator) (t : nat)
  (g : DiGraph) (r : RandomSource) (g' : DiGraph) (r' : RandomSource) :
  period_run cfg self t (g, r) = Ok (g', r') ->
  keys (_node g') = keys (_node g) /\
  (forall m j, ~ In (m, j) (map target (node_updates self t)) ->
     node_attr g' m j = node_attr g m j) /\
  (forall u, In u (node_updates self t) ->
     exists u' r0,
       In u' (node_updates self t) /\ target u' = target u /\
       node_attr g' (nu_node u) (nu_key u)
       = Some (evolved cfg (nu_base u') (nu_feature u') t r0)) /\
  (NoDup (map target (node_updates self t)) ->
   forall u, In u (node_updates self t) ->
     exists r0, node_attr g' (nu_node u) (nu_key u)
                = Some (evolved cfg (nu_base u) (nu_feature u) t r0)) /\
  (NoDup (edges g) ->
   edges g' = edges g /\
   (forall u v k, ~ In (u, v) (edges g) \/ ~ In k (map fst edge_features) ->
      edge_attr g' u v k = edge_attr g u v k) /\
   (forall u v k f, In (u, v) (edges g) -> In (k, f) edge_features ->
      edge_evolved cfg t f (edge_attr g u v k) (edge_attr g' u v k))).
Proof.
  unfold period_run. intros H.
  destruct (business_group self) as [b|]; [| discriminate].
  bind_inv H. destruct a as [g1 r1]. cbn [fst] in H.
  destruct (node_updates_frame cfg t _ _ _ _ _ E) as (Hadj & Hkeys & Hframe).
  assert (Hnode' : _node g' = _node g1).
  { clear - H. remember (edges g1) as l eqn:El. clear El.
    revert g1 r1 H. induction l as [|[u v] l IH]; intros g1 r1 H; simpl in H.
    - apply Ok_inj in H. now injection H as <- <-.
    - bind_inv H. destruct a as [g2 r2]. rewrite (IH _ _ H).
      unfold apply_edge_updates in E.
      apply edge_updates_one_edge in E;
        [tauto | repeat constructor; simpl; intuition discriminate]. }
  split; [now rewrite Hnode' |].
  split; [intros m j Hnot; rewrite (node_attr_node g1 g' m j Hnode');
          now apply Hframe |].
  split.
  { intros u Hin.
    destruct (node_updates_value cfg t _ _ _ _ _ E u Hin)
      as (u' & r0 & Hin' & Ht & Hval).
    exists u', r0. split; [exact Hin' |]. split; [exact Ht |].
    now rewrite (node_attr_node g1 g' _ _ Hnode'). }
  split.
  { intros Hnd u Hin.
    destruct (node_updates_value_distinct cfg t _ _ _ _ _ E Hnd u Hin)
      as (r0 & Hval).
    exists r0. now rewrite (node_attr_node g1 g' _ _ Hnode'). }
  intros Hnd. rewrite <- (edges_adj g g1 Hadj) in Hnd.
  destruct (edge_updates_run cfg t _ _ _ _ _ H Hnd)
    as (Hedges & _ & Hframe_e & Hval_e).
  rewrite (edges_adj g g1 Hadj) in *.
  split; [exact Hedges |]. split.
  - intros u v k Hother.
    rewrite <- (edge_attr_adj g g1 u v k Hadj). now apply Hframe_e.
  - intros u v k f Huv Hk.
    rewrite <- (edge_attr_adj g g1 u v k Hadj). now apply Hval_e.
Qed.

(* ----------------------------------------------------------------- *)
(** ** The two evolution modes as a whole *)

Lemma same_entities_refl (s : SupplyChainGenerator) : same_entities s s.
Proof. unfold same_entities. repeat split. Qed.

Lemma same_entities_with_temporal (s : SupplyChainGenerator)
  (tg : list (nat * DiGraph)) (td : list (nat * attrs)) (cp : nat) :
  same_entities s (with_temporal s tg td cp).
Proof. unfold same_entities. simpl. repeat split. Qed.

(** What [generate_temporal_data] does to the generator. *)
Lemma generate_temporal_data_inv (cfg : Config) (self : SupplyChainGenerator)
  (rnd : RandomSource) (self' : SupplyChainGenerator) (rnd' : RandomSource) :
  generate_temporal_data cfg self rnd = Ok (self', rnd') ->
  exists recs,
    operations_log self' = operations_log self ++ recs /\
    Forall (regeneration_record self (timestamp self)) recs /\
    same_entities self self' /\ G self' = G self /\
    (timestamp self' = timestamp self + Nat.pred (base_periods self))%nat /\
    current_period self' = current_period self /\
    dict_get (temporal_graphs self') 0%nat = Some (G self) /\
    (forall t, (1 <= t < base_periods self)%nat ->
       exists g r r', dict_get (temporal_graphs self') t = Some g /\
                      period_run cfg self t (G self, r) = Ok (g, r')) /\
    (forall t, (base_periods self <= t)%nat -> t <> 0%nat ->
       dict_get (temporal_graphs self') t = dict_get (temporal_graphs self) t).
Proof.
  unfold generate_temporal_data, copy. cbv zeta.
  set (self1 := with_temporal self
                  (dict_set (temporal_graphs self) 0%nat (G self))
                  (temporal_data self) (current_period self)).
  intros H.
  destruct (base_periods self) as [|n] eqn:Ebp.
  - simpl in H. apply Ok_inj in H. injection H as <- <-.
    exists []. rewrite app_nil_r. subst self1. simpl.
    split; [reflexivity |]. split; [constructor |].
    split; [apply same_entities_with_temporal |].
    split; [reflexivity |]. split; [lia |]. split; [reflexivity |].
    split; [apply dict_get_set_eq |].
    split; [intros t Ht; lia |].
    intros t _ Ht. apply dict_get_set_neq. auto.
  - simpl Nat.pred in *.
    apply (regeneration_loop cfg (G self) self) in H.
    + destruct H as (recs & Hlog & Hrecs & Hent & HG & Hts & Hcp & Hin & Hout).
      exists recs.
      split; [exact Hlog |]. split; [exact Hrecs |]. split; [exact Hent |].
      split; [exact HG |]. split; [exact Hts |]. split; [exact Hcp |].
      split; [rewrite Hout by lia; subst self1; simpl; apply dict_get_set_eq |].
      split.
      * intros t Ht. destruct (Hin t ltac:(lia)) as (g & r & Hg & r' & Hrun).
        eauto.
      * intros t Ht Hne. rewrite Hout by lia. subst self1. simpl.
        apply dict_get_set_neq. auto.
    + apply same_entities_with_temporal.
    + reflexivity.
    + lia.
    + lia.
    + subst self1. simpl. lia.
Qed.

Lemma evolvable_same_entities (s s' : SupplyChainGenerator) (g : DiGraph) :
  same_entities s s' -> evolvable s g -> evolvable s' g.
Proof.
  intros Hent (Hbg & Hnodes & Hedges). split; [| split].
  - destruct Hent as (_ & _ & _ & _ & _ & _ & Hb & _). now rewrite Hb.
  - intros t u. rewrite (node_updates_same_entities s s' t Hent). apply Hnodes.
  - exact Hedges.
Qed.

Lemma regeneration_loop_ok (cfg : Config) (base : DiGraph)
  (self0 : SupplyChainGenerator) :
  evolvable self0 base ->
  forall (l : list nat) (self : SupplyChainGenerator) (rnd : RandomSource),
  same_entities self0 self ->
  exists res, foldM (gtd_period cfg base) l (self, rnd) = Ok res.
Proof.
  intros Hev l. induction l as [|t l IH]; intros self rnd Hent; cbn [foldM];
    [eauto |].
  destruct (period_run_ok cfg self base
              (evolvable_same_entities self0 self base Hent Hev) t rnd)
    as (gr & Hrun).
  destruct (gtd_period_ok cfg base self rnd t gr Hrun) as (self1 & E).
  rewrite E. cbn [bind]. apply IH.
  apply gtd_period_inv in E. destruct E as (g' & d' & recs & _ & -> & _).
  unfold same_entities in *. simpl. exact Hent.
Qed.

(** [generate_temporal_data] returns when the generator can evolve its
    graph. *)
Lemma generate_temporal_data_ok (cfg : Config) (self : SupplyChainGenerator)
  (rnd : RandomSource) :
  evolvable self (G self) ->
  exists res, generate_temporal_data cfg self rnd = Ok res.
Proof.
  intros Hev. unfold generate_temporal_data, copy. cbv zeta.
  apply (regeneration_loop_ok cfg (G self) self Hev).
  apply same_entities_with_temporal.
Qed.

Lemma max_key_In {V : Type} (d : list (nat * V)) (k : nat) :
  max_key d = Ok k -> In k (keys d) /\ forall k', In k' (keys d) -> (k' <= k)%nat.
Proof.
  unfold max_key. destruct (keys d) as [|k0 l]; [discriminate |].
  intros E. apply Ok_inj in E. subst k.
  revert k0. induction l as [|a l IH]; intros k0; simpl.
  - split; [now left |]. intros k' [<-|[]]. lia.
  - destruct (IH (Nat.max k0 a)) as (Hin & Hmax). split.
    + destruct (Nat.max_spec k0 a) as [[_ Hm]|[_ Hm]]; rewrite Hm in *.
      * now right.
      * destruct Hin as [Heq|Hin']; [now left | now right; right].
    + intros k' [<-|[<-|Hin']].
      * specialize (Hmax _ (or_introl eq_refl)). lia.
      * specialize (Hmax _ (or_introl eq_refl)). lia.
      * apply Hmax. now right.
Qed.

(** What [simulate_next_period] does to the generator. *)
Lemma simulate_next_period_inv (cfg : Config) (self : SupplyChainGenerator)
  (rnd : RandomSource) (n : nat) (self' : SupplyChainGenerator)
  (rnd' : RandomSource) :
  simulate_next_period cfg self rnd = Ok (n, self', rnd') ->
  exists k g_k g' d',
    max_key (temporal_graphs self) = Ok k /\ n = S k /\
    dict_get (temporal_graphs self) k = Some g_k /\
    period_run cfg self n (g_k, rnd) = Ok (g', rnd') /\
    self' = with_temporal self (dict_set (temporal_graphs self) n g')
              (dict_set (temporal_data self) n d') n.
Proof.
  unfold simulate_next_period, copy. cbv zeta. intros H.
  bind_inv H. rename a into k, E into Ek.
  bind_inv H. rename a into g_k, E into Eg.
  bind_inv H. rename a into st, E into Est.
  apply Ok_inj in H. injection H as <- <- <-.
  unfold getitem in Eg.
  destruct (dict_get (temporal_graphs self) k) as [g0|] eqn:Eg0;
    [| discriminate].
  simpl in Eg. apply Ok_inj in Eg. subst g0.
  apply (view_of_Ok update_view) in Est.
  rewrite update_period_attributes_view in Est.
  exists k, g_k, (u_graph st), (u_data st).
  split; [exact Ek |]. split; [reflexivity |]. split; [exact Eg0 |].
  split; [exact Est | reflexivity].
Qed.


(* ----------------------------------------------------------------- *)
(** ** Tests that decide the side conditions at a concrete generator *)

Lemma is_ok_inv {A : Type} (r : result A) :
  is_ok r = true -> exists a, r = Ok a.
Proof. destruct r; [eauto | discriminate]. Qed.

Lemma is_number_b_sound (v : value) : is_number_b v = true -> is_number v.
Proof. unfold is_number. destruct v; simpl; try discriminate; eauto. Qed.

Lemma edge_ok_b_sound (g : DiGraph) (u v : string) :
  edge_ok_b g (u, v) = true -> edge_ok g u v.
Proof.
  unfold edge_ok_b, edge_ok. cbn [fst snd].
  destruct (edge_attrs g u v) as [a|]; [| discriminate].
  intros H. exists a. split; [reflexivity |].
  intros k f x Hin Hx. rewrite forallb_forall in H.
  specialize (H _ Hin). cbn [fst] in H. rewrite Hx in H.
  now apply is_number_b_sound.
Qed.

Lemma node_update_ids (self : SupplyChainGenerator) (t : nat) (u : NodeUpdate) :
  In u (node_updates self t) -> In (nu_node u) (entity_ids self).
Proof.
  unfold node_updates, entity_ids, entity_updates, valid_parts.
  destruct (business_group self) as [b|]; [| intros []].
  intros Hin. apply in_app_iff.
  destruct Hin as [<-|Hin]; [left; now left |]. right.
  repeat rewrite in_app_iff in Hin. repeat rewrite in_app_iff.
  destruct Hin as [Hin|[Hin|[Hin|[Hin|Hin]]]].
  - left. apply in_map_iff in Hin. destruct Hin as (x & <- & Hx).
    exact (in_map pf_id _ _ Hx).
  - right; left. apply in_flat_map in Hin. destruct Hin as (x & Hx & Hin).
    destruct Hin as [<-|[<-|[]]]; exact (in_map po_id _ _ Hx).
  - right; right; left. apply in_map_iff in Hin.
    destruct Hin as (x & <- & Hx). exact (in_map w_id _ _ Hx).
  - right; right; right; left. apply in_map_iff in Hin.
    destruct Hin as (x & <- & Hx). exact (in_map s_id _ _ Hx).
  - right; right; right; right. apply in_map_iff in Hin.
    destruct Hin as (x & <- & Hx). apply filter_In in Hx.
    exact (in_map p_id _ _ (proj1 Hx)).
Qed.

Lemma evolvable_b_sound (self : SupplyChainGenerator) (g : DiGraph) :
  evolvable_b self g = true -> evolvable self g.
Proof.
  unfold evolvable_b. rewrite !andb_true_iff. intros ((Hbg & Hids) & Hedges).
  split; [| split].
  - destruct (business_group self); [discriminate | discriminate].
  - intros t u Hin. rewrite forallb_forall in Hids.
    apply Hids. eapply node_update_ids; exact Hin.
  - intros u v Hin. rewrite forallb_forall in Hedges.
    now apply edge_ok_b_sound, Hedges.
Qed.

Lemma nodup_b_sound (l : list string) : nodup_b l = true -> NoDup l.
Proof.
  induction l as [|x r IH]; simpl; [constructor |].
  rewrite andb_true_iff, negb_true_iff. intros (Hx & Hr).
  constructor; [| auto].
  intros Hin. assert (existsb (String.eqb x) r = true); [| congruence].
  apply existsb_exists. exists x. split; [exact Hin | apply String.eqb_refl].
Qed.

(* ----------------------------------------------------------------- *)
(** ** Full graph reset *)

(** C10.  [regenerate_all_periods] forgets the stored snapshots, the period
    data and the current period, whatever they were, and regenerates; the
    operations log only grows: it is the log before the reset followed by
    the update records of the new pass, whose timestamps continue after
    the old ones.  The graph and the entity records are untouched, and the
    call returns whenever the generator can evolve its graph. *)
Theorem regenerate_all_periods_keeps_log (cfg : Config)
  (self : SupplyChainGenerator) (rnd : RandomSource) :
  (forall self' rnd',
      regenerate_all_periods cfg self rnd = Ok (self', rnd') ->
      exists emitted,
        operations_log self' = operations_log self ++ emitted /\
        Forall (regeneration_record self (timestamp self)) emitted /\
        G self' = G self /\ same_entities self self' /\
        current_period self' = 0%nat /\
        dict_get (temporal_graphs self') 0%nat = Some (G self) /\
        (forall t, (base_periods self <= t)%nat -> t <> 0%nat ->
           dict_get (temporal_graphs self') t = None)) /\
  (forall tg td cp,
      regenerate_all_periods cfg (with_temporal self tg td cp) rnd
      = regenerate_all_periods cfg self rnd) /\
  (evolvable self (G self) ->
   exists res, regenerate_all_periods cfg self rnd = Ok res).
Proof.
  split; [| split].
  - intros self' rnd' H. unfold regenerate_all_periods in H.
    apply generate_temporal_data_inv in H.
    destruct H as (recs & Hlog & Hrecs & Hent & HG & _ & Hcp & H0 & _ & Hout).
    exists recs. simpl in *.
    split; [exact Hlog |]. split; [exact Hrecs |]. split; [exact HG |].
    split; [exact Hent |]. split; [exact Hcp |]. split; [exact H0 |].
    intros t Ht Hne. now rewrite Hout.
  - reflexivity.
  - intros Hev. unfold regenerate_all_periods.
    apply generate_temporal_data_ok.
    eapply evolvable_same_entities; [| exact Hev].
    apply same_entities_with_temporal.
Qed.

(** The reset of the demonstration generator returns and extends its log. *)
Lemma regenerate_all_periods_keeps_log_witness :
  exists self' rnd' emitted,
    regenerate_all_periods sample_config demo_generated (scripted [])
    = Ok (self', rnd') /\
    operations_log self' = operations_log demo_generated ++ emitted.
Proof.
  destruct (regenerate_all_periods_keeps_log sample_config demo_generated
              (scripted [])) as (Hlog & _ & Hok).
  destruct Hok as ([self' rnd'] & Hrun).
  { apply evolvable_b_sound. vm_compute. reflexivity. }
  destruct (Hlog self' rnd' Hrun) as (emitted & Hemitted & _).
  exists self', rnd', emitted. split; [exact Hrun | exact Hemitted].
Defined.

(* ----------------------------------------------------------------- *)
(** ** Sample sizes in the wiring passes *)

Lemma list_set_length {A : Type} (l : list A) (i : nat) (x : A) :
  List.length (list_set l i x) = List.length l.
Proof.
  revert i. induction l as [|y r IH]; intros [|i]; simpl; auto.
Qed.

Lemma randbelow_range (n : Z) (rnd : RandomSource) :
  0 < n -> 0 <= fst (_randbelow n rnd) < n.
Proof. intros Hn. unfold _randbelow. simpl. apply Z.mod_pos_bound, Hn. Qed.

(** The pool loop returns when it is asked for no more elements than are
    available. *)
Lemma sample_pool_ok {A : Type} (k : nat) :
  forall (pool : list A) (m : nat) (rnd : RandomSource),
    (k <= m <= List.length pool)%nat ->
    exists res, sample_pool pool m k rnd = Ok res.
Proof.
  induction k as [|k IH]; intros pool m rnd Hm; cbn [sample_pool]; [eauto |].
  pose proof (randbelow_range (Z.of_nat m) rnd ltac:(lia)) as Hj.
  destruct (_randbelow (Z.of_nat m) rnd) as [j rnd1]. cbn [fst] in Hj.
  destruct (nth_error pool (Z.to_nat j)) as [x|] eqn:Ex.
  2:{ apply nth_error_None in Ex. lia. }
  destruct (nth_error pool (Nat.pred m)) as [y|] eqn:Ey.
  2:{ apply nth_error_None in Ey. lia. }
  cbn [from_option bind].
  destruct (IH (list_set pool (Z.to_nat j) y) (Nat.pred m) rnd1)
    as ([rest rnd2] & ->).
  { rewrite list_set_length. lia. }
  cbn [bind]. eauto.
Qed.

(** A sample size clamped with [min(k, len(population))], as the first two
    wiring passes compute it, never makes [random.sample] raise. *)
Lemma sample_clamped_ok {A : Type} (population : list A) (k : Z)
  (rnd : RandomSource) :
  0 <= k -> exists res, sample population (Z.min k (len population)) rnd = Ok res.
Proof.
  intros Hk. unfold sample, len.
  destruct (Z.min k (Z.of_nat (List.length population)) <? 0) eqn:E1;
    [apply Z.ltb_lt in E1; lia |].
  destruct (Z.of_nat (List.length population)
            <? Z.min k (Z.of_nat (List.length population))) eqn:E2;
    [apply Z.ltb_lt in E2; lia |].
  cbn [orb]. apply sample_pool_ok. lia.
Qed.

(** A sample size above the population makes [random.sample] raise. *)
Lemma sample_too_many {A : Type} (population : list A) (k : Z)
  (rnd : RandomSource) :
  len population < k -> sample population k rnd = Raise ValueError.
Proof.
  intros Hk. unfold sample.
  destruct (k <? 0); [reflexivity |].
  apply Z.ltb_lt in Hk. now rewrite Hk.
Qed.

(** C6.  With a budget of 14 variable nodes the planner gives 4 raw parts,
    2 subassembly parts and 1 external facility.  The factory and the first
    two wiring passes return; [_connect_parts_to_facilities] then asks
    [random.sample] for [random.randint(1, 3)] subassembly parts without
    clamping; every raw draw of the source is 2, so that size is 3, and the
    pass, and with it [generate_data],
    raises [ValueError]. *)
Theorem parts_to_facilities_sample_is_not_clamped :
  exists self rnd,
    construct_and 14 3 "v1"
      (fun s => generate_up_to_warehouse_parts sample_config s
                  (constant_source 2)) = Ok (self, rnd) /\
    population (parts self) "raw" = 4 /\
    population (parts self) "subassembly" = 2 /\
    population (facilities self) "external" = 1 /\
    (forall i, draws rnd i = 2) /\
    _connect_parts_to_facilities sample_config self rnd = Raise ValueError /\
    construct_and 14 3 "v1"
      (fun s => generate_data sample_config s (constant_source 2))
    = Raise ValueError.
Proof.
  eexists. eexists.
  split; [vm_compute; reflexivity |].
  split; [vm_compute; reflexivity |].
  split; [vm_compute; reflexivity |].
  split; [vm_compute; reflexivity |].
  split; [intros i; vm_compute; reflexivity |].
  split; [vm_compute; reflexivity |].
  vm_compute; reflexivity.
Qed.

(* ----------------------------------------------------------------- *)
(** ** Changes that leave no record *)

(** [simulate_next_period] appends nothing to the log. *)
Lemma simulate_next_period_log (cfg : Config) (self : SupplyChainGenerator)
  (rnd : RandomSource) (n : nat) (self' : SupplyChainGenerator)
  (rnd' : RandomSource) :
  simulate_next_period cfg self rnd = Ok (n, self', rnd') ->
  operations_log self' = operations_log self /\
  timestamp self' = timestamp self.
Proof.
  intros H. apply simulate_next_period_inv in H.
  destruct H as (k & g_k & g' & d' & _ & _ & _ & _ & ->). split; reflexivity.
Qed.

(** [_calculate_distances] assigns the attribute [distances] of every
    warehouse and appends nothing to the log. *)
Lemma calculate_distances_log (cfg : Config) (self : SupplyChainGenerator)
  (rnd : RandomSource) (self' : SupplyChainGenerator) (rnd' : RandomSource) :
  _calculate_distances cfg self rnd = Ok (self', rnd') ->
  operations_log self' = operations_log self.
Proof.
  unfold _calculate_distances. intros H.
  apply (foldM_rel (calculate_distances_of cfg)
           (fun st st' => operations_log (fst st') = operations_log (fst st)))
    in H; [exact H | reflexivity | intros; etransitivity; eassumption |].
  intros st w st' _ Hw. unfold calculate_distances_of in Hw.
  apply (foldM_rel (calculate_distance cfg w)
           (fun st st' => operations_log (fst st') = operations_log (fst st)))
    in Hw; [exact Hw | reflexivity | intros; etransitivity; eassumption |].
  intros [s r] f [s1 r1] _ Hf. unfold calculate_distance in Hf.
  bind_inv Hf. destruct a as [distance r2].
  bind_inv Hf. bind_inv Hf. bind_inv Hf.
  apply Ok_inj in Hf. injection Hf as <- <-. reflexivity.
Qed.

(** C5.  The generator for 15 nodes and 3 periods holds the snapshots 0, 1
    and 2.  [simulate_next_period] stores snapshot 3, in which the revenue
    of the business group differs from that of snapshot 2, and leaves the
    log as it was: the attribute changes of the incremental mode have no
    update records, while full regeneration logs each of the same changes.
    In the graph, warehouse [W_001] holds the attribute [distances] that
    [_calculate_distances] assigned, and no record of the log lists that
    field. *)
Theorem incremental_extension_is_not_logged :
  is_ok (simulate_next_period sample_config demo_generated (scripted []))
  = true /\
  keys (temporal_graphs demo_generated) = [0; 1; 2]%nat /\
  keys (temporal_graphs demo_extended) = [0; 1; 2; 3]%nat /\
  snapshot_attr demo_extended 3 "BG_001" "revenue"
  <> snapshot_attr demo_extended 2 "BG_001" "revenue" /\
  operations_log demo_extended = operations_log demo_generated /\
  (exists d, node_attr (G demo_generated) "W_001" "distances"
             = Some (VDict d) /\ d <> []) /\
  existsb (mentions "distances") (operations_log demo_generated) = false.
Proof.
  split; [vm_compute; reflexivity |].
  split; [vm_compute; reflexivity |].
  split; [vm_compute; reflexivity |].
  split; [vm_compute; intros H; injection H as H; lra |].
  split.
  { unfold demo_extended.
    destruct (simulate_next_period sample_config demo_generated (scripted []))
      as [[[n self'] rnd']|e] eqn:E; [| vm_compute in E; discriminate E].
    apply simulate_next_period_log in E. exact (proj1 E). }
  split; [eexists; split; [vm_compute; reflexivity | discriminate] |].
  vm_compute; reflexivity.
Qed.

(* ----------------------------------------------------------------- *)
(** ** Validity windows of parts *)

Lemma NoDup_app_inv {A : Type} (l1 l2 : list A) :
  NoDup (l1 ++ l2) ->
  NoDup l1 /\ NoDup l2 /\ forall a, In a l1 -> ~ In a l2.
Proof.
  induction l1 as [|x r IH]; simpl; intros H.
  - split; [constructor |]. split; [exact H |]. intros a [].
  - inversion H as [|? ? Hx Hr]; subst.
    destruct (IH Hr) as (H1 & H2 & H3).
    split; [constructor; [| exact H1] |].
    + intros Hin. apply Hx, in_or_app. now left.
    + split; [exact H2 |]. intros a [<-|Ha] Hin.
      * apply Hx, in_or_app. now right.
      * exact (H3 a Ha Hin).
Qed.

Lemma NoDup_map_eq {A B : Type} (f : A -> B) (l : list A) (a b : A) :
  NoDup (map f l) -> In a l -> In b l -> f a = f b -> a = b.
Proof.
  induction l as [|x r IH]; simpl; intros H Ha Hb E; [destruct Ha |].
  inversion H as [|? ? Hx Hr]; subst.
  destruct Ha as [->|Ha], Hb as [->|Hb].
  - reflexivity.
  - exfalso. apply Hx. rewrite E. now apply in_map.
  - exfalso. apply Hx. rewrite <- E. now apply in_map.
  - now apply IH.
Qed.







(* ----------------------------------------------------------------- *)
(** ** The base value of the formula in the two modes *)

(** A feature tag that is not in the table and has no season: the value is
    the base scaled by a factor between 0.9 and 1.1. *)
Lemma temporal_value_untabled (cfg : Config) (b : R) (f : string) (t : nat)
  (rnd : RandomSource) :
  dict_get (TEMPORAL_VARIATION cfg) f = None ->
  seasonal_factor f t = 1%R ->
  exists u, (- 0.1 <= u <= 0.1)%R /\
            fst (_generate_temporal_value cfg b f t rnd) = (b * (1 + u))%R.
Proof.
  intros Hnone Hs. unfold _generate_temporal_value, get_default.
  rewrite Hnone, Hs. cbn [default_variation max_change trend].
  match goal with
  | |- context [uniform ?a ?b rnd] =>
      pose proof (uniform_bounds a b rnd ltac:(lra)) as Hu;
      destruct (uniform a b rnd) as [u rnd']
  end.
  cbn [fst] in *.
  exists u. split; [lra | ring].
Qed.

(** The formula applied to the base 0 gives 0. *)
Lemma temporal_value_zero (cfg : Config) (f : string) (t : nat)
  (rnd : RandomSource) :
  fst (_generate_temporal_value cfg 0 f t rnd) = 0%R.
Proof.
  unfold _generate_temporal_value.
  destruct (uniform _ _ rnd) as [u rnd']. cbn [fst]. ring.
Qed.

(** C2.  In the generator for 15 nodes and 3 periods, warehouse [W_001]
    holds [current_capacity = 200] in the graph and in snapshot 0 after the
    wiring passes.  Full regeneration stores 0 as its capacity in the
    snapshots 1 and 2: the formula is applied to the field of the warehouse
    record, which the wiring pass never updates and which is still 0, and
    not to the period-0 value 200, from which the formula gives a value of
    at least 180 whatever the random draw. *)
Theorem regeneration_ignores_wired_capacity :
  keys (temporal_graphs demo_generated) = [0; 1; 2]%nat /\
  map (fun w => (w_id w, w_current_capacity w))
    (all_values (warehouses demo_generated))
  = [("W_001", 0); ("W_002", 0)] /\
  node_attr (G demo_generated) "W_001" "current_capacity" = Some (VInt 200) /\
  snapshot_attr demo_generated 0 "W_001" "current_capacity"
  = Some (VInt 200) /\
  (exists x1 x2,
      snapshot_attr demo_generated 1 "W_001" "current_capacity"
      = Some (VFloat x1) /\
      snapshot_attr demo_generated 2 "W_001" "current_capacity"
      = Some (VFloat x2) /\
      x1 = 0%R /\ x2 = 0%R) /\
  (forall t r0, exists x,
      evolved sample_config 200 "capacity" t r0 = VFloat x /\ (180 <= x)%R).
Proof.
  split; [vm_compute; reflexivity |].
  split; [vm_compute; reflexivity |].
  split; [vm_compute; reflexivity |].
  split; [vm_compute; reflexivity |].
  split.
  { eexists. eexists.
    split; [vm_compute; reflexivity |].
    split; [vm_compute; reflexivity |].
    split; lra. }
  intros t r0. unfold evolved.
  destruct (temporal_value_untabled sample_config 200 "capacity" t r0)
    as (u & Hu & E); [reflexivity | reflexivity |].
  rewrite E. eexists. split; [reflexivity | lra].
Qed.

(** C3.  The generator for 15 nodes and 1 period holds snapshot 0 only.
    After two calls of [simulate_next_period] the revenue of the business
    group in snapshot 2 is the formula applied to the revenue of snapshot 0,
    which is the value of the entity record, and is not the formula applied
    to the revenue of snapshot 1 for the same draw; it is equal to the
    revenue that full regeneration stores for period 2 on the same draws.
    The edge attributes do compound: the inventory level of the edge from
    [W_001] to [P_001] in snapshot 2 is the formula applied to its value
    in snapshot 1. *)
Theorem extension_recomputes_nodes_from_records :
  keys (temporal_graphs demo_base) = [0]%nat /\
  keys (temporal_graphs demo_twice) = [0; 1; 2]%nat /\
  (exists b v1,
      snapshot_attr demo_twice 0 "BG_001" "revenue" = Some (VFloat b) /\
      snapshot_attr demo_twice 1 "BG_001" "revenue" = Some (VFloat v1) /\
      snapshot_attr demo_twice 2 "BG_001" "revenue"
      = Some (evolved sample_config b "revenue" 2 (scripted [])) /\
      snapshot_attr demo_twice 2 "BG_001" "revenue"
      <> Some (evolved sample_config v1 "revenue" 2 (scripted []))) /\
  snapshot_attr demo_twice 2 "BG_001" "revenue"
  = snapshot_attr demo_generated 2 "BG_001" "revenue" /\
  (exists e1,
      snapshot_edge_attr demo_twice 1 "W_001" "P_001" "inventory_level"
      = Some (VFloat e1) /\
      snapshot_edge_attr demo_twice 2 "W_001" "P_001" "inventory_level"
      = Some (evolved sample_config e1 "inventory" 2 (scripted []))).
Proof.
  split; [vm_compute; reflexivity |].
  split; [vm_compute; reflexivity |].
  split.
  { eexists. eexists.
    split; [vm_compute; reflexivity |].
    split; [vm_compute; reflexivity |].
    split; [vm_compute; reflexivity |].
    vm_compute. intros H. injection H as H. lra. }
  split; [vm_compute; reflexivity |].
  eexists. split; vm_compute; reflexivity.
Qed.

(* ----------------------------------------------------------------- *)
(** ** Steps that leave the warehouses alone *)

Lemma keeps_warehouses_refl (s : SupplyChainGenerator) : keeps_warehouses s s.
Proof. split; [reflexivity |]. split; [reflexivity |]. reflexivity. Qed.

Lemma keeps_warehouses_trans (s1 s2 s3 : SupplyChainGenerator) :
  keeps_warehouses s1 s2 -> keeps_warehouses s2 s3 -> keeps_warehouses s1 s3.
Proof.
  intros (Hw1 & Ht1 & Hn1) (Hw2 & Ht2 & Hn2).
  split; [congruence |]. split; [congruence |].
  intros n k Hn Hk. rewrite Hn2, Hn1; auto.
Qed.

Lemma factory_keeps_refl (st : FactoryState) : factory_keeps st st.
Proof. apply keeps_warehouses_refl. Qed.

Lemma factory_keeps_trans (a b c : FactoryState) :
  factory_keeps a b -> factory_keeps b c -> factory_keeps a c.
Proof. apply keeps_warehouses_trans. Qed.

Lemma wiring_keeps_refl (st : SupplyChainGenerator * RandomSource) :
  wiring_keeps st st.
Proof. apply keeps_warehouses_refl. Qed.

Lemma wiring_keeps_trans (a b c : SupplyChainGenerator * RandomSource) :
  wiring_keeps a b -> wiring_keeps b c -> wiring_keeps a c.
Proof. apply keeps_warehouses_trans. Qed.

Lemma format_id_first (c : ascii) (r : string) (i : nat) :
  exists rest, format_id (String c r) i = String c rest.
Proof. unfold format_id. simpl. eauto. Qed.

Lemma format_id_not_W (c : ascii) (r : string) (i : nat) :
  c <> "W"%char -> ~ starts_with_W (format_id (String c r) i).
Proof.
  intros Hc. destruct (format_id_first c r i) as (rest & ->). exact Hc.
Qed.

Lemma format_id_W (i : nat) : starts_with_W (format_id "W_" i).
Proof. destruct (format_id_first "W" "_" i) as (rest & ->). reflexivity. Qed.

(** Adding a node whose identifier does not start with W. *)
Lemma keeps_add_node (s s' : SupplyChainGenerator) (id : string) (a : attrs) :
  ~ starts_with_W id ->
  warehouses s' = warehouses s ->
  temporal_graphs s' = temporal_graphs s ->
  G s' = add_node (G s) id a ->
  keeps_warehouses s s'.
Proof.
  intros Hid Hw Ht Hg. split; [exact Hw |]. split; [exact Ht |].
  intros n k Hn _. rewrite Hg. apply node_attr_add_node_other.
  left. intros ->. exact (Hid Hn).
Qed.

(** Adding an edge. *)
Lemma keeps_add_edge (s s' : SupplyChainGenerator) (u v : string) (a : attrs) :
  warehouses s' = warehouses s ->
  temporal_graphs s' = temporal_graphs s ->
  G s' = add_edge (G s) u v a ->
  keeps_warehouses s s'.
Proof.
  intros Hw Ht Hg. split; [exact Hw |]. split; [exact Ht |].
  intros n k _ _. rewrite Hg. apply node_attr_add_edge.
Qed.

Ltac new_node :=
  match goal with
  | |- factory_keeps _ _ =>
      unfold factory_keeps; cbn [fst];
      eapply keeps_add_node;
      [| reflexivity | reflexivity | reflexivity];
      apply format_id_not_W; discriminate
  end.

Lemma generate_family_keeps (cfg : Config) (st : FactoryState) (pf : string)
  (st' : FactoryState) :
  generate_family cfg st pf = Ok st' -> factory_keeps st st'.
Proof.
  destruct st as [[self rnd] i]. unfold generate_family.
  destruct (uniform_range (COST_RANGE cfg) rnd) as [revenue rnd1].
  intros H. apply Ok_inj in H. subst st'. new_node.
Qed.

Lemma generate_offering_keeps (cfg : Config) (st : FactoryState) (po : string)
  (st' : FactoryState) :
  generate_offering cfg st po = Ok st' -> factory_keeps st st'.
Proof.
  destruct st as [[self rnd] i]. unfold generate_offering.
  destruct (uniform_range (COST_RANGE cfg) rnd) as [cost rnd1].
  intros H. bind_inv H. destruct a as [demand rnd2].
  apply Ok_inj in H. subst st'. new_node.
Qed.

Lemma generate_business_hierarchy_keeps (cfg : Config)
  (self : SupplyChainGenerator) (rnd : RandomSource)
  (self' : SupplyChainGenerator) (rnd' : RandomSource) :
  _generate_business_hierarchy cfg self rnd = Ok (self', rnd') ->
  keeps_warehouses self self'.
Proof.
  unfold _generate_business_hierarchy.
  destruct (uniform_range (COST_RANGE cfg) rnd) as [revenue rnd1].
  intros H. bind_inv H. destruct a as [[self4 rnd2] i4].
  bind_inv H. destruct a as [[self5 rnd3] i5].
  apply Ok_inj in H. injection H as <- <-.
  apply (foldM_rel (generate_family cfg) factory_keeps factory_keeps_refl
           factory_keeps_trans) in E;
    [| intros b x b' _; apply generate_family_keeps].
  apply (foldM_rel (generate_offerings_of cfg) factory_keeps factory_keeps_refl
           factory_keeps_trans) in E0.
  - unfold factory_keeps in E, E0. cbn [fst] in E, E0.
    eapply keeps_warehouses_trans; [| exact E0].
    eapply keeps_warehouses_trans; [| exact E].
    eapply keeps_add_node; [| reflexivity | reflexivity | reflexivity].
    intros Hw. discriminate Hw.
  - intros b pf b' _ Hb. unfold generate_offerings_of in Hb.
    destruct (dict_get (PRODUCT_OFFERINGS cfg) (pf_name pf)) as [names|].
    + apply (foldM_rel (generate_offering cfg) factory_keeps
               factory_keeps_refl factory_keeps_trans) in Hb; [exact Hb |].
      intros b0 x b0' _. apply generate_offering_keeps.
    + apply Ok_inj in Hb. subst b'. apply factory_keeps_refl.
Qed.

Lemma generate_suppliers_keeps (cfg : Config)
  (self : SupplyChainGenerator) (rnd : RandomSource)
  (self' : SupplyChainGenerator) (rnd' : RandomSource) :
  _generate_suppliers cfg self rnd = Ok (self', rnd') ->
  keeps_warehouses self self'.
Proof.
  unfold _generate_suppliers. intros H.
  bind_inv H. destruct a as [[self1 rnd1] i1].
  apply Ok_inj in H. injection H as <- <-.
  apply (foldM_rel (generate_suppliers_of cfg) factory_keeps
           factory_keeps_refl factory_keeps_trans) in E; [exact E |].
  intros b [size_category count] b' _ Hb. unfold generate_suppliers_of in Hb.
  bind_inv Hb.
  apply (foldM_rel (generate_supplier cfg size_category (ss_range a))
           factory_keeps factory_keeps_refl factory_keeps_trans) in Hb;
    [exact Hb |].
  intros [[s r] i] x st' _ Hs. unfold generate_supplier in Hs.
  bind_inv Hs. destruct a0 as [size_value r1].
  bind_inv Hs. destruct a0 as [types1 r2].
  bind_inv Hs. destruct a0 as [supplied r3].
  bind_inv Hs. destruct a0 as [location r4].
  destruct (uniform_range (RELIABILITY_RANGE cfg) r4) as [reliability r5].
  apply Ok_inj in Hs. subst st'. new_node.
Qed.

Lemma generate_facilities_keeps (cfg : Config)
  (self : SupplyChainGenerator) (rnd : RandomSource)
  (self' : SupplyChainGenerator) (rnd' : RandomSource) :
  _generate_facilities cfg self rnd = Ok (self', rnd') ->
  keeps_warehouses self self'.
Proof.
  unfold _generate_facilities. intros H.
  bind_inv H. destruct a as [[self1 rnd1] i1].
  apply Ok_inj in H. injection H as <- <-.
  apply (foldM_rel (generate_facilities_of cfg) factory_keeps
           factory_keeps_refl factory_keeps_trans) in E; [exact E |].
  intros b [f_type' count] b' _ Hb. unfold generate_facilities_of in Hb.
  apply (foldM_rel (generate_facility cfg f_type')
           factory_keeps factory_keeps_refl factory_keeps_trans) in Hb;
    [exact Hb |].
  intros [[s r] i] x st' _ Hs. unfold generate_facility in Hs.
  bind_inv Hs. destruct a as [location r1].
  bind_inv Hs. destruct a as [max_capacity r2].
  destruct (uniform_range (COST_RANGE cfg) r2) as [operating_cost r3].
  bind_inv Hs. apply Ok_inj in Hs. subst st'. new_node.
Qed.

Lemma generate_parts_keeps (cfg : Config)
  (self : SupplyChainGenerator) (rnd : RandomSource)
  (self' : SupplyChainGenerator) (rnd' : RandomSource) :
  _generate_parts cfg self rnd = Ok (self', rnd') ->
  keeps_warehouses self self'.
Proof.
  unfold _generate_parts. intros H.
  bind_inv H. destruct a as [[self1 rnd1] i1].
  apply Ok_inj in H. injection H as <- <-.
  apply (foldM_rel (generate_parts_of cfg) factory_keeps
           factory_keeps_refl factory_keeps_trans) in E; [exact E |].
  intros b [p_type' count] b' _ Hb. unfold generate_parts_of in Hb.
  apply (foldM_rel (generate_part cfg p_type')
           factory_keeps factory_keeps_refl factory_keeps_trans) in Hb;
    [exact Hb |].
  intros [[s r] i] x st' _ Hs. unfold generate_part in Hs.
  bind_inv Hs. destruct a as [[valid_from valid_till] r1].
  bind_inv Hs. bind_inv Hs. destruct a0 as [subtype r2].
  destruct (uniform_range (COST_RANGE cfg) r2) as [cost r3].
  destruct (uniform_range (IMPORTANCE_FACTOR_RANGE cfg) r3) as [importance r4].
  bind_inv Hs. apply Ok_inj in Hs. subst st'. new_node.
Qed.

Ltac new_edge :=
  match goal with
  | |- wiring_keeps _ _ =>
      unfold wiring_keeps; cbn [fst];
      eapply keeps_add_edge; reflexivity
  end.

Ltac wiring_loop f :=
  match goal with
  | H : foldM f _ _ = Ok _ |- _ =>
      apply (foldM_rel f wiring_keeps wiring_keeps_refl wiring_keeps_trans)
        in H
  end.

Lemma connect_suppliers_to_warehouses_keeps (cfg : Config)
  (self : SupplyChainGenerator) (rnd : RandomSource)
  (self' : SupplyChainGenerator) (rnd' : RandomSource) :
  _connect_suppliers_to_warehouses cfg self rnd = Ok (self', rnd') ->
  keeps_warehouses self self'.
Proof.
  unfold _connect_suppliers_to_warehouses. intros H.
  wiring_loop (connect_supplier cfg); [exact H |].
  assert (Hkind : forall supplier m pk wk st st',
             connect_supplier_kind cfg supplier m pk wk st = Ok st' ->
             wiring_keeps st st').
  { intros supplier m pk wk [s r] st' Hk. unfold connect_supplier_kind in Hk.
    bind_inv Hk. destruct a; [| apply Ok_inj in Hk; subst; apply wiring_keeps_refl].
    bind_inv Hk. bind_inv Hk. destruct a0 as [selected r1].
    wiring_loop (connect_supplier_warehouse cfg supplier); [exact Hk |].
    intros [s0 r0] w st0 _ Hw. unfold connect_supplier_warehouse in Hw.
    destruct (uniform_range (TRANSPORTATION_COST_RANGE cfg) r0) as [tc r2].
    destruct (uniform_range (TRANSPORTATION_TIME_RANGE cfg) r2) as [lt r3].
    apply Ok_inj in Hw. subst st0. new_edge. }
  intros st supplier st' _ Hs. unfold connect_supplier in Hs.
  bind_inv Hs. bind_inv Hs.
  eapply wiring_keeps_trans; eapply Hkind; eassumption.
Qed.

Lemma connect_part_facility_keeps (cfg : Config) (facility : Facility)
  (st : SupplyChainGenerator * RandomSource) (part : Part)
  (st' : SupplyChainGenerator * RandomSource) :
  connect_part_facility cfg facility st part = Ok st' -> wiring_keeps st st'.
Proof.
  destruct st as [s r]. unfold connect_part_facility. intros H.
  bind_inv H. destruct a as [quantity r1].
  bind_inv H. destruct a as [distance r2].
  destruct (uniform_range (TRANSPORTATION_COST_RANGE cfg) r2) as [tc r3].
  destruct (uniform_range (TRANSPORTATION_TIME_RANGE cfg) r3) as [lt r4].
  apply Ok_inj in H. subst st'. new_edge.
Qed.

Lemma connect_facility_part_keeps (cfg : Config) (facility : Facility)
  (st : SupplyChainGenerator * RandomSource) (part : Part)
  (st' : SupplyChainGenerator * RandomSource) :
  connect_facility_part cfg facility st part = Ok st' -> wiring_keeps st st'.
Proof.
  destruct st as [s r]. unfold connect_facility_part. intros H.
  destruct (uniform_range (COST_RANGE cfg) r) as [pc r1].
  destruct (uniform_range (TRANSPORTATION_TIME_RANGE cfg) r1) as [lt r2].
  bind_inv H. destruct a as [quantity r3].
  apply Ok_inj in H. subst st'. new_edge.
Qed.

Lemma connect_parts_to_facilities_keeps (cfg : Config)
  (self : SupplyChainGenerator) (rnd : RandomSource)
  (self' : SupplyChainGenerator) (rnd' : RandomSource) :
  _connect_parts_to_facilities cfg self rnd = Ok (self', rnd') ->
  keeps_warehouses self self'.
Proof.
  unfold _connect_parts_to_facilities. intros H.
  bind_inv H. bind_inv H. rename a0 into st1. bind_inv H.
  wiring_loop (connect_external_facility cfg).
  - wiring_loop (connect_lam_facility cfg).
    + exact (wiring_keeps_trans _ _ _ E0 H).
    + intros [s r] facility st' _ Hf. unfold connect_lam_facility in Hf.
      bind_inv Hf. bind_inv Hf. destruct a2 as [k r1].
      bind_inv Hf. destruct a2 as [selected r2].
      wiring_loop (connect_part_facility cfg facility); [exact Hf |].
      intros b x b' _. apply connect_part_facility_keeps.
  - intros [s r] facility st' _ Hf. unfold connect_external_facility in Hf.
    bind_inv Hf. bind_inv Hf. destruct a2 as [k_raw r1].
    bind_inv Hf. destruct a2 as [raw_parts r2].
    bind_inv Hf. destruct a2 as [s1 r3].
    bind_inv Hf. bind_inv Hf. destruct a3 as [k_sub r4].
    bind_inv Hf. destruct a3 as [sub_parts r5].
    wiring_loop (connect_part_facility cfg facility);
      [| intros b x b' _; apply connect_part_facility_keeps].
    wiring_loop (connect_facility_part cfg facility);
      [| intros b x b' _; apply connect_facility_part_keeps].
    unfold wiring_keeps in *. cbn [fst] in *.
    eapply keeps_warehouses_trans; eassumption.
Qed.

Lemma connect_facilities_to_products_keeps (cfg : Config)
  (self : SupplyChainGenerator) (rnd : RandomSource)
  (self' : SupplyChainGenerator) (rnd' : RandomSource) :
  _connect_facilities_to_products cfg self rnd = Ok (self', rnd') ->
  keeps_warehouses self self'.
Proof.
  unfold _connect_facilities_to_products. intros H. bind_inv H.
  wiring_loop (connect_facility_products cfg); [exact H |].
  intros [s r] facility st' _ Hf. unfold connect_facility_products in Hf.
  bind_inv Hf. destruct a0 as [k r1].
  bind_inv Hf. destruct a0 as [products r2].
  wiring_loop (connect_facility_product cfg facility); [exact Hf |].
  intros [s0 r0] product st0 _ Hp. unfold connect_facility_product in Hp.
  destruct (uniform_range (COST_RANGE cfg) r0) as [pc r3].
  destruct (uniform_range (TRANSPORTATION_TIME_RANGE cfg) r3) as [lt r4].
  bind_inv Hp. destruct a0 as [quantity r5]. bind_inv Hp.
  wiring_loop (connect_product_warehouse cfg product).
  - eapply wiring_keeps_trans; [| exact Hp]. new_edge.
  - intros [s1 r6] w st1 _ Hw. unfold connect_product_warehouse in Hw.
    bind_inv Hw. destruct a1 as [inventory r7].
    destruct (uniform_range (COST_RANGE cfg) r7) as [sc r8].
    apply Ok_inj in Hw. subst st1. new_edge.
Qed.

Lemma connect_hierarchy_keeps (cfg : Config)
  (self self' : SupplyChainGenerator) :
  _connect_hierarchy cfg self = Ok self' -> keeps_warehouses self self'.
Proof.
  unfold _connect_hierarchy. intros H. bind_inv H.
  apply (foldM_rel connect_group_family keeps_warehouses
           keeps_warehouses_refl keeps_warehouses_trans) in E.
  - apply (foldM_rel (connect_family_offerings cfg) keeps_warehouses
             keeps_warehouses_refl keeps_warehouses_trans) in H.
    + exact (keeps_warehouses_trans _ _ _ E H).
    + intros s pf s' _ Hf. unfold connect_family_offerings in Hf.
      bind_inv Hf.
      apply (foldM_rel (connect_family_offering pf) keeps_warehouses
               keeps_warehouses_refl keeps_warehouses_trans) in Hf;
        [exact Hf |].
      intros s0 po s0' _ Hpo. unfold connect_family_offering in Hpo.
      apply Ok_inj in Hpo. subst s0'. eapply keeps_add_edge; reflexivity.
  - intros s pf s' _ Hf. unfold connect_group_family in Hf.
    apply Ok_inj in Hf. subst s'. eapply keeps_add_edge; reflexivity.
Qed.

Lemma calculate_distances_keeps (cfg : Config)
  (self : SupplyChainGenerator) (rnd : RandomSource)
  (self' : SupplyChainGenerator) (rnd' : RandomSource) :
  _calculate_distances cfg self rnd = Ok (self', rnd') ->
  keeps_warehouses self self'.
Proof.
  unfold _calculate_distances. intros H.
  wiring_loop (calculate_distances_of cfg); [exact H |].
  intros st w st' _ Hw. unfold calculate_distances_of in Hw.
  wiring_loop (calculate_distance cfg w); [exact Hw |].
  intros [s r] f [s1 r1] _ Hf. unfold calculate_distance in Hf.
  bind_inv Hf. destruct a as [distance r2].
  bind_inv Hf. bind_inv Hf. bind_inv Hf.
  apply Ok_inj in Hf. injection Hf as <- <-.
  unfold wiring_keeps. cbn [fst].
  split; [reflexivity |]. split; [reflexivity |].
  intros n k _ Hk. cbn [G with_G].
  rewrite (node_attr_setitem_node _ _ _ _ _ n k E2).
  destruct (String.eqb_spec "distances" k) as [<-|_];
    [congruence | now rewrite andb_false_r].
Qed.

(* ----------------------------------------------------------------- *)
(** ** The identifiers and the records of the warehouses *)

Lemma counter_of_pad3 (n : nat) : counter_of (pad3 (decimal n)) = n.
Proof.
  unfold pad3, decimal, counter_of.
  destruct (String.length (NilEmpty.string_of_uint (Nat.to_uint n)))
    as [|[|[|k]]];
    cbn [append NilEmpty.uint_of_string];
    rewrite NilEmpty.usu; cbn [uint_of_char];
    apply Unsigned.of_to.
Qed.

(** [format_id "W_"] gives distinct identifiers to distinct counters. *)
Lemma format_id_W_inj (i j : nat) :
  format_id "W_" i = format_id "W_" j -> i = j.
Proof.
  unfold format_id. cbn [append]. intros H. injection H as H.
  apply (f_equal counter_of) in H. now rewrite !counter_of_pad3 in H.
Qed.

Lemma randint_bounds (a b : Z) (rnd : RandomSource) (z : Z)
  (rnd' : RandomSource) :
  randint a b rnd = Ok (z, rnd') -> a <= z <= b.
Proof.
  unfold randint. destruct (Z.ltb_spec b a) as [Hlt|Hle]; [discriminate |].
  pose proof (randbelow_range (b - a + 1) rnd ltac:(lia)) as Hx.
  destruct (_randbelow (b - a + 1) rnd) as [x r]. cbn [fst] in Hx.
  intros H. apply Ok_inj in H. injection H as <- <-. lia.
Qed.

(** The records after [d[k].append(x)]. *)
Lemma all_values_append_to {A : Type} (d d' : dict (list A)) (k : string)
  (x y : A) :
  append_to d k x = Ok d' ->
  In y (all_values d') <-> In y (all_values d) \/ y = x.
Proof.
  unfold append_to, getitem. intros H. bind_inv H.
  apply Ok_inj in H. subst d'. rename a into l.
  unfold all_values, values.
  induction d as [|[k' v'] r IH]; [discriminate E |].
  cbn [dict_get] in E. cbn [dict_set].
  destruct (key_eqb k' k).
  - apply Ok_inj in E. subst v'. cbn [map snd List.concat].
    rewrite !in_app_iff. cbn [In]. intuition (subst; auto).
  - cbn [map snd List.concat]. rewrite !in_app_iff, (IH E). tauto.
Qed.

Lemma number_attr_int (g : DiGraph) (n k : string) (z : Z) :
  node_attr g n k = Some (VInt z) -> number_attr g n k = Some (IZR z).
Proof. unfold number_attr. now intros ->. Qed.

(** One warehouse more. *)
Lemma generate_warehouse_numbered (cfg : Config)
  (snapshots : list (nat * DiGraph)) (w_type' : string) (st : FactoryState)
  (x : nat) (st' : FactoryState) :
  capacity_ranges_nonnegative cfg ->
  warehouses_numbered snapshots st ->
  generate_warehouse cfg w_type' st x = Ok st' ->
  warehouses_numbered snapshots st'.
Proof.
  intros Hcfg Hinv H. destruct st as [[self rnd] counter].
  unfold generate_warehouse in H.
  bind_inv H. destruct a as [size_category rnd1].
  bind_inv H. rename a into size, E0 into Esize.
  bind_inv H. destruct a as [location rnd2].
  bind_inv H. destruct a as [max_capacity rnd3]. rename E1 into Emax.
  bind_inv H. destruct a as [safety_stock rnd4].
  bind_inv H. bind_inv H. rename a0 into wh, E3 into Ewh.
  apply Ok_inj in H. subst st'.
  destruct Hinv as (Hrec & Hkept & Hsnap).
  cbn [fst snd] in Hrec, Hkept, Hsnap.
  assert (Hmax : 0 <= max_capacity).
  { apply randint_bounds in Emax. unfold getitem in Esize.
    destruct (dict_get (WAREHOUSE_SIZES cfg) size_category) as [sz|] eqn:Es;
      [| discriminate Esize].
    apply Ok_inj in Esize. subst sz. pose proof (Hcfg _ _ Es). lia. }
  unfold warehouses_numbered. cbn [fst snd].
  match goal with
  | |- context [add_node _ (w_id ?w) _] => set (w0 := w) in *
  end.
  split; [| split; [| exact Hsnap]].
  - intros w Hw.
    change (In w (all_values wh)) in Hw.
    apply (all_values_append_to _ _ _ _ w Ewh) in Hw.
    destruct Hw as [Hw| ->].
    + destruct (Hrec w Hw) as (Hc & Hm & j & Hj & Hid).
      split; [exact Hc |]. split; [exact Hm |]. exists j. split; [lia | exact Hid].
    + split; [reflexivity |]. split; [exact Hmax |].
      exists counter. split; [lia | reflexivity].
  - intros w Hw.
    change (In w (all_values wh)) in Hw.
    apply (all_values_append_to _ _ _ _ w Ewh) in Hw.
    change (G _) with
      (add_node (G self) (w_id w0)
         (warehouse_data w0 ++ [("node_type", VStr "warehouse")])).
    destruct Hw as [Hw| ->].
    + destruct (Hrec w Hw) as (_ & _ & j & Hj & Hid).
      destruct (Hkept w Hw) as (Hm & c & Hc & Hbound).
      assert (Hne : w_id w <> w_id w0).
      { rewrite Hid. intros Heq. apply format_id_W_inj in Heq. lia. }
      unfold number_attr in *.
      rewrite !node_attr_add_node_other by (left; exact Hne).
      split; [exact Hm |]. exists c. split; [exact Hc | exact Hbound].
    + assert (Hnd : NoDup (keys (warehouse_data w0 ++
                                 [("node_type", VStr "warehouse")]))).
      { apply nodup_b_sound. reflexivity. }
      split.
      * apply node_attr_add_node_in; [exact Hnd |].
        cbn. tauto.
      * exists (IZR 0). split.
        -- apply number_attr_int. apply node_attr_add_node_in; [exact Hnd |].
           cbn. tauto.
        -- split; [lra | apply IZR_le; exact Hmax].
Qed.

(** [_generate_warehouses], started with no warehouse, makes warehouses
    with fresh records and capacities kept in the graph. *)
Lemma generate_warehouses_fresh (cfg : Config)
  (self : SupplyChainGenerator) (rnd : RandomSource)
  (self' : SupplyChainGenerator) (rnd' : RandomSource) :
  capacity_ranges_nonnegative cfg ->
  all_values (warehouses self) = [] ->
  _generate_warehouses cfg self rnd = Ok (self', rnd') ->
  warehouse_records_fresh self' /\ capacity_kept self' (G self') /\
  temporal_graphs self' = temporal_graphs self.
Proof.
  intros Hcfg Hnone H. unfold _generate_warehouses in H.
  bind_inv H. destruct a as [[self1 rnd1] i1].
  apply Ok_inj in H. injection H as <- <-.
  apply (foldM_inv (generate_warehouses_of cfg)
           (warehouses_numbered (temporal_graphs self))) in E.
  - destruct E as (Hrec & Hkept & Hsnap). cbn [fst snd] in *.
    split; [| split; [exact Hkept | exact Hsnap]].
    intros w Hw. destruct (Hrec w Hw) as (Hc & Hm & j & _ & Hid). eauto.
  - intros st [w_type' count] st' _ Hst Hstep.
    unfold generate_warehouses_of in Hstep.
    apply (foldM_inv (generate_warehouse cfg w_type')
             (warehouses_numbered (temporal_graphs self))) in Hstep;
      [exact Hstep | | exact Hst].
    intros b x b' _ Hb. now apply generate_warehouse_numbered.
  - unfold warehouses_numbered, capacity_kept. cbn [fst snd].
    rewrite Hnone. split; [intros w [] |]. split; [intros w [] | reflexivity].
Qed.

(* ----------------------------------------------------------------- *)
(** ** The capacity of the warehouses during construction *)

(** A step that leaves the warehouses alone keeps the invariant. *)
Lemma capacity_state_keeps (s s' : SupplyChainGenerator) :
  keeps_warehouses s s' -> capacity_state s -> capacity_state s'.
Proof.
  intros (Hw & _ & Hn) (Hrec & Hkept). split.
  - unfold warehouse_records_fresh. rewrite Hw. exact Hrec.
  - unfold capacity_kept, number_attr. rewrite Hw. intros w Hin.
    destruct (Hrec w Hin) as (_ & _ & j & Hid).
    assert (HW : starts_with_W (w_id w)) by (rewrite Hid; apply format_id_W).
    rewrite !Hn by (exact HW || discriminate).
    exact (Hkept w Hin).
Qed.

(** One iteration of the inner loop of [_connect_warehouses_to_parts]. *)
Lemma connect_warehouse_part_filling (cfg : Config)
  (warehouses0 : dict (list Warehouse)) (snapshots : list (nat * DiGraph))
  (warehouse : Warehouse) (st : SupplyChainGenerator * RandomSource * Z)
  (part : Part) (st' : SupplyChainGenerator * RandomSource * Z) :
  In warehouse (all_values warehouses0) ->
  filling warehouses0 snapshots warehouse st ->
  connect_warehouse_part cfg warehouse st part = Ok st' ->
  filling warehouses0 snapshots warehouse st'.
Proof.
  intros Hin Hinv H. destruct st as [[self rnd] current_inventory].
  destruct Hinv as ((Hrec & Hkept) & Hw & Hsnap & Hci).
  cbn [fst snd] in Hrec, Hkept, Hw, Hsnap, Hci.
  unfold connect_warehouse_part in H.
  bind_inv H. destruct a as [draw rnd1].
  destruct (Z.leb_spec (Z.min draw (w_max_capacity warehouse - current_inventory)) 0)
    as [Hskip|Htake].
  { apply Ok_inj in H. subst st'.
    split; [split; [exact Hrec | exact Hkept] |].
    split; [exact Hw |]. split; [exact Hsnap | exact Hci]. }
  destruct (uniform_range (COST_RANGE cfg) rnd1) as [storage_cost rnd2].
  bind_inv H. rename a into g, E0 into Eg.
  apply Ok_inj in H. subst st'.
  set (level := Z.min draw (w_max_capacity warehouse - current_inventory)) in *.
  cbn [G with_G _log_edge_operation with_log] in Eg.
  unfold filling, capacity_state. cbn [fst snd].
  split; [| split; [exact Hw | split; [exact Hsnap | lia]]].
  split.
  - unfold warehouse_records_fresh.
    change (warehouses _) with (warehouses self). exact Hrec.
  - unfold capacity_kept.
    change (warehouses _) with (warehouses self).
    change (G _) with g.
    intros w Hwin. destruct (Hkept w Hwin) as (Hm & c & Hc & Hbound).
    unfold number_attr in *.
    rewrite !(node_attr_setitem_node _ _ _ _ _ _ _ Eg).
    rewrite !node_attr_add_edge.
    destruct (String.eqb_spec (w_id warehouse) (w_id w)) as [Hid|Hid].
    + cbn [andb String.eqb Ascii.eqb Bool.eqb].
      split; [exact Hm |].
      assert (Hsame : w_max_capacity w = w_max_capacity warehouse).
      { rewrite <- Hw in Hin. destruct (Hkept warehouse Hin) as (Hm' & _).
        rewrite Hid in Hm'. rewrite Hm in Hm'. now injection Hm'. }
      eexists. split; [reflexivity |].
      rewrite Hsame. split; apply IZR_le; lia.
    + cbn [andb]. split; [exact Hm |]. exists c. split; [exact Hc | exact Hbound].
Qed.

(** [_connect_warehouses_to_parts] keeps the invariant. *)
Lemma connect_warehouses_to_parts_capacity (cfg : Config)
  (self : SupplyChainGenerator) (rnd : RandomSource)
  (self' : SupplyChainGenerator) (rnd' : RandomSource) :
  capacity_state self ->
  _connect_warehouses_to_parts cfg self rnd = Ok (self', rnd') ->
  capacity_state self' /\ warehouses self' = warehouses self /\
  temporal_graphs self' = temporal_graphs self.
Proof.
  intros Hinv H. unfold _connect_warehouses_to_parts in H.
  apply (foldM_inv (connect_warehouse cfg)
           (filled (warehouses self) (temporal_graphs self))) in H.
  - exact H.
  - intros [s r] w st' Hin (Hs & Hw & Hsnap) Hstep. cbn [fst] in *.
    unfold connect_warehouse in Hstep.
    bind_inv Hstep. bind_inv Hstep. destruct a0 as [selected r1].
    bind_inv Hstep. destruct a0 as [[s1 r2] ci].
    apply Ok_inj in Hstep. subst st'.
    apply (foldM_inv (connect_warehouse_part cfg w)
             (filling (warehouses self) (temporal_graphs self) w)) in E1.
    + destruct E1 as (Hs1 & Hw1 & Hsnap1 & _). split; [exact Hs1 |].
      split; [exact Hw1 | exact Hsnap1].
    + intros b x b' _ Hb. now apply connect_warehouse_part_filling.
    + split; [exact Hs |]. split; [exact Hw |]. split; [exact Hsnap |].
      cbn [snd]. destruct Hinv as (Hrec & _).
      destruct (Hrec w Hin) as (_ & Hm & _). lia.
  - split; [exact Hinv |]. split; reflexivity.
Qed.

Lemma stage_invariant_keeps (k k' : stage) (s s' : SupplyChainGenerator) :
  keeps_warehouses s s' ->
  (before_warehouses k' -> before_warehouses k) ->
  match k' with Filling _ _ => False | _ => True end ->
  stage_invariant k s -> stage_invariant k' s'.
Proof.
  intros Hkeep Hbefore Hk' (Hs & Hsnap & Hk).
  split; [exact (capacity_state_keeps s s' Hkeep Hs) |].
  destruct Hkeep as (Hw & Ht & _).
  split; [congruence |].
  destruct k'; try exact I; try contradiction;
    (rewrite Hw; specialize (Hbefore I); destruct k; try contradiction;
     exact Hk).
Qed.

(** The invariant holds at every stage of the construction. *)
Lemma built_stage_invariant (cfg : Config) (k : stage)
  (s : SupplyChainGenerator) :
  capacity_ranges_nonnegative cfg -> built cfg k s -> stage_invariant k s.
Proof.
  intros Hcfg Hb. induction Hb.
  - unfold __init__ in H. bind_inv H. apply Ok_inj in H. subst s.
    split; [split |]; [intros w [] | intros w [] | split; reflexivity].
  - apply generate_business_hierarchy_keeps in H.
    eapply stage_invariant_keeps; [exact H | | exact I | exact IHHb];
      intros _; exact I.
  - apply generate_suppliers_keeps in H.
    eapply stage_invariant_keeps; [exact H | | exact I | exact IHHb];
      intros _; exact I.
  - destruct IHHb as (_ & Hsnap & Hnone).
    apply generate_warehouses_fresh in H; [| exact Hcfg | exact Hnone].
    destruct H as (Hrec & Hkept & Ht).
    split; [split; assumption |]. split; [congruence | exact I].
  - apply generate_facilities_keeps in H.
    eapply stage_invariant_keeps; [exact H | | exact I | exact IHHb];
      intros [].
  - apply generate_parts_keeps in H.
    eapply stage_invariant_keeps; [exact H | | exact I | exact IHHb];
      intros [].
  - apply connect_suppliers_to_warehouses_keeps in H.
    eapply stage_invariant_keeps; [exact H | | exact I | exact IHHb];
      intros [].
  - destruct IHHb as (Hs & Hsnap & _).
    split; [exact Hs |]. split; [exact Hsnap |]. split; [exact H |].
    destruct Hs as (Hrec & _). destruct (Hrec w H) as (_ & Hm & _). lia.
  - destruct IHHb as (Hs & Hsnap & Hin & Hc).
    assert (Hfill : filling (warehouses s) [] w (s, rnd, c)).
    { split; [exact Hs |]. split; [reflexivity |]. split; [exact Hsnap | exact Hc]. }
    apply (connect_warehouse_part_filling cfg _ _ w _ part _ Hin Hfill) in H.
    destruct H as (Hs' & Hw' & Hsnap' & Hc'). cbn [fst snd] in *.
    split; [exact Hs' |]. split; [exact Hsnap' |].
    split; [rewrite Hw'; exact Hin | exact Hc'].
  - destruct IHHb as (Hs & Hsnap & _).
    split; [exact Hs |]. split; [exact Hsnap |]. split; [exact H |].
    destruct Hs as (Hrec & _). destruct (Hrec w' H) as (_ & Hm & _). lia.
  - destruct IHHb as (Hs & Hsnap & _).
    apply connect_warehouses_to_parts_capacity in H; [| exact Hs].
    destruct H as (Hs' & _ & Ht).
    split; [exact Hs' |]. split; [congruence | exact I].
  - apply connect_parts_to_facilities_keeps in H.
    eapply stage_invariant_keeps; [exact H | | exact I | exact IHHb];
      intros [].
  - apply connect_facilities_to_products_keeps in H.
    eapply stage_invariant_keeps; [exact H | | exact I | exact IHHb];
      intros [].
  - apply connect_hierarchy_keeps in H.
    eapply stage_invariant_keeps; [exact H | | exact I | exact IHHb];
      intros [].
  - apply calculate_distances_keeps in H.
    eapply stage_invariant_keeps; [exact H | | exact I | exact IHHb];
      intros [].
Qed.

(** Capacities that are kept are within bounds. *)
Lemma capacity_kept_within (self : SupplyChainGenerator) (g : DiGraph) :
  capacity_kept self g -> warehouses_within_capacity self g.
Proof.
  intros Hkept w Hin. destruct (Hkept w Hin) as (Hm & c & Hc & Hbound).
  exists c, (IZR (w_max_capacity w)).
  split; [exact Hc |]. split; [now apply number_attr_int | exact Hbound].
Qed.

(* ----------------------------------------------------------------- *)
(** ** The capacity of the warehouses in the snapshots *)

(** No period assigns [max_capacity], and [current_capacity] is assigned
    from the records of the warehouses only. *)
Lemma node_update_capacity (self : SupplyChainGenerator) (t : nat)
  (u : NodeUpdate) :
  In u (node_updates self t) ->
  nu_key u <> "max_capacity" /\
  (nu_key u = "current_capacity" ->
   exists w, In w (all_values (warehouses self)) /\ u = warehouse_update w).
Proof.
  unfold node_updates.
  destruct (business_group self) as [b|]; [| intros []].
  intros [<-|Hu]; [split; [discriminate | discriminate] |].
  unfold entity_updates in Hu. repeat rewrite in_app_iff in Hu.
  destruct Hu as [Hu|[Hu|[Hu|[Hu|Hu]]]].
  - apply in_map_iff in Hu. destruct Hu as (f & <- & _).
    split; discriminate.
  - apply in_flat_map in Hu. destruct Hu as (o & _ & [<-|[<-|[]]]);
      split; discriminate.
  - apply in_map_iff in Hu. destruct Hu as (w & <- & Hw).
    split; [discriminate |]. intros _. exists w. split; [exact Hw | reflexivity].
  - apply in_map_iff in Hu. destruct Hu as (s & <- & _).
    split; discriminate.
  - apply in_map_iff in Hu. destruct Hu as (p & <- & _).
    split; discriminate.
Qed.

(** One period keeps the capacities: the maximal capacity is not assigned,
    and the current capacity becomes the formula applied to the 0 of the
    record. *)
Lemma period_run_capacity (cfg : Config) (self : SupplyChainGenerator)
  (t : nat) (g : DiGraph) (r : RandomSource) (g' : DiGraph)
  (r' : RandomSource) :
  warehouse_records_fresh self -> capacity_kept self g ->
  period_run cfg self t (g, r) = Ok (g', r') ->
  capacity_kept self g'.
Proof.
  intros Hrec Hkept Hrun.
  destruct (period_run_spec cfg self t g r g' r' Hrun)
    as (_ & Hframe & Hval & _).
  intros w Hw. destruct (Hkept w Hw) as (Hm & _).
  destruct (Hrec w Hw) as (_ & Hmax & _).
  split.
  - rewrite Hframe; [exact Hm |].
    intros Hin. apply in_map_iff in Hin. destruct Hin as (u & Ht & Hu).
    apply node_update_capacity in Hu. destruct Hu as (Hk & _).
    apply Hk. unfold target in Ht. now injection Ht.
  - assert (Hin : In (warehouse_update w) (node_updates self t)).
    { unfold node_updates.
      destruct (business_group self) as [b|] eqn:Eb.
      - right. unfold entity_updates.
        apply in_or_app; right. apply in_or_app; right.
        apply in_or_app; left. now apply in_map.
      - unfold period_run in Hrun. rewrite Eb in Hrun. discriminate Hrun. }
    destruct (Hval _ Hin) as (u' & r0 & Hin' & Ht & Hv).
    destruct (node_update_capacity self t u' Hin') as (_ & Hw').
    destruct Hw' as (w' & Hw' & ->).
    { unfold target in Ht. now injection Ht. }
    destruct (Hrec w' Hw') as (Hzero & _).
    cbn [warehouse_update nu_node nu_key nu_base nu_feature] in Hv.
    rewrite Hzero in Hv. unfold evolved in Hv.
    rewrite temporal_value_zero in Hv.
    exists 0%R. unfold number_attr. cbn [warehouse_update nu_node nu_key].
    rewrite Hv. split; [reflexivity |].
    split; [lra | apply IZR_le; exact Hmax].
Qed.

Lemma same_entities_warehouses (s s' : SupplyChainGenerator) :
  same_entities s s' -> warehouses s' = warehouses s.
Proof. intros (_ & H & _). exact H. Qed.

(** Full regeneration keeps the invariant. *)
Lemma generate_temporal_data_capacity (cfg : Config)
  (self : SupplyChainGenerator) (rnd : RandomSource)
  (self' : SupplyChainGenerator) (rnd' : RandomSource) :
  capacity_invariant self ->
  generate_temporal_data cfg self rnd = Ok (self', rnd') ->
  capacity_invariant self'.
Proof.
  intros (Hrec & Hkept & Hsnaps) H.
  apply generate_temporal_data_inv in H.
  destruct H as (recs & _ & _ & Hent & HG & _ & _ & H0 & Hin & Hout).
  apply same_entities_warehouses in Hent.
  unfold capacity_invariant, warehouse_records_fresh, capacity_kept.
  rewrite Hent, HG.
  split; [exact Hrec |]. split; [exact Hkept |].
  intros t g Hg.
  destruct (Nat.eq_dec t 0) as [->|Hne].
  - rewrite H0 in Hg. injection Hg as <-. exact Hkept.
  - destruct (Nat.lt_ge_cases t (base_periods self)) as [Hlt|Hge].
    + destruct (Hin t ltac:(lia)) as (g1 & r & r1 & Hg1 & Hrun).
      rewrite Hg1 in Hg. injection Hg as <-.
      exact (period_run_capacity cfg self t _ _ _ _ Hrec Hkept Hrun).
    + rewrite (Hout t Hge Hne) in Hg. exact (Hsnaps t g Hg).
Qed.

(** Incremental extension keeps the invariant. *)
Lemma simulate_next_period_capacity (cfg : Config)
  (self : SupplyChainGenerator) (rnd : RandomSource) (n : nat)
  (self' : SupplyChainGenerator) (rnd' : RandomSource) :
  capacity_invariant self ->
  simulate_next_period cfg self rnd = Ok (n, self', rnd') ->
  capacity_invariant self'.
Proof.
  intros (Hrec & Hkept & Hsnaps) H.
  apply simulate_next_period_inv in H.
  destruct H as (k & g_k & g' & d' & _ & -> & Hk & Hrun & ->).
  split; [exact Hrec |]. split; [exact Hkept |].
  intros t g Hg. cbn [temporal_graphs with_temporal] in Hg.
  destruct (Nat.eq_dec (S k) t) as [<-|Hne].
  - rewrite dict_get_set_eq in Hg. injection Hg as <-.
    exact (period_run_capacity cfg self (S k) _ _ _ _ Hrec
             (Hsnaps k g_k Hk) Hrun).
  - rewrite dict_get_set_neq in Hg by exact Hne. exact (Hsnaps t g Hg).
Qed.

(** The full reset keeps the invariant. *)
Lemma regenerate_all_periods_capacity (cfg : Config)
  (self : SupplyChainGenerator) (rnd : RandomSource)
  (self' : SupplyChainGenerator) (rnd' : RandomSource) :
  capacity_invariant self ->
  regenerate_all_periods cfg self rnd = Ok (self', rnd') ->
  capacity_invariant self'.
Proof.
  intros (Hrec & Hkept & _) H. unfold regenerate_all_periods in H.
  apply generate_temporal_data_capacity in H; [exact H |].
  split; [exact Hrec |]. split; [exact Hkept |].
  intros t g Hg. discriminate Hg.
Qed.

(** [generate_data] passes through the stages of the construction. *)
Lemma generate_data_built (cfg : Config) (total : Z) (periods : nat)
  (ver : string) (s0 : SupplyChainGenerator) (rnd : RandomSource)
  (s : SupplyChainGenerator) (rnd' : RandomSource) :
  __init__ total periods ver = Ok s0 ->
  generate_data cfg s0 rnd = Ok (s, rnd') ->
  exists s7 rnd7,
    built cfg DistancesSet s7 /\
    generate_temporal_data cfg s7 rnd7 = Ok (s, rnd').
Proof.
  intros Hinit H. unfold generate_data in H.
  bind_inv H. destruct a as [s1 r1].
  bind_inv H. destruct a as [s2 r2].
  bind_inv H. destruct a as [s3 r3].
  bind_inv H. destruct a as [s4 r4].
  bind_inv H. destruct a as [s5 r5].
  bind_inv H. destruct a as [s6 r6].
  bind_inv H. destruct a as [s7 r7].
  exists s7, r7. split; [| exact H].
  unfold _generate_edges in E4.
  bind_inv E4. destruct a as [e1 q1].
  bind_inv E4. destruct a as [e2 q2].
  bind_inv E4. destruct a as [e3 q3].
  bind_inv E4. destruct a as [e4 q4].
  bind_inv E4. rename a into e5.
  apply Ok_inj in E4. injection E4 as <- <-.
  eapply built_distances; [| eassumption].
  eapply built_hierarchy_wired; [| eassumption].
  eapply built_products_wired; [| eassumption].
  eapply built_parts_wired; [| eassumption].
  eapply built_warehouses_wired; [| eassumption].
  eapply built_suppliers_wired; [| eassumption].
  eapply built_parts; [| eassumption].
  eapply built_facilities; [| eassumption].
  eapply built_warehouses; [| eassumption].
  eapply built_suppliers; [| eassumption].
  eapply built_hierarchy; [| eassumption].
  eapply built_init; eassumption.
Qed.

(** The invariant holds in every reachable generator. *)
Lemma reachable_capacity_invariant (cfg : Config) (s : SupplyChainGenerator) :
  capacity_ranges_nonnegative cfg -> reachable cfg s -> capacity_invariant s.
Proof.
  intros Hcfg Hr. induction Hr.
  - destruct (generate_data_built cfg _ _ _ _ _ _ _ H H0)
      as (s7 & rnd7 & Hb & Hgen).
    apply (built_stage_invariant cfg _ _ Hcfg) in Hb.
    destruct Hb as ((Hrec & Hkept) & Hsnap & _).
    apply generate_temporal_data_capacity in Hgen; [exact Hgen |].
    split; [exact Hrec |]. split; [exact Hkept |].
    intros t g Hg. rewrite Hsnap in Hg. discriminate Hg.
  - eapply simulate_next_period_capacity; eassumption.
  - eapply regenerate_all_periods_capacity; eassumption.
Qed.

Lemma dict_get_some_In {V : Type} (d : dict V) (k : string) (v : V) :
  dict_get d k = Some v -> exists k', In (k', v) d.
Proof.
  induction d as [|[k0 v0] r IH]; cbn [dict_get]; [discriminate |].
  destruct (key_eqb k0 k).
  - intros E. injection E as ->. exists k0. now left.
  - intros E. destruct (IH E) as (k' & Hin). exists k'. now right.
Qed.

Lemma capacity_ranges_nonnegative_b_sound (cfg : Config) :
  capacity_ranges_nonnegative_b cfg = true -> capacity_ranges_nonnegative cfg.
Proof.
  unfold capacity_ranges_nonnegative_b. rewrite forallb_forall.
  intros H k size Hk. apply dict_get_some_In in Hk.
  destruct Hk as (k' & Hin). specialize (H _ Hin). cbn [snd] in H.
  now apply Z.leb_le.
Qed.

(** X1.  Let no capacity range of the configuration start below 0.  At
    every stage of the construction, between the calls of [generate_data]
    and after every iteration of the loops of
    [_connect_warehouses_to_parts], every warehouse holds
    [0 <= current_capacity <= max_capacity] in the graph, and the running
    inventory of the warehouse being filled is within its capacity.  In
    every generator reached by [generate_data], incremental extensions and
    full resets, the same bounds hold in the graph and in every stored
    snapshot. *)
Theorem warehouse_capacity_within_bounds (cfg : Config) :
  capacity_ranges_nonnegative cfg ->
  (forall k s, built cfg k s -> warehouses_within_capacity s (G s)) /\
  (forall w c s, built cfg (Filling w c) s -> 0 <= c <= w_max_capacity w) /\
  (forall s, reachable cfg s ->
     warehouses_within_capacity s (G s) /\
     forall t g, dict_get (temporal_graphs s) t = Some g ->
                 warehouses_within_capacity s g).
Proof.
  intros Hcfg. split; [| split].
  - intros k s Hb. apply (built_stage_invariant cfg k s Hcfg) in Hb.
    destruct Hb as ((_ & Hkept) & _). now apply capacity_kept_within.
  - intros w c s Hb. apply (built_stage_invariant cfg _ s Hcfg) in Hb.
    destruct Hb as (_ & _ & _ & Hc). exact Hc.
  - intros s Hr. apply (reachable_capacity_invariant cfg s Hcfg) in Hr.
    destruct Hr as (_ & Hkept & Hsnaps).
    split; [now apply capacity_kept_within |].
    intros t g Hg. apply capacity_kept_within. exact (Hsnaps t g Hg).
Qed.

(** The demonstration generator is reachable. *)
Lemma demo_generated_reachable : reachable sample_config demo_generated.
Proof.
  assert (Hinit : __init__ 15 3 "v1" = Ok demo_initial)
    by (vm_compute; reflexivity).
  destruct (generate_data sample_config demo_initial (scripted []))
    as [[s r]|e] eqn:E.
  - assert (H : demo_generated
                = generator_of
                    (generate_data sample_config demo_initial (scripted [])))
      by (vm_compute; reflexivity).
    rewrite E in H. cbn [generator_of] in H. rewrite H.
    eapply reach_generate; [exact Hinit | exact E].
  - assert (H : is_ok (generate_data sample_config demo_initial (scripted []))
                = true) by (vm_compute; reflexivity).
    rewrite E in H. discriminate H.
Qed.

Lemma demo_first_warehouse_In :
  In demo_first_warehouse (all_values (warehouses demo_generated)).
Proof. vm_compute. left. reflexivity. Qed.

Lemma demo_first_warehouse_id : w_id demo_first_warehouse = "W_001".
Proof. vm_compute. reflexivity. Qed.

Lemma sample_config_capacity_ranges : capacity_ranges_nonnegative sample_config.
Proof. apply capacity_ranges_nonnegative_b_sound. vm_compute. reflexivity. Qed.

(** The bounds at the demonstration generator: warehouse [W_001] in the
    graph and in every snapshot. *)
Lemma warehouse_capacity_within_bounds_witness :
  within_capacity (G demo_generated) "W_001" /\
  forall t g, dict_get (temporal_graphs demo_generated) t = Some g ->
              within_capacity g "W_001".
Proof.
  destruct (warehouse_capacity_within_bounds sample_config
              sample_config_capacity_ranges) as (_ & _ & Hall).
  destruct (Hall demo_generated demo_generated_reachable) as (Hgraph & Hsnaps).
  rewrite <- demo_first_warehouse_id. split.
  - exact (Hgraph demo_first_warehouse demo_first_warehouse_In).
  - intros t g Hg.
    exact (Hsnaps t g Hg demo_first_warehouse demo_first_warehouse_In).
Defined.

(** C8.  Let no capacity range of the configuration start below 0.  For
    every warehouse, at every point of the construction (between the calls
    of [generate_data] and after every iteration of the loops of
    [_connect_warehouses_to_parts]) the graph holds
    [0 <= current_capacity <= max_capacity], and so does every stored
    snapshot of every generator reached by [generate_data], incremental
    extensions and full resets. *)
Theorem current_capacity_within_max_capacity (cfg : Config) :
  capacity_ranges_nonnegative cfg ->
  (forall k s w,
      built cfg k s -> In w (all_values (warehouses s)) ->
      within_capacity (G s) (w_id w)) /\
  (forall s t g w,
      reachable cfg s -> dict_get (temporal_graphs s) t = Some g ->
      In w (all_values (warehouses s)) -> within_capacity g (w_id w)).
Proof.
  intros Hcfg. split.
  - intros k s w Hb Hw. apply (built_stage_invariant cfg k s Hcfg) in Hb.
    destruct Hb as ((_ & Hkept) & _).
    exact (capacity_kept_within s (G s) Hkept w Hw).
  - intros s t g w Hr Hg Hw.
    apply (reachable_capacity_invariant cfg s Hcfg) in Hr.
    destruct Hr as (_ & _ & Hsnaps).
    exact (capacity_kept_within s g (Hsnaps t g Hg) w Hw).
Qed.

(** The bounds of warehouse [W_001] in the latest snapshot of the
    demonstration generator. *)
Lemma current_capacity_within_max_capacity_witness :
  within_capacity demo_latest "W_001".
Proof.
  assert (Hg : dict_get (temporal_graphs demo_generated) 2%nat
               = Some demo_latest).
  { unfold demo_latest.
    destruct (dict_get (temporal_graphs demo_generated) 2%nat) as [g|] eqn:E;
      [reflexivity |].
    apply dict_get_None_keys in E. exfalso. apply E.
    vm_compute. right. right. left. reflexivity. }
  rewrite <- demo_first_warehouse_id.
  exact (proj2 (current_capacity_within_max_capacity sample_config
                  sample_config_capacity_ranges)
           demo_generated 2%nat demo_latest demo_first_warehouse
           demo_generated_reachable Hg demo_first_warehouse_In).
Defined.

(* ----------------------------------------------------------------- *)
(** ** What a period leaves alone *)

Lemma apply_edge_update_structure (cfg : Config) (t : nat) (u v : string)
  (g : DiGraph) (r : RandomSource) (k f : string) (g' : DiGraph)
  (r' : RandomSource) :
  apply_edge_update cfg t (u, v) (g, r) (k, f) = Ok (g', r') ->
  edges g' = edges g /\ _node g' = _node g /\
  (forall u' v' k', k' <> k -> edge_attr g' u' v' k' = edge_attr g u' v' k') /\
  (forall u' v', edge_ok g u' v' -> edge_ok g' u' v').
Proof.
  intros H. apply apply_edge_update_inv in H.
  destruct H as [(_ & -> & _)|(x & b & _ & _ & Hset)]; [auto |].
  split; [eapply edges_setitem_edge; exact Hset |].
  split; [eapply setitem_edge_node; exact Hset |].
  split.
  - intros u' v' k' Hk.
    rewrite (edge_attr_setitem_edge _ _ _ _ _ _ u' v' k' Hset).
    destruct (String.eqb_spec k k') as [->|_]; [congruence |].
    now rewrite andb_false_r.
  - intros u' v'. eapply edge_ok_setitem_edge. exact Hset.
Qed.

Lemma edge_updates_structure (cfg : Config) (t : nat)
  (l : list (string * string)) :
  forall g r g' r',
  foldM (apply_edge_updates cfg t) l (g, r) = Ok (g', r') ->
  edges g' = edges g /\ _node g' = _node g /\
  (forall u v k, ~ In k (map fst edge_features) ->
     edge_attr g' u v k = edge_attr g u v k) /\
  (forall u v, edge_ok g u v -> edge_ok g' u v).
Proof.
  induction l as [|[u0 v0] l IH]; intros g r g' r' H; cbn [foldM] in H.
  - apply Ok_inj in H. injection H as <- <-. auto.
  - bind_inv H. destruct a as [g2 r2].
    unfold apply_edge_updates, edge_features in E. cbn [foldM] in E.
    bind_inv E. destruct a as [g1 r1]. bind_inv E. destruct a as [g1' r1'].
    apply Ok_inj in E. injection E as <- <-.
    apply apply_edge_update_structure in E0, E1.
    destruct E0 as (He0 & Hn0 & Hf0 & Hk0), E1 as (He1 & Hn1 & Hf1 & Hk1).
    destruct (IH _ _ _ _ H) as (He & Hn & Hf & Hk).
    split; [congruence |]. split; [congruence |]. split.
    + intros u v k Hnot. rewrite Hf by exact Hnot.
      rewrite Hf1, Hf0; [reflexivity | |];
        intros ->; apply Hnot; cbn; tauto.
    + intros u v Hok. auto.
Qed.

(** A period keeps the nodes, the edges and every attribute that is not
    in scope, and a graph that the generator can evolve stays so. *)
Lemma period_run_structure (cfg : Config) (self : SupplyChainGenerator)
  (t : nat) (g : DiGraph) (r : RandomSource) (g' : DiGraph)
  (r' : RandomSource) :
  period_run cfg self t (g, r) = Ok (g', r') ->
  same_structure g g' /\ (evolvable self g -> evolvable self g').
Proof.
  intros Hrun. pose proof Hrun as Hspec.
  apply period_run_spec in Hspec. destruct Hspec as (Hkeys & Hframe & _).
  unfold period_run in Hrun.
  destruct (business_group self) as [b|] eqn:Eb; [| discriminate].
  bind_inv Hrun. destruct a as [g1 r1]. cbn [fst] in Hrun.
  destruct (node_updates_frame cfg t _ _ _ _ _ E) as (Hadj & _ & _).
  destruct (edge_updates_structure cfg t _ _ _ _ _ Hrun)
    as (He & Hn & Hf & Hk).
  assert (Hedges : edges g' = edges g).
  { rewrite He. now apply edges_adj. }
  split.
  - split; [exact Hkeys |]. split; [exact Hedges |]. split.
    + intros n k Hnot. apply Hframe. intros Hin.
      apply in_map_iff in Hin. destruct Hin as (u & Ht & Hu).
      apply Hnot. unfold target in Ht. injection Ht as _ <-.
      clear - Hu. unfold node_updates in Hu.
      destruct (business_group self) as [b|]; [| destruct Hu].
      destruct Hu as [<-|Hu]; [cbn; tauto |].
      unfold entity_updates in Hu. repeat rewrite in_app_iff in Hu.
      destruct Hu as [Hu|[Hu|[Hu|[Hu|Hu]]]].
      * apply in_map_iff in Hu. destruct Hu as (x & <- & _). cbn; tauto.
      * apply in_flat_map in Hu. destruct Hu as (x & _ & [<-|[<-|[]]]);
          cbn; tauto.
      * apply in_map_iff in Hu. destruct Hu as (x & <- & _). cbn; tauto.
      * apply in_map_iff in Hu. destruct Hu as (x & <- & _). cbn; tauto.
      * apply in_map_iff in Hu. destruct Hu as (x & <- & _). cbn; tauto.
    + intros u v k Hnot. rewrite Hf by exact Hnot.
      now apply edge_attr_adj.
  - intros (Hbg & Hnodes & Hok). split; [exact Hbg |]. split.
    + intros t0 u Hu. specialize (Hnodes t0 u Hu). unfold dict_mem in *.
      destruct (dict_get (_node g') (nu_node u)) eqn:Eg'; [reflexivity |].
      apply dict_get_None_keys in Eg'. rewrite Hkeys in Eg'.
      apply dict_get_None_keys in Eg'. now rewrite Eg' in Hnodes.
    + intros u v Hin. rewrite Hedges in Hin. apply Hk.
      apply (edge_ok_adj g g1 u v Hadj). now apply Hok.
Qed.

Lemma same_structure_refl (g : DiGraph) : same_structure g g.
Proof. unfold same_structure. auto. Qed.

(** X2.  Neither evolution mode adds or removes a node or an edge, and
    neither touches an attribute out of scope.  After full regeneration,
    snapshot 0 and the snapshot of every period below [base_periods] have
    the nodes and the edges of the graph, in the same order, and agree with
    it on every node attribute other than [revenue], [cost], [demand],
    [current_capacity] and [reliability] and on every edge attribute other
    than [transportation_cost] and [inventory_level].  After an incremental
    extension the new snapshot is related in the same way to the latest
    snapshot, from which it was copied. *)
Theorem snapshots_keep_structure (cfg : Config) (self : SupplyChainGenerator)
  (rnd : RandomSource) :
  (forall self' rnd',
      generate_temporal_data cfg self rnd = Ok (self', rnd') ->
      forall t, (t = 0 \/ t < base_periods self)%nat ->
        exists g, dict_get (temporal_graphs self') t = Some g /\
                  same_structure (G self) g) /\
  (forall n self' rnd',
      simulate_next_period cfg self rnd = Ok (n, self', rnd') ->
      exists g_prev g,
        max_key (temporal_graphs self) = Ok (Nat.pred n) /\
        dict_get (temporal_graphs self) (Nat.pred n) = Some g_prev /\
        dict_get (temporal_graphs self') n = Some g /\
        same_structure g_prev g).
Proof.
  split.
  - intros self' rnd' H t Ht. apply generate_temporal_data_inv in H.
    destruct H as (recs & _ & _ & _ & _ & _ & _ & H0 & Hin & _).
    destruct (Nat.eq_dec t 0) as [->|Hne].
    + exists (G self). split; [exact H0 | apply same_structure_refl].
    + destruct (Hin t ltac:(lia)) as (g & r & r' & Hg & Hrun).
      exists g. split; [exact Hg |].
      exact (proj1 (period_run_structure cfg self t _ _ _ _ Hrun)).
  - intros n self' rnd' H. apply simulate_next_period_inv in H.
    destruct H as (k & g_k & g' & d' & Hmax & -> & Hk & Hrun & ->).
    exists g_k, g'. cbn [Nat.pred temporal_graphs with_temporal].
    split; [exact Hmax |]. split; [exact Hk |].
    split; [apply dict_get_set_eq |].
    exact (proj1 (period_run_structure cfg self (S k) _ _ _ _ Hrun)).
Qed.

(** The structure of the snapshots of the demonstration generator after a
    regeneration pass. *)
Lemma snapshots_keep_structure_witness :
  exists self' rnd' g,
    generate_temporal_data sample_config demo_generated (scripted [])
    = Ok (self', rnd') /\
    dict_get (temporal_graphs self') 2%nat = Some g /\
    same_structure (G demo_generated) g.
Proof.
  destruct (generate_temporal_data_ok sample_config demo_generated (scripted []))
    as ([self' rnd'] & Hrun).
  { apply evolvable_b_sound. vm_compute. reflexivity. }
  destruct (snapshots_keep_structure sample_config demo_generated (scripted []))
    as (Hfull & _).
  destruct (Hfull self' rnd' Hrun 2%nat) as (g & Hg & Hs).
  { right. vm_compute. lia. }
  exists self', rnd', g. split; [exact Hrun |]. split; [exact Hg | exact Hs].
Defined.

(* ----------------------------------------------------------------- *)
(** ** Several incremental extensions *)






(* ----------------------------------------------------------------- *)
(** ** The warehouse pass returns *)

Lemma same_entities_trans (a b c : SupplyChainGenerator) :
  same_entities a b -> same_entities b c -> same_entities a c.
Proof. unfold same_entities. intuition congruence. Qed.

Lemma randint_ok (a b : Z) (rnd : RandomSource) :
  a <= b -> exists res, randint a b rnd = Ok res.
Proof.
  intros Hab. unfold randint.
  destruct (Z.ltb_spec b a) as [Hlt|_]; [lia |].
  destruct (_randbelow (b - a + 1) rnd). eauto.
Qed.

(** One iteration of the inner loop returns and keeps the entity records. *)
Lemma connect_warehouse_part_ok (cfg : Config) (warehouse : Warehouse)
  (self : SupplyChainGenerator) (rnd : RandomSource) (current_inventory : Z)
  (part : Part) :
  fst (INVENTORY_RANGE cfg) <= snd (INVENTORY_RANGE cfg) ->
  exists self' rnd' current_inventory',
    connect_warehouse_part cfg warehouse (self, rnd, current_inventory) part
    = Ok (self', rnd', current_inventory') /\
    same_entities self self'.
Proof.
  intros Hrange. unfold connect_warehouse_part, randint_range.
  destruct (randint_ok _ _ rnd Hrange) as ([draw rnd1] & ->). cbn [bind].
  destruct (Z.min draw (w_max_capacity warehouse - current_inventory) <=? 0).
  - eexists _, _, _. split; [reflexivity | apply same_entities_refl].
  - destruct (uniform_range (COST_RANGE cfg) rnd1) as [storage_cost rnd2].
    match goal with
    | |- context [setitem_node ?g ?n ?k ?v] =>
        destruct (setitem_node_ok g n k v) as [g2 Hg2];
        [cbn [G with_G _log_edge_operation with_log];
         apply dict_mem_add_edge_source | rewrite Hg2]
    end.
    cbn [bind]. eexists _, _, _. split; [reflexivity |].
    unfold same_entities. cbn. tauto.
Qed.

Lemma connect_warehouse_parts_ok (cfg : Config) (warehouse : Warehouse)
  (l : list Part) :
  fst (INVENTORY_RANGE cfg) <= snd (INVENTORY_RANGE cfg) ->
  forall self rnd current_inventory,
  exists self' rnd' current_inventory',
    foldM (connect_warehouse_part cfg warehouse) l
      (self, rnd, current_inventory)
    = Ok (self', rnd', current_inventory') /\
    same_entities self self'.
Proof.
  intros Hrange. induction l as [|p l IH]; intros self rnd ci; cbn [foldM].
  - eexists _, _, _. split; [reflexivity | apply same_entities_refl].
  - destruct (connect_warehouse_part_ok cfg warehouse self rnd ci p Hrange)
      as (s1 & r1 & c1 & -> & Hent1). cbn [bind].
    destruct (IH s1 r1 c1) as (s2 & r2 & c2 & -> & Hent2).
    eexists _, _, _. split; [reflexivity |].
    exact (same_entities_trans _ _ _ Hent1 Hent2).
Qed.

Lemma same_entities_parts (s s' : SupplyChainGenerator) :
  same_entities s s' -> parts s' = parts s.
Proof. intros (_ & _ & _ & H & _). exact H. Qed.

(** X4.  [_connect_warehouses_to_parts] never raises when the inventory
    range is not empty, the part table has its two categories and no
    warehouse has a negative [max_parts]: the sample size is clamped to the
    population, and the node of the warehouse is in the graph when its
    capacity is assigned, because the edge has just been added.  The entity
    records are not changed. *)
Theorem connect_warehouses_to_parts_returns (cfg : Config)
  (self : SupplyChainGenerator) (rnd : RandomSource) :
  fst (INVENTORY_RANGE cfg) <= snd (INVENTORY_RANGE cfg) ->
  dict_mem (parts self) "raw" = true ->
  dict_mem (parts self) "subassembly" = true ->
  (forall w, In w (all_values (warehouses self)) -> 0 <= w_max_parts w) ->
  exists self' rnd',
    _connect_warehouses_to_parts cfg self rnd = Ok (self', rnd') /\
    same_entities self self'.
Proof.
  intros Hrange Hraw Hsub Hparts. unfold _connect_warehouses_to_parts.
  revert Hparts Hraw Hsub.
  generalize (all_values (warehouses self)) as l. revert self rnd.
  intros self0 rnd0 l. revert self0 rnd0.
  induction l as [|w l IH]; intros self rnd Hparts Hraw Hsub; cbn [foldM].
  - eexists _, _. split; [reflexivity | apply same_entities_refl].
  - assert (Hstep : exists s1 r1,
               connect_warehouse cfg (self, rnd) w = Ok (s1, r1) /\
               same_entities self s1).
    { unfold connect_warehouse.
      set (kind := if (w_type w =? "supplier")%string then "raw"
                   else "subassembly").
      assert (Hkind : exists possible, getitem (parts self) kind = Ok possible).
      { unfold getitem, dict_mem in *. unfold kind.
        destruct (w_type w =? "supplier")%string;
          [destruct (dict_get (parts self) "raw") |
           destruct (dict_get (parts self) "subassembly")];
          try discriminate; cbn; eauto. }
      destruct Hkind as (possible & ->). cbn [bind].
      destruct (sample_clamped_ok possible (w_max_parts w) rnd)
        as ([selected r1] & ->); [apply Hparts; now left |]. cbn [bind].
      destruct (connect_warehouse_parts_ok cfg w selected Hrange self r1 0)
        as (s2 & r2 & c2 & -> & Hent).
      cbn [bind]. eauto. }
    destruct Hstep as (s1 & r1 & -> & Hent1). cbn [bind].
    pose proof (same_entities_parts _ _ Hent1) as Hp.
    destruct (IH s1 r1 (fun w' Hw' => Hparts w' (or_intror Hw')))
      as (s2 & r2 & -> & Hent2); [now rewrite Hp | now rewrite Hp |].
    eexists _, _. split; [reflexivity |].
    exact (same_entities_trans _ _ _ Hent1 Hent2).
Qed.

(** The pass on the entities of the demonstration generator. *)
Lemma connect_warehouses_to_parts_returns_witness :
  exists self' rnd',
    _connect_warehouses_to_parts sample_config demo_entities (scripted [])
    = Ok (self', rnd') /\
    same_entities demo_entities self'.
Proof.
  apply connect_warehouses_to_parts_returns.
  - vm_compute. discriminate.
  - vm_compute. reflexivity.
  - vm_compute. reflexivity.
  - intros w Hw. vm_compute in Hw.
    destruct Hw as [<-|[<-|[]]]; vm_compute; discriminate.
Defined.

(* ----------------------------------------------------------------- *)
(** ** The validity windows that the factory draws *)

Lemma generate_part_validity_drawn (cfg : Config) (rnd : RandomSource)
  (valid_from valid_till : Z) (rnd' : RandomSource) :
  _generate_part_validity cfg rnd = Ok (valid_from, valid_till, rnd') ->
  valid_from = BASE_DATE /\
  exists m, valid_till = add_days BASE_DATE (30 * m) /\
            fst (PART_VALIDITY_RANGE cfg) <= m <= snd (PART_VALIDITY_RANGE cfg).
Proof.
  unfold _generate_part_validity, randint_range. intros H.
  bind_inv H. destruct a as [m r]. apply Ok_inj in H.
  injection H as <- <- <-. split; [reflexivity |].
  exists m. split; [reflexivity |]. eapply randint_bounds. exact E.
Qed.

(** A part with a drawn validity is in its window exactly in the periods
    up to its number of months. *)
Lemma validity_drawn_window (cfg : Config) (p : Part) (t : nat) :
  validity_drawn cfg p ->
  in_validity_window p (period_date t) = (Z.of_nat t <=? validity_months p).
Proof.
  intros (Hfrom & Htill & _). unfold in_validity_window, period_date.
  rewrite Hfrom, Htill. unfold add_days, BASE_DATE.
  destruct (Z.leb_spec (Z.of_nat t) (validity_months p)) as [Hle|Hgt].
  - apply andb_true_iff. split; apply Z.leb_le; lia.
  - apply andb_false_iff. right. apply Z.leb_gt. lia.
Qed.

Lemma parts_added_refl (cfg : Config) (s : SupplyChainGenerator) :
  parts_added cfg s s.
Proof.
  split; [reflexivity |]. intros kind. exists []. rewrite app_nil_r.
  split; [reflexivity | constructor].
Qed.

Lemma parts_added_trans (cfg : Config) (a b c : SupplyChainGenerator) :
  parts_added cfg a b -> parts_added cfg b c -> parts_added cfg a c.
Proof.
  intros (K1 & H1) (K2 & H2). split; [congruence |]. intros kind.
  destruct (H1 kind) as (m1 & E1 & F1). destruct (H2 kind) as (m2 & E2 & F2).
  exists (m1 ++ m2). split; [rewrite E2, E1; symmetry; apply app_assoc |].
  now apply Forall_app.
Qed.

(** One pass of the loop of [_generate_parts]. *)
Lemma generate_part_added (cfg : Config) (kind : string)
  (st : FactoryState) (x : nat) (st' : FactoryState) :
  generate_part cfg kind st x = Ok st' ->
  parts_added cfg (fst (fst st)) (fst (fst st')).
Proof.
  destruct st as [[s r] i]. intros Hp. unfold generate_part in Hp.
  bind_inv Hp. destruct a as [[valid_from valid_till] r1].
  apply generate_part_validity_drawn in E.
  destruct E as (-> & m & -> & Hm).
  bind_inv Hp. bind_inv Hp. destruct a0 as [subtype r2].
  destruct (uniform_range (COST_RANGE cfg) r2) as [cost r3].
  destruct (uniform_range (IMPORTANCE_FACTOR_RANGE cfg) r3)
    as [importance r4].
  bind_inv Hp. rename a0 into pa, E1 into Epa.
  apply Ok_inj in Hp. subst st'. cbn [fst].
  unfold parts_added, parts_of.
  change (parts (_log_node_operation _ _ _ _ _)) with pa.
  unfold append_to, getitem in Epa. bind_inv Epa. apply Ok_inj in Epa.
  subst pa. rename a0 into old.
  destruct (dict_get (parts s) kind) as [old0|] eqn:Eold; [| discriminate E1].
  apply Ok_inj in E1. subst old0.
  split; [exact (keys_dict_set_mem (parts s) kind _ old Eold) |].
  intros k. unfold get_default. rewrite dict_get_set, string_eqb_key.
  destruct (String.eqb_spec kind k) as [<- | Hne].
  - rewrite Eold. eexists. split; [reflexivity |].
    constructor; [| constructor]. split; [reflexivity |].
    assert (Hmonths : (add_days BASE_DATE (30 * m) - BASE_DATE) / 30 = m).
    { unfold add_days, BASE_DATE.
      replace (0 + 30 * m - 0) with (m * 30) by lia.
      apply Z.div_mul. lia. }
    unfold validity_drawn, validity_months.
    cbn [p_valid_from p_valid_till]. rewrite Hmonths. auto.
  - exists []. rewrite app_nil_r. split; [reflexivity | constructor].
Qed.

(** X5.  Under every kind of the table of the parts, [_generate_parts]
    keeps the parts that were there, with their records and in their order,
    and files the parts that it makes after them; it adds no kind to the
    table.  Every part that it makes, whatever the table held before, is of
    the kind it is filed under and has a validity window that starts at the
    base date and lasts a whole number [m] of 30-day months with [m] in
    [PART_VALIDITY_RANGE]; such a part is in its window in period [t]
    exactly when [t <= m]. *)
Theorem generate_parts_validity (cfg : Config) (self : SupplyChainGenerator)
  (rnd : RandomSource) (self' : SupplyChainGenerator) (rnd' : RandomSource) :
  _generate_parts cfg self rnd = Ok (self', rnd') ->
  keys (parts self') = keys (parts self) /\
  forall kind, exists made,
    parts_of self' kind = parts_of self kind ++ made /\
    Forall (fun p =>
              p_type p = kind /\ validity_drawn cfg p /\
              forall t, in_validity_window p (period_date t)
                        = (Z.of_nat t <=? validity_months p))
      made.
Proof.
  intros H.
  assert (Hadded : parts_added cfg self self').
  { unfold _generate_parts in H. bind_inv H. destruct a as [[s1 r1] i1].
    apply Ok_inj in H. injection H as <- <-.
    refine (foldM_rel (generate_parts_of cfg)
              (fun st st' => parts_added cfg (fst (fst st)) (fst (fst st')))
              (fun st => parts_added_refl cfg _)
              (fun a b c => parts_added_trans cfg _ _ _) _ _
              (self, rnd, 1%nat) (s1, r1, i1) E).
    intros st [kind count] st' _ Hstep. unfold generate_parts_of in Hstep.
    refine (foldM_rel (generate_part cfg kind)
              (fun st st' => parts_added cfg (fst (fst st)) (fst (fst st')))
              (fun st => parts_added_refl cfg _)
              (fun a b c => parts_added_trans cfg _ _ _) _ _ st st' Hstep).
    intros st0 x st0' _. apply generate_part_added. }
  destruct Hadded as (Hkeys & Hmade). split; [exact Hkeys |].
  intros kind. destruct (Hmade kind) as (made & E & F). exists made.
  split; [exact E |]. eapply Forall_impl; [| exact F].
  intros p (Hk & Hv). split; [exact Hk |]. split; [exact Hv |].
  intros t. now apply (validity_drawn_window cfg).
Qed.

(** The raw parts of the demonstration entities, made from an empty
    table. *)
Lemma generate_parts_validity_witness :
  exists made,
    parts_of demo_entities "raw" = parts_of demo_before_parts "raw" ++ made /\
    Forall (fun p =>
              p_type p = "raw" /\ validity_drawn sample_config p /\
              forall t, in_validity_window p (period_date t)
                        = (Z.of_nat t <=? validity_months p))
      made.
Proof.
  assert (Hrun : exists rnd',
             _generate_parts sample_config demo_before_parts
               demo_before_parts_source = Ok (demo_entities, rnd')).
  { destruct (_generate_parts sample_config demo_before_parts
                demo_before_parts_source) as [[s r]|e] eqn:E.
    - assert (H : demo_entities
                  = generator_of
                      (_generate_parts sample_config demo_before_parts
                         demo_before_parts_source))
        by (vm_compute; reflexivity).
      rewrite E in H. cbn [generator_of] in H. rewrite H. eauto.
    - assert (H : is_ok (_generate_parts sample_config demo_before_parts
                           demo_before_parts_source) = true)
        by (vm_compute; reflexivity).
      rewrite E in H. discriminate H. }
  destruct Hrun as (rnd' & Hrun).
  exact (proj2 (generate_parts_validity sample_config demo_before_parts
                  demo_before_parts_source demo_entities rnd' Hrun) "raw").
Defined.

(* ----------------------------------------------------------------- *)
(** ** The export of all snapshots *)

Import JsonExport.

Lemma and_then_inv {A B : Type} (m : outcome A) (k : A -> outcome B) (b : B) :
  and_then m k = Done b -> exists a, m = Done a /\ k a = Done b.
Proof. destruct m as [a|f]; cbn; [eauto | discriminate]. Qed.

Lemma Done_inj {A : Type} (a b : A) : Done a = Done b -> a = b.
Proof. intros H. injection H as H. exact H. Qed.

(** A loop that appends one computed item per element. *)
Lemma for_each_collect {A C : Type} (f : A -> outcome C) (l : list A) :
  forall acc r,
  for_each (fun acc x => and_then (f x) (fun c => Done (acc ++ [c]))) l acc
  = Done r ->
  exists cs, r = acc ++ cs /\ Forall2 (fun x c => f x = Done c) l cs.
Proof.
  induction l as [|x l IH]; intros acc r H; cbn [for_each] in H.
  - apply Done_inj in H. subst r. exists []. rewrite app_nil_r.
    split; [reflexivity | constructor].
  - apply and_then_inv in H. destruct H as (acc1 & H1 & H).
    apply and_then_inv in H1. destruct H1 as (c & Hc & H1).
    apply Done_inj in H1. subst acc1.
    destruct (IH _ _ H) as (cs & -> & Hcs).
    exists (c :: cs). rewrite <- app_assoc. split; [reflexivity |].
    constructor; assumption.
Qed.

Lemma for_each_collect_done {A C : Type} (f : A -> outcome C) (l : list A) :
  (forall x, In x l -> exists c, f x = Done c) ->
  forall acc, exists r,
    for_each (fun acc x => and_then (f x) (fun c => Done (acc ++ [c]))) l acc
    = Done r.
Proof.
  induction l as [|x l IH]; intros Hok acc; cbn [for_each]; [eauto |].
  destruct (Hok x (or_introl eq_refl)) as (c & ->). cbn [and_then].
  apply IH. intros y Hy. apply Hok. now right.
Qed.

Lemma has_type_node_type (data : attrs) (name : string) :
  has_type data name = true -> dict_get data "node_type" = Some (VStr name).
Proof.
  unfold has_type. destruct (dict_get data "node_type") as [[]|];
    try discriminate.
  intros H. apply String.eqb_eq in H. now subst.
Qed.

(** The row of an edge, by the node types of its end points. *)
Lemma relationship_row_of_edge (graph : DiGraph)
  (e : string * string * attrs) (row : list cell) :
  relationship_row graph e = Done row -> row_of_edge graph e row.
Proof.
  destruct e as [[u v] data]. unfold relationship_row. intros H.
  apply and_then_inv in H. destruct H as (sn & Hsn & H).
  apply and_then_inv in H. destruct H as (tn & Htn & H).
  exists sn, tn. cbn [fst snd].
  assert (Hnode : forall n a, lift (node_attrs graph n) = Done a ->
                              dict_get (_node graph) n = Some a).
  { intros n a Ha. unfold node_attrs, getitem in Ha.
    destruct (dict_get (_node graph) n) as [a0|]; [| discriminate Ha].
    cbn in Ha. apply Done_inj in Ha. now subst. }
  split; [exact (Hnode u sn Hsn) |]. split; [exact (Hnode v tn Htn) |].
  split.
  - intros st tt rel Hin Hs Ht.
    apply has_type_node_type in Hs, Ht.
    unfold classify, has_type in H. rewrite Hs, Ht in H.
    cbn [In typed_relationships] in Hin.
    destruct Hin as [Heq | [Heq | [Heq | [Heq | [Heq | []]]]]];
      injection Heq as <- <- <-; cbn in H; apply Done_inj in H; subst row.
    + exists ["transportation_cost"; "lead_time"]. split; reflexivity.
    + exists ["inventory_level"; "storage_cost"]. split; reflexivity.
    + exists ["quantity"; "distance"; "transport_cost"; "lead_time"].
      split; reflexivity.
    + exists ["production_cost"; "lead_time"; "quantity"]. split; reflexivity.
    + exists ["product_cost"; "lead_time"; "quantity"]. split; reflexivity.
  - intros Hnone. unfold classify in H.
    rewrite (Hnone "supplier" "warehouse" "SupplierToWarehouse"),
      (Hnone "warehouse" "part" "WarehouseToParts"),
      (Hnone "part" "facility" "PartsToFacility"),
      (Hnone "facility" "part" "FacilityToParts"),
      (Hnone "facility" "product_offering" "FacilityToProductOfferings")
      in H; cbn [In typed_relationships]; auto 10.
    apply Done_inj in H. now subst row.
Qed.

(** X6.  The export of a snapshot has one relationship row per edge of the
    snapshot, in the order of the edges.  The row of an edge whose end
    points have one of the five typed combinations of node types (supplier
    and warehouse, warehouse and part, part and facility, facility and part,
    facility and product offering) is the row of that relationship type: the
    type, the values of the features that the schema of the type lists (or
    [None]), the source and the target, as the schema declares.  The row of
    an edge whose end points have none of the five combinations is just the
    source and the target, one entry fewer than the schema of hierarchical
    relationships lists. *)
Theorem export_relationship_rows (timestamp : nat) (graph : DiGraph)
  (te : TimestampExport) :
  export_timestamp timestamp graph = Done te ->
  Forall2 (row_of_edge graph) (edges_data graph) (relationship_values te) /\
  dict_get relationship_types "HierarchicalRelationship"
  = Some ["relationship_type"; "source"; "target"].
Proof.
  intros H. split; [| reflexivity]. unfold export_timestamp in H.
  apply and_then_inv in H. destruct H as (nodes & _ & H).
  apply and_then_inv in H. destruct H as (rels & Hrels & H).
  apply Done_inj in H. subst te. cbn [relationship_values].
  unfold export_edge in Hrels.
  apply (for_each_collect (relationship_row graph)) in Hrels.
  destruct Hrels as (cs & -> & Hcs). cbn [app].
  eapply Forall2_impl; [| exact Hcs].
  intros e row Hrow. now apply relationship_row_of_edge.
Qed.

(** The relationship rows of the latest snapshot of the demonstration
    generator. *)
Lemma export_relationship_rows_witness :
  Forall2 (row_of_edge demo_latest) (edges_data demo_latest)
    (relationship_values demo_export).
Proof.
  assert (Hrun : export_timestamp 2 demo_latest = Done demo_export)
    by (vm_compute; reflexivity).
  exact (proj1 (export_relationship_rows 2 demo_latest demo_export Hrun)).
Defined.

Lemma for_each_inv {A B : Type} (f : B -> A -> outcome B) (Inv : B -> Prop) :
  forall l,
  (forall b x b', In x l -> Inv b -> f b x = Done b' -> Inv b') ->
  forall b b', Inv b -> for_each f l b = Done b' -> Inv b'.
Proof.
  intros l. induction l as [|x r IH]; intros Hstep b b' Hb H;
    cbn [for_each] in H.
  - apply Done_inj in H. now subst.
  - apply and_then_inv in H. destruct H as (b1 & H1 & H).
    refine (IH _ b1 b' _ H).
    + intros b0 y b0' Hy Hb0 Hf. exact (Hstep b0 y b0' (or_intror Hy) Hb0 Hf).
    + exact (Hstep b x b1 (or_introl eq_refl) Hb H1).
Qed.

(** Every schema of a node type starts with [node_type]. *)
Lemma node_types_head (node_type : string) (schema : list string) :
  dict_get node_types node_type = Some schema ->
  exists rest, schema = "node_type" :: rest.
Proof.
  unfold node_types. cbn [dict_get].
  repeat (destruct (key_eqb _ node_type);
          [intros E; injection E as <-; eauto |]).
  discriminate.
Qed.

(** The mapping sends every node type to a type that has a schema. *)
Lemma node_type_mapping_schema (s node_type : string) :
  dict_get node_type_mapping s = Some node_type ->
  exists schema, dict_get node_types node_type = Some schema.
Proof.
  unfold node_type_mapping. cbn [dict_get].
  repeat (destruct (key_eqb _ s);
          [intros E; injection E as <-; cbn; eauto |]).
  discriminate.
Qed.

Lemma node_row_shape (node_type : string) (data : attrs)
  (schema : list string) (row : list cell) :
  node_row node_type data schema = Done row ->
  List.length row = List.length schema /\
  forall rest, schema = "node_type" :: rest -> hd None row = text node_type.
Proof.
  unfold node_row. intros H.
  apply (for_each_collect (node_cell node_type data)) in H.
  destruct H as (cs & -> & Hcs). cbn [app]. split.
  - symmetry. eapply Forall2_length. exact Hcs.
  - intros rest ->. inversion Hcs as [|? c ? cs' Hc Hrest]; subst.
    cbn in Hc. apply Done_inj in Hc. now subst c.
Qed.

Lemma concat_append_row {A : Type} (d : dict (list A)) (k : string) (x : A) :
  List.length
    (List.concat (values (dict_set d k (get_default d k [] ++ [x]))))
  = S (List.length (List.concat (values d))).
Proof.
  unfold values, get_default.
  induction d as [|[k' v'] r IH]; cbn [dict_get dict_set].
  - reflexivity.
  - destruct (key_eqb k' k); cbn [map snd List.concat].
    + rewrite !length_app. cbn. lia.
    + rewrite !length_app, IH. lia.
Qed.

(** What the loop over the nodes does to [node_values]. *)
Lemma export_node_step (nv : dict (list (list cell))) (nd : string * attrs)
  (nv' : dict (list (list cell))) :
  export_node nv nd = Done nv' ->
  (rows_of_schema nv -> rows_of_schema nv') /\
  List.length (List.concat (values nv'))
  = (List.length (List.concat (values nv))
     + if is_exported (snd nd) then 1 else 0)%nat.
Proof.
  unfold export_node, mapped_node_type, is_exported, dict_mem. intros H.
  apply and_then_inv in H. destruct H as (mapped & Hm & H).
  assert (Hcase :
            (mapped = None /\
             (if match dict_get (snd nd) "node_type" with
                 | Some (VStr s) =>
                     match dict_get node_type_mapping s with
                     | Some _ => true
                     | None => false
                     end
                 | _ => false
                 end then 1 else 0)%nat = 0%nat) \/
            (exists s ty, dict_get node_type_mapping s = Some ty /\
                          mapped = Some ty /\
                          dict_get (snd nd) "node_type" = Some (VStr s))).
  { destruct (dict_get (snd nd) "node_type") as [[z|x|s|d|l|d]|];
      try (apply Done_inj in Hm; subst mapped; left; split; reflexivity);
      try discriminate Hm.
    apply Done_inj in Hm. subst mapped.
    destruct (dict_get node_type_mapping s) as [ty|] eqn:Es.
    - right. exists s, ty. auto.
    - left. split; reflexivity. }
  destruct Hcase as [(-> & Hzero)|(s & ty & Hs & -> & Hty)].
  - apply Done_inj in H. subst nv'. split; [auto |]. rewrite Hzero. lia.
  - rewrite Hty, Hs.
    apply and_then_inv in H. destruct H as (schema & Hschema & H).
    apply and_then_inv in H. destruct H as (row & Hrow & H).
    apply Done_inj in H. subst nv'.
    unfold getitem in Hschema.
    destruct (dict_get node_types ty) as [sch|] eqn:Esch;
      [| discriminate Hschema].
    apply Done_inj in Hschema. subst sch.
    apply node_row_shape in Hrow. destruct Hrow as (Hlen & Hhd).
    destruct (node_types_head ty schema Esch) as (rest & Hrest).
    split; [| rewrite concat_append_row; lia].
    intros Hinv node_type rows Hget. rewrite dict_get_set in Hget.
    destruct (key_eqb_spec ty node_type) as [<-|Hne].
    + injection Hget as <-. exists schema. split; [exact Esch |].
      apply Forall_app. split.
      * unfold get_default.
        destruct (dict_get nv ty) as [old|] eqn:Eold; [| constructor].
        destruct (Hinv ty old Eold) as (schema' & Hs' & Hall).
        rewrite Esch in Hs'. injection Hs' as <-. exact Hall.
      * constructor; [| constructor]. split; [exact Hlen | eauto].
    + exact (Hinv node_type rows Hget).
Qed.

Lemma export_nodes_run (l : list (string * attrs)) :
  forall nv nv',
  for_each export_node l nv = Done nv' ->
  (rows_of_schema nv -> rows_of_schema nv') /\
  List.length (List.concat (values nv'))
  = (List.length (List.concat (values nv))
     + List.length (filter (fun nd => is_exported (snd nd)) l))%nat.
Proof.
  induction l as [|nd l IH]; intros nv nv' H; cbn [for_each] in H.
  - apply Done_inj in H. subst nv'. split; [auto | cbn; lia].
  - apply and_then_inv in H. destruct H as (nv1 & H1 & H).
    apply export_node_step in H1. destruct H1 as (Hinv1 & Hlen1).
    destruct (IH _ _ H) as (Hinv & Hlen).
    split; [auto |]. rewrite Hlen, Hlen1. cbn [filter].
    destruct (is_exported (snd nd)); cbn [List.length]; lia.
Qed.

(** X7.  In the export of a snapshot, the rows under a node type are rows
    of the schema of that type: each has one entry per attribute of the
    schema and starts with the node type.  The rows of all types together
    are as many as the nodes whose [node_type] attribute is in the mapping;
    the other nodes are left out. *)
Theorem export_node_rows (timestamp : nat) (graph : DiGraph)
  (te : TimestampExport) :
  export_timestamp timestamp graph = Done te ->
  rows_of_schema (node_values te) /\
  List.length (List.concat (values (node_values te)))
  = List.length (filter (fun nd => is_exported (snd nd)) (_node graph)).
Proof.
  intros H. unfold export_timestamp in H.
  apply and_then_inv in H. destruct H as (nodes & Hnodes & H).
  apply and_then_inv in H. destruct H as (rels & _ & H).
  apply Done_inj in H. subst te. cbn [node_values].
  apply export_nodes_run in Hnodes. destruct Hnodes as (Hinv & Hlen).
  split; [| exact Hlen].
  apply Hinv. intros node_type rows Hget. discriminate Hget.
Qed.

Lemma export_node_rows_witness :
  rows_of_schema (node_values demo_export) /\
  List.length (List.concat (values (node_values demo_export))) = 35%nat.
Proof.
  assert (Hrun : export_timestamp 2 demo_latest = Done demo_export)
    by (vm_compute; reflexivity).
  destruct (export_node_rows 2 demo_latest demo_export Hrun) as (Hrows & Hlen).
  split; [exact Hrows |]. rewrite Hlen. vm_compute. reflexivity.
Defined.

Lemma for_each_done {A B : Type} (f : B -> A -> outcome B) (l : list A) :
  (forall b x, In x l -> exists b', f b x = Done b') ->
  forall b, exists b', for_each f l b = Done b'.
Proof.
  induction l as [|x l IH]; intros Hok b; cbn [for_each]; [eauto |].
  destruct (Hok b x (or_introl eq_refl)) as (b1 & ->). cbn [and_then].
  apply IH. intros b0 y Hy. apply Hok. now right.
Qed.

Lemma node_cell_done (node_type : string) (data : attrs) (attr : string) :
  node_exportable data = true ->
  exists c, node_cell node_type data attr = Done c.
Proof.
  unfold node_exportable, node_cell. rewrite andb_true_iff, forallb_forall.
  intros (_ & Hdates).
  destruct (attr =? "node_type")%string; [eauto |].
  destruct ((attr =? "valid_from") || (attr =? "valid_till"))%string eqn:E;
    [| eauto].
  assert (Hin : In attr ["valid_from"; "valid_till"]).
  { apply orb_true_iff in E. destruct E as [E|E]; apply String.eqb_eq in E;
      subst; cbn; tauto. }
  specialize (Hdates attr Hin). unfold datetime_to_string.
  destruct (dict_get data attr) as [[z|x|s|d|l|d]|]; try discriminate Hdates;
    eauto.
Qed.

Lemma export_node_done (nv : dict (list (list cell))) (nd : string * attrs) :
  node_exportable (snd nd) = true -> exists nv', export_node nv nd = Done nv'.
Proof.
  intros Hok. unfold export_node, mapped_node_type.
  pose proof Hok as Hty. unfold node_exportable in Hty.
  apply andb_true_iff in Hty. destruct Hty as (Hty & _).
  destruct (dict_get (snd nd) "node_type") as [[z|x|s|d|l|d]|];
    try discriminate Hty; cbn [and_then]; [| eauto].
  destruct (dict_get node_type_mapping s) as [ty|] eqn:Es; [| eauto].
  destruct (node_type_mapping_schema s ty Es) as (schema & Hschema).
  unfold getitem. rewrite Hschema. cbn [from_option lift and_then].
  destruct (for_each_collect_done (node_cell ty (snd nd)) schema
              (fun attr _ => node_cell_done ty (snd nd) attr Hok) [])
    as (row & Hrow).
  unfold node_row. rewrite Hrow. cbn [and_then]. eauto.
Qed.

Lemma relationship_row_done (graph : DiGraph) (e : string * string * attrs) :
  dict_mem (_node graph) (fst (fst e)) = true ->
  dict_mem (_node graph) (snd (fst e)) = true ->
  exists row, relationship_row graph e = Done row.
Proof.
  destruct e as [[u v] a]. cbn [fst snd]. unfold dict_mem. intros Hu Hv.
  unfold relationship_row, node_attrs, getitem.
  destruct (dict_get (_node graph) u) as [sn|]; [| discriminate Hu].
  destruct (dict_get (_node graph) v) as [tn|]; [| discriminate Hv].
  cbn [from_option lift and_then].
  destruct (classify sn tn). eauto.
Qed.

(** A snapshot that can be read is exported. *)
Lemma export_timestamp_done (timestamp : nat) (graph : DiGraph) :
  exportable graph = true ->
  exists te, export_timestamp timestamp graph = Done te.
Proof.
  unfold exportable. rewrite andb_true_iff, !forallb_forall.
  intros (Hnodes & Hedges). unfold export_timestamp.
  destruct (for_each_done export_node (_node graph)
              (fun nv nd Hin => export_node_done nv nd (Hnodes nd Hin)) [])
    as (nodes & ->). cbn [and_then].
  destruct (for_each_collect_done (relationship_row graph) (edges_data graph))
    with (acc := @nil (list cell)) as (rels & Hrels).
  { intros e He. specialize (Hedges e He). apply andb_true_iff in Hedges.
    now apply relationship_row_done. }
  unfold export_edge. rewrite Hrels. cbn [and_then]. eauto.
Qed.

(** The loop over the snapshots. *)
Lemma export_all_run (l : list (nat * DiGraph)) :
  (forall t g, In (t, g) l -> exportable g = true) ->
  forall acc, exists r,
    for_each (fun acc tg =>
                and_then (export_timestamp (fst tg) (snd tg))
                  (fun te => Done (dict_set acc (fst tg) te))) l acc
    = Done r /\
    (forall t, ~ In t (keys l) -> dict_get r t = dict_get acc t) /\
    (NoDup (keys l) ->
     (forall t g, In (t, g) l ->
        exists te, dict_get r t = Some te /\ export_timestamp t g = Done te) /\
     ((forall t, In t (keys l) -> ~ In t (keys acc)) ->
      keys r = keys acc ++ keys l)).
Proof.
  induction l as [|[t0 g0] l IH]; intros Hok acc; cbn [for_each].
  - exists acc. split; [reflexivity |]. split; [auto |].
    intros _. split; [intros t g [] |]. intros _. now rewrite app_nil_r.
  - destruct (export_timestamp_done t0 g0 (Hok t0 g0 (or_introl eq_refl)))
      as (te0 & Hte0).
    cbn [fst snd]. rewrite Hte0. cbn [and_then].
    destruct (IH (fun t g H => Hok t g (or_intror H)) (dict_set acc t0 te0))
      as (r & -> & Hother & Hnd).
    exists r. split; [reflexivity |]. split.
    + intros t Hnot. rewrite Hother.
      * apply dict_get_set_neq. intros ->. apply Hnot. now left.
      * intros Hin. apply Hnot. now right.
    + intros Hnodup. unfold keys in Hnodup. cbn [map fst] in Hnodup.
      inversion Hnodup as [|? ? Hfresh Hnodup']; subst.
      destruct (Hnd Hnodup') as (Hin & Hkeys). split.
      * intros t g [Heq|Htl].
        -- injection Heq as <- <-. exists te0. split; [| exact Hte0].
           rewrite Hother by exact Hfresh. apply dict_get_set_eq.
        -- now apply Hin.
      * intros Hdisj. rewrite Hkeys.
        -- rewrite (keys_dict_set_new acc t0 te0).
           ++ unfold keys. cbn [map fst]. now rewrite <- app_assoc.
           ++ apply dict_get_None_keys. apply Hdisj. now left.
        -- intros t Ht.
           rewrite (keys_dict_set_new acc t0 te0).
           ++ intros Hin'. apply in_app_iff in Hin'.
              destruct Hin' as [Hin'|[<-|[]]].
              ** apply (Hdisj t); [now right | exact Hin'].
              ** now apply Hfresh.
           ++ apply dict_get_None_keys. apply Hdisj. now left.
Qed.

(** X8.  [export_to_json_all_timestamps] returns when every snapshot can be
    read: [node_type] is a text or absent, [valid_from] and [valid_till]
    are dates or absent, and every edge joins nodes of the snapshot.  The
    export then has one entry per stored period, in the order of the
    periods, each the export of that snapshot; the metadata counts the
    snapshots and the nodes and edges of the graph. *)
Theorem export_all_timestamps_returns (self : SupplyChainGenerator) :
  NoDup (keys (temporal_graphs self)) ->
  (forall t g, In (t, g) (temporal_graphs self) -> exportable g = true) ->
  exists d,
    export_to_json_all_timestamps self = Done d /\
    keys (timestamps d) = keys (temporal_graphs self) /\
    (forall t g, In (t, g) (temporal_graphs self) ->
       exists te, dict_get (timestamps d) t = Some te /\
                  export_timestamp t g = Done te) /\
    metadata d
    = {| total_timestamps := len (temporal_graphs self);
         base_date := BASE_DATE;
         total_nodes := len (_node (G self));
         total_edges := len (edges (G self)) |}.
Proof.
  intros Hnodup Hok. unfold export_to_json_all_timestamps.
  destruct (export_all_run (temporal_graphs self) Hok [])
    as (r & -> & _ & Hnd).
  destruct (Hnd Hnodup) as (Hin & Hkeys). cbn [and_then].
  eexists. split; [reflexivity |]. cbn [timestamps metadata].
  split; [apply Hkeys; intros t _ [] |]. split; [exact Hin | reflexivity].
Qed.

(** The export of the demonstration generator has the periods 0, 1
    and 2. *)
Lemma export_all_timestamps_returns_witness :
  exists d,
    export_to_json_all_timestamps demo_generated = Done d /\
    keys (timestamps d) = [0; 1; 2]%nat.
Proof.
  assert (Hkeys : keys (temporal_graphs demo_generated) = [0; 1; 2]%nat)
    by (vm_compute; reflexivity).
  assert (Hnodup : NoDup (keys (temporal_graphs demo_generated))).
  { rewrite Hkeys. repeat constructor; cbn; intuition discriminate. }
  assert (Hok : forallb (fun tg => exportable (snd tg))
                  (temporal_graphs demo_generated) = true)
    by (vm_compute; reflexivity).
  destruct (export_all_timestamps_returns demo_generated Hnodup)
    as (d & Hrun & Hk & _).
  { intros t g Hin. rewrite forallb_forall in Hok. exact (Hok (t, g) Hin). }
  exists d. split; [exact Hrun |]. rewrite Hk. exact Hkeys.
Defined.

(* ----------------------------------------------------------------- *)
(** ** The range of the temporal formula *)




(* ----------------------------------------------------------------- *)
(** ** The supplier pass returns *)

Lemma same_entities_warehouses_eq (s s' : SupplyChainGenerator) :
  same_entities s s' -> warehouses s' = warehouses s.
Proof. intros (_ & H & _). exact H. Qed.

Lemma connect_supplier_warehouses_ok (cfg : Config) (supplier : Supplier)
  (l : list Warehouse) :
  forall self rnd,
  exists self' rnd',
    foldM (connect_supplier_warehouse cfg supplier) l (self, rnd)
    = Ok (self', rnd') /\ same_entities self self'.
Proof.
  induction l as [|w l IH]; intros self rnd; cbn [foldM].
  - eexists _, _. split; [reflexivity | apply same_entities_refl].
  - unfold connect_supplier_warehouse at 1.
    destruct (uniform_range (TRANSPORTATION_COST_RANGE cfg) rnd) as [tc r1].
    destruct (uniform_range (TRANSPORTATION_TIME_RANGE cfg) r1) as [lt r2].
    cbn [bind].
    match goal with
    | |- context [foldM _ l (?s, r2)] => destruct (IH s r2)
                                           as (s' & r' & -> & Hent)
    end.
    eexists _, _. split; [reflexivity |].
    unfold same_entities in *. cbn in Hent. exact Hent.
Qed.

Lemma connect_supplier_kind_ok (cfg : Config) (supplier : Supplier)
  (max_connections : Z) (part_kind warehouse_kind : string)
  (self : SupplyChainGenerator) (rnd : RandomSource) :
  0 <= max_connections ->
  dict_mem (PART_TYPES cfg) part_kind = true ->
  dict_mem (warehouses self) warehouse_kind = true ->
  exists self' rnd',
    connect_supplier_kind cfg supplier max_connections part_kind
      warehouse_kind (self, rnd) = Ok (self', rnd') /\
    same_entities self self'.
Proof.
  intros Hmax Hparts Hwh. unfold connect_supplier_kind.
  assert (Hany : exists b, any_in_part_types cfg
                             (s_supplied_part_types supplier) part_kind
                           = Ok b).
  { unfold any_in_part_types, getitem, dict_mem in *.
    destruct (s_supplied_part_types supplier); [eauto |].
    destruct (dict_get (PART_TYPES cfg) part_kind);
      [cbn; eauto | discriminate Hparts]. }
  destruct Hany as (b & ->). cbn [bind].
  destruct b; [| eexists _, _; split;
                 [reflexivity | apply same_entities_refl]].
  unfold getitem, dict_mem in *.
  destruct (dict_get (warehouses self) warehouse_kind) as [possible|];
    [| discriminate Hwh].
  cbn [from_option bind].
  destruct (sample_clamped_ok possible max_connections rnd Hmax)
    as ([selected r1] & ->).
  cbn [bind]. apply connect_supplier_warehouses_ok.
Qed.

(** X10.  [_connect_suppliers_to_warehouses] never raises when the part
    table has its two categories, the warehouse table has the categories
    [supplier] and [subassembly], and the configuration knows the size
    category of every supplier with a number of connections that is not
    negative: the number of warehouses sampled is clamped to the number
    there are.  The entity records are not changed. *)
Theorem connect_suppliers_to_warehouses_returns (cfg : Config)
  (self : SupplyChainGenerator) (rnd : RandomSource) :
  dict_mem (PART_TYPES cfg) "raw" = true ->
  dict_mem (PART_TYPES cfg) "subassembly" = true ->
  dict_mem (warehouses self) "supplier" = true ->
  dict_mem (warehouses self) "subassembly" = true ->
  forallb (supplier_size_known cfg) (suppliers self) = true ->
  exists self' rnd',
    _connect_suppliers_to_warehouses cfg self rnd = Ok (self', rnd') /\
    same_entities self self'.
Proof.
  intros Hraw Hsub Hws Hwsub Hsizes.
  unfold _connect_suppliers_to_warehouses.
  rewrite forallb_forall in Hsizes.
  assert (Hgen : forall l,
             (forall x, In x l -> supplier_size_known cfg x = true) ->
             forall s r,
             warehouses s = warehouses self ->
             exists self' rnd',
               foldM (connect_supplier cfg) l (s, r) = Ok (self', rnd') /\
               same_entities s self').
  { induction l as [|x l IH]; intros Hl s r Hw; cbn [foldM].
    - eexists _, _. split; [reflexivity | apply same_entities_refl].
    - pose proof (Hl x (or_introl eq_refl)) as Hx.
      unfold supplier_size_known in Hx. unfold connect_supplier at 1.
      unfold getitem.
      destruct (dict_get (SUPPLIER_SIZES cfg) (s_size_category x))
        as [size|]; [| discriminate Hx].
      apply Z.leb_le in Hx. cbn [from_option bind].
      destruct (connect_supplier_kind_ok cfg x (ss_max_connections size)
                  "raw" "supplier" s r Hx Hraw)
        as (s1 & r1 & -> & Hent1); [now rewrite Hw |].
      cbn [bind].
      pose proof (same_entities_warehouses_eq _ _ Hent1) as Hw1.
      destruct (connect_supplier_kind_ok cfg x (ss_max_connections size)
                  "subassembly" "subassembly" s1 r1 Hx Hsub)
        as (s2 & r2 & -> & Hent2); [now rewrite Hw1, Hw |].
      cbn [bind].
      pose proof (same_entities_warehouses_eq _ _ Hent2) as Hw2.
      destruct (IH (fun y Hy => Hl y (or_intror Hy)) s2 r2)
        as (s3 & r3 & -> & Hent3); [congruence |].
      eexists _, _. split; [reflexivity |].
      eapply same_entities_trans; [exact Hent1 |].
      eapply same_entities_trans; [exact Hent2 | exact Hent3]. }
  apply Hgen; [exact Hsizes | reflexivity].
Qed.

(** The pass on a generator with one supplier of raw metal and one
    warehouse of each category. *)
Lemma connect_suppliers_to_warehouses_returns_witness :
  exists self' rnd',
    _connect_suppliers_to_warehouses sample_config demo_supplied (scripted [])
    = Ok (self', rnd') /\
    same_entities demo_supplied self'.
Proof.
  apply connect_suppliers_to_warehouses_returns; vm_compute; reflexivity.
Defined.

Lemma dict_mem_In_keys {V : Type} (d : dict V) (k : string) :
  dict_mem d k = true <-> In k (keys d).
Proof.
  unfold dict_mem. pose proof (dict_get_None_keys d k) as Hn.
  destruct (dict_get d k); split; intros H; try reflexivity;
    try discriminate.
  - destruct (in_dec string_dec k (keys d)) as [Hin | Hin]; [exact Hin |].
    apply Hn in Hin. discriminate.
  - exfalso. now apply (proj1 Hn).
Qed.

Lemma ensure_node_present (g : DiGraph) (n : string) :
  dict_mem (_node g) n = true -> ensure_node g n = g.
Proof. unfold ensure_node. now intros ->. Qed.

(* ----------------------------------------------------------------- *)
(** ** The edges of the graph under construction *)

Lemma In_dict_set {V : Type} (d : dict V) (k : string) (x : V)
  (k' : string) (x' : V) :
  In (k', x') (dict_set d k x) -> (k' = k /\ x' = x) \/ In (k', x') d.
Proof.
  induction d as [|[k0 v0] r IH]; cbn [dict_set].
  - intros [H | []]. injection H as <- <-. now left.
  - destruct (key_eqb_spec k0 k) as [-> | Hne].
    + intros [H | H]; [injection H as <- <-; now left | right; now right].
    + intros [H | H]; [right; now left |].
      destruct (IH H) as [Heq | Hin]; [now left | right; now right].
Qed.

Lemma In_keys_dict_set {V : Type} (d : dict V) (k : string) (x : V)
  (k' : string) :
  In k' (keys (dict_set d k x)) -> k' = k \/ In k' (keys d).
Proof.
  unfold keys. intros H. apply in_map_iff in H.
  destruct H as ([k0 x0] & <- & Hin). apply In_dict_set in Hin.
  destruct Hin as [(-> & _) | Hin]; [now left | right].
  exact (in_map fst _ _ Hin).
Qed.

Lemma edges_In (g : DiGraph) (u v : string) :
  In (u, v) (edges g) <->
  exists nbrs, In (u, nbrs) (_adj g) /\ In v (keys nbrs).
Proof.
  unfold edges, keys. rewrite in_flat_map. split.
  - intros ([u0 nbrs] & Hin & Hv). cbn [fst snd] in Hv.
    apply in_map_iff in Hv. destruct Hv as ([v0 a] & Heq & Hva).
    cbn [fst] in Heq. injection Heq as -> ->.
    exists nbrs. split; [exact Hin | exact (in_map fst _ _ Hva)].
  - intros (nbrs & Hin & Hv). exists (u, nbrs). split; [exact Hin |].
    cbn [fst snd]. apply in_map_iff in Hv. destruct Hv as ([v0 a] & <- & Hva).
    apply in_map_iff. now exists (v0, a).
Qed.

Lemma edges_lookup (g : DiGraph) (u v : string) (nbrs : dict attrs)
  (a : attrs) :
  dict_get (_adj g) u = Some nbrs -> dict_get nbrs v = Some a ->
  In (u, v) (edges g).
Proof.
  intros Hu Hv. apply edges_In. exists nbrs.
  split; [now apply dict_get_In |].
  apply dict_get_In in Hv. exact (in_map fst _ _ Hv).
Qed.

Lemma edge_ok_lookup (g : DiGraph) (u v : string) :
  edge_ok g u v ->
  exists nbrs a,
    dict_get (_adj g) u = Some nbrs /\ dict_get nbrs v = Some a /\
    forall k f x, In (k, f) edge_features -> dict_get a k = Some x ->
                  is_number x.
Proof.
  intros (a & Ha & Hnum). unfold edge_attrs, getitem in Ha.
  destruct (dict_get (_adj g) u) as [nbrs|]; [| discriminate Ha].
  cbn [from_option bind] in Ha.
  destruct (dict_get nbrs v) as [a'|] eqn:Ev; [| discriminate Ha].
  apply Ok_inj in Ha. subst a'. exists nbrs, a.
  split; [reflexivity |]. split; [exact Ev | exact Hnum].
Qed.

Lemma lookup_edge_ok (g : DiGraph) (u v : string) (nbrs : dict attrs)
  (a : attrs) :
  dict_get (_adj g) u = Some nbrs -> dict_get nbrs v = Some a ->
  (forall k f x, In (k, f) edge_features -> dict_get a k = Some x ->
                 is_number x) ->
  edge_ok g u v.
Proof.
  intros Hu Hv Hnum. exists a. split; [| exact Hnum].
  unfold edge_attrs, getitem. rewrite Hu. cbn [from_option bind].
  now rewrite Hv.
Qed.

Lemma dict_get_update (d other : attrs) (k : string) (x : value) :
  dict_get (dict_update d other) k = Some x ->
  In (k, x) other \/ dict_get d k = Some x.
Proof.
  revert d. induction other as [|[k' v'] r IH]; intros d H; [now right |].
  rewrite dict_update_cons in H. destruct (IH _ H) as [Hin | Hd].
  - left. now right.
  - rewrite dict_get_set in Hd. destruct (key_eqb_spec k' k) as [-> | _].
    + injection Hd as ->. left. now left.
    + now right.
Qed.

Lemma features_numeric_sound (a : attrs) :
  features_numeric a = true ->
  forall k f x, In (k, f) edge_features -> In (k, x) a -> is_number x.
Proof.
  unfold features_numeric. rewrite forallb_forall.
  intros H k f x Hf Hin. specialize (H _ Hin). cbn [fst snd] in H.
  apply orb_true_iff in H. destruct H as [H | H];
    [| now apply is_number_b_sound].
  apply negb_true_iff in H. exfalso.
  assert (Hex : existsb (String.eqb k) (map fst edge_features) = true).
  { apply existsb_exists. exists k. split; [| apply String.eqb_refl].
    exact (in_map fst _ _ Hf). }
  congruence.
Qed.

Lemma graph_kept_refl (g : DiGraph) : graph_kept g g.
Proof. intros Ha. split; [exact Ha |]. split; [auto | auto]. Qed.

Lemma graph_kept_trans (a b c : DiGraph) :
  graph_kept a b -> graph_kept b c -> graph_kept a c.
Proof.
  intros H1 H2 Ha. destruct (H1 Ha) as (Hb & He1 & Hv1).
  destruct (H2 Hb) as (Hc & He2 & Hv2).
  split; [exact Hc |]. split; [| auto].
  intros u v Hin. destruct (He2 u v Hin) as [H | H]; [auto | now right].
Qed.

(** [add_node] adds no edge. *)
Lemma graph_kept_add_node (g : DiGraph) (n : string) (a : attrs) :
  graph_kept g (add_node g n a).
Proof.
  intros Ha. unfold add_node, ensure_node.
  destruct (dict_mem (_node g) n) eqn:Em; cbn [_node _adj].
  - split; [| split; [auto |]].
    + unfold aligned. cbn [_node _adj]. intros u Hu.
      apply dict_mem_In_keys. unfold dict_mem.
      rewrite dict_get_set. destruct (key_eqb n u); [reflexivity |].
      apply Ha in Hu. apply dict_mem_In_keys in Hu. exact Hu.
    + intros Hev u v Hin. exact (edge_ok_adj g _ u v eq_refl (Hev u v Hin)).
  - assert (Hnone : dict_get (_adj g) n = None).
    { apply dict_get_None_keys. intros Hin. apply Ha in Hin.
      apply dict_mem_In_keys in Hin. congruence. }
    assert (Hedges : forall u v,
               In (u, v) (edges {| _node := dict_set (dict_set (_node g) n [])
                                             n (dict_update
                                                  (get_default
                                                     (dict_set (_node g) n [])
                                                     n []) a);
                                   _adj := dict_set (_adj g) n [] |}) ->
               In (u, v) (edges g)).
    { intros u v Hin. apply edges_In in Hin. cbn [_adj] in Hin.
      destruct Hin as (nbrs & Hin & Hv). apply In_dict_set in Hin.
      destruct Hin as [(_ & ->) | Hin]; [destruct Hv |].
      apply edges_In. now exists nbrs. }
    split; [| split; [auto |]].
    + unfold aligned. cbn [_node _adj]. intros u Hu.
      apply In_keys_dict_set in Hu. apply dict_mem_In_keys. unfold dict_mem.
      rewrite !dict_get_set.
      destruct (key_eqb_spec n u) as [_ | Hne]; [reflexivity |].
      destruct Hu as [-> | Hu]; [congruence |].
      apply Ha in Hu. apply dict_mem_In_keys in Hu. exact Hu.
    + intros Hev u v Hin. apply Hedges in Hin.
      destruct (edge_ok_lookup g u v (Hev u v Hin))
        as (nbrs & a0 & Hu & Hv & Hnum).
      apply (lookup_edge_ok _ u v nbrs a0); [| exact Hv | exact Hnum].
      cbn [_adj]. rewrite dict_get_set.
      destruct (key_eqb_spec n u) as [-> | _]; [congruence | exact Hu].
Qed.

(** [add_edge] between two nodes adds the edge, with its attributes, or
    updates the attributes of the edge. *)
Lemma add_edge_present (g : DiGraph) (u v : string) (a : attrs) :
  dict_mem (_node g) u = true -> dict_mem (_node g) v = true ->
  add_edge g u v a
  = {| _node := _node g;
       _adj := dict_set (_adj g) u
                 (dict_set (get_default (_adj g) u []) v
                    (dict_update
                       (get_default (get_default (_adj g) u []) v []) a)) |}.
Proof.
  intros Hu Hv. unfold add_edge.
  now rewrite (ensure_node_present g u Hu), (ensure_node_present g v Hv).
Qed.

Lemma graph_kept_add_edge (g : DiGraph) (u v : string) (a : attrs) :
  dict_mem (_node g) u = true -> dict_mem (_node g) v = true ->
  edge_schema u v -> features_numeric a = true ->
  graph_kept g (add_edge g u v a).
Proof.
  intros Hu Hv Hschema Hnum Ha. rewrite (add_edge_present g u v a Hu Hv).
  set (nbrs := get_default (_adj g) u []).
  set (old := get_default nbrs v []).
  assert (Hedges : forall u' v',
             In (u', v')
               (edges {| _node := _node g;
                         _adj := dict_set (_adj g) u
                                   (dict_set nbrs v (dict_update old a)) |}) ->
             (u' = u /\ v' = v) \/ In (u', v') (edges g)).
  { intros u' v' Hin. apply edges_In in Hin. cbn [_adj] in Hin.
    destruct Hin as (nb & Hin & Hv'). apply In_dict_set in Hin.
    destruct Hin as [(-> & ->) | Hin].
    - apply In_keys_dict_set in Hv'. destruct Hv' as [-> | Hv'];
        [now left | right].
      unfold nbrs, get_default in Hv'.
      destruct (dict_get (_adj g) u) as [nb0|] eqn:E; [| destruct Hv'].
      apply edges_In. exists nb0. split; [now apply dict_get_In | exact Hv'].
    - right. apply edges_In. now exists nb. }
  split; [| split].
  - unfold aligned. cbn [_node _adj]. intros x Hx.
    apply In_keys_dict_set in Hx. destruct Hx as [-> | Hx]; [| now apply Ha].
    now apply dict_mem_In_keys.
  - intros u' v' Hin. destruct (Hedges u' v' Hin) as [(-> & ->) | H];
      [now right | now left].
  - intros Hev u' v' Hin.
    destruct (String.eqb_spec u' u) as [-> | Hne].
    + destruct (String.eqb_spec v' v) as [-> | Hnv].
      * apply (lookup_edge_ok _ u v (dict_set nbrs v (dict_update old a))
                 (dict_update old a)).
        -- cbn [_adj]. apply dict_get_set_eq.
        -- apply dict_get_set_eq.
        -- intros k f x Hf Hx. apply dict_get_update in Hx.
           destruct Hx as [Hx | Hx];
             [exact (features_numeric_sound a Hnum k f x Hf Hx) |].
           unfold old, get_default in Hx.
           destruct (dict_get nbrs v) as [old0|] eqn:Eo; [| discriminate Hx].
           unfold nbrs, get_default in Eo.
           destruct (dict_get (_adj g) u) as [nb0|] eqn:En;
             [| discriminate Eo].
           pose proof (edges_lookup g u v nb0 old0 En Eo) as Hold.
           destruct (edge_ok_lookup g u v (Hev u v Hold))
             as (nb1 & a1 & Hu1 & Hv1 & Hnum1).
           rewrite En in Hu1. injection Hu1 as <-.
           rewrite Eo in Hv1. injection Hv1 as <-.
           exact (Hnum1 k f x Hf Hx).
      * destruct (Hedges u v' Hin) as [(_ & ->) | Hold]; [congruence |].
        destruct (edge_ok_lookup g u v' (Hev u v' Hold))
          as (nb1 & a1 & Hu1 & Hv1 & Hnum1).
        apply (lookup_edge_ok _ u v' (dict_set nbrs v (dict_update old a)) a1);
          [cbn [_adj]; apply dict_get_set_eq | | exact Hnum1].
        rewrite dict_get_set. destruct (key_eqb_spec v v') as [-> | _];
          [congruence |].
        unfold nbrs, get_default. now rewrite Hu1.
    + destruct (Hedges u' v' Hin) as [(-> & _) | Hold]; [congruence |].
      destruct (edge_ok_lookup g u' v' (Hev u' v' Hold))
        as (nb1 & a1 & Hu1 & Hv1 & Hnum1).
      apply (lookup_edge_ok _ u' v' nb1 a1); [| exact Hv1 | exact Hnum1].
      cbn [_adj]. rewrite dict_get_set.
      destruct (key_eqb_spec u u') as [-> | _]; [congruence | exact Hu1].
Qed.

(** The assignment of an attribute of a node leaves the edges alone. *)
Lemma graph_kept_setitem_node (g g' : DiGraph) (n k : string) (v : value) :
  setitem_node g n k v = Ok g' -> graph_kept g g'.
Proof.
  intros Hset Ha. pose proof (setitem_node_adj _ _ _ _ _ Hset) as Hadj.
  pose proof (setitem_node_keys _ _ _ _ _ Hset) as Hkeys.
  split; [| split].
  - unfold aligned. rewrite Hadj, Hkeys. exact Ha.
  - intros u v' Hin. left. now rewrite (edges_adj g g' Hadj) in Hin.
  - intros Hev u v' Hin. rewrite (edges_adj g g' Hadj) in Hin.
    exact (edge_ok_adj g g' u v' Hadj (Hev u v' Hin)).
Qed.

Lemma In_dict_set_old {V : Type} (d : dict V) (k : string) (x : V)
  (k' : string) (x' : V) :
  In (k', x') d ->
  In (k', x') (dict_set d k x) \/ k' = k /\ dict_get d k = Some x'.
Proof.
  induction d as [|[k0 x0] r IH]; intros Hin; [destruct Hin |].
  cbn [dict_set dict_get].
  destruct (key_eqb_spec k0 k) as [-> | Hne].
  - destruct Hin as [Heq | Hin].
    + injection Heq as <- <-. now right.
    + left. now right.
  - destruct Hin as [Heq | Hin].
    + left. now left.
    + destruct (IH Hin) as [H | H]; [left; now right | now right].
Qed.

Lemma In_keys_dict_set_old {V : Type} (d : dict V) (k : string) (x : V)
  (k' : string) :
  In k' (keys d) -> In k' (keys (dict_set d k x)).
Proof.
  intros Hin. destruct (dict_get d k) as [x0|] eqn:E.
  - now rewrite (keys_dict_set_mem d k x x0 E).
  - rewrite (keys_dict_set_new d k x E). apply in_or_app. now left.
Qed.

(** The edges of a graph after [add_edge] between two of its nodes. *)
Lemma edges_add_edge (g : DiGraph) (u v : string) (a : attrs)
  (x y : string) :
  dict_mem (_node g) u = true -> dict_mem (_node g) v = true ->
  In (x, y) (edges (add_edge g u v a)) <->
  (x, y) = (u, v) \/ In (x, y) (edges g).
Proof.
  intros Hu Hv. rewrite (add_edge_present g u v a Hu Hv).
  set (nbrs := get_default (_adj g) u []).
  set (old := get_default nbrs v []).
  split.
  - intros Hin. apply edges_In in Hin. cbn [_adj] in Hin.
    destruct Hin as (nb & Hin & Hy). apply In_dict_set in Hin.
    destruct Hin as [(-> & ->) | Hin].
    + apply In_keys_dict_set in Hy. destruct Hy as [-> | Hy];
        [now left | right].
      unfold nbrs, get_default in Hy.
      destruct (dict_get (_adj g) u) as [nb0|] eqn:E; [| destruct Hy].
      apply edges_In. exists nb0. split; [now apply dict_get_In | exact Hy].
    + right. apply edges_In. now exists nb.
  - intros [Heq | Hin].
    + injection Heq as -> ->.
      apply (edges_lookup _ u v (dict_set nbrs v (dict_update old a))
               (dict_update old a)); [cbn [_adj] |]; apply dict_get_set_eq.
    + apply edges_In in Hin. destruct Hin as (nb & Hin & Hy).
      apply edges_In. cbn [_adj].
      destruct (In_dict_set_old (_adj g) u
                  (dict_set nbrs v (dict_update old a)) x nb Hin)
        as [H | (-> & H)].
      * now exists nb.
      * exists (dict_set nbrs v (dict_update old a)). split.
        -- apply dict_get_In. apply dict_get_set_eq.
        -- apply In_keys_dict_set_old. unfold nbrs, get_default.
           now rewrite H.
Qed.

(** [add_node] leaves the edges of an aligned graph alone. *)
Lemma edges_add_node (g : DiGraph) (n : string) (a : attrs) (x y : string) :
  aligned g ->
  In (x, y) (edges (add_node g n a)) <-> In (x, y) (edges g).
Proof.
  intros Ha. unfold add_node, ensure_node.
  destruct (dict_mem (_node g) n) eqn:Em; cbn [_node _adj];
    [rewrite !edges_In; cbn [_adj]; reflexivity |].
  assert (Hnone : dict_get (_adj g) n = None).
  { apply dict_get_None_keys. intros Hin. apply Ha in Hin.
    apply dict_mem_In_keys in Hin. congruence. }
  rewrite !edges_In. cbn [_adj]. split.
  - intros (nbrs & Hin & Hy). apply In_dict_set in Hin.
    destruct Hin as [(_ & ->) | Hin]; [destruct Hy | now exists nbrs].
  - intros (nbrs & Hin & Hy). exists nbrs. split; [| exact Hy].
    destruct (In_dict_set_old (_adj g) n [] x nbrs Hin) as [H | (_ & H)];
      [exact H | congruence].
Qed.

Lemma created_edges_app (l l' : list operation) :
  created_edges (l ++ l') = created_edges l ++ created_edges l'.
Proof. unfold created_edges. apply flat_map_app. Qed.

(* ----------------------------------------------------------------- *)
(** ** What every step of the construction keeps *)

Lemma construction_frame_refl (s : SupplyChainGenerator) :
  construction_frame s s.
Proof.
  split; [reflexivity |]. split; [auto |].
  split; [| split; [apply graph_kept_refl | auto]].
  exists []. rewrite app_nil_r. split; [reflexivity | constructor].
Qed.

Lemma settings_version (s s' : SupplyChainGenerator) :
  settings s' = settings s ->
  version s' = version s /\ timestamp s' = timestamp s.
Proof. unfold settings. intros H. injection H. auto. Qed.

Lemma construction_frame_trans (a b c : SupplyChainGenerator) :
  construction_frame a b -> construction_frame b c -> construction_frame a c.
Proof.
  intros (Hs1 & Hn1 & (r1 & Hl1 & Hr1) & G1 & L1)
    (Hs2 & Hn2 & (r2 & Hl2 & Hr2) & G2 & L2).
  split; [congruence |]. split; [auto |].
  split;
    [| split;
       [exact (graph_kept_trans _ _ _ G1 G2)
       | intros Ha He; apply L2; [exact (proj1 (G1 Ha)) | now apply L1]]].
  exists (r1 ++ r2). split; [rewrite Hl2, Hl1; symmetry; apply app_assoc |].
  apply Forall_app. split; [exact Hr1 |].
  destruct (settings_version a b Hs1) as (<- & <-). exact Hr2.
Qed.

Lemma keeps_refl {X : Type} (T : SupplyChainGenerator -> X)
  (s : SupplyChainGenerator) : keeps T s s.
Proof. split; [reflexivity | apply construction_frame_refl]. Qed.

Lemma keeps_trans {X : Type} (T : SupplyChainGenerator -> X)
  (a b c : SupplyChainGenerator) :
  keeps T a b -> keeps T b c -> keeps T a c.
Proof.
  intros (H1 & F1) (H2 & F2). split; [congruence |].
  exact (construction_frame_trans a b c F1 F2).
Qed.

Lemma dict_mem_add_node (g : DiGraph) (n : string) (a : attrs) (m : string) :
  dict_mem (_node g) m = true -> dict_mem (_node (add_node g n a)) m = true.
Proof.
  intros Hm. unfold add_node, dict_mem. cbn [_node].
  rewrite dict_get_set. destruct (key_eqb n m); [reflexivity |].
  exact (dict_mem_ensure_node g n m Hm).
Qed.

Lemma dict_mem_add_node_self (g : DiGraph) (n : string) (a : attrs) :
  dict_mem (_node (add_node g n a)) n = true.
Proof.
  unfold add_node, dict_mem. cbn [_node]. now rewrite dict_get_set_eq.
Qed.

Lemma dict_mem_add_edge (g : DiGraph) (u v : string) (a : attrs) (m : string) :
  dict_mem (_node g) m = true -> dict_mem (_node (add_edge g u v a)) m = true.
Proof.
  intros Hm. unfold add_edge. cbn [_node].
  now apply dict_mem_ensure_node, dict_mem_ensure_node.
Qed.

Lemma dict_mem_setitem_node (g g' : DiGraph) (n k : string) (v : value)
  (m : string) :
  setitem_node g n k v = Ok g' ->
  dict_mem (_node g) m = true -> dict_mem (_node g') m = true.
Proof.
  intros Hset Hm. pose proof (setitem_node_keys _ _ _ _ _ Hset) as Hk.
  unfold dict_mem in *.
  destruct (dict_get (_node g') m) eqn:E; [reflexivity |].
  apply dict_get_None_keys in E. rewrite Hk in E.
  apply dict_get_None_keys in E. now rewrite E in Hm.
Qed.

(** The step that adds an edge and logs its creation. *)
Lemma frame_edge_created (s : SupplyChainGenerator) (u v : string)
  (a logged : attrs) (edge_type : string) :
  dict_mem (_node (G s)) u = true -> dict_mem (_node (G s)) v = true ->
  edge_schema u v -> features_numeric a = true ->
  construction_frame s
    (_log_edge_operation (with_G s (add_edge (G s) u v a)) "create" u v
       logged edge_type).
Proof.
  intros Hu Hv Hschema Hnum. split; [reflexivity |].
  split; [| split; [| split]].
  - intros n Hn. cbn [G _log_edge_operation with_log with_G].
    now apply dict_mem_add_edge.
  - eexists. split; [reflexivity |].
    constructor; [| constructor]. repeat split. now left.
  - cbn [G _log_edge_operation with_log with_G].
    now apply graph_kept_add_edge.
  - intros _ He x y.
    cbn [G operations_log _log_edge_operation with_log with_G].
    rewrite created_edges_app, in_app_iff, (edges_add_edge _ u v a x y Hu Hv).
    rewrite (He x y). cbn. intuition congruence.
Qed.

(** The step that adds a node and logs its creation, in either order. *)
Lemma frame_node_created (s s' : SupplyChainGenerator) (id : string)
  (a logged : attrs) (node_type : string) :
  settings s' = settings s ->
  G s' = add_node (G s) id a ->
  operations_log s'
  = operations_log s ++
    [{| action := "create"; op_type := "schema";
        op_payload := NodePayload id node_type logged;
        op_timestamp := timestamp s; op_version := version s |}] ->
  construction_frame s s' /\ dict_mem (_node (G s')) id = true.
Proof.
  intros Hs Hg Hl. split; [| rewrite Hg; apply dict_mem_add_node_self].
  split; [exact Hs |]. split; [| split; [| split]].
  - intros n Hn. rewrite Hg. now apply dict_mem_add_node.
  - eexists. split; [exact Hl |].
    constructor; [| constructor]. repeat split. now left.
  - rewrite Hg. apply graph_kept_add_node.
  - intros Ha He x y.
    rewrite Hg, Hl, created_edges_app, in_app_iff, (edges_add_node _ id a x y Ha).
    rewrite (He x y). cbn. tauto.
Qed.

(* ----------------------------------------------------------------- *)
(** ** The numbering of the entities *)

Lemma numbers_app (prefix : string) (i k k' : nat) :
  numbers prefix i (k + k') = numbers prefix i k ++ numbers prefix (i + k) k'.
Proof. unfold numbers. now rewrite seq_app, map_app. Qed.

Lemma append_cancel (p a b : string) :
  (p ++ a)%string = (p ++ b)%string -> a = b.
Proof.
  induction p as [|c p IH]; cbn [String.append]; intros H; [exact H |].
  injection H as H. exact (IH H).
Qed.

Lemma format_id_inj (prefix : string) (i j : nat) :
  format_id prefix i = format_id prefix j -> i = j.
Proof.
  unfold format_id. intros H. apply append_cancel in H.
  apply (f_equal counter_of) in H. now rewrite !counter_of_pad3 in H.
Qed.

Lemma numbers_NoDup (prefix : string) (i n : nat) :
  NoDup (numbers prefix i n).
Proof.
  unfold numbers. apply Finite.Injective_map_NoDup; [| apply seq_NoDup].
  intros a b. apply format_id_inj.
Qed.

Lemma made_refl {X : Type} (prefix : string)
  (ids_of : SupplyChainGenerator -> list string)
  (other : SupplyChainGenerator -> X) (st : FactoryState) :
  made prefix ids_of other 0 st st.
Proof.
  destruct st as [[s r] i]. unfold made, numbers. cbn [seq map].
  rewrite !app_nil_r. split; [lia |]. split; [reflexivity |].
  split; [intros id [] |]. split; [apply incl_refl |].
  split; [auto |]. split; [reflexivity |].
  split; [reflexivity | apply keeps_refl].
Qed.

Lemma made_trans {X : Type} (prefix : string)
  (ids_of : SupplyChainGenerator -> list string)
  (other : SupplyChainGenerator -> X) (k k' : nat) (a b c : FactoryState) :
  made prefix ids_of other k a b -> made prefix ids_of other k' b c ->
  made prefix ids_of other (k + k') a c.
Proof.
  destruct a as [[sa ra] ia], b as [[sb rb] ib], c as [[sc rc] ic].
  unfold made.
  intros (-> & Hp1 & Hn1 & Hi1 & Hd1 & Hc1 & Hk1 & K1)
    (-> & Hp2 & Hn2 & Hi2 & Hd2 & Hc2 & Hk2 & K2).
  split; [lia |]. split; [| split; [| split; [| split; [| split; [| split]]]]].
  - rewrite numbers_app, app_assoc.
    etransitivity; [exact Hp2 |]. now apply Permutation_app_tail.
  - intros id Hid. rewrite numbers_app in Hid.
    apply in_app_or in Hid. destruct Hid as [Hid | Hid]; [| auto].
    destruct K2 as (_ & _ & Hkept & _). auto.
  - intros id Hid. rewrite numbers_app, app_assoc.
    apply Hi2 in Hid. apply in_app_or in Hid. apply in_or_app.
    destruct Hid as [Hid | Hid]; [left; now apply Hi1 | now right].
  - auto.
  - rewrite Hc2, Hc1, numbers_app. symmetry. apply app_assoc.
  - intros Hfresh. rewrite numbers_app in Hfresh.
    assert (H1 : keys (_node (G sb))
                 = keys (_node (G sa)) ++ numbers prefix ia k).
    { apply Hk1. intros id Hid. apply Hfresh. apply in_or_app. now left. }
    rewrite Hk2, H1, numbers_app; [symmetry; apply app_assoc |].
    intros id Hid Hin. rewrite H1 in Hin. apply in_app_or in Hin.
    destruct Hin as [Hin | Hin].
    + apply (Hfresh id); [apply in_or_app; now right | exact Hin].
    + pose proof (numbers_NoDup prefix ia (k + k')) as Hnd.
      rewrite numbers_app in Hnd.
      destruct (NoDup_app_inv _ _ Hnd) as (_ & _ & Hdis).
      exact (Hdis id Hin Hid).
  - exact (keeps_trans other sa sb sc K1 K2).
Qed.

(** A loop makes as many entities as its passes make together. *)
Lemma foldM_made {X A : Type} (prefix : string)
  (ids_of : SupplyChainGenerator -> list string)
  (other : SupplyChainGenerator -> X)
  (f : FactoryState -> A -> result FactoryState) (w : A -> nat) :
  forall l,
  (forall st x st', In x l -> f st x = Ok st' ->
                    made prefix ids_of other (w x) st st') ->
  forall st st', foldM f l st = Ok st' ->
  made prefix ids_of other (list_sum (map w l)) st st'.
Proof.
  induction l as [|x r IH]; intros Hf st st' H.
  - apply Ok_inj in H. subst st'. apply made_refl.
  - cbn [foldM] in H. bind_inv H. cbn [map list_sum].
    eapply made_trans.
    + apply (Hf st x a); [now left | exact E].
    + apply IH; [| exact H]. intros st0 y st0' Hy. apply Hf. now right.
Qed.

Lemma list_sum_ones {A : Type} (l : list A) :
  list_sum (map (fun _ => 1%nat) l) = List.length l.
Proof.
  induction l as [|x r IH]; [reflexivity |].
  simpl. f_equal. exact IH.
Qed.

Lemma length_range (n : Z) : List.length (range n) = Z.to_nat n.
Proof. unfold range. apply length_seq. Qed.

Lemma add_node_keys (g : DiGraph) (n : string) (a : attrs) :
  keys (_node (add_node g n a))
  = if dict_mem (_node g) n then keys (_node g) else keys (_node g) ++ [n].
Proof.
  unfold add_node, ensure_node, dict_mem. cbn [_node].
  destruct (dict_get (_node g) n) as [v|] eqn:E; cbn [_node].
  - exact (keys_dict_set_mem _ _ _ _ E).
  - etransitivity; [| exact (keys_dict_set_new (_node g) n [] E)].
    eapply keys_dict_set_mem. apply dict_get_set_eq.
Qed.

(** One entity more, with its node and the record of its creation. *)
Lemma made_one {X : Type} (prefix : string)
  (ids_of : SupplyChainGenerator -> list string)
  (other : SupplyChainGenerator -> X)
  (s s' : SupplyChainGenerator) (r r' : RandomSource) (i : nat)
  (a logged : attrs) (node_type : string) :
  Permutation (ids_of s') (ids_of s ++ [format_id prefix i]) ->
  other s' = other s ->
  settings s' = settings s ->
  G s' = add_node (G s) (format_id prefix i) a ->
  operations_log s'
  = operations_log s ++
    [{| action := "create"; op_type := "schema";
        op_payload := NodePayload (format_id prefix i) node_type logged;
        op_timestamp := timestamp s; op_version := version s |}] ->
  made prefix ids_of other 1 (s, r, i) (s', r', S i).
Proof.
  intros Hp Ho Hs Hg Hl.
  destruct (frame_node_created s s' _ a logged node_type Hs Hg Hl)
    as (Hframe & Hnode).
  unfold made, numbers. cbn [seq map]. split; [lia |].
  split; [exact Hp |]. split; [intros id [<- | []]; exact Hnode |].
  assert (Hcreated : created_nodes (operations_log s')
                     = created_nodes (operations_log s)
                       ++ [format_id prefix i]).
  { rewrite Hl. unfold created_nodes. rewrite flat_map_app. reflexivity. }
  rewrite Hg, add_node_keys.
  destruct (dict_mem (_node (G s)) (format_id prefix i)) eqn:Em.
  - split; [apply incl_appl, incl_refl |]. split; [auto |].
    split; [exact Hcreated |]. split; [| split; assumption].
    intros Hfresh. exfalso. apply (Hfresh (format_id prefix i)); [now left |].
    now apply dict_mem_In_keys.
  - split; [apply incl_refl |]. split; [| split; [exact Hcreated |]].
    + intros Hnd.
      apply NoDup_app; [exact Hnd | repeat constructor; intros [] |].
      intros x Hx [Heq | []]. subst x. unfold dict_mem in Em.
      destruct (dict_get (_node (G s)) (format_id prefix i)) eqn:Eg;
        [discriminate |].
      now apply dict_get_None_keys in Eg.
    + split; [reflexivity | split; assumption].
Qed.

(** [d[k].append(x)] adds [x] to the values of the table, and nothing
    else. *)
Lemma append_to_Permutation {A : Type} (d d' : dict (list A)) (k : string)
  (x : A) :
  append_to d k x = Ok d' ->
  Permutation (all_values d') (all_values d ++ [x]).
Proof.
  unfold append_to, getitem. intros H. bind_inv H.
  apply Ok_inj in H. subst d'. rename a into l.
  unfold all_values, values.
  induction d as [|[k' v'] r IH]; [discriminate E |].
  cbn [dict_get] in E. cbn [dict_set].
  destruct (key_eqb k' k).
  - apply Ok_inj in E. subst v'. cbn [map snd List.concat].
    rewrite <- !app_assoc. apply Permutation_app_head.
    apply Permutation_app_comm.
  - cbn [map snd List.concat]. rewrite <- app_assoc.
    apply Permutation_app_head. exact (IH E).
Qed.

Lemma append_to_ids {A : Type} (id : A -> string) (d d' : dict (list A))
  (k : string) (x : A) :
  append_to d k x = Ok d' ->
  Permutation (map id (all_values d')) (map id (all_values d) ++ [id x]).
Proof.
  intros H. apply append_to_Permutation in H.
  apply (Permutation_map id) in H. now rewrite map_app in H.
Qed.

(* ----------------------------------------------------------------- *)
(** ** What each factory makes *)

Ltac one_made :=
  eapply made_one;
  [ first [ unfold warehouse_ids, facility_ids, part_ids;
            cbn [warehouses facilities parts with_entities
                 with_G with_log _log_node_operation];
            match goal with
            | E : append_to _ _ _ = Ok _ |- _ =>
                first [ exact (append_to_ids p_id _ _ _ _ E)
                      | exact (append_to_ids f_id _ _ _ _ E)
                      | exact (append_to_ids w_id _ _ _ _ E) ]
            end
          | unfold family_ids, offering_ids, supplier_ids;
            cbn [product_families product_offerings suppliers with_entities
                 with_G with_log _log_node_operation];
            rewrite map_app; reflexivity ]
  | reflexivity | reflexivity | reflexivity | reflexivity ].

Lemma generate_parts_made (cfg : Config)
  (self : SupplyChainGenerator) (rnd : RandomSource)
  (self' : SupplyChainGenerator) (rnd' : RandomSource) :
  _generate_parts cfg self rnd = Ok (self', rnd') ->
  exists i,
    made "P_" part_ids without_parts
      (planned (parts_distribution (distribution self)))
      (self, rnd, 1%nat) (self', rnd', i).
Proof.
  unfold _generate_parts. intros H.
  bind_inv H. destruct a as [[self1 rnd1] i1].
  apply Ok_inj in H. injection H as <- <-. exists i1.
  apply (foldM_made "P_" part_ids without_parts (generate_parts_of cfg)
           (fun item => Z.to_nat (snd item))) in E; [exact E |].
  intros st [p_type' count] st' _ Hb. unfold generate_parts_of in Hb.
  apply (foldM_made "P_" part_ids without_parts (generate_part cfg p_type')
           (fun _ => 1%nat)) in Hb;
    [now rewrite list_sum_ones, length_range in Hb |].
  intros [[s r] i] x st0 _ Hs. unfold generate_part in Hs.
  bind_inv Hs. destruct a as [[valid_from valid_till] r1].
  bind_inv Hs. bind_inv Hs. destruct a0 as [subtype r2].
  destruct (uniform_range (COST_RANGE cfg) r2) as [cost r3].
  destruct (uniform_range (IMPORTANCE_FACTOR_RANGE cfg) r3) as [importance r4].
  bind_inv Hs. apply Ok_inj in Hs. subst st0. one_made.
Qed.

Lemma generate_facilities_made (cfg : Config)
  (self : SupplyChainGenerator) (rnd : RandomSource)
  (self' : SupplyChainGenerator) (rnd' : RandomSource) :
  _generate_facilities cfg self rnd = Ok (self', rnd') ->
  exists i,
    made "F_" facility_ids without_facilities
      (planned (facility_distribution (distribution self)))
      (self, rnd, 1%nat) (self', rnd', i).
Proof.
  unfold _generate_facilities. intros H.
  bind_inv H. destruct a as [[self1 rnd1] i1].
  apply Ok_inj in H. injection H as <- <-. exists i1.
  apply (foldM_made "F_" facility_ids without_facilities
           (generate_facilities_of cfg)
           (fun item => Z.to_nat (snd item))) in E; [exact E |].
  intros st [f_type' count] st' _ Hb. unfold generate_facilities_of in Hb.
  apply (foldM_made "F_" facility_ids without_facilities
           (generate_facility cfg f_type') (fun _ => 1%nat)) in Hb;
    [now rewrite list_sum_ones, length_range in Hb |].
  intros [[s r] i] x st0 _ Hs. unfold generate_facility in Hs.
  bind_inv Hs. destruct a as [location r1].
  bind_inv Hs. destruct a as [max_capacity r2].
  destruct (uniform_range (COST_RANGE cfg) r2) as [operating_cost r3].
  bind_inv Hs. apply Ok_inj in Hs. subst st0. one_made.
Qed.

Lemma generate_warehouses_made (cfg : Config)
  (self : SupplyChainGenerator) (rnd : RandomSource)
  (self' : SupplyChainGenerator) (rnd' : RandomSource) :
  _generate_warehouses cfg self rnd = Ok (self', rnd') ->
  exists i,
    made "W_" warehouse_ids without_warehouses
      (planned (warehouse_distribution (distribution self)))
      (self, rnd, 1%nat) (self', rnd', i).
Proof.
  unfold _generate_warehouses. intros H.
  bind_inv H. destruct a as [[self1 rnd1] i1].
  apply Ok_inj in H. injection H as <- <-. exists i1.
  apply (foldM_made "W_" warehouse_ids without_warehouses
           (generate_warehouses_of cfg)
           (fun item => Z.to_nat (snd item))) in E; [exact E |].
  intros st [w_type' count] st' _ Hb. unfold generate_warehouses_of in Hb.
  apply (foldM_made "W_" warehouse_ids without_warehouses
           (generate_warehouse cfg w_type') (fun _ => 1%nat)) in Hb;
    [now rewrite list_sum_ones, length_range in Hb |].
  intros [[s r] i] x st0 _ Hs. unfold generate_warehouse in Hs.
  bind_inv Hs. destruct a as [size_category r1].
  bind_inv Hs. bind_inv Hs. destruct a0 as [location r2].
  bind_inv Hs. destruct a0 as [max_capacity r3].
  bind_inv Hs. destruct a0 as [safety_stock r4].
  bind_inv Hs. bind_inv Hs. apply Ok_inj in Hs. subst st0. one_made.
Qed.

Lemma generate_suppliers_made (cfg : Config)
  (self : SupplyChainGenerator) (rnd : RandomSource)
  (self' : SupplyChainGenerator) (rnd' : RandomSource) :
  _generate_suppliers cfg self rnd = Ok (self', rnd') ->
  exists i,
    made "S_" supplier_ids without_suppliers
      (planned (supplier_distribution (distribution self)))
      (self, rnd, 1%nat) (self', rnd', i).
Proof.
  unfold _generate_suppliers. intros H.
  bind_inv H. destruct a as [[self1 rnd1] i1].
  apply Ok_inj in H. injection H as <- <-. exists i1.
  apply (foldM_made "S_" supplier_ids without_suppliers
           (generate_suppliers_of cfg)
           (fun item => Z.to_nat (snd item))) in E; [exact E |].
  intros st [size_category count] st' _ Hb.
  unfold generate_suppliers_of in Hb. bind_inv Hb.
  apply (foldM_made "S_" supplier_ids without_suppliers
           (generate_supplier cfg size_category (ss_range a))
           (fun _ => 1%nat)) in Hb;
    [now rewrite list_sum_ones, length_range in Hb |].
  intros [[s r] i] x st0 _ Hs. unfold generate_supplier in Hs.
  bind_inv Hs. destruct a0 as [size_value r1].
  bind_inv Hs. destruct a0 as [types1 r2].
  bind_inv Hs. destruct a0 as [supplied_types r3].
  bind_inv Hs. destruct a0 as [location r4].
  destruct (uniform_range (RELIABILITY_RANGE cfg) r4) as [reliability r5].
  apply Ok_inj in Hs. subst st0. one_made.
Qed.

Lemma generate_families_made (cfg : Config) (l : list string)
  (st st' : FactoryState) :
  foldM (generate_family cfg) l st = Ok st' ->
  made "PF_" family_ids without_families (List.length l) st st'.
Proof.
  intros H.
  apply (foldM_made "PF_" family_ids without_families (generate_family cfg)
           (fun _ => 1%nat)) in H; [now rewrite list_sum_ones in H |].
  intros [[s r] i] x st0 _ Hs. unfold generate_family in Hs.
  destruct (uniform_range (COST_RANGE cfg) r) as [revenue r1].
  apply Ok_inj in Hs. subst st0. one_made.
Qed.

Lemma generate_offerings_made (cfg : Config) (l : list ProductFamily)
  (st st' : FactoryState) :
  foldM (generate_offerings_of cfg) l st = Ok st' ->
  made "PO_" offering_ids without_offerings
    (list_sum (map (offerings_of cfg) l)) st st'.
Proof.
  intros H.
  apply (foldM_made "PO_" offering_ids without_offerings
           (generate_offerings_of cfg) (offerings_of cfg)) in H;
    [exact H |].
  intros st0 pf st0' _ Hb. unfold generate_offerings_of in Hb.
  unfold offerings_of, get_default.
  destruct (dict_get (PRODUCT_OFFERINGS cfg) (pf_name pf)) as [names|].
  - apply (foldM_made "PO_" offering_ids without_offerings
             (generate_offering cfg) (fun _ => 1%nat)) in Hb;
      [now rewrite list_sum_ones in Hb |].
    intros [[s r] i] x st1 _ Hs. unfold generate_offering in Hs.
    destruct (uniform_range (COST_RANGE cfg) r) as [cost r1].
    bind_inv Hs. destruct a as [demand r2].
    apply Ok_inj in Hs. subst st1. one_made.
  - apply Ok_inj in Hb. subst st0'. apply made_refl.
Qed.

(* ----------------------------------------------------------------- *)
(** ** The wiring adds no node *)

Lemma add_edge_keys (g : DiGraph) (u v : string) (a : attrs) :
  dict_mem (_node g) u = true -> dict_mem (_node g) v = true ->
  keys (_node (add_edge g u v a)) = keys (_node g).
Proof.
  intros Hu Hv. unfold add_edge. cbn [_node].
  now rewrite (ensure_node_present g u Hu), (ensure_node_present g v Hv).
Qed.

Lemma dict_mem_keys {V : Type} (d d' : dict V) (k : string) :
  keys d' = keys d -> dict_mem d k = true -> dict_mem d' k = true.
Proof.
  intros Hk Hm. unfold dict_mem in *.
  destruct (dict_get d' k) eqn:E; [reflexivity |].
  apply dict_get_None_keys in E. rewrite Hk in E.
  apply dict_get_None_keys in E. now rewrite E in Hm.
Qed.

Lemma wired_refl (s : SupplyChainGenerator) : wired s s.
Proof. split; [apply keeps_refl | split; reflexivity]. Qed.

Lemma wired_trans (a b c : SupplyChainGenerator) :
  wired a b -> wired b c -> wired a c.
Proof.
  intros (K1 & H1 & C1) (K2 & H2 & C2).
  split; [exact (keeps_trans tables a b c K1 K2) | split; congruence].
Qed.

(** An edge between two entities. *)
Lemma wired_edge (s0 s : SupplyChainGenerator) (u v : string)
  (a logged : attrs) (edge_type : string) :
  nodes_complete s0 -> wired s0 s ->
  In u (node_ids s0) -> In v (node_ids s0) ->
  edge_schema u v -> features_numeric a = true ->
  wired s0
    (_log_edge_operation (with_G s (add_edge (G s) u v a)) "create" u v
       logged edge_type).
Proof.
  intros Hc (K & Hk & Hcr) Hu Hv Hschema Hnum.
  apply Hc in Hu, Hv.
  apply (dict_mem_keys _ (_node (G s)) u Hk) in Hu.
  apply (dict_mem_keys _ (_node (G s)) v Hk) in Hv.
  split; [| split].
  - eapply keeps_trans; [exact K |].
    split; [reflexivity | now apply frame_edge_created].
  - cbn [G _log_edge_operation with_log with_G].
    now rewrite add_edge_keys.
  - cbn [operations_log _log_edge_operation with_log with_G].
    unfold created_nodes in *. rewrite flat_map_app, Hcr.
    cbn [flat_map op_payload]. now rewrite !app_nil_r.
Qed.

(** The assignment of an attribute of a node. *)
Lemma wired_setitem (s0 s : SupplyChainGenerator) (g : DiGraph)
  (n k : string) (v : value) :
  wired s0 s -> setitem_node (G s) n k v = Ok g -> wired s0 (with_G s g).
Proof.
  intros (K & Hk & Hcr) Hset. split; [| split; [| exact Hcr]].
  - eapply keeps_trans; [exact K |].
    split; [reflexivity |]. split; [reflexivity |].
    split; [| split; [| split]].
    + intros m. exact (dict_mem_setitem_node _ _ _ _ _ m Hset).
    + exists []. rewrite app_nil_r. split; [reflexivity | constructor].
    + exact (graph_kept_setitem_node _ _ _ _ _ Hset).
    + intros _ He x y. cbn [G operations_log with_G].
      rewrite (edges_adj (G s) g (setitem_node_adj _ _ _ _ _ Hset)).
      exact (He x y).
  - cbn [G with_G]. rewrite (setitem_node_keys _ _ _ _ _ Hset). exact Hk.
Qed.

(** The record of the update of a warehouse. *)
Lemma wired_update_logged (s0 s : SupplyChainGenerator) (id : string)
  (changes : attrs) :
  wired s0 s ->
  wired s0 (_log_node_operation s "update" id "WAREHOUSE" changes).
Proof.
  intros (K & Hk & Hcr). split; [| split; [exact Hk |]].
  - eapply keeps_trans; [exact K |].
    split; [reflexivity |]. split; [reflexivity |]. split; [auto |].
    split; [| split; [apply graph_kept_refl |]].
    + eexists. split; [reflexivity |].
      constructor; [| constructor]. repeat split. right.
      split; [reflexivity |]. now exists id, changes.
    + intros _ He x y. cbn [G operations_log _log_node_operation with_log].
      rewrite created_edges_app, in_app_iff, (He x y). cbn. tauto.
  - cbn [operations_log _log_node_operation with_log].
    unfold created_nodes in *. rewrite flat_map_app, Hcr.
    cbn [flat_map op_payload]. now rewrite !app_nil_r.
Qed.

(** Where the loops of the wiring take their entities from. *)
Lemma list_set_incl {A : Type} (x : A) :
  forall (l : list A) (i : nat), In x l -> incl (list_set l i x) l.
Proof.
  induction l as [|y r IH]; intros i Hx z Hz; [destruct Hz |].
  destruct i as [|i]; cbn [list_set] in Hz.
  - destruct Hz as [<- | Hz]; [exact Hx | now right].
  - destruct Hz as [<- | Hz]; [now left |].
    destruct Hx as [-> | Hx].
    + clear IH. revert i Hz. induction r as [|y' r' IH']; intros i Hz;
        [destruct Hz |].
      destruct i as [|i]; cbn [list_set] in Hz.
      * destruct Hz as [<- | Hz]; [now left | now right; right].
      * destruct Hz as [<- | Hz]; [now right; left |].
        destruct (IH' i Hz) as [<- | H']; [now left | now right; right].
    + right. exact (IH i Hx z Hz).
Qed.

Lemma sample_pool_In {A : Type} (k : nat) :
  forall (pool : list A) (m : nat) (rnd : RandomSource) chosen rnd',
    sample_pool pool m k rnd = Ok (chosen, rnd') ->
    incl chosen pool.
Proof.
  induction k as [|k IH]; intros pool m rnd chosen rnd' H;
    cbn [sample_pool] in H.
  - apply Ok_inj in H. injection H as <- _. intros x [].
  - destruct (_randbelow (Z.of_nat m) rnd) as [j rnd1].
    bind_inv H. bind_inv H. bind_inv H. destruct a1 as [rest rnd2].
    apply Ok_inj in H. injection H as <- _.
    assert (Ha : In a pool).
    { destruct (nth_error pool (Z.to_nat j)) eqn:En; [| discriminate E].
      apply Ok_inj in E. subst. eapply nth_error_In; eassumption. }
    assert (Ha0 : In a0 pool).
    { destruct (nth_error pool (Nat.pred m)) eqn:En; [| discriminate E0].
      apply Ok_inj in E0. subst. eapply nth_error_In; eassumption. }
    intros x [<- | Hx]; [exact Ha |].
    apply (list_set_incl a0 pool (Z.to_nat j) Ha0).
    exact (IH _ _ _ _ _ E1 x Hx).
Qed.

Lemma sample_In {A : Type} (population : list A) (k : Z)
  (rnd : RandomSource) (chosen : list A) (rnd' : RandomSource) :
  sample population k rnd = Ok (chosen, rnd') -> incl chosen population.
Proof.
  unfold sample. destruct ((k <? 0) || (len population <? k))%bool;
    [discriminate |].
  apply sample_pool_In.
Qed.

Lemma getitem_all_values {A : Type} (d : dict (list A)) (k : string)
  (l : list A) :
  getitem d k = Ok l -> incl l (all_values d).
Proof.
  unfold getitem, all_values, values. intros H x Hx.
  destruct (dict_get d k) as [l'|] eqn:E; [| discriminate H].
  apply Ok_inj in H. subst l'. apply dict_get_In in E.
  apply in_concat. exists l. split; [| exact Hx].
  apply in_map_iff. now exists (k, l).
Qed.

Lemma warehouse_node_id (s : SupplyChainGenerator) (w : Warehouse) :
  In w (all_values (warehouses s)) -> In (w_id w) (node_ids s).
Proof.
  intros H. unfold node_ids, entity_ids. rewrite !in_app_iff.
  left. right. right. right. left. now apply in_map.
Qed.

Lemma supplier_node_id (s : SupplyChainGenerator) (x : Supplier) :
  In x (suppliers s) -> In (s_id x) (node_ids s).
Proof.
  intros H. unfold node_ids, entity_ids. rewrite !in_app_iff.
  left. right. right. right. right. left. now apply in_map.
Qed.

Lemma part_node_id (s : SupplyChainGenerator) (p : Part) :
  In p (all_values (parts s)) -> In (p_id p) (node_ids s).
Proof.
  intros H. unfold node_ids, entity_ids. rewrite !in_app_iff.
  left. right. right. right. right. right. now apply in_map.
Qed.

Lemma facility_node_id (s : SupplyChainGenerator) (f : Facility) :
  In f (all_values (facilities s)) -> In (f_id f) (node_ids s).
Proof.
  intros H. unfold node_ids. rewrite in_app_iff. right. now apply in_map.
Qed.

Lemma offering_node_id (s : SupplyChainGenerator) (o : ProductOffering) :
  In o (product_offerings s) -> In (po_id o) (node_ids s).
Proof.
  intros H. unfold node_ids, entity_ids. rewrite !in_app_iff.
  left. right. right. left. now apply in_map.
Qed.

Lemma family_node_id (s : SupplyChainGenerator) (f : ProductFamily) :
  In f (product_families s) -> In (pf_id f) (node_ids s).
Proof.
  intros H. unfold node_ids, entity_ids. rewrite !in_app_iff.
  left. right. left. now apply in_map.
Qed.

Lemma wired_tables (s0 s : SupplyChainGenerator) :
  wired s0 s ->
  suppliers s = suppliers s0 /\ warehouses s = warehouses s0 /\
  facilities s = facilities s0 /\ parts s = parts s0 /\
  product_offerings s = product_offerings s0 /\
  product_families s = product_families s0 /\
  business_group s = business_group s0.
Proof.
  intros ((Ht & _) & _). unfold tables in Ht. injection Ht. intuition.
Qed.

Lemma numbers_code (a b : ascii) (r : string) (i n : nat) (id : string) :
  In id (numbers (String a (String b r)) i n) ->
  table_code id = String a (String b "").
Proof.
  unfold numbers. intros H. apply in_map_iff in H.
  destruct H as (j & <- & _). unfold table_code, format_id.
  cbn [String.append substring]. do 2 f_equal.
  now destruct (r ++ pad3 (decimal j))%string.
Qed.

Lemma numbered_NoDup (prefix : string) (ids : list string) :
  numbered prefix ids -> NoDup ids.
Proof.
  intros H. apply Permutation_sym in H.
  exact (Permutation_NoDup H (numbers_NoDup prefix 1 _)).
Qed.

Lemma numbered_code (a b : ascii) (r : string) (ids : list string)
  (id : string) :
  numbered (String a (String b r)) ids -> In id ids ->
  table_code id = String a (String b "").
Proof.
  intros H Hin. eapply numbers_code. exact (Permutation_in id H Hin).
Qed.

Section Wiring.
Variable cfg : Config.
Variable s0 : SupplyChainGenerator.
Hypothesis complete : nodes_complete s0.
Hypothesis named : identified s0.

Lemma supplier_code (x : Supplier) :
  In x (suppliers s0) -> table_code (s_id x) = "S_".
Proof.
  intros H. destruct named as (_ & _ & _ & _ & Hn & _).
  apply (numbered_code _ _ _ _ _ Hn). now apply in_map.
Qed.

Lemma warehouse_code (x : Warehouse) :
  In x (all_values (warehouses s0)) -> table_code (w_id x) = "W_".
Proof.
  intros H. destruct named as (_ & _ & _ & Hn & _).
  apply (numbered_code _ _ _ _ _ Hn). now apply in_map.
Qed.

Lemma part_code (x : Part) :
  In x (all_values (parts s0)) -> table_code (p_id x) = "P_".
Proof.
  intros H. destruct named as (_ & _ & _ & _ & _ & Hn & _).
  apply (numbered_code _ _ _ _ _ Hn). now apply in_map.
Qed.

Lemma facility_code (x : Facility) :
  In x (all_values (facilities s0)) -> table_code (f_id x) = "F_".
Proof.
  intros H. destruct named as (_ & _ & _ & _ & _ & _ & Hn).
  apply (numbered_code _ _ _ _ _ Hn). now apply in_map.
Qed.

Lemma offering_code (x : ProductOffering) :
  In x (product_offerings s0) -> table_code (po_id x) = "PO".
Proof.
  intros H. destruct named as (_ & _ & Hn & _).
  apply (numbered_code _ _ _ _ _ Hn). now apply in_map.
Qed.

Lemma family_code (x : ProductFamily) :
  In x (product_families s0) -> table_code (pf_id x) = "PF".
Proof.
  intros H. destruct named as (_ & Hn & _).
  apply (numbered_code _ _ _ _ _ Hn). now apply in_map.
Qed.

Lemma edge_schema_of (c1 c2 u v : string) :
  table_code u = c1 -> table_code v = c2 -> In (c1, c2) edge_kinds ->
  edge_schema u v.
Proof. intros <- <-. exact (fun H => H). Qed.

Ltac code_of :=
  first [ apply supplier_code | apply warehouse_code | apply part_code
        | apply facility_code | apply offering_code | apply family_code
        | reflexivity ].

Ltac schema :=
  eapply edge_schema_of;
  [ code_of | code_of
  | cbn; repeat first [left; reflexivity | right] ];
  auto.

(** The invariant of the loops of the wiring. *)
Let inv (st : SupplyChainGenerator * RandomSource) : Prop :=
  wired s0 (fst st).

Ltac tables_of H :=
  let Hs := fresh "Hsu" in let Hw := fresh "Hwa" in
  let Hf := fresh "Hfa" in let Hp := fresh "Hpa" in
  let Ho := fresh "Hpo" in let Hm := fresh "Hpf" in
  let Hb := fresh "Hbg" in
  destruct (wired_tables _ _ H) as (Hs & Hw & Hf & Hp & Ho & Hm & Hb).

Lemma connect_supplier_kind_wired (supplier : Supplier)
  (max_connections : Z) (part_kind warehouse_kind : string)
  (st st' : SupplyChainGenerator * RandomSource) :
  In supplier (suppliers s0) -> inv st ->
  connect_supplier_kind cfg supplier max_connections part_kind warehouse_kind
    st = Ok st' ->
  inv st'.
Proof.
  intros Hsup Hw H. destruct st as [s r]. unfold connect_supplier_kind in H.
  bind_inv H. destruct a; [| apply Ok_inj in H; now subst st'].
  bind_inv H. bind_inv H. destruct a0 as [selected r1].
  unfold inv in Hw. cbn [fst] in Hw. tables_of Hw.
  apply getitem_all_values in E0. apply sample_In in E1. rewrite Hwa in E0.
  refine (foldM_inv (connect_supplier_warehouse cfg supplier) inv selected _
            (s, r1) st' Hw H).
  intros [s1 r2] w b' Hin Hw1 Hstep. unfold connect_supplier_warehouse in Hstep.
  destruct (uniform_range (TRANSPORTATION_COST_RANGE cfg) r2) as [c r3].
  destruct (uniform_range (TRANSPORTATION_TIME_RANGE cfg) r3) as [t r4].
  apply Ok_inj in Hstep. subst b'. unfold inv. cbn [fst].
  apply wired_edge; [exact complete | exact Hw1 | | | schema | reflexivity].
  - now apply supplier_node_id.
  - apply warehouse_node_id. auto.
Qed.

Lemma connect_suppliers_to_warehouses_wired (rnd : RandomSource)
  (s' : SupplyChainGenerator) (rnd' : RandomSource) :
  _connect_suppliers_to_warehouses cfg s0 rnd = Ok (s', rnd') ->
  wired s0 s'.
Proof.
  unfold _connect_suppliers_to_warehouses. intros H.
  refine (foldM_inv (connect_supplier cfg) inv (suppliers s0) _
            (s0, rnd) (s', rnd') (wired_refl s0) H).
  intros st supplier st' Hin Hw Hstep. unfold connect_supplier in Hstep.
  bind_inv Hstep. bind_inv Hstep.
  eapply connect_supplier_kind_wired; [exact Hin | | exact Hstep].
  eapply connect_supplier_kind_wired; [exact Hin | exact Hw | exact E0].
Qed.

Lemma connect_warehouse_part_wired (w : Warehouse)
  (st st' : SupplyChainGenerator * RandomSource * Z) (part : Part) :
  In w (all_values (warehouses s0)) -> In part (all_values (parts s0)) ->
  wired s0 (fst (fst st)) ->
  connect_warehouse_part cfg w st part = Ok st' ->
  wired s0 (fst (fst st')).
Proof.
  intros Hw Hp Hwired H. destruct st as [[s r] c].
  unfold connect_warehouse_part in H. bind_inv H. destruct a as [draw r1].
  destruct (Z.min draw (w_max_capacity w - c) <=? 0).
  - apply Ok_inj in H. now subst st'.
  - destruct (uniform_range (COST_RANGE cfg) r1) as [cost r2].
    bind_inv H. apply Ok_inj in H. subst st'. cbn [fst] in *.
    apply wired_update_logged.
    eapply wired_setitem; [| exact E0].
    apply wired_edge; [exact complete | exact Hwired | | | schema | reflexivity].
    + now apply warehouse_node_id.
    + now apply part_node_id.
Qed.

Lemma connect_warehouses_to_parts_wired (rnd : RandomSource)
  (s' : SupplyChainGenerator) (rnd' : RandomSource) :
  _connect_warehouses_to_parts cfg s0 rnd = Ok (s', rnd') ->
  wired s0 s'.
Proof.
  unfold _connect_warehouses_to_parts. intros H.
  refine (foldM_inv (connect_warehouse cfg) inv (all_values (warehouses s0)) _
            (s0, rnd) (s', rnd') (wired_refl s0) H).
  intros [s r] w st' Hin Hw Hstep. unfold connect_warehouse in Hstep.
  bind_inv Hstep. bind_inv Hstep. destruct a0 as [selected r1].
  bind_inv Hstep. destruct a0 as [[s1 r2] c1].
  apply Ok_inj in Hstep. subst st'.
  unfold inv in *. cbn [fst] in *. tables_of Hw.
  apply getitem_all_values in E. apply sample_In in E0. rewrite Hpa in E.
  refine (foldM_inv (connect_warehouse_part cfg w)
            (fun st => wired s0 (fst (fst st))) selected _
            (s, r1, 0) (s1, r2, c1) Hw E1).
  intros b part b' Hpart Hb Hs.
  eapply connect_warehouse_part_wired; [exact Hin | | exact Hb | exact Hs].
  auto.
Qed.

Lemma connect_part_facility_wired (facility : Facility) (l : list Part)
  (st st' : SupplyChainGenerator * RandomSource) :
  In facility (all_values (facilities s0)) ->
  incl l (all_values (parts s0)) -> inv st ->
  foldM (connect_part_facility cfg facility) l st = Ok st' -> inv st'.
Proof.
  intros Hf Hl Hw H.
  refine (foldM_inv (connect_part_facility cfg facility) inv l _ st st' Hw H).
  intros [s r] part b' Hin Hw1 Hstep. unfold connect_part_facility in Hstep.
  bind_inv Hstep. destruct a as [quantity r1].
  bind_inv Hstep. destruct a as [distance r2].
  destruct (uniform_range (TRANSPORTATION_COST_RANGE cfg) r2) as [c r3].
  destruct (uniform_range (TRANSPORTATION_TIME_RANGE cfg) r3) as [t r4].
  apply Ok_inj in Hstep. subst b'. unfold inv. cbn [fst].
  apply wired_edge; [exact complete | exact Hw1 | | | schema | reflexivity].
  - apply part_node_id. auto.
  - now apply facility_node_id.
Qed.

Lemma connect_facility_part_wired (facility : Facility) (l : list Part)
  (st st' : SupplyChainGenerator * RandomSource) :
  In facility (all_values (facilities s0)) ->
  incl l (all_values (parts s0)) -> inv st ->
  foldM (connect_facility_part cfg facility) l st = Ok st' -> inv st'.
Proof.
  intros Hf Hl Hw H.
  refine (foldM_inv (connect_facility_part cfg facility) inv l _ st st' Hw H).
  intros [s r] part b' Hin Hw1 Hstep. unfold connect_facility_part in Hstep.
  destruct (uniform_range (COST_RANGE cfg) r) as [c r1].
  destruct (uniform_range (TRANSPORTATION_TIME_RANGE cfg) r1) as [t r2].
  bind_inv Hstep. destruct a as [quantity r3].
  apply Ok_inj in Hstep. subst b'. unfold inv. cbn [fst].
  apply wired_edge; [exact complete | exact Hw1 | | | schema | reflexivity].
  - now apply facility_node_id.
  - apply part_node_id. auto.
Qed.

Lemma connect_parts_to_facilities_wired (rnd : RandomSource)
  (s' : SupplyChainGenerator) (rnd' : RandomSource) :
  _connect_parts_to_facilities cfg s0 rnd = Ok (s', rnd') ->
  wired s0 s'.
Proof.
  unfold _connect_parts_to_facilities. intros H.
  bind_inv H. bind_inv H. bind_inv H.
  apply getitem_all_values in E.
  assert (H1 : inv a0).
  { refine (foldM_inv (connect_external_facility cfg) inv a _
              (s0, rnd) a0 (wired_refl s0) E0).
    intros [s r] facility b' Hin Hw Hstep.
    unfold connect_external_facility in Hstep.
    bind_inv Hstep. bind_inv Hstep. destruct a3 as [k_raw r1].
    bind_inv Hstep. destruct a3 as [raw_parts r2].
    bind_inv Hstep. destruct a3 as [s1 r3].
    bind_inv Hstep. bind_inv Hstep. destruct a4 as [k_sub r4].
    bind_inv Hstep. destruct a4 as [sub_parts r5].
    unfold inv in Hw. cbn [fst] in Hw. tables_of Hw.
    apply getitem_all_values in E2. apply sample_In in E4. rewrite Hpa in E2.
    assert (Hw1 : inv (s1, r3)).
    { apply (connect_part_facility_wired facility raw_parts (s, r2) (s1, r3));
        [auto | | exact Hw | exact E5].
      intros x Hx. auto. }
    unfold inv in Hw1. cbn [fst] in Hw1.
    destruct (wired_tables _ _ Hw1) as (_ & _ & _ & Hpa1 & _).
    apply getitem_all_values in E6. apply sample_In in E8.
    rewrite Hpa1 in E6.
    apply (connect_facility_part_wired facility sub_parts (s1, r5) b');
      [auto | | exact Hw1 | exact Hstep].
    intros x Hx. auto. }
  pose proof H1 as H1'. unfold inv in H1'. tables_of H1'.
  apply getitem_all_values in E1. rewrite Hfa in E1.
  refine (foldM_inv (connect_lam_facility cfg) inv a1 _ a0 (s', rnd') H1 H).
  intros [s r] facility b' Hin Hw Hstep.
  unfold connect_lam_facility in Hstep.
  bind_inv Hstep. bind_inv Hstep. destruct a3 as [k r1].
  bind_inv Hstep. destruct a3 as [sub_parts r2].
  pose proof Hw as Hw'. unfold inv in Hw'. cbn [fst] in Hw'.
  destruct (wired_tables _ _ Hw') as (_ & _ & _ & Hpa1 & _).
  apply getitem_all_values in E2. apply sample_In in E4. rewrite Hpa1 in E2.
  apply (connect_part_facility_wired facility sub_parts (s, r2) b');
    [auto | | exact Hw | exact Hstep].
  intros x Hx. auto.
Qed.

Lemma connect_facilities_to_products_wired (rnd : RandomSource)
  (s' : SupplyChainGenerator) (rnd' : RandomSource) :
  _connect_facilities_to_products cfg s0 rnd = Ok (s', rnd') ->
  wired s0 s'.
Proof.
  unfold _connect_facilities_to_products. intros H. bind_inv H.
  apply getitem_all_values in E.
  refine (foldM_inv (connect_facility_products cfg) inv a _
            (s0, rnd) (s', rnd') (wired_refl s0) H).
  intros [s r] facility b' Hin Hw Hstep.
  unfold connect_facility_products in Hstep.
  bind_inv Hstep. destruct a0 as [k r1].
  bind_inv Hstep. destruct a0 as [products r2].
  pose proof Hw as Hw'. unfold inv in Hw'. cbn [fst] in Hw'. tables_of Hw'.
  apply sample_In in E1. rewrite Hpo in E1.
  refine (foldM_inv (connect_facility_product cfg facility) inv products _
            (s, r2) b' Hw Hstep).
  intros [s1 r3] product b1 Hprod Hw1 Hs.
  unfold connect_facility_product in Hs.
  destruct (uniform_range (COST_RANGE cfg) r3) as [c r4].
  destruct (uniform_range (TRANSPORTATION_TIME_RANGE cfg) r4) as [t r5].
  bind_inv Hs. destruct a0 as [quantity r6]. bind_inv Hs.
  match type of Hs with
  | foldM _ _ (?s2, _) = _ => assert (Hw2 : inv (s2, r6))
  end.
  { unfold inv. cbn [fst].
    apply wired_edge; [exact complete | exact Hw1 | | | schema | reflexivity].
    - apply facility_node_id. auto.
    - apply offering_node_id. auto. }
  pose proof Hw2 as Hw2'. unfold inv in Hw2'. cbn [fst] in Hw2'.
  destruct (wired_tables _ _ Hw2') as (_ & Hwa2 & _).
  apply getitem_all_values in E3. rewrite Hwa2 in E3.
  refine (foldM_inv (connect_product_warehouse cfg product) inv a0 _
            _ b1 Hw2 Hs).
  intros [s3 r7] w b3 Hwin Hw3 Hs3. unfold connect_product_warehouse in Hs3.
  bind_inv Hs3. destruct a1 as [level r8].
  destruct (uniform_range (COST_RANGE cfg) r8) as [sc r9].
  apply Ok_inj in Hs3. subst b3. unfold inv. cbn [fst].
  apply wired_edge; [exact complete | exact Hw3 | | | schema | reflexivity].
  - apply offering_node_id. auto.
  - apply warehouse_node_id. auto.
Qed.

Lemma connect_hierarchy_wired (s' : SupplyChainGenerator) :
  (product_families s0 <> [] -> In "BG_001" (node_ids s0)) ->
  _connect_hierarchy cfg s0 = Ok s' ->
  wired s0 s'.
Proof.
  intros Hbg. unfold _connect_hierarchy. intros H. bind_inv H.
  assert (H1 : wired s0 a).
  { refine (foldM_inv connect_group_family (wired s0)
              (product_families s0) _ s0 a (wired_refl s0) E).
    intros s pf b' Hin Hw Hstep. unfold connect_group_family in Hstep.
    apply Ok_inj in Hstep. subst b'.
    apply wired_edge; [exact complete | exact Hw | | | schema | reflexivity].
    - apply Hbg. intros Hnil. rewrite Hnil in Hin. destruct Hin.
    - now apply family_node_id. }
  tables_of H1.
  refine (foldM_inv (connect_family_offerings cfg) (wired s0)
            (product_families a) _ a s' H1 H).
  intros s pf b' Hin Hw Hstep. unfold connect_family_offerings in Hstep.
  bind_inv Hstep. rewrite Hpf in Hin.
  destruct (wired_tables _ _ Hw) as (_ & _ & _ & _ & Hpo1 & _).
  assert (Hincl : incl a0 (product_offerings s0)).
  { rewrite <- Hpo1. destruct (product_offerings s) as [|o l].
    - apply Ok_inj in E0. subst a0. intros x [].
    - bind_inv E0. apply Ok_inj in E0. subst a0.
      intros x Hx. apply filter_In in Hx. tauto. }
  refine (foldM_inv (connect_family_offering pf) (wired s0) a0 _
            s b' Hw Hstep).
  intros s1 po b1 Hpoin Hw1 Hs. unfold connect_family_offering in Hs.
  apply Ok_inj in Hs. subst b1.
  apply wired_edge; [exact complete | exact Hw1 | | | schema | reflexivity].
  - now apply family_node_id.
  - apply offering_node_id. auto.
Qed.

Lemma calculate_distances_wired (rnd : RandomSource)
  (s' : SupplyChainGenerator) (rnd' : RandomSource) :
  _calculate_distances cfg s0 rnd = Ok (s', rnd') ->
  wired s0 s'.
Proof.
  unfold _calculate_distances. intros H.
  refine (foldM_inv (calculate_distances_of cfg) inv
            (all_values (warehouses s0)) _
            (s0, rnd) (s', rnd') (wired_refl s0) H).
  intros st w b' Hin Hw Hstep. unfold calculate_distances_of in Hstep.
  refine (foldM_inv (calculate_distance cfg w) inv _ _ st b' Hw Hstep).
  intros [s r] f b1 Hfin Hw1 Hs. unfold calculate_distance in Hs.
  bind_inv Hs. destruct a as [distance r1].
  bind_inv Hs. bind_inv Hs. bind_inv Hs.
  apply Ok_inj in Hs. subst b1. unfold inv. cbn [fst].
  eapply wired_setitem; [exact Hw1 | exact E2].
Qed.

End Wiring.

(* ----------------------------------------------------------------- *)
(** ** No two entities share an identifier *)

(** Lists whose elements carry distinct codes are disjoint. *)
Lemma NoDup_concat_coded (groups : list (string * list string)) :
  NoDup (map fst groups) ->
  (forall c l, In (c, l) groups ->
     NoDup l /\ forall x, In x l -> table_code x = c) ->
  NoDup (List.concat (map snd groups)).
Proof.
  induction groups as [|[c l] r IH]; intros Hnd Hg; [constructor |].
  cbn [map snd fst List.concat] in *. inversion Hnd as [|? ? Hc Hr]; subst.
  destruct (Hg c l (or_introl eq_refl)) as (Hl & Hcode).
  apply NoDup_app; [exact Hl | |].
  - apply IH; [exact Hr |]. intros c' l' Hin. apply Hg. now right.
  - intros x Hx Hx'. apply in_concat in Hx'.
    destruct Hx' as (l' & Hl' & Hxl'). apply in_map_iff in Hl'.
    destruct Hl' as ([c' l''] & Heq & Hin). cbn [snd] in Heq. subst l''.
    destruct (Hg c' l' (or_intror Hin)) as (_ & Hcode').
    apply Hc. apply in_map_iff. exists (c', l'). split; [| exact Hin].
    cbn [fst]. rewrite <- (Hcode x Hx). symmetry. now apply Hcode'.
Qed.

Lemma node_ids_groups (s : SupplyChainGenerator) :
  Permutation (node_ids s) (List.concat (map snd (id_groups s))).
Proof.
  unfold node_ids, entity_ids, id_groups.
  cbn [map snd List.concat]. rewrite app_nil_r.
  fold (family_ids s) (offering_ids s) (warehouse_ids s) (supplier_ids s)
       (part_ids s) (facility_ids s).
  rewrite <- !app_assoc. reflexivity.
Qed.

Lemma identified_NoDup (s : SupplyChainGenerator) :
  identified s -> NoDup (node_ids s).
Proof.
  intros (Hbg & Hpf & Hpo & Hw & Hs & Hp & Hf).
  apply (Permutation_NoDup (Permutation_sym (node_ids_groups s))).
  apply NoDup_concat_coded.
  - cbn [map fst id_groups].
    repeat (constructor; [cbn [In]; intuition discriminate |]). constructor.
  - intros c l Hin. cbn [id_groups In] in Hin.
    repeat (destruct Hin as [Heq | Hin];
            [injection Heq as <- <- |]); [| | | | | | | destruct Hin].
    + destruct (business_group s) as [b|]; [| split; [constructor |]].
      * split; [repeat constructor; intros [] |].
        intros x [<- | []]. now rewrite Hbg.
      * intros x [].
    + split; [exact (numbered_NoDup _ _ Hpf) |].
      intros x. exact (numbered_code _ _ _ _ _ Hpf).
    + split; [exact (numbered_NoDup _ _ Hpo) |].
      intros x. exact (numbered_code _ _ _ _ _ Hpo).
    + split; [exact (numbered_NoDup _ _ Hw) |].
      intros x. exact (numbered_code _ _ _ _ _ Hw).
    + split; [exact (numbered_NoDup _ _ Hs) |].
      intros x. exact (numbered_code _ _ _ _ _ Hs).
    + split; [exact (numbered_NoDup _ _ Hp) |].
      intros x. exact (numbered_code _ _ _ _ _ Hp).
    + split; [exact (numbered_NoDup _ _ Hf) |].
      intros x. exact (numbered_code _ _ _ _ _ Hf).
Qed.

(* ----------------------------------------------------------------- *)
(** ** The construction, factory by factory *)

Lemma node_ids_In (s : SupplyChainGenerator) (id : string) :
  In id (node_ids s) <->
  In id (group_ids s) \/ In id (family_ids s) \/ In id (offering_ids s) \/
  In id (warehouse_ids s) \/ In id (supplier_ids s) \/ In id (part_ids s) \/
  In id (facility_ids s).
Proof.
  unfold node_ids, entity_ids. rewrite !in_app_iff.
  fold (group_ids s) (family_ids s) (offering_ids s) (warehouse_ids s)
       (supplier_ids s) (part_ids s) (facility_ids s).
  tauto.
Qed.

Lemma numbers_length (prefix : string) (i n : nat) :
  List.length (numbers prefix i n) = n.
Proof. unfold numbers. now rewrite length_map, length_seq. Qed.

Lemma numbered_of_Permutation (prefix : string) (ids : list string) (n : nat) :
  Permutation ids (numbers prefix 1 n) ->
  numbered prefix ids /\ List.length ids = n.
Proof.
  intros H. pose proof (Permutation_length H) as Hl.
  rewrite numbers_length in Hl. split; [| exact Hl].
  unfold numbered. now rewrite Hl.
Qed.

Lemma numbered_nil (prefix : string) : numbered prefix [].
Proof. unfold numbered, numbers. cbn. constructor. Qed.

Lemma frame_log (s s' : SupplyChainGenerator) :
  construction_frame s s' ->
  Forall (construction_record (version s) (timestamp s)) (operations_log s) ->
  Forall (construction_record (version s') (timestamp s')) (operations_log s').
Proof.
  intros (Hs & _ & (recs & Hl & Hr) & _) H.
  destruct (settings_version s s' Hs) as (-> & ->). rewrite Hl.
  apply Forall_app. now split.
Qed.

Lemma frame_distribution (s s' : SupplyChainGenerator) :
  construction_frame s s' -> distribution s' = distribution s.
Proof. intros (Hs & _). unfold settings in Hs. now injection Hs. Qed.

(** A stretch of a factory loop keeps the graph and the tables in step. *)
Lemma made_accounted {X : Type} (prefix : string)
  (ids_of : SupplyChainGenerator -> list string)
  (other : SupplyChainGenerator -> X) (count : nat)
  (s s' : SupplyChainGenerator) (r r' : RandomSource) (i i' : nat) :
  made prefix ids_of other count (s, r, i) (s', r', i') ->
  (forall id, In id (node_ids s') <->
              In id (node_ids s) \/ In id (numbers prefix i count)) ->
  accounted s -> accounted s'.
Proof.
  intros (_ & _ & Hn & Hi & Hd & _ & _ & _ & _ & Hkept & _) Hids (Hnd & Hacc).
  split; [auto |]. intros id. rewrite Hids. split.
  - intros H. apply Hi in H. apply in_app_or in H.
    destruct H as [H | H]; [left; now apply Hacc | now right].
  - intros [H | H].
    + apply dict_mem_In_keys, Hkept, dict_mem_In_keys. now apply Hacc.
    + apply dict_mem_In_keys. now apply Hn.
Qed.

Lemma ids_grow (ids ids' new : list string) :
  Permutation ids' (ids ++ new) ->
  forall id, In id ids' <-> In id ids \/ In id new.
Proof.
  intros H id. rewrite <- in_app_iff. split; intros Hin.
  - exact (Permutation_in id H Hin).
  - exact (Permutation_in id (Permutation_sym H) Hin).
Qed.

Ltac same_tables Ho :=
  unfold without_group, without_families, without_offerings,
    without_suppliers, without_warehouses, without_facilities, without_parts
    in Ho;
  injection Ho; intros.

Ltac unfold_ids :=
  unfold group_ids, family_ids, offering_ids, supplier_ids, warehouse_ids,
    facility_ids, part_ids in *.

Ltac carry :=
  repeat match goal with
         | H : ?f ?s' = ?f ?s |- _ => rewrite H in *; clear H
         end.

Lemma parts_assembled (cfg : Config) (s : SupplyChainGenerator)
  (rnd : RandomSource) (s' : SupplyChainGenerator) (rnd' : RandomSource) :
  assembled cfg 4 s ->
  _generate_parts cfg s rnd = Ok (s', rnd') ->
  assembled cfg 5 s'.
Proof.
  intros (Hacc & Hid & Hlog & A1 & A2 & A3 & A4 & A5) H.
  cbn [Nat.ltb Nat.leb] in *.
  apply generate_parts_made in H. destruct H as (i & H).
  pose proof H as (_ & Hp & _ & _ & _ & Hcr & Hkeys & Ho & Hframe).
  assert (Hempty : part_ids s = []) by (unfold part_ids; now rewrite A5).
  rewrite Hempty in Hp. cbn [app] in Hp.
  destruct (numbered_of_Permutation _ _ _ Hp) as (Hnum & Hlen).
  unfold part_ids in Hlen. rewrite length_map in Hlen.
  pose proof (frame_distribution _ _ Hframe) as Hdist.
  pose proof (frame_log _ _ Hframe Hlog) as Hlog'.
  assert (Hacc' : accounted s').
  { refine (made_accounted _ _ _ _ _ _ _ _ _ _ H _ Hacc).
    intros id. rewrite !node_ids_In. rewrite (ids_grow [] _ _ Hp id).
    rewrite Hempty. same_tables Ho. unfold_ids. carry. cbn [In]. tauto. }
  destruct Hid as (I0 & I1 & I2 & I3 & I4 & I5 & I6).
  destruct A1 as (B1 & B2 & B3).
  split; [exact Hacc' |]. split; [| split; [exact Hlog' |]];
    same_tables Ho; unfold identified; unfold_ids;
    cbn [Nat.ltb Nat.leb]; rewrite ?Hdist; carry;
    repeat split; assumption.
Qed.

Lemma facilities_assembled (cfg : Config) (s : SupplyChainGenerator)
  (rnd : RandomSource) (s' : SupplyChainGenerator) (rnd' : RandomSource) :
  assembled cfg 3 s ->
  _generate_facilities cfg s rnd = Ok (s', rnd') ->
  assembled cfg 4 s'.
Proof.
  intros (Hacc & Hid & Hlog & A1 & A2 & A3 & A4 & A5) H.
  cbn [Nat.ltb Nat.leb] in *.
  apply generate_facilities_made in H. destruct H as (i & H).
  pose proof H as (_ & Hp & _ & _ & _ & Hcr & Hkeys & Ho & Hframe).
  assert (Hempty : facility_ids s = [])
    by (unfold facility_ids; now rewrite A4).
  rewrite Hempty in Hp. cbn [app] in Hp.
  destruct (numbered_of_Permutation _ _ _ Hp) as (Hnum & Hlen).
  unfold facility_ids in Hlen. rewrite length_map in Hlen.
  pose proof (frame_distribution _ _ Hframe) as Hdist.
  pose proof (frame_log _ _ Hframe Hlog) as Hlog'.
  assert (Hacc' : accounted s').
  { refine (made_accounted _ _ _ _ _ _ _ _ _ _ H _ Hacc).
    intros id. rewrite !node_ids_In. rewrite (ids_grow [] _ _ Hp id).
    rewrite Hempty. same_tables Ho. unfold_ids. carry. cbn [In]. tauto. }
  destruct Hid as (I0 & I1 & I2 & I3 & I4 & I5 & I6).
  destruct A1 as (B1 & B2 & B3).
  split; [exact Hacc' |]. split; [| split; [exact Hlog' |]];
    same_tables Ho; unfold identified; unfold_ids;
    cbn [Nat.ltb Nat.leb]; rewrite ?Hdist; carry;
    repeat split; assumption.
Qed.

Lemma warehouses_assembled (cfg : Config) (s : SupplyChainGenerator)
  (rnd : RandomSource) (s' : SupplyChainGenerator) (rnd' : RandomSource) :
  assembled cfg 2 s ->
  _generate_warehouses cfg s rnd = Ok (s', rnd') ->
  assembled cfg 3 s'.
Proof.
  intros (Hacc & Hid & Hlog & A1 & A2 & A3 & A4 & A5) H.
  cbn [Nat.ltb Nat.leb] in *.
  apply generate_warehouses_made in H. destruct H as (i & H).
  pose proof H as (_ & Hp & _ & _ & _ & Hcr & Hkeys & Ho & Hframe).
  assert (Hempty : warehouse_ids s = [])
    by (unfold warehouse_ids; now rewrite A3).
  rewrite Hempty in Hp. cbn [app] in Hp.
  destruct (numbered_of_Permutation _ _ _ Hp) as (Hnum & Hlen).
  unfold warehouse_ids in Hlen. rewrite length_map in Hlen.
  pose proof (frame_distribution _ _ Hframe) as Hdist.
  pose proof (frame_log _ _ Hframe Hlog) as Hlog'.
  assert (Hacc' : accounted s').
  { refine (made_accounted _ _ _ _ _ _ _ _ _ _ H _ Hacc).
    intros id. rewrite !node_ids_In. rewrite (ids_grow [] _ _ Hp id).
    rewrite Hempty. same_tables Ho. unfold_ids. carry. cbn [In]. tauto. }
  destruct Hid as (I0 & I1 & I2 & I3 & I4 & I5 & I6).
  destruct A1 as (B1 & B2 & B3).
  split; [exact Hacc' |]. split; [| split; [exact Hlog' |]];
    same_tables Ho; unfold identified; unfold_ids;
    cbn [Nat.ltb Nat.leb]; rewrite ?Hdist; carry;
    repeat split; assumption.
Qed.

Lemma suppliers_assembled (cfg : Config) (s : SupplyChainGenerator)
  (rnd : RandomSource) (s' : SupplyChainGenerator) (rnd' : RandomSource) :
  assembled cfg 1 s ->
  _generate_suppliers cfg s rnd = Ok (s', rnd') ->
  assembled cfg 2 s'.
Proof.
  intros (Hacc & Hid & Hlog & A1 & A2 & A3 & A4 & A5) H.
  cbn [Nat.ltb Nat.leb] in *.
  apply generate_suppliers_made in H. destruct H as (i & H).
  pose proof H as (_ & Hp & _ & _ & _ & Hcr & Hkeys & Ho & Hframe).
  assert (Hempty : supplier_ids s = [])
    by (unfold supplier_ids; now rewrite A2).
  rewrite Hempty in Hp. cbn [app] in Hp.
  destruct (numbered_of_Permutation _ _ _ Hp) as (Hnum & Hlen).
  unfold supplier_ids in Hlen. rewrite length_map in Hlen.
  pose proof (frame_distribution _ _ Hframe) as Hdist.
  pose proof (frame_log _ _ Hframe Hlog) as Hlog'.
  assert (Hacc' : accounted s').
  { refine (made_accounted _ _ _ _ _ _ _ _ _ _ H _ Hacc).
    intros id. rewrite !node_ids_In. rewrite (ids_grow [] _ _ Hp id).
    rewrite Hempty. same_tables Ho. unfold_ids. carry. cbn [In]. tauto. }
  destruct Hid as (I0 & I1 & I2 & I3 & I4 & I5 & I6).
  destruct A1 as (B1 & B2 & B3).
  split; [exact Hacc' |]. split; [| split; [exact Hlog' |]];
    same_tables Ho; unfold identified; unfold_ids;
    cbn [Nat.ltb Nat.leb]; rewrite ?Hdist; carry;
    repeat split; assumption.
Qed.

(** The families are made in the order of the configuration. *)
Lemma generate_families_names (cfg : Config) :
  forall (l : list string) (st st' : FactoryState),
  foldM (generate_family cfg) l st = Ok st' ->
  map pf_name (product_families (fst (fst st')))
  = map pf_name (product_families (fst (fst st))) ++ l.
Proof.
  induction l as [|x r IH]; intros st st' H.
  - apply Ok_inj in H. subst st'. now rewrite app_nil_r.
  - cbn [foldM] in H. bind_inv H. rewrite (IH _ _ H).
    destruct st as [[s rnd] i]. unfold generate_family in E.
    destruct (uniform_range (COST_RANGE cfg) rnd) as [revenue r1].
    apply Ok_inj in E. subst a. cbn [fst product_families with_entities
      with_G with_log _log_node_operation pf_name].
    rewrite map_app, <- app_assoc. reflexivity.
Qed.

Lemma offerings_of_names (cfg : Config) (l : list ProductFamily) :
  list_sum (map (offerings_of cfg) l)
  = list_sum
      (map (fun name =>
              List.length (get_default (PRODUCT_OFFERINGS cfg) name []))
         (map pf_name l)).
Proof. now rewrite map_map. Qed.

Lemma hierarchy_assembled (cfg : Config) (s : SupplyChainGenerator)
  (rnd : RandomSource) (s' : SupplyChainGenerator) (rnd' : RandomSource) :
  assembled cfg 0 s ->
  _generate_business_hierarchy cfg s rnd = Ok (s', rnd') ->
  assembled cfg 1 s'.
Proof.
  intros (Hacc & Hid & Hlog & (B1 & B2 & B3) & A2 & A3 & A4 & A5) H.
  cbn [Nat.ltb Nat.leb] in *.
  unfold _generate_business_hierarchy in H.
  destruct (uniform_range (COST_RANGE cfg) rnd) as [revenue rnd1].
  bind_inv H. destruct a as [[s4 rnd2] i4].
  bind_inv H. destruct a as [[s5 rnd3] i5].
  apply Ok_inj in H. injection H as <- <-.
  match type of E with
  | foldM _ _ (?x, _, _) = _ => set (s3 := x) in *
  end.
  assert (M3 : made "BG_" group_ids without_group 1
                 (s, rnd, 1%nat) (s3, rnd1, 2%nat)).
  { eapply made_one; try reflexivity.
    unfold group_ids. rewrite B1. reflexivity. }
  assert (Hg3 : group_ids s3 = ["BG_001"]) by reflexivity.
  assert (Hb3 : business_group s3 <> None) by discriminate.
  assert (Hi3 : match business_group s3 with
                | Some b => bg_id b = "BG_001"
                | None => True
                end) by reflexivity.
  assert (Hpf3 : product_families s3 = product_families s) by reflexivity.
  assert (Hpo3 : product_offerings s3 = product_offerings s) by reflexivity.
  assert (Hsu3 : suppliers s3 = suppliers s) by reflexivity.
  assert (Hwa3 : warehouses s3 = warehouses s) by reflexivity.
  assert (Hfa3 : facilities s3 = facilities s) by reflexivity.
  assert (Hpa3 : parts s3 = parts s) by reflexivity.
  clearbody s3.
  pose proof (generate_families_names cfg _ _ _ E) as Hnames.
  cbn [fst] in Hnames. rewrite Hpf3, B2 in Hnames. cbn [map app] in Hnames.
  apply generate_families_made in E. apply generate_offerings_made in E0.
  pose proof M3 as (_ & _ & _ & _ & _ & Hcr3 & Hk3 & _ & Hf3).
  pose proof E as (_ & Hp4 & _ & _ & _ & Hcr4 & Hk4 & Ho4 & Hf4).
  pose proof E0 as (_ & Hp5 & _ & _ & _ & Hcr5 & Hk5 & Ho5 & Hf5).
  unfold without_families in Ho4. injection Ho4 as Hbg4 Hpo4 Hsu4 Hwa4 Hfa4
    Hpa4.
  unfold without_offerings in Ho5. injection Ho5 as Hbg5 Hpf5 Hsu5 Hwa5 Hfa5
    Hpa5.
  assert (He4 : family_ids s3 = [])
    by (unfold family_ids; now rewrite Hpf3, B2).
  rewrite He4 in Hp4. cbn [app] in Hp4.
  assert (He5 : offering_ids s4 = [])
    by (unfold offering_ids; now rewrite Hpo4, Hpo3, B3).
  rewrite He5 in Hp5. cbn [app] in Hp5.
  destruct (numbered_of_Permutation _ _ _ Hp4) as (Hn4 & _).
  destruct (numbered_of_Permutation _ _ _ Hp5) as (Hn5 & Hl5).
  unfold offering_ids in Hl5. rewrite length_map in Hl5.
  rewrite offerings_of_names, Hnames in Hl5.
  assert (Hacc3 : accounted s3).
  { refine (made_accounted _ _ _ _ _ _ _ _ _ _ M3 _ Hacc).
    intros id. rewrite !node_ids_In. rewrite Hg3.
    unfold group_ids, family_ids, offering_ids, supplier_ids, warehouse_ids,
      facility_ids, part_ids.
    rewrite B1, Hpf3, Hpo3, Hsu3, Hwa3, Hfa3, Hpa3.
    cbn [In numbers seq map].
    change (format_id "BG_" 1) with "BG_001". tauto. }
  assert (Hacc4 : accounted s4).
  { refine (made_accounted _ _ _ _ _ _ _ _ _ _ E _ Hacc3).
    intros id. rewrite !node_ids_In. rewrite (ids_grow [] _ _ Hp4 id).
    rewrite He4.
    unfold group_ids, offering_ids, supplier_ids, warehouse_ids,
      facility_ids, part_ids.
    rewrite Hbg4, Hpo4, Hsu4, Hwa4, Hfa4, Hpa4. cbn [In]. tauto. }
  assert (Hacc5 : accounted s5).
  { refine (made_accounted _ _ _ _ _ _ _ _ _ _ E0 _ Hacc4).
    intros id. rewrite !node_ids_In. rewrite (ids_grow [] _ _ Hp5 id).
    rewrite He5.
    unfold group_ids, family_ids, supplier_ids, warehouse_ids,
      facility_ids, part_ids.
    rewrite Hbg5, Hpf5, Hsu5, Hwa5, Hfa5, Hpa5. cbn [In]. tauto. }
  pose proof (frame_log _ _ Hf5 (frame_log _ _ Hf4 (frame_log _ _ Hf3 Hlog)))
    as Hlog5.
  destruct Hid as (I0 & I1 & I2 & I3 & I4 & I5 & I6).
  split; [exact Hacc5 |]. split; [| split; [exact Hlog5 |]].
  - unfold identified. unfold family_ids in Hn4. unfold offering_ids in Hn5.
    unfold_ids.
    rewrite Hbg5, Hbg4, Hpf5, Hsu5, Hsu4, Hsu3, Hwa5, Hwa4, Hwa3,
      Hfa5, Hfa4, Hfa3, Hpa5, Hpa4, Hpa3.
    repeat split; assumption.
  - cbn [Nat.ltb Nat.leb].
    rewrite Hbg5, Hbg4, Hpf5, Hsu5, Hsu4, Hsu3, Hwa5, Hwa4, Hwa3,
      Hfa5, Hfa4, Hfa3, Hpa5, Hpa4, Hpa3.
    repeat split; assumption.
Qed.

(* ----------------------------------------------------------------- *)
(** ** The invariant of the generated generators *)

Lemma init_assembled (cfg : Config) (total : Z) (periods : nat)
  (ver : string) (s : SupplyChainGenerator) :
  __init__ total periods ver = Ok s -> assembled cfg 0 s.
Proof.
  unfold __init__. intros H. bind_inv H. apply Ok_inj in H. subst s.
  unfold assembled, accounted, identified. cbn.
  repeat split; try constructor; try apply numbered_nil; auto;
    try (intros []).
Qed.

Lemma tables_node_ids (s s' : SupplyChainGenerator) :
  tables s' = tables s -> node_ids s' = node_ids s.
Proof.
  unfold tables. intros H. injection H as Hsu Hwa Hfa Hpa Hpo Hpf Hbg.
  unfold node_ids, entity_ids. now rewrite Hsu, Hwa, Hfa, Hpa, Hpo, Hpf, Hbg.
Qed.

Lemma tables_identified (s s' : SupplyChainGenerator) :
  tables s' = tables s -> identified s -> identified s'.
Proof.
  unfold tables. intros H. injection H as Hsu Hwa Hfa Hpa Hpo Hpf Hbg.
  unfold identified. unfold_ids.
  now rewrite Hsu, Hwa, Hfa, Hpa, Hpo, Hpf, Hbg.
Qed.

Lemma accounted_complete (s : SupplyChainGenerator) :
  accounted s -> nodes_complete s.
Proof.
  intros (_ & H) id Hid. apply dict_mem_In_keys. now apply H.
Qed.

(** The wiring and the distances keep the assembled state. *)
Lemma wired_assembled (cfg : Config) (s s' : SupplyChainGenerator) :
  wired s s' -> assembled cfg 5 s -> assembled cfg 5 s'.
Proof.
  intros ((Ht & Hframe) & Hk & _)
    ((Hnd & Hacc) & Hid & Hlog & A1 & A2 & A3 & A4 & A5).
  pose proof (tables_node_ids _ _ Ht) as Hids.
  pose proof (tables_identified _ _ Ht Hid) as Hid'.
  pose proof (frame_distribution _ _ Hframe) as Hdist.
  pose proof (frame_log _ _ Hframe Hlog) as Hlog'.
  unfold tables in Ht. injection Ht as Hsu Hwa Hfa Hpa Hpo Hpf Hbg.
  cbn [Nat.ltb Nat.leb] in *.
  split; [| split; [exact Hid' | split; [exact Hlog' |]]].
  - split; [now rewrite Hk |]. intros id. now rewrite Hk, Hids.
  - cbn [Nat.ltb Nat.leb].
    rewrite Hsu, Hwa, Hfa, Hpa, Hpo, Hpf, Hbg, Hdist. tauto.
Qed.

Lemma assembled_group (cfg : Config) (s : SupplyChainGenerator) :
  assembled cfg 5 s -> In "BG_001" (node_ids s).
Proof.
  intros (_ & (Hbg & _) & _ & (Hsome & _) & _).
  unfold node_ids, entity_ids. apply in_or_app. left. apply in_or_app. left.
  destruct (business_group s) as [b|]; [| now elim Hsome].
  rewrite Hbg. now left.
Qed.

Lemma generate_edges_wired (cfg : Config) (s : SupplyChainGenerator)
  (rnd : RandomSource) (s' : SupplyChainGenerator) (rnd' : RandomSource) :
  assembled cfg 5 s ->
  _generate_edges cfg s rnd = Ok (s', rnd') ->
  wired s s'.
Proof.
  intros A H. unfold _generate_edges in H.
  bind_inv H. destruct a as [s1 r1]. bind_inv H. destruct a as [s2 r2].
  bind_inv H. destruct a as [s3 r3]. bind_inv H. destruct a as [s4 r4].
  bind_inv H. apply Ok_inj in H. injection H as <- <-.
  assert (W1 : wired s s1).
  { eapply connect_suppliers_to_warehouses_wired; [| | exact E].
    - apply accounted_complete, A.
    - apply A. }
  pose proof (wired_assembled cfg _ _ W1 A) as A1.
  assert (W2 : wired s1 s2).
  { eapply connect_warehouses_to_parts_wired; [| | exact E0].
    - apply accounted_complete, A1.
    - apply A1. }
  pose proof (wired_assembled cfg _ _ W2 A1) as A2.
  assert (W3 : wired s2 s3).
  { eapply connect_parts_to_facilities_wired; [| | exact E1].
    - apply accounted_complete, A2.
    - apply A2. }
  pose proof (wired_assembled cfg _ _ W3 A2) as A3.
  assert (W4 : wired s3 s4).
  { eapply connect_facilities_to_products_wired; [| | exact E2].
    - apply accounted_complete, A3.
    - apply A3. }
  pose proof (wired_assembled cfg _ _ W4 A3) as A4.
  assert (W5 : wired s4 a).
  { eapply connect_hierarchy_wired; [| | | exact E3].
    - apply accounted_complete, A4.
    - apply A4.
    - intros _. exact (assembled_group cfg s4 A4). }
  exact (wired_trans _ _ _ (wired_trans _ _ _ (wired_trans _ _ _
           (wired_trans _ _ _ W1 W2) W3) W4) W5).
Qed.

Lemma generate_business_hierarchy_frame (cfg : Config)
  (s : SupplyChainGenerator) (rnd : RandomSource)
  (s' : SupplyChainGenerator) (rnd' : RandomSource) :
  _generate_business_hierarchy cfg s rnd = Ok (s', rnd') ->
  construction_frame s s'.
Proof.
  unfold _generate_business_hierarchy. intros H.
  destruct (uniform_range (COST_RANGE cfg) rnd) as [revenue rnd1].
  bind_inv H. destruct a as [[s4 rnd2] i4].
  bind_inv H. destruct a as [[s5 rnd3] i5].
  apply Ok_inj in H. injection H as <- <-.
  apply generate_families_made in E. apply generate_offerings_made in E0.
  destruct E as (_ & _ & _ & _ & _ & _ & _ & _ & F4).
  destruct E0 as (_ & _ & _ & _ & _ & _ & _ & _ & F5).
  eapply construction_frame_trans; [| exact F5].
  eapply construction_frame_trans; [| exact F4].
  eapply frame_node_created; reflexivity.
Qed.

(* ----------------------------------------------------------------- *)
(** ** The order of the nodes *)

Lemma node_order_code (cfg : Config) (d : Distribution) (k : nat)
  (id : string) :
  In id (node_order cfg d k) ->
  ((1 <= k)%nat /\
   (table_code id = "BG" \/ table_code id = "PF" \/ table_code id = "PO")) \/
  ((2 <= k)%nat /\ table_code id = "S_") \/
  ((3 <= k)%nat /\ table_code id = "W_") \/
  ((4 <= k)%nat /\ table_code id = "F_") \/
  ((5 <= k)%nat /\ table_code id = "P_").
Proof.
  unfold node_order. rewrite !in_app_iff. intros Hin.
  destruct (Nat.leb_spec 1 k) as [L1 | L1],
    (Nat.leb_spec 2 k) as [L2 | L2], (Nat.leb_spec 3 k) as [L3 | L3],
    (Nat.leb_spec 4 k) as [L4 | L4], (Nat.leb_spec 5 k) as [L5 | L5];
    rewrite ?in_app_iff in Hin; cbn [In] in Hin;
    repeat destruct Hin as [Hin | Hin]; try contradiction;
    first [ subst id; left; split; [assumption | left; reflexivity]
          | apply numbers_code in Hin; tauto ].
Qed.

Ltac fresh_in_order Hord :=
  let id := fresh "id" in
  let Hid := fresh "Hid" in
  let Hin := fresh "Hin" in
  intros id Hid Hin; apply numbers_code in Hid; rewrite Hord in Hin;
  apply node_order_code in Hin;
  repeat match goal with
         | H : _ \/ _ |- _ => destruct H as [H | H]
         | H : _ /\ _ |- _ => destruct H
         end;
  try lia;
  match goal with
  | C : table_code _ = _, C' : table_code _ = _ |- _ =>
      rewrite C in C'; discriminate C'
  end.

Ltac next_in_order :=
  unfold node_order; cbn [Nat.leb];
  rewrite ?app_nil_r, <- ?app_assoc; reflexivity.

Lemma init_in_order (cfg : Config) (total : Z) (periods : nat)
  (ver : string) (s : SupplyChainGenerator) :
  __init__ total periods ver = Ok s -> in_order cfg 0 s.
Proof.
  unfold __init__. intros H. bind_inv H. apply Ok_inj in H. subst s.
  split; reflexivity.
Qed.

Lemma parts_in_order (cfg : Config) (s : SupplyChainGenerator)
  (rnd : RandomSource) (s' : SupplyChainGenerator) (rnd' : RandomSource) :
  in_order cfg 4 s ->
  _generate_parts cfg s rnd = Ok (s', rnd') ->
  in_order cfg 5 s'.
Proof.
  intros (Hord & Hcn) H.
  apply generate_parts_made in H.
  destruct H as (i & _ & _ & _ & _ & _ & Hcr & Hkeys & _ & Hframe).
  pose proof (frame_distribution _ _ Hframe) as Hdist.
  assert (Hfresh : forall id,
             In id (numbers "P_" 1
                      (planned (parts_distribution (distribution s)))) ->
             ~ In id (keys (_node (G s)))) by fresh_in_order Hord.
  specialize (Hkeys Hfresh).
  split; [rewrite Hkeys, Hord, Hdist; next_in_order |].
  rewrite Hcr, Hcn. symmetry. exact Hkeys.
Qed.

Lemma facilities_in_order (cfg : Config) (s : SupplyChainGenerator)
  (rnd : RandomSource) (s' : SupplyChainGenerator) (rnd' : RandomSource) :
  in_order cfg 3 s ->
  _generate_facilities cfg s rnd = Ok (s', rnd') ->
  in_order cfg 4 s'.
Proof.
  intros (Hord & Hcn) H.
  apply generate_facilities_made in H.
  destruct H as (i & _ & _ & _ & _ & _ & Hcr & Hkeys & _ & Hframe).
  pose proof (frame_distribution _ _ Hframe) as Hdist.
  assert (Hfresh : forall id,
             In id (numbers "F_" 1
                      (planned (facility_distribution (distribution s)))) ->
             ~ In id (keys (_node (G s)))) by fresh_in_order Hord.
  specialize (Hkeys Hfresh).
  split; [rewrite Hkeys, Hord, Hdist; next_in_order |].
  rewrite Hcr, Hcn. symmetry. exact Hkeys.
Qed.

Lemma warehouses_in_order (cfg : Config) (s : SupplyChainGenerator)
  (rnd : RandomSource) (s' : SupplyChainGenerator) (rnd' : RandomSource) :
  in_order cfg 2 s ->
  _generate_warehouses cfg s rnd = Ok (s', rnd') ->
  in_order cfg 3 s'.
Proof.
  intros (Hord & Hcn) H.
  apply generate_warehouses_made in H.
  destruct H as (i & _ & _ & _ & _ & _ & Hcr & Hkeys & _ & Hframe).
  pose proof (frame_distribution _ _ Hframe) as Hdist.
  assert (Hfresh : forall id,
             In id (numbers "W_" 1
                      (planned (warehouse_distribution (distribution s)))) ->
             ~ In id (keys (_node (G s)))) by fresh_in_order Hord.
  specialize (Hkeys Hfresh).
  split; [rewrite Hkeys, Hord, Hdist; next_in_order |].
  rewrite Hcr, Hcn. symmetry. exact Hkeys.
Qed.

Lemma suppliers_in_order (cfg : Config) (s : SupplyChainGenerator)
  (rnd : RandomSource) (s' : SupplyChainGenerator) (rnd' : RandomSource) :
  in_order cfg 1 s ->
  _generate_suppliers cfg s rnd = Ok (s', rnd') ->
  in_order cfg 2 s'.
Proof.
  intros (Hord & Hcn) H.
  apply generate_suppliers_made in H.
  destruct H as (i & _ & _ & _ & _ & _ & Hcr & Hkeys & _ & Hframe).
  pose proof (frame_distribution _ _ Hframe) as Hdist.
  assert (Hfresh : forall id,
             In id (numbers "S_" 1
                      (planned (supplier_distribution (distribution s)))) ->
             ~ In id (keys (_node (G s)))) by fresh_in_order Hord.
  specialize (Hkeys Hfresh).
  split; [rewrite Hkeys, Hord, Hdist; next_in_order |].
  rewrite Hcr, Hcn. symmetry. exact Hkeys.
Qed.

Lemma hierarchy_in_order (cfg : Config) (s : SupplyChainGenerator)
  (rnd : RandomSource) (s' : SupplyChainGenerator) (rnd' : RandomSource) :
  product_families s = [] -> in_order cfg 0 s ->
  _generate_business_hierarchy cfg s rnd = Ok (s', rnd') ->
  in_order cfg 1 s'.
Proof.
  intros Hnone (Hord & Hcn) H.
  unfold _generate_business_hierarchy in H.
  destruct (uniform_range (COST_RANGE cfg) rnd) as [revenue rnd1].
  bind_inv H. destruct a as [[s4 rnd2] i4].
  bind_inv H. destruct a as [[s5 rnd3] i5].
  apply Ok_inj in H. injection H as <- <-.
  match type of E with
  | foldM _ _ (?x, _, _) = _ => set (s3 := x) in *
  end.
  assert (K3 : keys (_node (G s3)) = ["BG_001"]).
  { unfold s3. cbn [G with_G]. rewrite add_node_keys.
    cbn [G _log_node_operation with_log with_entities].
    destruct (dict_mem (_node (G s)) "BG_001") eqn:Em.
    - apply dict_mem_In_keys in Em. rewrite Hord in Em. destruct Em.
    - now rewrite Hord. }
  assert (C3 : created_nodes (operations_log s3) = ["BG_001"]).
  { unfold s3.
    cbn [operations_log with_G _log_node_operation with_log with_entities].
    unfold created_nodes in *. rewrite flat_map_app, Hcn, Hord. reflexivity. }
  assert (Hpf3 : product_families s3 = product_families s) by reflexivity.
  assert (Hd3 : distribution s3 = distribution s) by reflexivity.
  clearbody s3.
  pose proof (generate_families_names cfg _ _ _ E) as Hnames.
  cbn [fst] in Hnames. rewrite Hpf3, Hnone in Hnames.
  cbn [map app] in Hnames.
  apply generate_families_made in E. apply generate_offerings_made in E0.
  destruct E as (_ & _ & _ & _ & _ & Hcr4 & Hk4 & _ & Hf4).
  destruct E0 as (_ & _ & _ & _ & _ & Hcr5 & Hk5 & _ & Hf5).
  rewrite offerings_of_names, Hnames in Hcr5, Hk5.
  fold (offerings_configured cfg) in Hcr5, Hk5.
  pose proof (frame_distribution _ _ Hf4) as Hd4.
  pose proof (frame_distribution _ _ Hf5) as Hd5.
  assert (Hfresh4 : forall id,
             In id (numbers "PF_" 1 (List.length (PRODUCT_FAMILIES cfg))) ->
             ~ In id (keys (_node (G s3)))).
  { intros id Hid Hin. apply numbers_code in Hid. rewrite K3 in Hin.
    destruct Hin as [<- | []]. discriminate Hid. }
  specialize (Hk4 Hfresh4).
  assert (Hfresh5 : forall id,
             In id (numbers "PO_" 1 (offerings_configured cfg)) ->
             ~ In id (keys (_node (G s4)))).
  { intros id Hid Hin. apply numbers_code in Hid. rewrite Hk4, K3 in Hin.
    apply in_app_or in Hin. destruct Hin as [[<- | []] | Hin];
      [discriminate Hid |].
    apply numbers_code in Hin. rewrite Hin in Hid. discriminate Hid. }
  specialize (Hk5 Hfresh5).
  split.
  - rewrite Hk5, Hk4, K3. unfold node_order. cbn [Nat.leb].
    rewrite ?app_nil_r, <- ?app_assoc. reflexivity.
  - rewrite Hcr5, Hcr4, C3, Hk5, Hk4, K3. reflexivity.
Qed.

Lemma wired_in_order (cfg : Config) (s s' : SupplyChainGenerator) :
  wired s s' -> in_order cfg 5 s -> in_order cfg 5 s'.
Proof.
  intros ((_ & Hframe) & Hk & Hc) (Hord & Hcn).
  pose proof (frame_distribution _ _ Hframe) as Hdist.
  split; [now rewrite Hk, Hdist | now rewrite Hc, Hk].
Qed.

(** The construction part of [generate_data], on a new generator. *)
Lemma generate_data_assembled (cfg : Config) (total : Z) (periods : nat)
  (ver : string) (s0 : SupplyChainGenerator) (rnd : RandomSource)
  (s : SupplyChainGenerator) (rnd' : RandomSource) :
  __init__ total periods ver = Ok s0 ->
  generate_data cfg s0 rnd = Ok (s, rnd') ->
  exists s7 rnd7,
    assembled cfg 5 s7 /\ in_order cfg 5 s7 /\ temporal_graphs s7 = [] /\
    timestamp s7 = 0%nat /\ version s7 = ver /\
    generate_temporal_data cfg s7 rnd7 = Ok (s, rnd') /\
    exists s6 rnd6,
      assembled cfg 5 s6 /\ _calculate_distances cfg s6 rnd6 = Ok (s7, rnd7) /\
      construction_frame s0 s7.
Proof.
  intros Hinit H. pose proof (init_assembled cfg _ _ _ _ Hinit) as A0.
  assert (Hs0 : settings s0
                = ([], [], total, periods, 0%nat, distribution s0, ver, 0%nat)).
  { unfold __init__ in Hinit. bind_inv Hinit. apply Ok_inj in Hinit.
    now subst s0. }
  unfold generate_data in H.
  bind_inv H. destruct a as [s1 r1]. bind_inv H. destruct a as [s2 r2].
  bind_inv H. destruct a as [s3 r3]. bind_inv H. destruct a as [s4 r4].
  bind_inv H. destruct a as [s5 r5]. bind_inv H. destruct a as [s6 r6].
  bind_inv H. destruct a as [s7 r7].
  pose proof (hierarchy_assembled cfg _ _ _ _ A0 E) as A1.
  pose proof (suppliers_assembled cfg _ _ _ _ A1 E0) as A2.
  pose proof (warehouses_assembled cfg _ _ _ _ A2 E1) as A3.
  pose proof (facilities_assembled cfg _ _ _ _ A3 E2) as A4.
  pose proof (parts_assembled cfg _ _ _ _ A4 E3) as A5.
  pose proof (generate_edges_wired cfg _ _ _ _ A5 E4) as W6.
  pose proof (wired_assembled cfg _ _ W6 A5) as A6.
  assert (W7 : wired s6 s7).
  { eapply calculate_distances_wired. exact E5. }
  pose proof (wired_assembled cfg _ _ W7 A6) as A7.
  exists s7, r7. split; [exact A7 |]. split.
  { apply (wired_in_order cfg _ _ W7), (wired_in_order cfg _ _ W6).
    apply (parts_in_order cfg _ _ _ _) with (2 := E3).
    apply (facilities_in_order cfg _ _ _ _) with (2 := E2).
    apply (warehouses_in_order cfg _ _ _ _) with (2 := E1).
    apply (suppliers_in_order cfg _ _ _ _) with (2 := E0).
    apply (hierarchy_in_order cfg _ _ _ _) with (3 := E).
    - destruct A0 as (_ & _ & _ & (_ & Hnone & _) & _). exact Hnone.
    - exact (init_in_order cfg _ _ _ _ Hinit). }
  assert (F07 : construction_frame s0 s7).
  { destruct W7 as ((_ & F7) & _). destruct W6 as ((_ & F6) & _).
    clear - E E0 E1 E2 E3 F6 F7.
    apply generate_business_hierarchy_frame in E.
    apply generate_suppliers_made in E0. destruct E0 as (? & E0).
    apply generate_warehouses_made in E1. destruct E1 as (? & E1).
    apply generate_facilities_made in E2. destruct E2 as (? & E2).
    apply generate_parts_made in E3. destruct E3 as (? & E3).
    destruct E0 as (_ & _ & _ & _ & _ & _ & _ & _ & F1).
    destruct E1 as (_ & _ & _ & _ & _ & _ & _ & _ & F2).
    destruct E2 as (_ & _ & _ & _ & _ & _ & _ & _ & F3).
    destruct E3 as (_ & _ & _ & _ & _ & _ & _ & _ & F4).
    repeat (eapply construction_frame_trans; [| eassumption]).
    apply construction_frame_refl. }
  pose proof F07 as (Hs7 & _).
  rewrite Hs0 in Hs7. unfold settings in Hs7.
  injection Hs7 as Htg _ _ _ _ _ Hver Hts.
  split; [exact Htg |]. split; [exact Hts |]. split; [exact Hver |].
  split; [exact H |]. exists s6, r6.
  split; [exact A6 |]. split; [exact E5 | exact F07].
Qed.

Lemma assembled_constructed (cfg : Config) (s : SupplyChainGenerator) :
  assembled cfg 5 s -> temporal_graphs s = [] -> constructed cfg s.
Proof.
  intros (Hacc & Hid & _ & (B1 & B2 & B3) & A2 & A3 & A4 & A5) Htg.
  cbn [Nat.ltb Nat.leb] in *. unfold constructed.
  split; [exact Hacc |]. split; [exact Hid |].
  split; [| repeat split; assumption].
  intros t g Hg. rewrite Htg in Hg. discriminate Hg.
Qed.

Lemma same_entities_tables (s s' : SupplyChainGenerator) :
  same_entities s s' -> tables s' = tables s /\ distribution s' = distribution s.
Proof.
  intros (H1 & H2 & H3 & H4 & H5 & H6 & H7 & _ & _ & _ & H8).
  unfold tables. now rewrite H1, H2, H3, H4, H5, H6, H7.
Qed.

(** A generator with the same tables and the same graph. *)
Lemma constructed_same (cfg : Config) (s s' : SupplyChainGenerator) :
  tables s' = tables s -> distribution s' = distribution s -> G s' = G s ->
  constructed cfg s ->
  (forall t g, dict_get (temporal_graphs s') t = Some g ->
               keys (_node g) = keys (_node (G s))) ->
  constructed cfg s'.
Proof.
  intros Ht Hd HG ((Hnd & Hacc) & Hid & _ & B1 & B2 & B3 & A2 & A3 & A4 & A5)
    Hsnap.
  pose proof (tables_node_ids _ _ Ht) as Hids.
  pose proof (tables_identified _ _ Ht Hid) as Hid'.
  unfold tables in Ht. injection Ht as Hsu Hwa Hfa Hpa Hpo Hpf Hbg.
  unfold constructed, accounted.
  rewrite HG, Hids, Hsu, Hwa, Hfa, Hpa, Hpo, Hpf, Hbg, Hd.
  split; [split; assumption |]. split; [exact Hid' |].
  split; [exact Hsnap |]. repeat split; assumption.
Qed.

Lemma generate_temporal_data_constructed (cfg : Config)
  (self : SupplyChainGenerator) (rnd : RandomSource)
  (self' : SupplyChainGenerator) (rnd' : RandomSource) :
  constructed cfg self -> temporal_graphs self = [] ->
  generate_temporal_data cfg self rnd = Ok (self', rnd') ->
  constructed cfg self'.
Proof.
  intros Hc Htg H. apply generate_temporal_data_inv in H.
  destruct H as (recs & _ & _ & Hent & HG & _ & _ & H0 & Hin & Hout).
  destruct (same_entities_tables _ _ Hent) as (Ht & Hd).
  apply (constructed_same cfg self self' Ht Hd HG Hc).
  intros t g Hg.
  destruct (Nat.eq_dec t 0) as [-> | Hne].
  - rewrite H0 in Hg. now injection Hg as <-.
  - destruct (Nat.lt_ge_cases t (base_periods self)) as [Hlt | Hge].
    + destruct (Hin t ltac:(lia)) as (g0 & r & r' & Hg0 & Hrun).
      rewrite Hg0 in Hg. injection Hg as <-.
      apply period_run_spec in Hrun. apply Hrun.
    + rewrite (Hout t Hge Hne), Htg in Hg. discriminate Hg.
Qed.

Lemma simulate_next_period_constructed (cfg : Config)
  (self : SupplyChainGenerator) (rnd : RandomSource) (n : nat)
  (self' : SupplyChainGenerator) (rnd' : RandomSource) :
  constructed cfg self ->
  simulate_next_period cfg self rnd = Ok (n, self', rnd') ->
  constructed cfg self'.
Proof.
  intros Hc H. apply simulate_next_period_inv in H.
  destruct H as (k & g_k & g' & d' & _ & _ & Hk & Hrun & ->).
  apply constructed_same with (s := self);
    [reflexivity | reflexivity | reflexivity | exact Hc |].
  intros t g Hg. cbn [temporal_graphs with_temporal] in Hg.
  pose proof Hc as (_ & _ & Hsnap & _).
  rewrite dict_get_set in Hg. destruct (key_eqb n t).
  - injection Hg as <-. apply period_run_spec in Hrun.
    destruct Hrun as (Hkeys & _). rewrite Hkeys. exact (Hsnap k g_k Hk).
  - exact (Hsnap t g Hg).
Qed.

Lemma reachable_constructed (cfg : Config) (s : SupplyChainGenerator) :
  reachable cfg s -> constructed cfg s.
Proof.
  intros Hr. induction Hr.
  - destruct (generate_data_assembled cfg _ _ _ _ _ _ _ H H0)
      as (s7 & rnd7 & A7 & _ & Htg & _ & _ & Hgen & _).
    eapply generate_temporal_data_constructed; [| exact Htg | exact Hgen].
    now apply assembled_constructed.
  - eapply simulate_next_period_constructed; eassumption.
  - unfold regenerate_all_periods in H.
    eapply generate_temporal_data_constructed; [| | exact H]; [| reflexivity].
    apply constructed_same with (s := s);
      [reflexivity | reflexivity | reflexivity | exact IHHr |].
    intros t g Hg. discriminate Hg.
Qed.

Lemma number_of_nodes_keys (g : DiGraph) :
  number_of_nodes g = List.length (keys (_node g)).
Proof. unfold number_of_nodes, keys. now rewrite length_map. Qed.

Lemma node_ids_length (s : SupplyChainGenerator) :
  List.length (node_ids s)
  = (List.length (group_ids s) + List.length (product_families s) +
     List.length (product_offerings s) +
     List.length (all_values (warehouses s)) + List.length (suppliers s) +
     List.length (all_values (parts s)) +
     List.length (all_values (facilities s)))%nat.
Proof.
  unfold node_ids, entity_ids. fold (group_ids s).
  rewrite !length_app, !length_map. lia.
Qed.

Lemma accounted_Permutation (s : SupplyChainGenerator) :
  accounted s -> identified s ->
  Permutation (keys (_node (G s))) (node_ids s).
Proof.
  intros (Hnd & Hacc) Hid.
  apply NoDup_Permutation; [exact Hnd | now apply identified_NoDup | exact Hacc].
Qed.

(** The records of the evolution are updates. *)
Lemma regeneration_records_create_nothing (self : SupplyChainGenerator)
  (ts : nat) (recs : list operation) :
  Forall (regeneration_record self ts) recs -> created_nodes recs = [].
Proof.
  induction 1 as [|op r (t & _ & Hu & _) _ IH]; [reflexivity |].
  unfold created_nodes in *. cbn [flat_map]. rewrite IH, Hu.
  now destruct (op_payload op).
Qed.

Lemma generate_temporal_data_in_order (cfg : Config)
  (self : SupplyChainGenerator) (rnd : RandomSource)
  (self' : SupplyChainGenerator) (rnd' : RandomSource) :
  in_order cfg 5 self ->
  generate_temporal_data cfg self rnd = Ok (self', rnd') ->
  in_order cfg 5 self'.
Proof.
  intros (Hord & Hcn) H. apply generate_temporal_data_inv in H.
  destruct H as (recs & Hl & Hr & Hent & HG & _).
  destruct (same_entities_tables _ _ Hent) as (_ & Hd).
  apply regeneration_records_create_nothing in Hr.
  split; [now rewrite HG, Hd |].
  rewrite Hl, HG. unfold created_nodes in *.
  now rewrite flat_map_app, Hr, app_nil_r.
Qed.

Lemma reachable_in_order (cfg : Config) (s : SupplyChainGenerator) :
  reachable cfg s -> in_order cfg 5 s.
Proof.
  intros Hr. induction Hr.
  - destruct (generate_data_assembled cfg _ _ _ _ _ _ _ H H0)
      as (s7 & rnd7 & _ & O7 & _ & _ & _ & Hgen & _).
    eapply generate_temporal_data_in_order; [exact O7 | exact Hgen].
  - apply simulate_next_period_inv in H.
    destruct H as (k & g_k & g' & d' & _ & _ & _ & _ & ->). exact IHHr.
  - unfold regenerate_all_periods in H.
    eapply generate_temporal_data_in_order; [| exact H]. exact IHHr.
Qed.

(** X11.  In every generator that [generate_data] makes from a new
    generator, and in every one reached from it by incremental extensions
    and full resets, the entities follow the naming scheme of the
    factories: the business group is [BG_001], and the identifiers of each
    table are those formatted from the counters 1 to the size of the table
    behind the prefix of the table ([PF_], [PO_], [W_], [S_], [P_], [F_]).
    So no two entities of the tables share an identifier. *)
Theorem entity_identifiers_unique (cfg : Config) (s : SupplyChainGenerator) :
  reachable cfg s ->
  identified s /\ NoDup (node_ids s) /\ NoDup (entity_ids s).
Proof.
  intros Hr. apply reachable_constructed in Hr.
  destruct Hr as (_ & Hid & _).
  pose proof (identified_NoDup s Hid) as Hnd.
  split; [exact Hid |]. split; [exact Hnd |].
  unfold node_ids in Hnd. exact (proj1 (NoDup_app_inv _ _ Hnd)).
Qed.

Lemma entity_identifiers_unique_witness :
  identified demo_generated /\ NoDup (node_ids demo_generated) /\
  NoDup (entity_ids demo_generated).
Proof.
  exact (entity_identifiers_unique sample_config demo_generated
           demo_generated_reachable).
Defined.

(** X12.  In every such generator the factories have made what was
    planned: the product families are those of the configuration, in its
    order; there are as many product offerings as the configuration lists
    for these families; and the tables of suppliers, warehouses, facilities
    and parts each hold as many entities as the counts of their
    distribution add up to (a negative count adds nothing). *)
Theorem factories_make_planned_counts (cfg : Config)
  (s : SupplyChainGenerator) :
  reachable cfg s ->
  map pf_name (product_families s) = PRODUCT_FAMILIES cfg /\
  List.length (product_offerings s) = offerings_configured cfg /\
  List.length (suppliers s) = planned (supplier_distribution (distribution s)) /\
  List.length (all_values (warehouses s))
  = planned (warehouse_distribution (distribution s)) /\
  List.length (all_values (facilities s))
  = planned (facility_distribution (distribution s)) /\
  List.length (all_values (parts s))
  = planned (parts_distribution (distribution s)).
Proof.
  intros Hr. apply reachable_constructed in Hr.
  destruct Hr as (_ & _ & _ & _ & H). exact H.
Qed.

Lemma factories_make_planned_counts_witness :
  map pf_name (product_families demo_generated)
  = PRODUCT_FAMILIES sample_config /\
  List.length (product_offerings demo_generated)
  = offerings_configured sample_config /\
  List.length (suppliers demo_generated)
  = planned (supplier_distribution (distribution demo_generated)) /\
  List.length (all_values (warehouses demo_generated))
  = planned (warehouse_distribution (distribution demo_generated)) /\
  List.length (all_values (facilities demo_generated))
  = planned (facility_distribution (distribution demo_generated)) /\
  List.length (all_values (parts demo_generated))
  = planned (parts_distribution (distribution demo_generated)).
Proof.
  exact (factories_make_planned_counts sample_config demo_generated
           demo_generated_reachable).
Defined.

(** X13.  In every such generator the nodes of the graph are the entities
    of the tables, each once: the wiring passes and the distance pass add
    no node.  So [total_nodes] of [get_node_distribution] is 1, plus the
    number of configured families and offerings, plus the planned numbers
    of parts, suppliers, warehouses and facilities; and every stored
    snapshot has the nodes of the graph, in the same order. *)
Theorem graph_nodes_are_the_entities (cfg : Config)
  (s : SupplyChainGenerator) :
  reachable cfg s ->
  Permutation (keys (_node (G s))) (node_ids s) /\
  number_of_nodes (G s) = planned_nodes cfg (distribution s) /\
  forall t g, dict_get (temporal_graphs s) t = Some g ->
              keys (_node g) = keys (_node (G s)).
Proof.
  intros Hr. apply reachable_constructed in Hr.
  destruct Hr as (Hacc & Hid & Hsnap & Hbg & Hpf & Hpo & Hsu & Hwa & Hfa & Hpa).
  pose proof (accounted_Permutation s Hacc Hid) as Hperm.
  split; [exact Hperm |]. split; [| exact Hsnap].
  rewrite number_of_nodes_keys, (Permutation_length Hperm), node_ids_length.
  unfold planned_nodes. rewrite <- Hpf, length_map, Hpo, Hsu, Hwa, Hfa, Hpa.
  unfold group_ids. destruct (business_group s); [| now elim Hbg].
  cbn [List.length]. lia.
Qed.

Lemma graph_nodes_are_the_entities_witness :
  Permutation (keys (_node (G demo_generated))) (node_ids demo_generated) /\
  number_of_nodes (G demo_generated)
  = planned_nodes sample_config (distribution demo_generated) /\
  forall t g, dict_get (temporal_graphs demo_generated) t = Some g ->
              keys (_node g) = keys (_node (G demo_generated)).
Proof.
  exact (graph_nodes_are_the_entities sample_config demo_generated
           demo_generated_reachable).
Defined.

(** X14.  In every such generator the nodes of the graph are, in the order
    of their insertion: [BG_001]; the families [PF_001] on, as many as the
    configuration has; the offerings [PO_001] on, as many as are configured
    for these families; then the suppliers [S_001] on, the warehouses
    [W_001] on, the facilities [F_001] on and the parts [P_001] on, as many
    of each as its distribution plans.  The log records the creation of
    each of these nodes once, in the same order, and of no other node. *)
Theorem nodes_in_creation_order (cfg : Config) (s : SupplyChainGenerator) :
  reachable cfg s ->
  keys (_node (G s))
  = ["BG_001"] ++
    numbers "PF_" 1 (List.length (PRODUCT_FAMILIES cfg)) ++
    numbers "PO_" 1 (offerings_configured cfg) ++
    numbers "S_" 1 (planned (supplier_distribution (distribution s))) ++
    numbers "W_" 1 (planned (warehouse_distribution (distribution s))) ++
    numbers "F_" 1 (planned (facility_distribution (distribution s))) ++
    numbers "P_" 1 (planned (parts_distribution (distribution s))) /\
  created_nodes (operations_log s) = keys (_node (G s)).
Proof.
  intros Hr. apply reachable_in_order in Hr. destruct Hr as (Hord & Hcn).
  split; [| exact Hcn]. rewrite Hord. unfold node_order. cbn [Nat.leb].
  rewrite <- !app_assoc. reflexivity.
Qed.

Lemma nodes_in_creation_order_witness :
  keys (_node (G demo_generated))
  = ["BG_001"] ++
    numbers "PF_" 1 (List.length (PRODUCT_FAMILIES sample_config)) ++
    numbers "PO_" 1 (offerings_configured sample_config) ++
    numbers "S_" 1
      (planned (supplier_distribution (distribution demo_generated))) ++
    numbers "W_" 1
      (planned (warehouse_distribution (distribution demo_generated))) ++
    numbers "F_" 1
      (planned (facility_distribution (distribution demo_generated))) ++
    numbers "P_" 1
      (planned (parts_distribution (distribution demo_generated))) /\
  created_nodes (operations_log demo_generated)
  = keys (_node (G demo_generated)).
Proof.
  exact (nodes_in_creation_order sample_config demo_generated
           demo_generated_reachable).
Defined.

(* ----------------------------------------------------------------- *)
(** ** The distance pass *)

(** One iteration of the double loop assigns one distance, drawn from the
    range of the pair, and no other. *)
Lemma calculate_distance_spec (cfg : Config) (w : Warehouse)
  (s : SupplyChainGenerator) (r : RandomSource) (f : Facility)
  (s' : SupplyChainGenerator) (r' : RandomSource) :
  calculate_distance cfg w (s, r) f = Ok (s', r') ->
  tables s' = tables s /\
  exists z, distance_bound cfg w f z /\
    forall w0 f0,
      distance_of (G s') w0 f0
      = if String.eqb (w_id w) w0 && String.eqb (f_id f) f0 then Some z
        else distance_of (G s) w0 f0.
Proof.
  unfold calculate_distance. intros H.
  bind_inv H. destruct a as [z r1]. bind_inv H. bind_inv H. bind_inv H.
  apply Ok_inj in H. injection H as <- <-.
  split; [reflexivity |]. exists z. split.
  - unfold distance_bound.
    destruct (String.eqb (w_location w) (f_location f));
      [| unfold randint_range in E]; exact (randint_bounds _ _ _ _ _ E).
  - intros w0 f0. unfold distance_of. cbn [G with_G].
    rewrite (node_attr_setitem_node _ _ _ _ _ w0 "distances" E2).
    destruct (String.eqb_spec (w_id w) w0) as [<- | Hw]; cbn [andb];
      [| reflexivity].
    rewrite String.eqb_refl, dict_get_set, string_eqb_key.
    destruct (String.eqb_spec (f_id f) f0) as [_ | _]; [reflexivity |].
    unfold node_attrs, getitem in E0. unfold node_attr.
    destruct (dict_get (_node (G s)) (w_id w)) as [attrs0|];
      [| discriminate E0].
    apply Ok_inj in E0. subst a.
    destruct (dict_get attrs0 "distances") as [[]|];
      try discriminate E1; apply Ok_inj in E1; subst a0; reflexivity.
Qed.

(** A loop with an invariant [T] whose iteration of [x] establishes [P],
    which every iteration keeps. *)
Lemma foldM_visits {A B : Type} (f : B -> A -> result B) (T P : B -> Prop)
  (x : A) :
  forall l,
  In x l ->
  (forall b y b', In y l -> T b -> f b y = Ok b' -> T b') ->
  (forall b b', T b -> f b x = Ok b' -> P b') ->
  (forall b y b', In y l -> T b -> P b -> f b y = Ok b' -> P b') ->
  forall b b', T b -> foldM f l b = Ok b' -> P b'.
Proof.
  intros l Hin HT Hx Hkeep b b' Ht H.
  assert (Hboth : forall l0, incl l0 l -> forall b0 b1,
             T b0 /\ P b0 -> foldM f l0 b0 = Ok b1 -> T b1 /\ P b1).
  { intros l0 Hl0 b0 b1 Hb0 H0.
    refine (foldM_inv f (fun b => T b /\ P b) l0 _ b0 b1 Hb0 H0).
    intros b2 y b3 Hy (Ht2 & Hp2) Hf. split.
    - exact (HT b2 y b3 (Hl0 y Hy) Ht2 Hf).
    - exact (Hkeep b2 y b3 (Hl0 y Hy) Ht2 Hp2 Hf). }
  assert (Hgen : forall l0, incl l0 l -> In x l0 -> forall b0 b1,
             T b0 -> foldM f l0 b0 = Ok b1 -> P b1).
  { induction l0 as [|y r IH]; intros Hl0 Hx0 b0 b1 Ht0 H0; [destruct Hx0 |].
    cbn [foldM] in H0. bind_inv H0.
    assert (Hta : T a) by exact (HT b0 y a (Hl0 y (or_introl eq_refl)) Ht0 E).
    assert (Hr : incl r l) by (intros z Hz; apply Hl0; now right).
    destruct Hx0 as [-> | Hx0].
    - apply (Hboth r Hr a b1); [| exact H0].
      split; [exact Hta | exact (Hx b0 a Ht0 E)].
    - exact (IH Hr Hx0 a b1 Hta H0). }
  exact (Hgen l (incl_refl l) Hin b b' Ht H).
Qed.

(** The pass assigns every pair its distance, when no two warehouses and no
    two facilities share an identifier. *)
Lemma calculate_distances_known (cfg : Config) (s : SupplyChainGenerator)
  (rnd : RandomSource) (s' : SupplyChainGenerator) (rnd' : RandomSource) :
  NoDup (warehouse_ids s) -> NoDup (facility_ids s) ->
  _calculate_distances cfg s rnd = Ok (s', rnd') ->
  distances_known cfg s (G s').
Proof.
  intros Hwn Hfn H w f Hw Hf. unfold _calculate_distances in H.
  set (T := fun st : SupplyChainGenerator * RandomSource =>
              tables (fst st) = tables s).
  set (P := fun st : SupplyChainGenerator * RandomSource =>
              exists z, distance_of (G (fst st)) (w_id w) (f_id f) = Some z /\
                        distance_bound cfg w f z).
  assert (Hstep : forall w1 b f1 b',
             T b -> calculate_distance cfg w1 b f1 = Ok b' -> T b').
  { intros w1 [s1 r1] f1 [s2 r2] Ht Hc.
    apply calculate_distance_spec in Hc. destruct Hc as (Ht' & _).
    unfold T in *. cbn [fst] in *. congruence. }
  assert (Hkeep : forall w1 b f1 b',
             In w1 (all_values (warehouses s)) ->
             In f1 (all_values (facilities s)) ->
             P b -> calculate_distance cfg w1 b f1 = Ok b' -> P b').
  { intros w1 [s1 r1] f1 [s2 r2] Hw1 Hf1 (z & Hz & Hb) Hc.
    apply calculate_distance_spec in Hc.
    destruct Hc as (_ & z' & Hb' & Hd). unfold P. cbn [fst] in *.
    rewrite Hd.
    destruct (String.eqb_spec (w_id w1) (w_id w)) as [Ew | _]; cbn [andb];
      [| eauto].
    destruct (String.eqb_spec (f_id f1) (f_id f)) as [Ef | _]; [| eauto].
    apply (NoDup_map_eq w_id _ _ _ Hwn Hw1 Hw) in Ew.
    apply (NoDup_map_eq f_id _ _ _ Hfn Hf1 Hf) in Ef. subst w1 f1. eauto. }
  assert (Hfac : forall b, T b ->
             all_values (facilities (fst b)) = all_values (facilities s)).
  { intros b Ht. unfold T, tables in Ht. injection Ht as _ _ Hfa _.
    now rewrite Hfa. }
  assert (HT : forall b w1 b',
             T b -> calculate_distances_of cfg b w1 = Ok b' -> T b').
  { intros b w1 b' Ht Hc. unfold calculate_distances_of in Hc.
    refine (foldM_inv (calculate_distance cfg w1) T _ _ b b' Ht Hc).
    intros b0 f1 b1 _. apply Hstep. }
  refine (foldM_visits (calculate_distances_of cfg) T P w _ Hw _ _ _
            (s, rnd) (s', rnd') eq_refl H).
  - intros b w1 b' _. apply HT.
  - intros b b' Ht Hc. unfold calculate_distances_of in Hc.
    rewrite (Hfac b Ht) in Hc.
    refine (foldM_visits (calculate_distance cfg w) T P f _ Hf _ _ _
              b b' Ht Hc).
    + intros b0 f1 b1 _. apply Hstep.
    + intros [s1 r1] [s2 r2] _ Hc1. apply calculate_distance_spec in Hc1.
      destruct Hc1 as (_ & z & Hb & Hd). exists z. cbn [fst].
      rewrite Hd, !String.eqb_refl. now split.
    + intros b0 f1 b1 Hf1 _. now apply Hkeep.
  - intros b w1 b' Hw1 Ht Hp Hc. unfold calculate_distances_of in Hc.
    rewrite (Hfac b Ht) in Hc.
    assert (Hboth : T b' /\ P b'); [| exact (proj2 Hboth)].
    refine (foldM_inv (calculate_distance cfg w1) (fun st => T st /\ P st)
              _ _ b b' (conj Ht Hp) Hc).
    intros b0 f1 b1 Hf1 (Ht0 & Hp0) Hc0. split.
    + exact (Hstep w1 b0 f1 b1 Ht0 Hc0).
    + exact (Hkeep w1 b0 f1 b1 Hw1 Hf1 Hp0 Hc0).
Qed.

Lemma period_run_distances (cfg : Config) (self : SupplyChainGenerator)
  (t : nat) (g : DiGraph) (r : RandomSource) (g' : DiGraph)
  (r' : RandomSource) :
  period_run cfg self t (g, r) = Ok (g', r') ->
  forall w f, distance_of g' w f = distance_of g w f.
Proof.
  intros H w f. apply period_run_structure in H.
  destruct H as ((_ & _ & Hn & _) & _). unfold distance_of.
  rewrite (Hn w "distances"); [reflexivity |].
  unfold evolving_node_keys. cbn [In]. intuition discriminate.
Qed.

Lemma generate_temporal_data_distances (cfg : Config)
  (self : SupplyChainGenerator) (rnd : RandomSource)
  (self' : SupplyChainGenerator) (rnd' : RandomSource) :
  distances_known cfg self (G self) -> temporal_graphs self = [] ->
  generate_temporal_data cfg self rnd = Ok (self', rnd') ->
  distances_kept cfg self'.
Proof.
  intros Hk Htg H. apply generate_temporal_data_inv in H.
  destruct H as (recs & _ & _ & Hent & HG & _ & _ & H0 & Hin & Hout).
  destruct Hent as (_ & Hwa & Hfa & _). split.
  - unfold distances_known. rewrite Hwa, Hfa, HG. exact Hk.
  - intros t g Hg w f. rewrite HG.
    destruct (Nat.eq_dec t 0) as [-> | Hne].
    + rewrite H0 in Hg. now injection Hg as <-.
    + destruct (Nat.lt_ge_cases t (base_periods self)) as [Hlt | Hge].
      * destruct (Hin t ltac:(lia)) as (g0 & r & r' & Hg0 & Hrun).
        rewrite Hg0 in Hg. injection Hg as <-.
        exact (period_run_distances cfg _ _ _ _ _ _ Hrun w f).
      * rewrite (Hout t Hge Hne), Htg in Hg. discriminate Hg.
Qed.

Lemma reachable_distances (cfg : Config) (s : SupplyChainGenerator) :
  reachable cfg s -> distances_kept cfg s.
Proof.
  intros Hr. induction Hr.
  - destruct (generate_data_assembled cfg _ _ _ _ _ _ _ H H0)
      as (s7 & rnd7 & _ & _ & Htg & _ & _ & Hgen & s6 & rnd6 & A6 & Hd & _).
    eapply generate_temporal_data_distances; [| exact Htg | exact Hgen].
    destruct A6 as (_ & Hid & _).
    pose proof Hid as (_ & _ & _ & Hw & _ & _ & Hf).
    pose proof (calculate_distances_known cfg _ _ _ _
                  (numbered_NoDup _ _ Hw) (numbered_NoDup _ _ Hf) Hd) as Hk.
    apply calculate_distances_wired in Hd.
    destruct (wired_tables _ _ Hd) as (_ & Hwa & Hfa & _).
    unfold distances_known. rewrite Hwa, Hfa. exact Hk.
  - destruct IHHr as (Hk & Hsnap).
    apply simulate_next_period_inv in H.
    destruct H as (k & g_k & g' & d' & _ & _ & Hgk & Hrun & ->).
    split; [exact Hk |].
    intros t g Hg w f. cbn [temporal_graphs with_temporal G] in *.
    rewrite dict_get_set in Hg. destruct (key_eqb n t).
    + injection Hg as <-.
      rewrite (period_run_distances cfg _ _ _ _ _ _ Hrun w f).
      exact (Hsnap k g_k Hgk w f).
    + exact (Hsnap t g Hg w f).
  - destruct IHHr as (Hk & _). unfold regenerate_all_periods in H.
    eapply generate_temporal_data_distances; [| | exact H];
      [exact Hk | reflexivity].
Qed.

(** X15.  In every generator that [generate_data] makes from a new
    generator, and in every one reached from it by incremental extensions
    and full resets, the node of every warehouse holds, under [distances],
    a distance to every facility of the tables: a number from 10 to 50 if
    the two are at the same location, and one within [DISTANCE_RANGE]
    otherwise.  Every stored snapshot holds the same distances: neither
    evolution mode changes them. *)
Theorem every_warehouse_has_distances (cfg : Config)
  (s : SupplyChainGenerator) :
  reachable cfg s ->
  (forall w f,
     In w (all_values (warehouses s)) -> In f (all_values (facilities s)) ->
     exists z, distance_of (G s) (w_id w) (f_id f) = Some z /\
               distance_bound cfg w f z) /\
  (forall t g, dict_get (temporal_graphs s) t = Some g ->
     forall w f, distance_of g w f = distance_of (G s) w f).
Proof.
  intros Hr. apply reachable_distances in Hr. destruct Hr as (Hk & Hsnap).
  split; [| exact Hsnap]. intros w f Hw Hf. exact (Hk w f Hw Hf).
Qed.

Lemma every_warehouse_has_distances_witness :
  (forall w f,
     In w (all_values (warehouses demo_generated)) ->
     In f (all_values (facilities demo_generated)) ->
     exists z, distance_of (G demo_generated) (w_id w) (f_id f) = Some z /\
               distance_bound sample_config w f z) /\
  (forall t g, dict_get (temporal_graphs demo_generated) t = Some g ->
     forall w f, distance_of g w f = distance_of (G demo_generated) w f).
Proof.
  exact (every_warehouse_has_distances sample_config demo_generated
           demo_generated_reachable).
Defined.

(* ----------------------------------------------------------------- *)
(** ** The generated generators can be evolved *)

Lemma max_key_exists {V : Type} (d : list (nat * V)) (t : nat) (g : V) :
  dict_get d t = Some g ->
  exists k g', max_key d = Ok k /\ dict_get d k = Some g'.
Proof.
  intros Hg. destruct (max_key d) as [k|e] eqn:E.
  - exists k. apply max_key_In in E. destruct E as (Hin & _).
    destruct (dict_get d k) as [g'|] eqn:Ek; [now exists g' |].
    apply dict_get_None_keys in Ek. contradiction.
  - exfalso. unfold max_key in E. apply dict_get_In in Hg.
    apply (in_map fst) in Hg. unfold keys in E.
    destruct (map fst d); [destruct Hg | discriminate E].
Qed.

Lemma assembled_evolvable (cfg : Config) (s0 s : SupplyChainGenerator) :
  G s0 = empty_graph -> construction_frame s0 s -> assembled cfg 5 s ->
  (forall u v, In (u, v) (edges (G s)) -> edge_schema u v) /\
  evolvable s (G s).
Proof.
  intros H0 (_ & _ & _ & Hg & _) (Hacc & _ & _ & (Hbg & _) & _).
  rewrite H0 in Hg. destruct Hg as (_ & Hedges & Hev); [intros x [] |].
  split.
  - intros u v Hin. destruct (Hedges u v Hin) as [[] | H]. exact H.
  - split; [exact Hbg |]. split; [| apply Hev; intros u v []].
    intros t u Hu. apply (accounted_complete s Hacc).
    unfold node_ids. apply in_or_app. left. exact (node_update_ids s t u Hu).
Qed.

Lemma generate_temporal_data_evolving (cfg : Config)
  (self : SupplyChainGenerator) (rnd : RandomSource)
  (self' : SupplyChainGenerator) (rnd' : RandomSource) :
  (forall u v, In (u, v) (edges (G self)) -> edge_schema u v) ->
  evolvable self (G self) -> temporal_graphs self = [] ->
  generate_temporal_data cfg self rnd = Ok (self', rnd') ->
  evolving self'.
Proof.
  intros Hsch Hev Htg H. apply generate_temporal_data_inv in H.
  destruct H as (recs & _ & _ & Hent & HG & _ & _ & H0 & Hin & Hout).
  pose proof (evolvable_same_entities _ _ _ Hent Hev) as Hev'.
  split; [now rewrite HG |]. split; [now rewrite HG |]. split.
  - intros t g Hg. rewrite HG.
    destruct (Nat.eq_dec t 0) as [-> | Hne].
    + rewrite H0 in Hg. injection Hg as <-. now split.
    + destruct (Nat.lt_ge_cases t (base_periods self)) as [Hlt | Hge].
      * destruct (Hin t ltac:(lia)) as (g0 & r & r' & Hg0 & Hrun).
        rewrite Hg0 in Hg. injection Hg as <-.
        apply period_run_structure in Hrun.
        destruct Hrun as ((_ & He & _) & Hkeep).
        split; [exact He |].
        exact (evolvable_same_entities _ _ _ Hent (Hkeep Hev)).
      * rewrite (Hout t Hge Hne), Htg in Hg. discriminate Hg.
  - exact (max_key_exists _ 0%nat _ H0).
Qed.

Lemma reachable_evolving (cfg : Config) (s : SupplyChainGenerator) :
  reachable cfg s -> evolving s.
Proof.
  intros Hr. induction Hr.
  - destruct (generate_data_assembled cfg _ _ _ _ _ _ _ H H0)
      as (s7 & rnd7 & A7 & _ & Htg & _ & _ & Hgen & s6 & rnd6 & _ & _ & F07).
    assert (HG0 : G s0 = empty_graph).
    { unfold __init__ in H. bind_inv H. apply Ok_inj in H. now subst s0. }
    destruct (assembled_evolvable cfg s0 s7 HG0 F07 A7) as (Hsch & Hev).
    exact (generate_temporal_data_evolving cfg _ _ _ _ Hsch Hev Htg Hgen).
  - destruct IHHr as (Hsch & Hev & Hsnap & _).
    apply simulate_next_period_inv in H.
    destruct H as (k & g_k & g' & d' & _ & _ & Hgk & Hrun & ->).
    destruct (Hsnap k g_k Hgk) as (Hek & Hevk).
    apply period_run_structure in Hrun.
    destruct Hrun as ((_ & He & _) & Hkeep).
    split; [exact Hsch |]. split; [exact Hev |]. split.
    + intros t g Hg. cbn [temporal_graphs with_temporal G] in *.
      rewrite dict_get_set in Hg. destruct (key_eqb n t).
      * injection Hg as <-. split; [congruence | exact (Hkeep Hevk)].
      * exact (Hsnap t g Hg).
    + cbn [temporal_graphs with_temporal].
      apply (max_key_exists _ n g'). apply dict_get_set_eq.
  - destruct IHHr as (Hsch & Hev & _). unfold regenerate_all_periods in H.
    eapply generate_temporal_data_evolving; [| | | exact H];
      [exact Hsch | exact Hev | reflexivity].
Qed.

(** X16.  In every generator that [generate_data] makes from a new
    generator, and in every one reached from it by incremental extensions
    and full resets, every edge of the graph goes from a supplier to a
    warehouse, from a warehouse to a part, from a part to a facility, from
    a facility to a part or to a product offering, from a product offering
    to a warehouse, from the business group to a product family, or from a
    product family to a product offering, as the first two characters of
    the identifiers of its ends tell.  Every stored snapshot has the edges
    of the graph, in the same order. *)
Theorem edges_follow_the_schema (cfg : Config) (s : SupplyChainGenerator) :
  reachable cfg s ->
  (forall u v, In (u, v) (edges (G s)) ->
     In (table_code u, table_code v)
        [("S_", "W_"); ("W_", "P_"); ("P_", "F_"); ("F_", "P_");
         ("F_", "PO"); ("PO", "W_"); ("BG", "PF"); ("PF", "PO")]) /\
  (forall t g, dict_get (temporal_graphs s) t = Some g ->
     edges g = edges (G s)).
Proof.
  intros Hr. apply reachable_evolving in Hr.
  destruct Hr as (Hsch & _ & Hsnap & _). split.
  - intros u v Hin. exact (Hsch u v Hin).
  - intros t g Hg. exact (proj1 (Hsnap t g Hg)).
Qed.

Lemma edges_follow_the_schema_witness :
  (forall u v, In (u, v) (edges (G demo_generated)) ->
     In (table_code u, table_code v)
        [("S_", "W_"); ("W_", "P_"); ("P_", "F_"); ("F_", "P_");
         ("F_", "PO"); ("PO", "W_"); ("BG", "PF"); ("PF", "PO")]) /\
  (forall t g, dict_get (temporal_graphs demo_generated) t = Some g ->
     edges g = edges (G demo_generated)).
Proof.
  exact (edges_follow_the_schema sample_config demo_generated
           demo_generated_reachable).
Defined.



(* ----------------------------------------------------------------- *)
(** ** The kinds of the entities *)

Section Filing.
Context {A : Type}.
Variable kind_of : A -> string.
Variable tally : SupplyChainGenerator -> string -> list A.

Lemma filed_refl (s : SupplyChainGenerator) :
  filed kind_of tally (fun _ => 0%nat) s s.
Proof.
  intros k. exists []. rewrite app_nil_r.
  split; [reflexivity |]. split; [constructor | reflexivity].
Qed.

Lemma filed_trans (w1 w2 : string -> nat) (a b c : SupplyChainGenerator) :
  filed kind_of tally w1 a b -> filed kind_of tally w2 b c ->
  filed kind_of tally (fun k => (w1 k + w2 k)%nat) a c.
Proof.
  intros H1 H2 k. destruct (H1 k) as (r1 & E1 & F1 & L1).
  destruct (H2 k) as (r2 & E2 & F2 & L2). exists (r1 ++ r2).
  split; [rewrite E2, E1; symmetry; apply app_assoc |].
  split; [now apply Forall_app | rewrite length_app; lia].
Qed.

Lemma filed_ext (w w' : string -> nat) (s s' : SupplyChainGenerator) :
  (forall k, w k = w' k) -> filed kind_of tally w s s' ->
  filed kind_of tally w' s s'.
Proof.
  intros Hw H k. destruct (H k) as (r & E & F & L). exists r.
  rewrite <- Hw. now repeat split.
Qed.

Lemma foldM_filed {X : Type}
  (f : FactoryState -> X -> result FactoryState) (w : X -> string -> nat) :
  forall l,
  (forall st x st', In x l -> f st x = Ok st' ->
     filed kind_of tally (w x) (fst (fst st)) (fst (fst st'))) ->
  forall st st', foldM f l st = Ok st' ->
  filed kind_of tally (fun k => list_sum (map (fun x => w x k) l))
    (fst (fst st)) (fst (fst st')).
Proof.
  induction l as [|x r IH]; intros Hf st st' H.
  - apply Ok_inj in H. subst st'. apply filed_refl.
  - cbn [foldM] in H. bind_inv H.
    apply (filed_ext (fun k => (w x k + list_sum (map (fun y => w y k) r))%nat));
      [reflexivity |].
    eapply filed_trans.
    + apply (Hf st x a); [now left | exact E].
    + apply IH; [| exact H]. intros st0 y st0' Hy. apply Hf. now right.
Qed.

End Filing.

Lemma list_sum_const {X : Type} (l : list X) (n : nat) :
  list_sum (map (fun _ => n) l) = (List.length l * n)%nat.
Proof. induction l as [|x r IH]; [reflexivity |]. simpl. now rewrite IH. Qed.

(** The loop of one kind files as many entities as it has passes. *)
Lemma foldM_filed_kind {A : Type} (kind_of : A -> string)
  (tally : SupplyChainGenerator -> string -> list A)
  (f : FactoryState -> nat -> result FactoryState) (kind : string)
  (count : Z) (st st' : FactoryState) :
  (forall st0 x st0', f st0 x = Ok st0' ->
     filed kind_of tally
       (fun k => if String.eqb kind k then 1%nat else 0%nat)
       (fst (fst st0)) (fst (fst st0'))) ->
  foldM f (range count) st = Ok st' ->
  filed kind_of tally
    (fun k => if String.eqb kind k then Z.to_nat count else 0%nat)
    (fst (fst st)) (fst (fst st')).
Proof.
  intros Hf H.
  apply (foldM_filed kind_of tally f
           (fun _ k => if String.eqb kind k then 1%nat else 0%nat)) in H;
    [| intros st0 x st0' _; apply Hf].
  revert H. apply filed_ext. intros k.
  rewrite list_sum_const, length_range.
  destruct (String.eqb kind k); lia.
Qed.

(** [d[kind].append(x)] files [x] under [kind]. *)
Lemma append_to_filed {A : Type} (kind_of : A -> string)
  (table : SupplyChainGenerator -> dict (list A))
  (s s' : SupplyChainGenerator) (kind : string) (x : A) :
  append_to (table s) kind x = Ok (table s') -> kind_of x = kind ->
  filed kind_of (fun s0 k => get_default (table s0) k [])
    (fun k => if String.eqb kind k then 1%nat else 0%nat) s s'.
Proof.
  unfold append_to, getitem. intros H Hk. bind_inv H. apply Ok_inj in H.
  intros k. rewrite <- H. unfold get_default. rewrite dict_get_set.
  rewrite string_eqb_key.
  destruct (String.eqb_spec kind k) as [<- | Hne].
  - exists [x]. destruct (dict_get (table s) kind); [| discriminate E].
    apply Ok_inj in E. subst a.
    split; [reflexivity |]. split; [| reflexivity].
    constructor; [exact Hk | constructor].
  - exists []. rewrite app_nil_r.
    split; [reflexivity |]. split; [constructor | reflexivity].
Qed.

Lemma generate_parts_filed (cfg : Config)
  (self : SupplyChainGenerator) (rnd : RandomSource)
  (self' : SupplyChainGenerator) (rnd' : RandomSource) :
  _generate_parts cfg self rnd = Ok (self', rnd') ->
  filed p_type parts_of (planned_for (parts_distribution (distribution self)))
    self self'.
Proof.
  unfold _generate_parts. intros H.
  bind_inv H. destruct a as [[self1 rnd1] i1].
  apply Ok_inj in H. injection H as <- <-.
  apply (foldM_filed p_type parts_of (generate_parts_of cfg)
           (fun item k => if String.eqb (fst item) k
                          then Z.to_nat (snd item) else 0%nat)) in E;
    [exact E |].
  intros st [p_type' count] st' _ Hb. unfold generate_parts_of in Hb.
  cbn [fst snd].
  apply (foldM_filed_kind p_type parts_of (generate_part cfg p_type')
           p_type' count st st'); [| exact Hb].
  intros [[s r] i] x st0 Hs. unfold generate_part in Hs.
  bind_inv Hs. destruct a as [[valid_from valid_till] r1].
  bind_inv Hs. bind_inv Hs. destruct a0 as [subtype r2].
  destruct (uniform_range (COST_RANGE cfg) r2) as [cost r3].
  destruct (uniform_range (IMPORTANCE_FACTOR_RANGE cfg) r3) as [importance r4].
  bind_inv Hs. apply Ok_inj in Hs. subst st0. cbn [fst].
  match goal with
  | Ha : append_to _ _ _ = Ok _ |- _ =>
      eapply (append_to_filed p_type parts); [exact Ha | reflexivity]
  end.
Qed.

Lemma generate_facilities_filed (cfg : Config)
  (self : SupplyChainGenerator) (rnd : RandomSource)
  (self' : SupplyChainGenerator) (rnd' : RandomSource) :
  _generate_facilities cfg self rnd = Ok (self', rnd') ->
  filed f_type facilities_of
    (planned_for (facility_distribution (distribution self))) self self'.
Proof.
  unfold _generate_facilities. intros H.
  bind_inv H. destruct a as [[self1 rnd1] i1].
  apply Ok_inj in H. injection H as <- <-.
  apply (foldM_filed f_type facilities_of (generate_facilities_of cfg)
           (fun item k => if String.eqb (fst item) k
                          then Z.to_nat (snd item) else 0%nat)) in E;
    [exact E |].
  intros st [f_type' count] st' _ Hb. unfold generate_facilities_of in Hb.
  cbn [fst snd].
  apply (foldM_filed_kind f_type facilities_of (generate_facility cfg f_type')
           f_type' count st st'); [| exact Hb].
  intros [[s r] i] x st0 Hs. unfold generate_facility in Hs.
  bind_inv Hs. destruct a as [location r1].
  bind_inv Hs. destruct a as [max_capacity r2].
  destruct (uniform_range (COST_RANGE cfg) r2) as [operating_cost r3].
  bind_inv Hs. apply Ok_inj in Hs. subst st0. cbn [fst].
  match goal with
  | Ha : append_to _ _ _ = Ok _ |- _ =>
      eapply (append_to_filed f_type facilities); [exact Ha | reflexivity]
  end.
Qed.

Lemma generate_warehouses_filed (cfg : Config)
  (self : SupplyChainGenerator) (rnd : RandomSource)
  (self' : SupplyChainGenerator) (rnd' : RandomSource) :
  _generate_warehouses cfg self rnd = Ok (self', rnd') ->
  filed w_type warehouses_of
    (planned_for (warehouse_distribution (distribution self))) self self'.
Proof.
  unfold _generate_warehouses. intros H.
  bind_inv H. destruct a as [[self1 rnd1] i1].
  apply Ok_inj in H. injection H as <- <-.
  apply (foldM_filed w_type warehouses_of (generate_warehouses_of cfg)
           (fun item k => if String.eqb (fst item) k
                          then Z.to_nat (snd item) else 0%nat)) in E;
    [exact E |].
  intros st [w_type' count] st' _ Hb. unfold generate_warehouses_of in Hb.
  cbn [fst snd].
  apply (foldM_filed_kind w_type warehouses_of
           (generate_warehouse cfg w_type') w_type' count st st');
    [| exact Hb].
  intros [[s r] i] x st0 Hs. unfold generate_warehouse in Hs.
  bind_inv Hs. destruct a as [size_category r1].
  bind_inv Hs. bind_inv Hs. destruct a0 as [location r2].
  bind_inv Hs. destruct a0 as [max_capacity r3].
  bind_inv Hs. destruct a0 as [safety_stock r4].
  bind_inv Hs. bind_inv Hs. apply Ok_inj in Hs. subst st0. cbn [fst].
  match goal with
  | Ha : append_to _ _ _ = Ok _ |- _ =>
      eapply (append_to_filed w_type warehouses); [exact Ha | reflexivity]
  end.
Qed.

Lemma generate_suppliers_filed (cfg : Config)
  (self : SupplyChainGenerator) (rnd : RandomSource)
  (self' : SupplyChainGenerator) (rnd' : RandomSource) :
  _generate_suppliers cfg self rnd = Ok (self', rnd') ->
  filed s_size_category suppliers_of
    (planned_for (supplier_distribution (distribution self))) self self'.
Proof.
  unfold _generate_suppliers. intros H.
  bind_inv H. destruct a as [[self1 rnd1] i1].
  apply Ok_inj in H. injection H as <- <-.
  apply (foldM_filed s_size_category suppliers_of (generate_suppliers_of cfg)
           (fun item k => if String.eqb (fst item) k
                          then Z.to_nat (snd item) else 0%nat)) in E;
    [exact E |].
  intros st [size_category count] st' _ Hb.
  unfold generate_suppliers_of in Hb. bind_inv Hb. cbn [fst snd].
  apply (foldM_filed_kind s_size_category suppliers_of
           (generate_supplier cfg size_category (ss_range a))
           size_category count st st'); [| exact Hb].
  intros [[s r] i] x st0 Hs. unfold generate_supplier in Hs.
  bind_inv Hs. destruct a0 as [size_value r1].
  bind_inv Hs. destruct a0 as [types1 r2].
  bind_inv Hs. destruct a0 as [supplied_types r3].
  bind_inv Hs. destruct a0 as [location r4].
  destruct (uniform_range (RELIABILITY_RANGE cfg) r4) as [reliability r5].
  apply Ok_inj in Hs. subst st0. cbn [fst].
  intros k. unfold suppliers_of.
  cbn [suppliers with_G with_log _log_node_operation with_entities].
  rewrite filter_app. cbn [filter s_size_category].
  destruct (String.eqb_spec size_category k) as [<- | Hne].
  - eexists. split; [reflexivity |]. split; [| reflexivity].
    constructor; [reflexivity | constructor].
  - exists []. split; [reflexivity |]. split; [constructor | reflexivity].
Qed.

Lemma all_values_nil {A : Type} (d : dict (list A)) (k : string) :
  all_values d = [] -> get_default d k [] = [].
Proof.
  unfold all_values, values, get_default.
  induction d as [|[k0 l0] r IH]; cbn [map snd List.concat dict_get];
    [reflexivity |].
  intros H. apply app_eq_nil in H. destruct H as (-> & H).
  destruct (key_eqb k0 k); [reflexivity | exact (IH H)].
Qed.

Lemma filed_sorted {A : Type} (kind_of : A -> string)
  (tally : SupplyChainGenerator -> string -> list A) (d : dict Z)
  (s s' : SupplyChainGenerator) :
  filed kind_of tally (planned_for d) s s' -> (forall k, tally s k = []) ->
  sorted kind_of (tally s') d.
Proof.
  intros H Hnil k. destruct (H k) as (recs & E & F & L).
  rewrite E, Hnil. cbn [app]. now split.
Qed.

Lemma list_sum_cons (x : nat) (l : list nat) :
  list_sum (x :: l) = (x + list_sum l)%nat.
Proof. reflexivity. Qed.

Lemma planned_for_absent (d : dict Z) (kind : string) :
  ~ In kind (keys d) -> planned_for d kind = 0%nat.
Proof.
  unfold planned_for, keys.
  induction d as [|[k0 c0] r IH]; intros Hk; [reflexivity |].
  cbn [map fst snd] in *. rewrite list_sum_cons.
  destruct (String.eqb_spec k0 kind) as [-> | _];
    [exfalso; apply Hk; now left |].
  rewrite IH; [reflexivity |]. intros H. apply Hk. now right.
Qed.

Lemma planned_for_In (d : dict Z) (kind : string) (count : Z) :
  NoDup (keys d) -> In (kind, count) d -> planned_for d kind = Z.to_nat count.
Proof.
  induction d as [|[k0 c0] r IH]; intros Hnd Hin; [destruct Hin |].
  unfold keys in Hnd. cbn [map fst] in Hnd.
  inversion Hnd as [|? ? Hk Hr]; subst.
  unfold planned_for. cbn [map fst snd]. rewrite list_sum_cons.
  fold (planned_for r kind).
  destruct Hin as [Heq | Hin].
  - injection Heq as -> ->.
    rewrite String.eqb_refl, (planned_for_absent r kind Hk). lia.
  - destruct (String.eqb_spec k0 kind) as [-> | _].
    + exfalso. apply Hk. exact (in_map fst _ _ Hin).
    + rewrite (IH Hr Hin). lia.
Qed.

Lemma kinds_sorted_same (s s' : SupplyChainGenerator) :
  tables s' = tables s -> distribution s' = distribution s ->
  kinds_sorted s -> kinds_sorted s'.
Proof.
  unfold tables. intros Ht Hd H.
  injection Ht as Hsu Hwa Hfa Hpa _ _ _.
  unfold kinds_sorted, suppliers_of, warehouses_of, facilities_of, parts_of
    in *.
  now rewrite Hsu, Hwa, Hfa, Hpa, Hd.
Qed.

Lemma generate_data_sorted (cfg : Config) (total : Z) (periods : nat)
  (ver : string) (s0 : SupplyChainGenerator) (rnd : RandomSource)
  (s : SupplyChainGenerator) (rnd' : RandomSource) :
  __init__ total periods ver = Ok s0 ->
  generate_data cfg s0 rnd = Ok (s, rnd') ->
  kinds_sorted s.
Proof.
  intros Hinit H. pose proof (init_assembled cfg _ _ _ _ Hinit) as A0.
  unfold generate_data in H.
  bind_inv H. destruct a as [s1 r1]. bind_inv H. destruct a as [s2 r2].
  bind_inv H. destruct a as [s3 r3]. bind_inv H. destruct a as [s4 r4].
  bind_inv H. destruct a as [s5 r5]. bind_inv H. destruct a as [s6 r6].
  bind_inv H. destruct a as [s7 r7].
  pose proof (hierarchy_assembled cfg _ _ _ _ A0 E) as A1.
  pose proof (suppliers_assembled cfg _ _ _ _ A1 E0) as A2.
  pose proof (warehouses_assembled cfg _ _ _ _ A2 E1) as A3.
  pose proof (facilities_assembled cfg _ _ _ _ A3 E2) as A4.
  pose proof (parts_assembled cfg _ _ _ _ A4 E3) as A5.
  pose proof (generate_edges_wired cfg _ _ _ _ A5 E4) as W6.
  pose proof (calculate_distances_wired cfg _ _ _ _ E5) as W7.
  pose proof (wired_trans _ _ _ W6 W7) as W57.
  pose proof (generate_suppliers_filed cfg _ _ _ _ E0) as T2.
  pose proof (generate_warehouses_filed cfg _ _ _ _ E1) as T3.
  pose proof (generate_facilities_filed cfg _ _ _ _ E2) as T4.
  pose proof (generate_parts_filed cfg _ _ _ _ E3) as T5.
  apply generate_suppliers_made in E0. destruct E0 as (? & E0).
  destruct E0 as (_ & _ & _ & _ & _ & _ & _ & _ & F2).
  pose proof (frame_distribution _ _ F2) as D2.
  apply generate_warehouses_made in E1. destruct E1 as (? & E1).
  apply generate_facilities_made in E2. destruct E2 as (? & E2).
  apply generate_parts_made in E3. destruct E3 as (? & E3).
  destruct E1 as (_ & _ & _ & _ & _ & _ & _ & O3 & F3).
  destruct E2 as (_ & _ & _ & _ & _ & _ & _ & O4 & F4).
  destruct E3 as (_ & _ & _ & _ & _ & _ & _ & O5 & F5).
  pose proof (frame_distribution _ _ F3) as D3.
  pose proof (frame_distribution _ _ F4) as D4.
  pose proof (frame_distribution _ _ F5) as D5.
  unfold without_warehouses in O3. injection O3 as _ _ _ Hsu3 Hfa3 Hpa3.
  unfold without_facilities in O4. injection O4 as _ _ _ Hsu4 Hwa4 Hpa4.
  unfold without_parts in O5. injection O5 as _ _ _ Hsu5 Hwa5 Hfa5.
  destruct A1 as (_ & _ & _ & _ & B2 & _).
  destruct A2 as (_ & _ & _ & _ & _ & B3 & _).
  destruct A3 as (_ & _ & _ & _ & _ & _ & B4 & _).
  destruct A4 as (_ & _ & _ & _ & _ & _ & _ & B5).
  cbn [Nat.ltb Nat.leb] in B2, B3, B4, B5.
  apply filed_sorted in T2;
    [| intros k; unfold suppliers_of; now rewrite B2].
  apply filed_sorted in T3;
    [| intros k; unfold warehouses_of; now apply all_values_nil].
  apply filed_sorted in T4;
    [| intros k; unfold facilities_of; now apply all_values_nil].
  apply filed_sorted in T5;
    [| intros k; unfold parts_of; now apply all_values_nil].
  assert (K5 : kinds_sorted s5).
  { unfold kinds_sorted, suppliers_of, warehouses_of, facilities_of, parts_of
      in *.
    rewrite Hsu5, Hsu4, Hsu3, Hwa5, Hwa4, Hfa5, D5, D4, D3.
    rewrite D4, D3 in T5. rewrite D3 in T4. rewrite <- D2 in T2.
    split; [exact T2 | split; [exact T3 | split; [exact T4 | exact T5]]]. }
  apply generate_temporal_data_inv in H.
  destruct H as (recs & _ & _ & Hent & _).
  destruct (same_entities_tables _ _ Hent) as (Ht & Hd).
  apply (kinds_sorted_same s7 s Ht Hd).
  destruct W57 as ((Ht7 & F7) & _).
  exact (kinds_sorted_same s5 s7 Ht7 (frame_distribution _ _ F7) K5).
Qed.

Lemma init_distribution_keys (total : Z) (periods : nat) (ver : string)
  (s0 : SupplyChainGenerator) :
  __init__ total periods ver = Ok s0 ->
  keys (supplier_distribution (distribution s0)) = ["small"; "medium"; "large"] /\
  keys (warehouse_distribution (distribution s0))
  = ["supplier"; "subassembly"; "lam"] /\
  keys (facility_distribution (distribution s0)) = ["external"; "lam"] /\
  keys (parts_distribution (distribution s0)) = ["raw"; "subassembly"].
Proof.
  unfold __init__. intros H. bind_inv H. apply Ok_inj in H. subst s0.
  cbn [distribution]. unfold calculate_node_distribution in E.
  repeat bind_inv E. apply Ok_inj in E. subst a. repeat split.
Qed.

Lemma planned_for_get (d : dict Z) (kind : string) :
  NoDup (keys d) -> planned_for d kind = Z.to_nat (get_default d kind 0).
Proof.
  unfold get_default. intros Hnd.
  destruct (dict_get d kind) as [c|] eqn:E.
  - apply planned_for_In; [exact Hnd |].
    induction d as [|[k0 c0] r IH]; [discriminate E |].
    cbn [dict_get] in E.
    destruct (key_eqb_spec k0 kind) as [-> | _].
    + injection E as ->. now left.
    + right. apply IH; [| exact E].
      unfold keys in Hnd. cbn [map fst] in Hnd. now inversion Hnd.
  - apply planned_for_absent. intros Hin.
    apply dict_mem_In_keys in Hin. unfold dict_mem in Hin.
    rewrite E in Hin. discriminate Hin.
Qed.

(** The kinds of a distribution are the literal keys of
    [calculate_node_distribution], each one once. *)
Lemma reachable_distribution_keys (cfg : Config) (s : SupplyChainGenerator) :
  reachable cfg s ->
  NoDup (keys (supplier_distribution (distribution s))) /\
  NoDup (keys (warehouse_distribution (distribution s))) /\
  NoDup (keys (facility_distribution (distribution s))) /\
  NoDup (keys (parts_distribution (distribution s))).
Proof.
  intros Hr. induction Hr.
  - destruct (generate_data_assembled cfg _ _ _ _ _ _ _ H H0)
      as (s7 & rnd7 & _ & _ & _ & _ & _ & Hgen & _ & _ & _ & _ & F).
    apply generate_temporal_data_inv in Hgen.
    destruct Hgen as (recs & _ & _ & Hent & _).
    destruct (same_entities_tables _ _ Hent) as (_ & Hd).
    rewrite Hd, (frame_distribution _ _ F).
    destruct (init_distribution_keys _ _ _ _ H) as (-> & -> & -> & ->).
    repeat split; repeat constructor; cbn [In]; intuition discriminate.
  - apply simulate_next_period_inv in H.
    destruct H as (k & g_k & g' & d' & _ & _ & _ & _ & ->). exact IHHr.
  - unfold regenerate_all_periods in H.
    apply generate_temporal_data_inv in H.
    destruct H as (recs & _ & _ & Hent & _).
    destruct (same_entities_tables _ _ Hent) as (_ & Hd).
    rewrite Hd. exact IHHr.
Qed.

Lemma reachable_sorted (cfg : Config) (s : SupplyChainGenerator) :
  reachable cfg s -> kinds_sorted s.
Proof.
  intros Hr. induction Hr.
  - eapply generate_data_sorted; eassumption.
  - apply simulate_next_period_inv in H.
    destruct H as (k & g_k & g' & d' & _ & _ & _ & _ & ->).
    now apply kinds_sorted_same with (s := s).
  - unfold regenerate_all_periods in H.
    apply generate_temporal_data_inv in H.
    destruct H as (recs & _ & _ & Hent & _).
    destruct (same_entities_tables _ _ Hent) as (Ht & Hd).
    apply kinds_sorted_same with (s := with_temporal s [] [] 0%nat);
      [exact Ht | exact Hd |].
    now apply kinds_sorted_same with (s := s).
Qed.

(** X18.  In a generator obtained from [generate_data] and any number of
    later period simulations and regenerations, every table is sorted by
    kind: the suppliers of a size category, and the warehouses, facilities
    and parts filed under a type, are as many as the distribution of
    [calculate_node_distribution] plans for that kind (none for a kind it
    does not list), and every entity filed under a type carries that type
    in its own [type] field. *)
Theorem tables_sorted_by_kind (cfg : Config) (s : SupplyChainGenerator) :
  reachable cfg s ->
  forall kind : string,
    (List.length (suppliers_of s kind)
     = Z.to_nat (get_default (supplier_distribution (distribution s)) kind 0)
     /\ Forall (fun x => s_size_category x = kind) (suppliers_of s kind)) /\
    (List.length (warehouses_of s kind)
     = Z.to_nat (get_default (warehouse_distribution (distribution s)) kind 0)
     /\ Forall (fun x => w_type x = kind) (warehouses_of s kind)) /\
    (List.length (facilities_of s kind)
     = Z.to_nat (get_default (facility_distribution (distribution s)) kind 0)
     /\ Forall (fun x => f_type x = kind) (facilities_of s kind)) /\
    (List.length (parts_of s kind)
     = Z.to_nat (get_default (parts_distribution (distribution s)) kind 0)
     /\ Forall (fun x => p_type x = kind) (parts_of s kind)).
Proof.
  intros Hr kind.
  destruct (reachable_distribution_keys cfg s Hr) as (N1 & N2 & N3 & N4).
  destruct (reachable_sorted cfg s Hr) as (K1 & K2 & K3 & K4).
  rewrite <- (planned_for_get _ kind N1), <- (planned_for_get _ kind N2),
    <- (planned_for_get _ kind N3), <- (planned_for_get _ kind N4).
  split; [exact (K1 kind) |]. split; [exact (K2 kind) |].
  split; [exact (K3 kind) | exact (K4 kind)].
Qed.

Lemma tables_sorted_by_kind_witness :
  (List.length (suppliers_of demo_generated "raw")
   = Z.to_nat (get_default
                 (supplier_distribution (distribution demo_generated))
                 "raw" 0)
   /\ Forall (fun x => s_size_category x = "raw")
        (suppliers_of demo_generated "raw")) /\
  (List.length (warehouses_of demo_generated "raw")
   = Z.to_nat (get_default
                 (warehouse_distribution (distribution demo_generated))
                 "raw" 0)
   /\ Forall (fun x => w_type x = "raw")
        (warehouses_of demo_generated "raw")) /\
  (List.length (facilities_of demo_generated "raw")
   = Z.to_nat (get_default
                 (facility_distribution (distribution demo_generated))
                 "raw" 0)
   /\ Forall (fun x => f_type x = "raw")
        (facilities_of demo_generated "raw")) /\
  (List.length (parts_of demo_generated "raw")
   = Z.to_nat (get_default
                 (parts_distribution (distribution demo_generated))
                 "raw" 0)
   /\ Forall (fun x => p_type x = "raw") (parts_of demo_generated "raw")).
Proof.
  exact (tables_sorted_by_kind sample_config demo_generated
           demo_generated_reachable "raw").
Defined.

(* ----------------------------------------------------------------- *)
(** ** The log records the edges of the graph *)

(** The records of the evolution create no edge. *)
Lemma regeneration_records_create_no_edge (self : SupplyChainGenerator)
  (ts : nat) (recs : list operation) :
  Forall (regeneration_record self ts) recs -> created_edges recs = [].
Proof.
  induction 1 as [|op r (t & _ & Hu & _) _ IH]; [reflexivity |].
  unfold created_edges in *. cbn [flat_map]. rewrite IH, Hu.
  now destruct (op_payload op).
Qed.

Lemma generate_temporal_data_edges_logged (cfg : Config)
  (self : SupplyChainGenerator) (rnd : RandomSource)
  (self' : SupplyChainGenerator) (rnd' : RandomSource) :
  (forall u v, In (u, v) (edges (G self)) <->
               In (u, v) (created_edges (operations_log self))) ->
  generate_temporal_data cfg self rnd = Ok (self', rnd') ->
  edges_logged self'.
Proof.
  intros He H. apply generate_temporal_data_inv in H.
  destruct H as (recs & Hl & Hr & _ & HG & _).
  apply regeneration_records_create_no_edge in Hr.
  intros u v. now rewrite HG, Hl, created_edges_app, Hr, app_nil_r.
Qed.

(** X19.  In every generator that [generate_data] makes from a new
    generator, and in every one reached from it by incremental extensions
    and full resets, the operations log and the graph agree on the edges:
    there is an edge from [u] to [v] in the graph exactly when the log holds
    a record of an edge operation with the action create, the source [u]
    and the target [v].  No wiring step adds an edge without logging it,
    and the evolution logs no creation. *)
Theorem log_records_the_edges (cfg : Config) (s : SupplyChainGenerator) :
  reachable cfg s ->
  forall u v : string,
    In (u, v) (edges (G s)) <->
    In (u, v) (created_edges (operations_log s)).
Proof.
  intros Hr. change (edges_logged s). induction Hr.
  - destruct (generate_data_assembled cfg _ _ _ _ _ _ _ H H0)
      as (s7 & rnd7 & _ & _ & _ & _ & _ & Hgen & _ & _ & _ & _ & F07).
    assert (H00 : G s0 = empty_graph /\ operations_log s0 = []).
    { unfold __init__ in H. bind_inv H. apply Ok_inj in H. now subst s0. }
    destruct H00 as (HG0 & Hl0).
    destruct F07 as (_ & _ & _ & _ & L07).
    eapply generate_temporal_data_edges_logged; [| exact Hgen].
    apply L07.
    + rewrite HG0. intros x [].
    + intros u v. now rewrite HG0, Hl0.
  - apply simulate_next_period_inv in H.
    destruct H as (k & g_k & g' & d' & _ & _ & _ & _ & ->). exact IHHr.
  - unfold regenerate_all_periods in H.
    eapply generate_temporal_data_edges_logged; [| exact H]. exact IHHr.
Qed.

Lemma log_records_the_edges_witness :
  In ("BG_001", "PF_001") (edges (G demo_generated)) <->
  In ("BG_001", "PF_001") (created_edges (operations_log demo_generated)).
Proof.
  exact (log_records_the_edges sample_config demo_generated
           demo_generated_reachable "BG_001" "PF_001").
Defined.
